(** * SD card (SPI mode) protocol decoder

    A shallow embedding of [decoders/sdcard_spi/pd.py]: the [Decoder]
    object is a record, its methods are computations in a state and
    exception monad over that record, and the annotation sink the decoder
    writes to with [self.put] is the list [out_ann] of the record. *)

From Stdlib Require Import ZArith List String Ascii Bool Lia.
Import ListNotations.

Local Open Scope string_scope.
Local Open Scope Z_scope.

(** ** Python string formatting

    The decoder builds its annotation texts with the [%] operator.  Only
    the conversions the source uses are modelled: [%d] and [%s] of an
    integer, [%0Nx], and [%s] of a list of integers. *)

Definition digit_char (d : Z) : ascii :=
  match d with
  | 0 => "0" | 1 => "1" | 2 => "2" | 3 => "3" | 4 => "4" | 5 => "5"
  | 6 => "6" | 7 => "7" | 8 => "8" | 9 => "9" | 10 => "a" | 11 => "b"
  | 12 => "c" | 13 => "d" | 14 => "e" | _ => "f"
  end%char.

(** Digits of a non-negative number, most significant first. *)
Fixpoint digits_aux (fuel : nat) (base n : Z) (acc : string) : string :=
  match fuel with
  | O => acc
  | S fuel' =>
      let acc' := String (digit_char (n mod base)) acc in
      if n / base =? 0 then acc' else digits_aux fuel' base (n / base) acc'
  end.

Definition digits (base n : Z) : string :=
  digits_aux (S (Z.to_nat (Z.log2 n))) base n "".

Fixpoint zeros (n : nat) : string :=
  match n with
  | O => ""
  | S n' => String "0"%char (zeros n')
  end.

(** [zfill w s]: [s] padded on the left with zeros to [w] characters. *)
Definition zfill (w : nat) (s : string) : string :=
  zeros (w - String.length s) ++ s.

(** ['%d' % z], also ['%s' % z] and [repr(z)] for an integer. *)
Definition fmt_d (z : Z) : string :=
  if z <? 0 then "-" ++ digits 10 (- z) else digits 10 z.

(** ['%0wx' % z]: the sign counts towards the width. *)
Definition fmt_x (w : nat) (z : Z) : string :=
  if z <? 0 then "-" ++ zfill (w - 1) (digits 16 (- z))
  else zfill w (digits 16 z).

Fixpoint join (sep : string) (l : list string) : string :=
  match l with
  | [] => ""
  | [x] => x
  | x :: rest => x ++ sep ++ join sep rest
  end.

(** ['%s' % l] for a list of integers. *)
Definition fmt_list (l : list Z) : string :=
  "[" ++ join ", " (map fmt_d l) ++ "]".

(** ** Data *)

(** One entry of a 'BITS' packet: [[bit, ss, es]]. *)
Definition bit : Type := (Z * Z * Z)%type.

Definition b_val (b : bit) : Z := fst (fst b).
Definition b_ss (b : bit) : Z := snd (fst b).
Definition b_es (b : bit) : Z := snd b.

(** The annotation classes [Ann = SrdIntEnum.from_list('Ann', a)]: the
    members are numbered from 0 in the order of the list [a], that is
    CMD0..CMD63, ACMD0..ACMD63, R1, R1B, R2, R3, R7, BIT, BIT_WARNING. *)
Module Ann.
Definition CMD (i : Z) : Z := i.
Definition ACMD (i : Z) : Z := 64 + i.
Definition R1 : Z := 128.
Definition R1B : Z := 129.
Definition R2 : Z := 130.
Definition R3 : Z := 131.
Definition R7 : Z := 132.
Definition BIT : Z := 133.
Definition BIT_WARNING : Z := 134.
End Ann.

(** One call of [self.put(ss, es, self.out_ann, [cls, texts])]. *)
Record annotation : Type := mkAnn {
  a_ss : Z;
  a_es : Z;
  a_cls : Z;
  a_texts : list string
}.

(** The values of [self.state].  ['HANDLE CMD%d' % cmd] is [HANDLE_CMD cmd]
    (with 999 for the commands without a handler of their own), and
    ['GET RESPONSE R1'] and the like are [GET_RESPONSE_R1] and so on. *)
Inductive phase : Type :=
| IDLE
| GET_COMMAND_TOKEN
| HANDLE_CMD (cmd : Z)
| GET_RESPONSE_R1
| GET_RESPONSE_R2
| GET_RESPONSE_R3
| GET_RESPONSE_R7
| HANDLE_DATA_BLOCK_CMD17
| HANDLE_DATA_BLOCK_CMD24
| DATA_RESPONSE
| WAIT_WHILE_CARD_BUSY.

(** The attributes of a [Decoder] object.  Those up to [busy_first_byte]
    are assigned by [reset]; the others exist only once the code has
    assigned them, and reading one before that raises [AttributeError]:
    they are options, [None] for an attribute that is not there.
    [out_ann] is the annotation output registered by [start], as the list
    of what was put to it. *)
Record Decoder : Type := mkDecoder {
  state : phase;
  ss : Z;
  es : Z;
  ss_bit : Z;
  es_bit : Z;
  ss_cmd : Z;
  es_cmd : Z;
  ss_busy : Z;
  es_busy : Z;
  cmd_token : list Z;
  cmd_token_bits : list (list bit);
  is_acmd : bool;
  blocklen : Z;
  read_buf : list Z;
  read_bits : list (list bit);
  cmd_str : string;
  is_cmd24 : bool;
  cmd24_start_token_found : bool;
  is_cmd17 : bool;
  cmd17_start_token_found : bool;
  busy_first_byte : bool;
  mosi_bits : option (list bit);
  miso_bits : option (list bit);
  cmd_index : option Z;
  arg : option Z;
  miso : option Z;
  mosi : option Z;
  ss_data : option Z;
  es_data : option Z;
  ss_crc : option Z;
  es_crc : option Z;
  out_ann : list annotation
}.

(** Field updates: [set_f v d] is [d] after [self.f = v]. *)
Definition set_state (v : phase) (d : Decoder) : Decoder :=
  mkDecoder v (ss d) (es d) (ss_bit d) (es_bit d) (ss_cmd d) (es_cmd d)
    (ss_busy d) (es_busy d) (cmd_token d) (cmd_token_bits d) (is_acmd d)
    (blocklen d) (read_buf d) (read_bits d) (cmd_str d) (is_cmd24 d)
    (cmd24_start_token_found d) (is_cmd17 d) (cmd17_start_token_found d)
    (busy_first_byte d) (mosi_bits d) (miso_bits d) (cmd_index d) (arg d)
    (miso d) (mosi d) (ss_data d) (es_data d) (ss_crc d) (es_crc d) (out_ann
    d).
Definition set_ss (v : Z) (d : Decoder) : Decoder :=
  mkDecoder (state d) v (es d) (ss_bit d) (es_bit d) (ss_cmd d) (es_cmd d)
    (ss_busy d) (es_busy d) (cmd_token d) (cmd_token_bits d) (is_acmd d)
    (blocklen d) (read_buf d) (read_bits d) (cmd_str d) (is_cmd24 d)
    (cmd24_start_token_found d) (is_cmd17 d) (cmd17_start_token_found d)
    (busy_first_byte d) (mosi_bits d) (miso_bits d) (cmd_index d) (arg d)
    (miso d) (mosi d) (ss_data d) (es_data d) (ss_crc d) (es_crc d) (out_ann
    d).
Definition set_es (v : Z) (d : Decoder) : Decoder :=
  mkDecoder (state d) (ss d) v (ss_bit d) (es_bit d) (ss_cmd d) (es_cmd d)
    (ss_busy d) (es_busy d) (cmd_token d) (cmd_token_bits d) (is_acmd d)
    (blocklen d) (read_buf d) (read_bits d) (cmd_str d) (is_cmd24 d)
    (cmd24_start_token_found d) (is_cmd17 d) (cmd17_start_token_found d)
    (busy_first_byte d) (mosi_bits d) (miso_bits d) (cmd_index d) (arg d)
    (miso d) (mosi d) (ss_data d) (es_data d) (ss_crc d) (es_crc d) (out_ann
    d).
Definition set_ss_bit (v : Z) (d : Decoder) : Decoder :=
  mkDecoder (state d) (ss d) (es d) v (es_bit d) (ss_cmd d) (es_cmd d)
    (ss_busy d) (es_busy d) (cmd_token d) (cmd_token_bits d) (is_acmd d)
    (blocklen d) (read_buf d) (read_bits d) (cmd_str d) (is_cmd24 d)
    (cmd24_start_token_found d) (is_cmd17 d) (cmd17_start_token_found d)
    (busy_first_byte d) (mosi_bits d) (miso_bits d) (cmd_index d) (arg d)
    (miso d) (mosi d) (ss_data d) (es_data d) (ss_crc d) (es_crc d) (out_ann
    d).
Definition set_es_bit (v : Z) (d : Decoder) : Decoder :=
  mkDecoder (state d) (ss d) (es d) (ss_bit d) v (ss_cmd d) (es_cmd d)
    (ss_busy d) (es_busy d) (cmd_token d) (cmd_token_bits d) (is_acmd d)
    (blocklen d) (read_buf d) (read_bits d) (cmd_str d) (is_cmd24 d)
    (cmd24_start_token_found d) (is_cmd17 d) (cmd17_start_token_found d)
    (busy_first_byte d) (mosi_bits d) (miso_bits d) (cmd_index d) (arg d)
    (miso d) (mosi d) (ss_data d) (es_data d) (ss_crc d) (es_crc d) (out_ann
    d).
Definition set_ss_cmd (v : Z) (d : Decoder) : Decoder :=
  mkDecoder (state d) (ss d) (es d) (ss_bit d) (es_bit d) v (es_cmd d)
    (ss_busy d) (es_busy d) (cmd_token d) (cmd_token_bits d) (is_acmd d)
    (blocklen d) (read_buf d) (read_bits d) (cmd_str d) (is_cmd24 d)
    (cmd24_start_token_found d) (is_cmd17 d) (cmd17_start_token_found d)
    (busy_first_byte d) (mosi_bits d) (miso_bits d) (cmd_index d) (arg d)
    (miso d) (mosi d) (ss_data d) (es_data d) (ss_crc d) (es_crc d) (out_ann
    d).
Definition set_es_cmd (v : Z) (d : Decoder) : Decoder :=
  mkDecoder (state d) (ss d) (es d) (ss_bit d) (es_bit d) (ss_cmd d) v
    (ss_busy d) (es_busy d) (cmd_token d) (cmd_token_bits d) (is_acmd d)
    (blocklen d) (read_buf d) (read_bits d) (cmd_str d) (is_cmd24 d)
    (cmd24_start_token_found d) (is_cmd17 d) (cmd17_start_token_found d)
    (busy_first_byte d) (mosi_bits d) (miso_bits d) (cmd_index d) (arg d)
    (miso d) (mosi d) (ss_data d) (es_data d) (ss_crc d) (es_crc d) (out_ann
    d).
Definition set_ss_busy (v : Z) (d : Decoder) : Decoder :=
  mkDecoder (state d) (ss d) (es d) (ss_bit d) (es_bit d) (ss_cmd d) (es_cmd
    d) v (es_busy d) (cmd_token d) (cmd_token_bits d) (is_acmd d) (blocklen d)
    (read_buf d) (read_bits d) (cmd_str d) (is_cmd24 d)
    (cmd24_start_token_found d) (is_cmd17 d) (cmd17_start_token_found d)
    (busy_first_byte d) (mosi_bits d) (miso_bits d) (cmd_index d) (arg d)
    (miso d) (mosi d) (ss_data d) (es_data d) (ss_crc d) (es_crc d) (out_ann
    d).
Definition set_es_busy (v : Z) (d : Decoder) : Decoder :=
  mkDecoder (state d) (ss d) (es d) (ss_bit d) (es_bit d) (ss_cmd d) (es_cmd
    d) (ss_busy d) v (cmd_token d) (cmd_token_bits d) (is_acmd d) (blocklen d)
    (read_buf d) (read_bits d) (cmd_str d) (is_cmd24 d)
    (cmd24_start_token_found d) (is_cmd17 d) (cmd17_start_token_found d)
    (busy_first_byte d) (mosi_bits d) (miso_bits d) (cmd_index d) (arg d)
    (miso d) (mosi d) (ss_data d) (es_data d) (ss_crc d) (es_crc d) (out_ann
    d).
Definition set_cmd_token (v : list Z) (d : Decoder) : Decoder :=
  mkDecoder (state d) (ss d) (es d) (ss_bit d) (es_bit d) (ss_cmd d) (es_cmd
    d) (ss_busy d) (es_busy d) v (cmd_token_bits d) (is_acmd d) (blocklen d)
    (read_buf d) (read_bits d) (cmd_str d) (is_cmd24 d)
    (cmd24_start_token_found d) (is_cmd17 d) (cmd17_start_token_found d)
    (busy_first_byte d) (mosi_bits d) (miso_bits d) (cmd_index d) (arg d)
    (miso d) (mosi d) (ss_data d) (es_data d) (ss_crc d) (es_crc d) (out_ann
    d).
Definition set_cmd_token_bits (v : list (list bit)) (d : Decoder) : Decoder :=
  mkDecoder (state d) (ss d) (es d) (ss_bit d) (es_bit d) (ss_cmd d) (es_cmd
    d) (ss_busy d) (es_busy d) (cmd_token d) v (is_acmd d) (blocklen d)
    (read_buf d) (read_bits d) (cmd_str d) (is_cmd24 d)
    (cmd24_start_token_found d) (is_cmd17 d) (cmd17_start_token_found d)
    (busy_first_byte d) (mosi_bits d) (miso_bits d) (cmd_index d) (arg d)
    (miso d) (mosi d) (ss_data d) (es_data d) (ss_crc d) (es_crc d) (out_ann
    d).
Definition set_is_acmd (v : bool) (d : Decoder) : Decoder :=
  mkDecoder (state d) (ss d) (es d) (ss_bit d) (es_bit d) (ss_cmd d) (es_cmd
    d) (ss_busy d) (es_busy d) (cmd_token d) (cmd_token_bits d) v (blocklen d)
    (read_buf d) (read_bits d) (cmd_str d) (is_cmd24 d)
    (cmd24_start_token_found d) (is_cmd17 d) (cmd17_start_token_found d)
    (busy_first_byte d) (mosi_bits d) (miso_bits d) (cmd_index d) (arg d)
    (miso d) (mosi d) (ss_data d) (es_data d) (ss_crc d) (es_crc d) (out_ann
    d).
Definition set_blocklen (v : Z) (d : Decoder) : Decoder :=
  mkDecoder (state d) (ss d) (es d) (ss_bit d) (es_bit d) (ss_cmd d) (es_cmd
    d) (ss_busy d) (es_busy d) (cmd_token d) (cmd_token_bits d) (is_acmd d) v
    (read_buf d) (read_bits d) (cmd_str d) (is_cmd24 d)
    (cmd24_start_token_found d) (is_cmd17 d) (cmd17_start_token_found d)
    (busy_first_byte d) (mosi_bits d) (miso_bits d) (cmd_index d) (arg d)
    (miso d) (mosi d) (ss_data d) (es_data d) (ss_crc d) (es_crc d) (out_ann
    d).
Definition set_read_buf (v : list Z) (d : Decoder) : Decoder :=
  mkDecoder (state d) (ss d) (es d) (ss_bit d) (es_bit d) (ss_cmd d) (es_cmd
    d) (ss_busy d) (es_busy d) (cmd_token d) (cmd_token_bits d) (is_acmd d)
    (blocklen d) v (read_bits d) (cmd_str d) (is_cmd24 d)
    (cmd24_start_token_found d) (is_cmd17 d) (cmd17_start_token_found d)
    (busy_first_byte d) (mosi_bits d) (miso_bits d) (cmd_index d) (arg d)
    (miso d) (mosi d) (ss_data d) (es_data d) (ss_crc d) (es_crc d) (out_ann
    d).
Definition set_read_bits (v : list (list bit)) (d : Decoder) : Decoder :=
  mkDecoder (state d) (ss d) (es d) (ss_bit d) (es_bit d) (ss_cmd d) (es_cmd
    d) (ss_busy d) (es_busy d) (cmd_token d) (cmd_token_bits d) (is_acmd d)
    (blocklen d) (read_buf d) v (cmd_str d) (is_cmd24 d)
    (cmd24_start_token_found d) (is_cmd17 d) (cmd17_start_token_found d)
    (busy_first_byte d) (mosi_bits d) (miso_bits d) (cmd_index d) (arg d)
    (miso d) (mosi d) (ss_data d) (es_data d) (ss_crc d) (es_crc d) (out_ann
    d).
Definition set_cmd_str (v : string) (d : Decoder) : Decoder :=
  mkDecoder (state d) (ss d) (es d) (ss_bit d) (es_bit d) (ss_cmd d) (es_cmd
    d) (ss_busy d) (es_busy d) (cmd_token d) (cmd_token_bits d) (is_acmd d)
    (blocklen d) (read_buf d) (read_bits d) v (is_cmd24 d)
    (cmd24_start_token_found d) (is_cmd17 d) (cmd17_start_token_found d)
    (busy_first_byte d) (mosi_bits d) (miso_bits d) (cmd_index d) (arg d)
    (miso d) (mosi d) (ss_data d) (es_data d) (ss_crc d) (es_crc d) (out_ann
    d).
Definition set_is_cmd24 (v : bool) (d : Decoder) : Decoder :=
  mkDecoder (state d) (ss d) (es d) (ss_bit d) (es_bit d) (ss_cmd d) (es_cmd
    d) (ss_busy d) (es_busy d) (cmd_token d) (cmd_token_bits d) (is_acmd d)
    (blocklen d) (read_buf d) (read_bits d) (cmd_str d) v
    (cmd24_start_token_found d) (is_cmd17 d) (cmd17_start_token_found d)
    (busy_first_byte d) (mosi_bits d) (miso_bits d) (cmd_index d) (arg d)
    (miso d) (mosi d) (ss_data d) (es_data d) (ss_crc d) (es_crc d) (out_ann
    d).
Definition set_cmd24_start_token_found (v : bool) (d : Decoder) : Decoder :=
  mkDecoder (state d) (ss d) (es d) (ss_bit d) (es_bit d) (ss_cmd d) (es_cmd
    d) (ss_busy d) (es_busy d) (cmd_token d) (cmd_token_bits d) (is_acmd d)
    (blocklen d) (read_buf d) (read_bits d) (cmd_str d) (is_cmd24 d) v
    (is_cmd17 d) (cmd17_start_token_found d) (busy_first_byte d) (mosi_bits d)
    (miso_bits d) (cmd_index d) (arg d) (miso d) (mosi d) (ss_data d) (es_data
    d) (ss_crc d) (es_crc d) (out_ann d).
Definition set_is_cmd17 (v : bool) (d : Decoder) : Decoder :=
  mkDecoder (state d) (ss d) (es d) (ss_bit d) (es_bit d) (ss_cmd d) (es_cmd
    d) (ss_busy d) (es_busy d) (cmd_token d) (cmd_token_bits d) (is_acmd d)
    (blocklen d) (read_buf d) (read_bits d) (cmd_str d) (is_cmd24 d)
    (cmd24_start_token_found d) v (cmd17_start_token_found d) (busy_first_byte
    d) (mosi_bits d) (miso_bits d) (cmd_index d) (arg d) (miso d) (mosi d)
    (ss_data d) (es_data d) (ss_crc d) (es_crc d) (out_ann d).
Definition set_cmd17_start_token_found (v : bool) (d : Decoder) : Decoder :=
  mkDecoder (state d) (ss d) (es d) (ss_bit d) (es_bit d) (ss_cmd d) (es_cmd
    d) (ss_busy d) (es_busy d) (cmd_token d) (cmd_token_bits d) (is_acmd d)
    (blocklen d) (read_buf d) (read_bits d) (cmd_str d) (is_cmd24 d)
    (cmd24_start_token_found d) (is_cmd17 d) v (busy_first_byte d) (mosi_bits
    d) (miso_bits d) (cmd_index d) (arg d) (miso d) (mosi d) (ss_data d)
    (es_data d) (ss_crc d) (es_crc d) (out_ann d).
Definition set_busy_first_byte (v : bool) (d : Decoder) : Decoder :=
  mkDecoder (state d) (ss d) (es d) (ss_bit d) (es_bit d) (ss_cmd d) (es_cmd
    d) (ss_busy d) (es_busy d) (cmd_token d) (cmd_token_bits d) (is_acmd d)
    (blocklen d) (read_buf d) (read_bits d) (cmd_str d) (is_cmd24 d)
    (cmd24_start_token_found d) (is_cmd17 d) (cmd17_start_token_found d) v
    (mosi_bits d) (miso_bits d) (cmd_index d) (arg d) (miso d) (mosi d)
    (ss_data d) (es_data d) (ss_crc d) (es_crc d) (out_ann d).
Definition set_mosi_bits (v : option (list bit)) (d : Decoder) : Decoder :=
  mkDecoder (state d) (ss d) (es d) (ss_bit d) (es_bit d) (ss_cmd d) (es_cmd
    d) (ss_busy d) (es_busy d) (cmd_token d) (cmd_token_bits d) (is_acmd d)
    (blocklen d) (read_buf d) (read_bits d) (cmd_str d) (is_cmd24 d)
    (cmd24_start_token_found d) (is_cmd17 d) (cmd17_start_token_found d)
    (busy_first_byte d) v (miso_bits d) (cmd_index d) (arg d) (miso d) (mosi
    d) (ss_data d) (es_data d) (ss_crc d) (es_crc d) (out_ann d).
Definition set_miso_bits (v : option (list bit)) (d : Decoder) : Decoder :=
  mkDecoder (state d) (ss d) (es d) (ss_bit d) (es_bit d) (ss_cmd d) (es_cmd
    d) (ss_busy d) (es_busy d) (cmd_token d) (cmd_token_bits d) (is_acmd d)
    (blocklen d) (read_buf d) (read_bits d) (cmd_str d) (is_cmd24 d)
    (cmd24_start_token_found d) (is_cmd17 d) (cmd17_start_token_found d)
    (busy_first_byte d) (mosi_bits d) v (cmd_index d) (arg d) (miso d) (mosi
    d) (ss_data d) (es_data d) (ss_crc d) (es_crc d) (out_ann d).
Definition set_cmd_index (v : option Z) (d : Decoder) : Decoder :=
  mkDecoder (state d) (ss d) (es d) (ss_bit d) (es_bit d) (ss_cmd d) (es_cmd
    d) (ss_busy d) (es_busy d) (cmd_token d) (cmd_token_bits d) (is_acmd d)
    (blocklen d) (read_buf d) (read_bits d) (cmd_str d) (is_cmd24 d)
    (cmd24_start_token_found d) (is_cmd17 d) (cmd17_start_token_found d)
    (busy_first_byte d) (mosi_bits d) (miso_bits d) v (arg d) (miso d) (mosi
    d) (ss_data d) (es_data d) (ss_crc d) (es_crc d) (out_ann d).
Definition set_arg (v : option Z) (d : Decoder) : Decoder :=
  mkDecoder (state d) (ss d) (es d) (ss_bit d) (es_bit d) (ss_cmd d) (es_cmd
    d) (ss_busy d) (es_busy d) (cmd_token d) (cmd_token_bits d) (is_acmd d)
    (blocklen d) (read_buf d) (read_bits d) (cmd_str d) (is_cmd24 d)
    (cmd24_start_token_found d) (is_cmd17 d) (cmd17_start_token_found d)
    (busy_first_byte d) (mosi_bits d) (miso_bits d) (cmd_index d) v (miso d)
    (mosi d) (ss_data d) (es_data d) (ss_crc d) (es_crc d) (out_ann d).
Definition set_miso (v : option Z) (d : Decoder) : Decoder :=
  mkDecoder (state d) (ss d) (es d) (ss_bit d) (es_bit d) (ss_cmd d) (es_cmd
    d) (ss_busy d) (es_busy d) (cmd_token d) (cmd_token_bits d) (is_acmd d)
    (blocklen d) (read_buf d) (read_bits d) (cmd_str d) (is_cmd24 d)
    (cmd24_start_token_found d) (is_cmd17 d) (cmd17_start_token_found d)
    (busy_first_byte d) (mosi_bits d) (miso_bits d) (cmd_index d) (arg d) v
    (mosi d) (ss_data d) (es_data d) (ss_crc d) (es_crc d) (out_ann d).
Definition set_mosi (v : option Z) (d : Decoder) : Decoder :=
  mkDecoder (state d) (ss d) (es d) (ss_bit d) (es_bit d) (ss_cmd d) (es_cmd
    d) (ss_busy d) (es_busy d) (cmd_token d) (cmd_token_bits d) (is_acmd d)
    (blocklen d) (read_buf d) (read_bits d) (cmd_str d) (is_cmd24 d)
    (cmd24_start_token_found d) (is_cmd17 d) (cmd17_start_token_found d)
    (busy_first_byte d) (mosi_bits d) (miso_bits d) (cmd_index d) (arg d)
    (miso d) v (ss_data d) (es_data d) (ss_crc d) (es_crc d) (out_ann d).
Definition set_ss_data (v : option Z) (d : Decoder) : Decoder :=
  mkDecoder (state d) (ss d) (es d) (ss_bit d) (es_bit d) (ss_cmd d) (es_cmd
    d) (ss_busy d) (es_busy d) (cmd_token d) (cmd_token_bits d) (is_acmd d)
    (blocklen d) (read_buf d) (read_bits d) (cmd_str d) (is_cmd24 d)
    (cmd24_start_token_found d) (is_cmd17 d) (cmd17_start_token_found d)
    (busy_first_byte d) (mosi_bits d) (miso_bits d) (cmd_index d) (arg d)
    (miso d) (mosi d) v (es_data d) (ss_crc d) (es_crc d) (out_ann d).
Definition set_es_data (v : option Z) (d : Decoder) : Decoder :=
  mkDecoder (state d) (ss d) (es d) (ss_bit d) (es_bit d) (ss_cmd d) (es_cmd
    d) (ss_busy d) (es_busy d) (cmd_token d) (cmd_token_bits d) (is_acmd d)
    (blocklen d) (read_buf d) (read_bits d) (cmd_str d) (is_cmd24 d)
    (cmd24_start_token_found d) (is_cmd17 d) (cmd17_start_token_found d)
    (busy_first_byte d) (mosi_bits d) (miso_bits d) (cmd_index d) (arg d)
    (miso d) (mosi d) (ss_data d) v (ss_crc d) (es_crc d) (out_ann d).
Definition set_ss_crc (v : option Z) (d : Decoder) : Decoder :=
  mkDecoder (state d) (ss d) (es d) (ss_bit d) (es_bit d) (ss_cmd d) (es_cmd
    d) (ss_busy d) (es_busy d) (cmd_token d) (cmd_token_bits d) (is_acmd d)
    (blocklen d) (read_buf d) (read_bits d) (cmd_str d) (is_cmd24 d)
    (cmd24_start_token_found d) (is_cmd17 d) (cmd17_start_token_found d)
    (busy_first_byte d) (mosi_bits d) (miso_bits d) (cmd_index d) (arg d)
    (miso d) (mosi d) (ss_data d) (es_data d) v (es_crc d) (out_ann d).
Definition set_es_crc (v : option Z) (d : Decoder) : Decoder :=
  mkDecoder (state d) (ss d) (es d) (ss_bit d) (es_bit d) (ss_cmd d) (es_cmd
    d) (ss_busy d) (es_busy d) (cmd_token d) (cmd_token_bits d) (is_acmd d)
    (blocklen d) (read_buf d) (read_bits d) (cmd_str d) (is_cmd24 d)
    (cmd24_start_token_found d) (is_cmd17 d) (cmd17_start_token_found d)
    (busy_first_byte d) (mosi_bits d) (miso_bits d) (cmd_index d) (arg d)
    (miso d) (mosi d) (ss_data d) (es_data d) (ss_crc d) v (out_ann d).
Definition set_out_ann (v : list annotation) (d : Decoder) : Decoder :=
  mkDecoder (state d) (ss d) (es d) (ss_bit d) (es_bit d) (ss_cmd d) (es_cmd
    d) (ss_busy d) (es_busy d) (cmd_token d) (cmd_token_bits d) (is_acmd d)
    (blocklen d) (read_buf d) (read_bits d) (cmd_str d) (is_cmd24 d)
    (cmd24_start_token_found d) (is_cmd17 d) (cmd17_start_token_found d)
    (busy_first_byte d) (mosi_bits d) (miso_bits d) (cmd_index d) (arg d)
    (miso d) (mosi d) (ss_data d) (es_data d) (ss_crc d) (es_crc d) v.

(** ** The monad of the methods

    A method takes the object and either returns normally with a value
    and the object as it left it, or raises with the object as it was
    when the exception left the method. *)

Inductive exn : Type := AttributeError | IndexError | TypeError.

Inductive result (A : Type) : Type :=
| Ok (a : A) (d : Decoder)
| Raise (e : exn) (d : Decoder).
Arguments Ok {A} a d.
Arguments Raise {A} e d.

Definition M (A : Type) : Type := Decoder -> result A.

Definition ret {A} (a : A) : M A := fun d => Ok a d.

Definition bind {A B} (m : M A) (k : A -> M B) : M B :=
  fun d => match m d with
           | Ok a d' => k a d'
           | Raise e d' => Raise e d'
           end.

Definition raise {A} (e : exn) : M A := fun d => Raise e d.

Declare Scope py_scope.
Delimit Scope py_scope with py.
Notation "x <- m ;; k" := (bind m (fun x => k))
  (at level 61, m at next level, right associativity) : py_scope.
Notation "m ;; k" := (bind m (fun _ => k))
  (at level 61, right associativity) : py_scope.
Local Open Scope py_scope.

(** Read an attribute that [reset] assigns. *)
Definition get {A} (f : Decoder -> A) : M A := fun d => Ok (f d) d.

(** Read an attribute that may not exist yet. *)
Definition getattr {A} (f : Decoder -> option A) : M A :=
  fun d => match f d with
           | Some a => Ok a d
           | None => Raise AttributeError d
           end.

Definition modify (f : Decoder -> Decoder) : M unit := fun d => Ok tt (f d).

(** [l[i]] for a non-negative constant [i]. *)
Definition index {A} (l : list A) (i : nat) : M A :=
  match nth_error l i with
  | Some a => ret a
  | None => raise IndexError
  end.

Definition when (b : bool) (m : M unit) : M unit := if b then m else ret tt.

(** [self.put(ss, es, self.out_ann, [cls, texts])]. *)
Definition put (ss0 es0 cls : Z) (texts : list string) : M unit :=
  modify (fun d => set_out_ann (out_ann d ++ [mkAnn ss0 es0 cls texts]) d).

Definition putx (cls : Z) (texts : list string) : M unit :=
  s <- get ss_cmd ;; e <- get es_cmd ;; put s e cls texts.

Definition putc (cmd : Z) (desc : string) : M unit :=
  c <- get cmd_str ;; putx cmd [c ++ ": " ++ desc].

Definition putb (cls : Z) (texts : list string) : M unit :=
  s <- get ss_bit ;; e <- get es_bit ;; put s e cls texts.

(** Truth value of an integer. *)
Definition truthy (z : Z) : bool := negb (z =? 0).

(** [res & (1 << k)] as a condition. *)
Definition bit_set (res : Z) (k : Z) : bool :=
  truthy (Z.land res (Z.shiftl 1 k)).

(** [x in (a, b, ...)] for integers. *)
Definition in_tuple (x : Z) (l : list Z) : bool := existsb (Z.eqb x) l.

(** A name table of [common.sdcard] as [dict.get] sees it.  The module is
    not part of the decoder; the decoder is modelled for any two tables.
    [sample_cmd_names] and [sample_acmd_names] are excerpts used where a
    concrete table is needed to run the decoder. *)
Definition name_table : Type := Z -> option string.

Definition sample_cmd_names : name_table := fun cmd =>
  match cmd with
  | 0 => Some "GO_IDLE_STATE"
  | 16 => Some "SET_BLOCKLEN"
  | 17 => Some "READ_SINGLE_BLOCK"
  | 24 => Some "WRITE_BLOCK"
  | 55 => Some "APP_CMD"
  | 58 => Some "READ_OCR"
  | _ => None
  end.

Definition sample_acmd_names : name_table := fun cmd =>
  match cmd with
  | 41 => Some "SD_SEND_OP_COND"
  | _ => None
  end.

(** ** The decoder *)

Section Decoder.

Variables cmd_names acmd_names : name_table.

Definition cmd_name (cmd : Z) : M string :=
  a <- get is_acmd ;;
  let c := if a then acmd_names else cmd_names in
  let s := match c cmd with Some n => n | None => "Unknown" end in
  ret (if in_tuple cmd [32; 33] then s ++ "_ADDR" else s).

(** The local function [tb] of [handle_command_token]. *)
Definition tb (byte bit_ : nat) : M bit :=
  bits <- get cmd_token_bits ;;
  row <- index bits (5 - byte) ;;
  index row bit_.

Definition handle_command_token (mosi0 miso0 : Z) : M unit :=
  n <- get (fun d => List.length (cmd_token d)) ;;
  when (n =? 0)%nat (s <- get ss ;; modify (set_ss_cmd s)) ;;
  modify (fun d => set_cmd_token (cmd_token d ++ [mosi0]) d) ;;
  mb <- getattr mosi_bits ;;
  modify (fun d => set_cmd_token_bits (cmd_token_bits d ++ [mb]) d) ;;
  t <- get cmd_token ;;
  (* All command tokens are 6 bytes long. *)
  if (List.length t <? 6)%nat then ret tt else
  e <- get es ;; modify (set_es_cmd e) ;;
  (* Bits[47:47]: Start bit (always 0) *)
  b <- tb 5 7 ;;
  modify (set_ss_bit (b_ss b)) ;; modify (set_es_bit (b_es b)) ;;
  (if b_val b =? 0
   then putb Ann.BIT ["Start bit: " ++ fmt_d (b_val b)]
   else putb Ann.BIT_WARNING
          ["Start bit: " ++ fmt_d (b_val b) ++ " (Warning: Must be 0!)"]) ;;
  (* Bits[46:46]: Transmitter bit (1 == host) *)
  b <- tb 5 6 ;;
  modify (set_ss_bit (b_ss b)) ;; modify (set_es_bit (b_es b)) ;;
  (if b_val b =? 1
   then putb Ann.BIT ["Transmitter bit: " ++ fmt_d (b_val b)]
   else putb Ann.BIT_WARNING
          ["Transmitter bit: " ++ fmt_d (b_val b)
           ++ " (Warning: Must be 1!)"]) ;;
  (* Bits[45:40]: Command index (BCD; valid: 0-63) *)
  t0 <- index t 0 ;;
  let cmd := Z.land t0 63 in
  modify (set_cmd_index (Some cmd)) ;;
  b5 <- tb 5 5 ;; b0 <- tb 5 0 ;;
  modify (set_ss_bit (b_ss b5)) ;; modify (set_es_bit (b_es b0)) ;;
  (* Leave ACMD mode if no intervening ACMD since previous CMD55. *)
  (if cmd =? 55 then modify (set_is_acmd false)
   else if negb (in_tuple cmd [13; 18; 22; 23; 25; 26; 38; 41; 42; 43; 44;
                              45; 46; 47; 48; 49; 51])
        then modify (set_is_acmd false)
        else ret tt) ;;
  (* CMD or ACMD? *)
  a <- get is_acmd ;;
  let s := if a then "ACMD" else "CMD" in
  nm <- cmd_name cmd ;;
  putb Ann.BIT ["Command: " ++ s ++ fmt_d cmd ++ " (" ++ nm ++ ")"] ;;
  (* Bits[39:8]: Argument *)
  t1 <- index t 1 ;; t2 <- index t 2 ;; t3 <- index t 3 ;; t4 <- index t 4 ;;
  let arg0 := Z.lor (Z.lor (Z.lor (Z.shiftl t1 24) (Z.shiftl t2 16))
                           (Z.shiftl t3 8)) t4 in
  modify (set_arg (Some arg0)) ;;
  b47 <- tb 4 7 ;; b10 <- tb 1 0 ;;
  modify (set_ss_bit (b_ss b47)) ;; modify (set_es_bit (b_es b10)) ;;
  putb Ann.BIT ["Argument: 0x" ++ fmt_x 4 arg0] ;;
  (* Bits[7:1]: CRC7 *)
  t5 <- index t 5 ;;
  let crc := Z.shiftr t5 1 in
  b07 <- tb 0 7 ;; b01 <- tb 0 1 ;;
  modify (set_ss_bit (b_ss b07)) ;; modify (set_es_bit (b_es b01)) ;;
  putb Ann.BIT ["CRC7: 0x" ++ fmt_x 1 crc] ;;
  (* Bits[0:0]: End bit (always 1) *)
  b <- tb 0 0 ;;
  modify (set_ss_bit (b_ss b)) ;; modify (set_es_bit (b_es b)) ;;
  (if b_val b =? 1
   then putb Ann.BIT ["End bit: " ++ fmt_d (b_val b)]
   else putb Ann.BIT_WARNING
          ["End bit: " ++ fmt_d (b_val b) ++ " (Warning: Must be 1!)"]) ;;
  (* Handle command. *)
  if in_tuple cmd [0; 1; 8; 9; 13; 16; 17; 24; 41; 49; 55; 58; 59]
  then
    modify (set_state (HANDLE_CMD cmd)) ;;
    nm <- cmd_name cmd ;;
    modify (set_cmd_str (s ++ fmt_d cmd ++ " (" ++ nm ++ ")"))
  else
    modify (set_state (HANDLE_CMD 999)) ;;
    (* the format has eight conversions: (s, cmd) and the bytes of t *)
    match t with
    | [x0; x1; x2; x3; x4; x5] =>
        putx cmd [s ++ fmt_d cmd ++ ": " ++ fmt_x 2 x0 ++ " " ++ fmt_x 2 x1
                  ++ " " ++ fmt_x 2 x2 ++ " " ++ fmt_x 2 x3 ++ " "
                  ++ fmt_x 2 x4 ++ " " ++ fmt_x 2 x5]
    | _ => raise TypeError
    end.

Definition handle_cmd0 : M unit :=
  putc (Ann.CMD 0) "Reset the SD card" ;;
  modify (set_state GET_RESPONSE_R1).

Definition handle_cmd1 : M unit :=
  putc (Ann.CMD 1) "Send HCS info and activate the card init process" ;;
  a <- getattr arg ;;
  let hcs := Z.shiftr (Z.land a (Z.shiftl 1 30)) 30 in
  bits <- get cmd_token_bits ;;
  row <- index bits (5 - 4) ;; b <- index row 6 ;;
  modify (set_ss_bit (b_ss b)) ;;
  modify (set_es_bit (b_es b)) ;;
  putb Ann.BIT ["HCS: " ++ fmt_d hcs] ;;
  modify (set_state GET_RESPONSE_R1).

Definition handle_cmd8 : M unit :=
  putc (Ann.CMD 8) "Send interface condition" ;;
  modify (set_read_buf []) ;;
  modify (set_read_bits []) ;;
  modify (set_state GET_RESPONSE_R7).

Definition handle_cmd9 : M unit :=
  putc (Ann.CMD 9) "Ask card to send its card specific data (CSD)" ;;
  rb <- get read_buf ;;
  when (List.length rb =? 0)%nat (s <- get ss ;; modify (set_ss_cmd s)) ;;
  m <- getattr miso ;;
  modify (fun d => set_read_buf (read_buf d ++ [m]) d) ;;
  rb <- get read_buf ;;
  if (List.length rb <? 16 + 4)%nat then ret tt else
  e <- get es ;; modify (set_es_cmd e) ;;
  modify (fun d => set_read_buf (skipn 4 (read_buf d)) d) ;;
  rb <- get read_buf ;;
  putx (Ann.CMD 9) ["CSD: " ++ fmt_list rb] ;;
  modify (set_read_buf []) ;;
  modify (set_state IDLE).

Definition handle_cmd10 : M unit :=
  putc (Ann.CMD 10) "Ask card to send its card identification (CID)" ;;
  m <- getattr miso ;;
  modify (fun d => set_read_buf (read_buf d ++ [m]) d) ;;
  rb <- get read_buf ;;
  if (List.length rb <? 16)%nat then ret tt else
  putx (Ann.CMD 10) ["CID: " ++ fmt_list rb] ;;
  modify (set_read_buf []) ;;
  modify (set_state GET_RESPONSE_R1).

Definition handle_cmd13 : M unit :=
  putc (Ann.CMD 13) "Ask card to send its status register" ;;
  modify (set_read_buf []) ;;
  modify (set_state GET_RESPONSE_R2).

Definition handle_cmd16 : M unit :=
  a <- getattr arg ;;
  modify (set_blocklen a) ;;
  bl <- get blocklen ;;
  putc (Ann.CMD 16) ("Set the block length to " ++ fmt_d bl ++ " bytes") ;;
  modify (set_state GET_RESPONSE_R1).

Definition handle_cmd17 : M unit :=
  a <- getattr arg ;;
  putc (Ann.CMD 17) ("Read a block from address 0x" ++ fmt_x 4 a) ;;
  modify (set_is_cmd17 true) ;;
  modify (set_state GET_RESPONSE_R1).

Definition handle_cmd24 : M unit :=
  a <- getattr arg ;;
  putc (Ann.CMD 24) ("Write a block to address 0x" ++ fmt_x 4 a) ;;
  modify (set_is_cmd24 true) ;;
  modify (set_state GET_RESPONSE_R1).

Definition handle_cmd49 : M unit :=
  modify (set_state GET_RESPONSE_R1).

Definition handle_cmd55 : M unit :=
  putc (Ann.CMD 55) "Next command is an application-specific command" ;;
  modify (set_is_acmd true) ;;
  modify (set_state GET_RESPONSE_R1).

Definition handle_cmd58 : M unit :=
  putc (Ann.CMD 58) "Read the OCR register" ;;
  modify (set_read_buf []) ;;
  modify (set_read_bits []) ;;
  modify (set_state GET_RESPONSE_R3).

Definition handle_cmd59 : M unit :=
  a <- getattr arg ;;
  let crc_on_off := Z.land a (Z.shiftl 1 0) in
  let s := if crc_on_off =? 1 then "on" else "off" in
  putc (Ann.CMD 59) ("Turn the SD card CRC option " ++ s) ;;
  modify (set_state GET_RESPONSE_R1).

Definition handle_acmd41 : M unit :=
  putc (Ann.ACMD 41) "Send HCS info and activate the card init process" ;;
  modify (set_state GET_RESPONSE_R1).

Definition handle_cmd999 : M unit :=
  modify (set_state GET_RESPONSE_R1).

(** [getattr(self, 'handle_%scmd%s' % (a, cmdstr))]: the handler methods
    the class defines; [None] where the lookup raises. *)
Definition handler_method (a : bool) (cmd : Z) : option (M unit) :=
  if a then
    match cmd with
    | 41 => Some handle_acmd41
    | _ => None
    end
  else
    match cmd with
    | 0 => Some handle_cmd0
    | 1 => Some handle_cmd1
    | 8 => Some handle_cmd8
    | 9 => Some handle_cmd9
    | 10 => Some handle_cmd10
    | 13 => Some handle_cmd13
    | 16 => Some handle_cmd16
    | 17 => Some handle_cmd17
    | 24 => Some handle_cmd24
    | 49 => Some handle_cmd49
    | 55 => Some handle_cmd55
    | 58 => Some handle_cmd58
    | 59 => Some handle_cmd59
    | 999 => Some handle_cmd999
    | _ => None
    end.

(** The local function [putbit] of [handle_response_r1] and of
    [handle_response_r2] (the same text in both). *)
Definition putbit (k : nat) (texts : list string) : M unit :=
  mb <- getattr miso_bits ;;
  b <- index mb k ;;
  modify (set_ss_bit (b_ss b)) ;; modify (set_es_bit (b_es b)) ;;
  putb Ann.BIT texts.

Definition handle_response_r1 (res : Z) : M unit :=
  mb <- getattr miso_bits ;;
  b7 <- index mb 7 ;; b0 <- index mb 0 ;;
  modify (set_ss_cmd (b_ss b7)) ;; modify (set_es_cmd (b_es b0)) ;;
  putx Ann.R1 ["R1: 0x" ++ fmt_x 2 res] ;;
  putbit 0 ["Card is " ++ (if bit_set res 0 then "" else "not ")
            ++ "in idle state"] ;;
  putbit 1 ["Erase sequence " ++ (if bit_set res 1 then "" else "not ")
            ++ "cleared"] ;;
  putbit 2 [(if bit_set res 2 then "I" else "No i")
            ++ "llegal command detected"] ;;
  putbit 3 ["CRC check of last command "
            ++ (if bit_set res 3 then "failed" else "was successful")] ;;
  putbit 4 [(if bit_set res 4 then "E" else "No e")
            ++ "rror in the sequence of erase commands"] ;;
  putbit 5 [(if bit_set res 5 then "M" else "No m")
            ++ "isaligned address used in command"] ;;
  putbit 6 ["Command argument " ++ (if bit_set res 6 then "" else "not ")
            ++ "outside allowed range"] ;;
  putbit 7 ["Bit 7 (always 0)"] ;;
  c17 <- get is_cmd17 ;;
  when c17 (modify (set_state HANDLE_DATA_BLOCK_CMD17)) ;;
  c24 <- get is_cmd24 ;;
  when c24 (modify (set_state HANDLE_DATA_BLOCK_CMD24)).

Definition handle_response_r2 (res : Z) : M unit :=
  e <- get es ;; modify (set_es_cmd e) ;;
  modify (fun d => set_read_buf (read_buf d ++ [res]) d) ;;
  rb <- get read_buf ;;
  if (List.length rb =? 1)%nat then
    handle_response_r1 res ;;
    putx Ann.R2 ["R2: 0x" ++ fmt_x 2 res]
  else
    r1 <- index rb 0 ;;
    status <- index rb 1 ;;
    putx Ann.R2 ["R2: [R1: 0x" ++ fmt_x 2 r1 ++ ", Status: 0x"
                 ++ fmt_x 2 status ++ "]"] ;;
    putbit 0 ["Card is " ++ (if bit_set status 0 then "" else "un")
              ++ "locked"] ;;
    putbit 1 [(if bit_set status 1 then "A" else "No a")
              ++ "ttempt to erase a write-protected sector | "
              ++ (if bit_set status 1 then "E" else "No e")
              ++ "rror in card lock/unlock operation"] ;;
    putbit 2 [(if bit_set status 2 then "G" else "No g")
              ++ "eneral or unknown error"] ;;
    putbit 3 [(if bit_set status 3 then "I" else "No i")
              ++ "nternal card controller error"] ;;
    putbit 4 [(if bit_set status 4 then "" else "No ")
              ++ "ECC failure to correct data"] ;;
    putbit 5 [(if bit_set res 5 then "W" else "No w")
              ++ "rite protect violation"] ;;
    putbit 6 [(if bit_set res 6 then "I" else "No i")
              ++ "nvalid selection for erase, sectors or groups"] ;;
    putbit 7 [(if bit_set status 7 then "O" else "No o")
              ++ "ut of range | "
              ++ (if bit_set status 7 then "C" else "No C")
              ++ "SD overwrite"] ;;
    modify (set_state IDLE) ;;
    modify (set_read_buf []).

(** The local function [get_bit] of [handle_response_r3] and of
    [handle_response_r7]. *)
Definition get_bit (b : nat) : M bit :=
  bits <- get read_bits ;;
  row <- index bits ((5 - b / 8) - 1) ;;
  index row (b mod 8).

(** [for x in l: body(x)]. *)
Fixpoint for_each {A} (l : list A) (body : A -> M unit) : M unit :=
  match l with
  | [] => ret tt
  | x :: rest => body x ;; for_each rest body
  end.

Definition voltages : list (nat * string) :=
  [(15%nat, "2.7-2.8"); (16%nat, "2.8-2.9"); (17%nat, "2.9-3.0");
   (18%nat, "3.0-3.1"); (19%nat, "3.1-3.2"); (20%nat, "3.2-3.3");
   (21%nat, "3.3-3.4"); (22%nat, "3.4-3.5"); (23%nat, "3.5-3.6")].

Definition handle_response_r3 (res : Z) : M unit :=
  e <- get es ;; modify (set_es_cmd e) ;;
  modify (fun d => set_read_buf (read_buf d ++ [res]) d) ;;
  mb <- getattr miso_bits ;;
  modify (fun d => set_read_bits (read_bits d ++ [mb]) d) ;;
  rb <- get read_buf ;;
  if (List.length rb =? 1)%nat then
    handle_response_r1 res ;;
    putx Ann.R3 ["R1: 0x" ++ fmt_x 2 res]
  else if (List.length rb <? 5)%nat then
    ret tt
  else
    r1 <- index rb 0 ;;
    x1 <- index rb 1 ;; x2 <- index rb 2 ;;
    x3 <- index rb 3 ;; x4 <- index rb 4 ;;
    let ocr := Z.lor (Z.lor (Z.lor (Z.shiftl x1 24) (Z.shiftl x2 16))
                            (Z.shiftl x3 8)) x4 in
    putx Ann.R3 ["R3: [R1: 0x" ++ fmt_x 2 r1 ++ ", OCR: 0x" ++ fmt_x 8 ocr
                 ++ "]"] ;;
    (* Bit 31: 'Card power up status bit (busy)'. *)
    b <- get_bit 31 ;;
    let power_up_status := b_val b in
    modify (set_ss_bit (b_ss b)) ;; modify (set_es_bit (b_es b)) ;;
    putb Ann.BIT ["Card has " ++ (if truthy power_up_status then ""
                                  else "not ")
                  ++ "finished the power up routine"] ;;
    (* Bit 30: 'Card Capacity Status (CCS)'. *)
    b <- get_bit 30 ;;
    modify (set_ss_bit (b_ss b)) ;; modify (set_es_bit (b_es b)) ;;
    putb Ann.BIT ["Card capacity is "
                  ++ (if truthy power_up_status
                      then (if truthy (b_val b) then "SDHC or SDXC"
                            else "SDSC")
                      else "unknown")] ;;
    (* Bit 29: 'UHS-II Card Status'. *)
    b <- get_bit 29 ;;
    let uhs2 := b_val b in
    modify (set_ss_bit (b_ss b)) ;; modify (set_es_bit (b_es b)) ;;
    putb Ann.BIT ["UHS-II interface " ++ (if truthy uhs2 then "" else "not ")
                  ++ "supported"] ;;
    (* Bit 28: 'reserved'. *)
    b <- get_bit 28 ;;
    modify (set_ss_bit (b_ss b)) ;; modify (set_es_bit (b_es b)) ;;
    putb Ann.BIT ["Reserved"] ;;
    (* Bit 27: 'Over 2TB support Status (CO2T)'. *)
    b <- get_bit 27 ;;
    modify (set_ss_bit (b_ss b)) ;; modify (set_es_bit (b_es b)) ;;
    putb Ann.BIT ["Over 2TB is " ++ (if truthy (b_val b) then "" else "not ")
                  ++ "supported"] ;;
    (* Bits 26..25: 'reserved'. *)
    b26 <- get_bit 26 ;; b25 <- get_bit 25 ;;
    modify (set_ss_bit (b_ss b26)) ;; modify (set_es_bit (b_es b25)) ;;
    putb Ann.BIT ["Reserved"] ;;
    (* Bit 24: 'Switching to 1.8V Accepted (S18A)'. *)
    b <- get_bit 24 ;;
    modify (set_ss_bit (b_ss b)) ;; modify (set_es_bit (b_es b)) ;;
    putb Ann.BIT ["Switching to 1.8V "
                  ++ (if truthy (b_val b) then "" else "not ")
                  ++ "accepted"] ;;
    (if truthy uhs2 then ret tt
     else
       (* Bits 23..15 represent the supported voltage ranges. *)
       for_each voltages (fun kv =>
         b <- get_bit (fst kv) ;;
         modify (set_ss_bit (b_ss b)) ;; modify (set_es_bit (b_es b)) ;;
         putb Ann.BIT [snd kv ++ "V "
                       ++ (if truthy (b_val b) then "" else "not ")
                       ++ "supported"]) ;;
       (* Bits 14..8: 'reserved'. *)
       b14 <- get_bit 14 ;; b8 <- get_bit 8 ;;
       modify (set_ss_bit (b_ss b14)) ;; modify (set_es_bit (b_es b8)) ;;
       putb Ann.BIT ["Reserved"] ;;
       (* Bit 7: 'Reserved for Low Voltage Range' *)
       b <- get_bit 7 ;;
       modify (set_ss_bit (b_ss b)) ;; modify (set_es_bit (b_es b)) ;;
       putb Ann.BIT ["Reserved"] ;;
       (* Bits 6..0: 'reserved'. *)
       b6 <- get_bit 6 ;; b0 <- get_bit 0 ;;
       modify (set_ss_bit (b_ss b6)) ;; modify (set_es_bit (b_es b0)) ;;
       putb Ann.BIT ["Reserved"]) ;;
    modify (set_state IDLE) ;;
    modify (set_read_buf []) ;;
    modify (set_read_bits []).

(** The local function [decode_voltage] of [handle_response_r7]. *)
Definition decode_voltage (value : Z) : string :=
  match value with
  | 0 => "Not Defined"
  | 1 => "2.7-3.6V"
  | 2 => "Reserved for Low Voltage Range"
  | 4 => "Reserved"
  | 8 => "Reserved"
  | _ => "Not Defined"
  end.

Definition handle_response_r7 (res : Z) : M unit :=
  e <- get es ;; modify (set_es_cmd e) ;;
  modify (fun d => set_read_buf (read_buf d ++ [res]) d) ;;
  mb <- getattr miso_bits ;;
  modify (fun d => set_read_bits (read_bits d ++ [mb]) d) ;;
  rb <- get read_buf ;;
  if (List.length rb =? 1)%nat then
    handle_response_r1 res ;;
    putx Ann.R7 ["R1: 0x" ++ fmt_x 2 res]
  else if (List.length rb <? 5)%nat then
    ret tt
  else
    r1 <- index rb 0 ;;
    let version := Z.shiftr r1 4 in
    x3 <- index rb 3 ;;
    let voltage := decode_voltage x3 in
    pattern <- index rb 4 ;;
    putx Ann.R7 ["R7: [R1: 0x" ++ fmt_x 2 r1 ++ ", Command Version: 0x"
                 ++ fmt_x 1 version ++ ", Voltage Accepted: " ++ voltage
                 ++ ", Check Pattern: 0x" ++ fmt_x 2 pattern ++ "]"] ;;
    (* Bits 31..28: 'command version' *)
    b31 <- get_bit 31 ;; b28 <- get_bit 28 ;;
    modify (set_ss_bit (b_ss b31)) ;; modify (set_es_bit (b_es b28)) ;;
    putb Ann.BIT ["Command Version: 0x" ++ fmt_x 1 version] ;;
    (* Bits 27..12: 'reserved bits' *)
    b27 <- get_bit 27 ;; b12 <- get_bit 12 ;;
    modify (set_ss_bit (b_ss b27)) ;; modify (set_es_bit (b_es b12)) ;;
    putb Ann.BIT ["Reserved"] ;;
    (* Bits 11..8: 'voltage accepted' *)
    b11 <- get_bit 11 ;; b8 <- get_bit 8 ;;
    modify (set_ss_bit (b_ss b11)) ;; modify (set_es_bit (b_es b8)) ;;
    putb Ann.BIT ["Voltage Accepted: " ++ voltage] ;;
    (* Bits 7..0: 'check pattern' *)
    b7 <- get_bit 7 ;; b0 <- get_bit 0 ;;
    modify (set_ss_bit (b_ss b7)) ;; modify (set_es_bit (b_es b0)) ;;
    putb Ann.BIT ["Check Pattern: 0x" ++ fmt_x 2 pattern] ;;
    modify (set_state IDLE) ;;
    modify (set_read_buf []) ;;
    modify (set_read_bits []).

Definition handle_data_cmd17 (miso0 : Z) : M unit :=
  found <- get cmd17_start_token_found ;;
  if found then
    rb <- get read_buf ;;
    when (List.length rb =? 0)%nat
      (s <- get ss ;; modify (set_ss_data (Some s)) ;;
       bl <- get blocklen ;;
       (* Assume a fixed block size when inspection of the previous
          traffic did not provide the respective parameter value. *)
       when (negb (truthy bl)) (modify (set_blocklen 512))) ;;
    modify (fun d => set_read_buf (read_buf d ++ [miso0]) d) ;;
    rb <- get read_buf ;;
    bl <- get blocklen ;;
    let n := Z.of_nat (List.length rb) in
    (* Wait until block transfer completed. *)
    if n <? bl then ret tt
    else if n =? bl then
      e <- get es ;; modify (set_es_data (Some e)) ;;
      sd <- getattr ss_data ;; ed <- getattr es_data ;;
      put sd ed (Ann.CMD 17) ["Block data: " ++ fmt_list rb]
    else if n =? bl + 1 then
      s <- get ss ;; modify (set_ss_crc (Some s))
    else if n =? bl + 2 then
      e <- get es ;; modify (set_es_crc (Some e)) ;;
      sc <- getattr ss_crc ;; ec <- getattr es_crc ;;
      put sc ec (Ann.CMD 17) ["CRC"] ;;
      modify (set_state IDLE) ;;
      modify (set_read_buf []) ;;
      modify (set_cmd17_start_token_found false) ;;
      modify (set_is_cmd17 false)
    else ret tt
  else if miso0 =? 254 then
    s <- get ss ;; e <- get es ;;
    put s e (Ann.CMD 17) ["Start Block"] ;;
    modify (set_cmd17_start_token_found true)
  else ret tt.

Definition handle_data_cmd24 (mosi0 : Z) : M unit :=
  found <- get cmd24_start_token_found ;;
  if found then
    rb <- get read_buf ;;
    when (List.length rb =? 0)%nat
      (s <- get ss ;; modify (set_ss_data (Some s)) ;;
       bl <- get blocklen ;;
       when (negb (truthy bl)) (modify (set_blocklen 512))) ;;
    modify (fun d => set_read_buf (read_buf d ++ [mosi0]) d) ;;
    rb <- get read_buf ;;
    bl <- get blocklen ;;
    (* Wait until block transfer completed. *)
    if Z.of_nat (List.length rb) <? bl then ret tt else
    e <- get es ;; modify (set_es_data (Some e)) ;;
    sd <- getattr ss_data ;; ed <- getattr es_data ;;
    put sd ed (Ann.CMD 24) ["Block data: " ++ fmt_list rb] ;;
    modify (set_state DATA_RESPONSE) ;;
    modify (set_read_buf []) ;;
    modify (set_cmd24_start_token_found false)
  else if mosi0 =? 254 then
    s <- get ss ;; e <- get es ;;
    put s e (Ann.CMD 24) ["Start Block"] ;;
    modify (set_cmd24_start_token_found true)
  else ret tt.

Definition handle_data_response (miso0 : Z) : M unit :=
  let miso1 := Z.land miso0 31 in
  if negb (Z.land miso1 17 =? 1) then
    (* This is not the byte we are waiting for. *)
    ret tt
  else
  m <- getattr miso_bits ;;
  m7 <- index m 7 ;; m5 <- index m 5 ;;
  put (b_ss m7) (b_es m5) Ann.BIT ["Don't care"] ;;
  m4 <- index m 4 ;;
  put (b_ss m4) (b_es m4) Ann.BIT ["Always 0"] ;;
  (if miso1 =? 5 then
     m3 <- index m 3 ;; m1 <- index m 1 ;;
     put (b_ss m3) (b_es m1) Ann.BIT ["Data accepted"]
   else if miso1 =? 11 then
     m3 <- index m 3 ;; m1 <- index m 1 ;;
     put (b_ss m3) (b_es m1) Ann.BIT ["Data rejected (CRC error)"]
   else if miso1 =? 13 then
     m3 <- index m 3 ;; m1 <- index m 1 ;;
     put (b_ss m3) (b_es m1) Ann.BIT ["Data rejected (write error)"]
   else ret tt) ;;
  m0 <- index m 0 ;;
  put (b_ss m0) (b_es m0) Ann.BIT ["Always 1"] ;;
  c24 <- get is_cmd24 ;;
  when c24 (s <- get ss ;; e <- get es ;;
            put s e (Ann.CMD 24) ["Data Response"]) ;;
  c24 <- get is_cmd24 ;;
  if c24 then
    (* We just send a block of data to be written to the card,
       this takes some time. *)
    modify (set_state WAIT_WHILE_CARD_BUSY) ;;
    modify (set_busy_first_byte true)
  else
    modify (set_state IDLE).

Definition wait_while_busy (miso0 : Z) : M unit :=
  if negb (miso0 =? 0) then
    c24 <- get is_cmd24 ;;
    when c24 (s <- get ss_busy ;; e <- get es_busy ;;
              put s e (Ann.CMD 24) ["Card is busy"] ;;
              modify (set_is_cmd24 false)) ;;
    modify (set_state IDLE)
  else
    first <- get busy_first_byte ;;
    if first then
      s <- get ss ;; modify (set_ss_busy s) ;;
      modify (set_busy_first_byte false)
    else
      e <- get es ;; modify (set_es_busy e).

(** The packets of the SPI decoder below this one, [data] of [decode]:
    ['DATA'] with the MOSI and MISO values, ['BITS'] with the bits of
    both lines, ['CS-CHANGE'] with the old and the new level of CS#
    ([None] for Python's [None]), and any other packet type
    (['TRANSFER']).  Both lines are taken to be connected: the values of
    a ['DATA'] packet are integers and those of a ['BITS'] packet are
    lists. *)
Inductive packet : Type :=
| DATA (data1 data2 : Z)
| BITS (data1 data2 : list bit)
| CS_CHANGE (data1 data2 : option Z)
| TRANSFER.

Definition decode (ss0 es0 : Z) (data : packet) : M unit :=
  match data with
  | DATA mosi0 miso0 =>
      modify (set_ss ss0) ;; modify (set_es es0) ;;
      (* State machine. *)
      st <- get state ;;
      match st with
      | IDLE =>
          (* Ignore stray 0xff bytes, some devices seem to send those!? *)
          if mosi0 =? 255 then ret tt else
          modify (set_state GET_COMMAND_TOKEN) ;;
          handle_command_token mosi0 miso0
      | GET_COMMAND_TOKEN =>
          handle_command_token mosi0 miso0
      | HANDLE_CMD cmd =>
          modify (set_miso (Some miso0)) ;; modify (set_mosi (Some mosi0)) ;;
          (* Call the respective handler method for the command. *)
          a <- get is_acmd ;;
          match handler_method a cmd with
          | None => raise AttributeError
          | Some handle_cmd =>
              handle_cmd ;;
              modify (set_cmd_token []) ;;
              modify (set_cmd_token_bits []) ;;
              (* Leave ACMD mode again after the first command after
                 CMD55. *)
              a' <- get is_acmd ;;
              when (a' && negb (cmd =? 55)) (modify (set_is_acmd false))
          end
      | GET_RESPONSE_R2 => handle_response_r2 miso0
      | GET_RESPONSE_R3 => handle_response_r3 miso0
      | GET_RESPONSE_R7 => handle_response_r7 miso0
      | GET_RESPONSE_R1 =>
          (* Ignore stray 0xff bytes, some devices seem to send those!? *)
          if miso0 =? 255 then ret tt else
          (* Assume return to IDLE state, but allow response handlers
             to advance to some other state when applicable. *)
          modify (set_state IDLE) ;;
          handle_response_r1 miso0
      | HANDLE_DATA_BLOCK_CMD17 => handle_data_cmd17 miso0
      | HANDLE_DATA_BLOCK_CMD24 => handle_data_cmd24 mosi0
      | DATA_RESPONSE => handle_data_response miso0
      | WAIT_WHILE_CARD_BUSY => wait_while_busy miso0
      end
  | BITS mb sb =>
      modify (set_mosi_bits (Some mb)) ;; modify (set_miso_bits (Some sb))
  | CS_CHANGE _ new =>
      (* Reset state when CS is asserted. *)
      match new with
      | Some 0 =>
          modify (set_state IDLE) ;;
          modify (set_read_buf []) ;;
          modify (set_read_bits []) ;;
          modify (set_is_cmd17 false) ;;
          modify (set_cmd17_start_token_found false) ;;
          modify (set_is_cmd24 false) ;;
          modify (set_cmd24_start_token_found false) ;;
          modify (set_busy_first_byte false)
      | _ => ret tt
      end
  | TRANSFER => ret tt
  end.

(** One call of [decode]: the sample range and the packet. *)
Definition event : Type := (Z * Z * packet)%type.

(** The calls of [decode] for a sequence of packets, in order; an
    exception ends the session. *)
Fixpoint run (evs : list event) : M unit :=
  match evs with
  | [] => ret tt
  | (s, e, p) :: rest => decode s e p ;; run rest
  end.

End Decoder.

(** [reset]: the assignments of the method, on the object it is called
    on; the attributes it does not assign stay as they are. *)
Definition reset (self : Decoder) : Decoder :=
  mkDecoder IDLE 0 0 0 0 0 0 0 0 [] [] false 0 [] [] "" false false false
    false false
    (mosi_bits self) (miso_bits self) (cmd_index self) (arg self)
    (miso self) (mosi self) (ss_data self) (es_data self) (ss_crc self)
    (es_crc self) (out_ann self).

(** An object before [__init__]: no attribute exists and nothing was put
    to the output.  The fields that [reset] assigns are placeholders. *)
Definition blank : Decoder :=
  mkDecoder IDLE 0 0 0 0 0 0 0 0 [] [] false 0 [] [] "" false false false
    false false None None None None None None None None None None [].

(** [Decoder()]: [__init__] calls [reset]. *)
Definition new_Decoder : Decoder := reset blank.

(** The object a computation ends with, and what it has put out. *)
Definition final {A} (r : result A) : Decoder :=
  match r with
  | Ok _ d => d
  | Raise _ d => d
  end.

Definition annotations {A} (r : result A) : list annotation :=
  out_ann (final r).

Definition raised {A} (r : result A) : option exn :=
  match r with
  | Ok _ _ => None
  | Raise e _ => Some e
  end.

(** ** The decoder on a store of objects

    The same methods once more, with the objects the decoder holds
    references to kept in a store: the lists [cmd_token], [cmd_token_bits],
    [read_buf] and [read_bits] of an object, and the lists of bits of
    the 'BITS' packets.  An attribute that holds a list holds its
    address; [self.x.append(v)] changes the list at that address in
    place, [self.x = []] and [self.x = self.x[4:]] make a new list and
    assign its address, and [self.cmd_token_bits.append(self.mosi_bits)]
    stores the address of the list of the packet.  The lists of the
    packets, and the lists of the objects created before, are in the
    store an object is created in.  The lists of the module and of the
    class ([responses], [a], [inputs], [outputs], [tags]) are in no
    method, and of the two tables [cmd_names] and [acmd_names] the
    methods only read entries: they stay parameters. *)
Module Heap.

Definition addr : Type := nat.

(** The lists of the store: of integers, of references to lists of
    bits, and of bits. *)
Inductive pyobj : Type :=
| IntList (l : list Z)
| RefList (l : list addr)
| BitList (l : list bit).

(** The store: the object at address [a] is entry [a]; a new object
    goes to the end. *)
Definition heap : Type := list pyobj.

Fixpoint update (a : addr) (o : pyobj) (h : heap) : heap :=
  match h, a with
  | [], _ => []
  | _ :: rest, O => o :: rest
  | x :: rest, S a' => x :: update a' o rest
  end.

(** The lists of bits at the addresses [rs]. *)
Fixpoint deref_rows (h : heap) (rs : list addr) : option (list (list bit)) :=
  match rs with
  | [] => Some []
  | r :: rest =>
      match nth_error h r, deref_rows h rest with
      | Some (BitList l), Some ls => Some (l :: ls)
      | _, _ => None
      end
  end.

(** The attributes of an object.  An attribute that holds a list holds
    its address. *)
Record Decoder : Type := mkDecoder {
  state : phase;
  ss : Z;
  es : Z;
  ss_bit : Z;
  es_bit : Z;
  ss_cmd : Z;
  es_cmd : Z;
  ss_busy : Z;
  es_busy : Z;
  cmd_token : addr;
  cmd_token_bits : addr;
  is_acmd : bool;
  blocklen : Z;
  read_buf : addr;
  read_bits : addr;
  cmd_str : string;
  is_cmd24 : bool;
  cmd24_start_token_found : bool;
  is_cmd17 : bool;
  cmd17_start_token_found : bool;
  busy_first_byte : bool;
  mosi_bits : option addr;
  miso_bits : option addr;
  cmd_index : option Z;
  arg : option Z;
  miso : option Z;
  mosi : option Z;
  ss_data : option Z;
  es_data : option Z;
  ss_crc : option Z;
  es_crc : option Z;
  out_ann : list annotation
}.

(** Field updates: [set_f v d] is [d] after [self.f = v]. *)
Definition set_state (v : phase) (d : Decoder) : Decoder :=
  mkDecoder v (ss d) (es d) (ss_bit d) (es_bit d) (ss_cmd d) (es_cmd d)
    (ss_busy d) (es_busy d) (cmd_token d) (cmd_token_bits d) (is_acmd d)
    (blocklen d) (read_buf d) (read_bits d) (cmd_str d) (is_cmd24 d)
    (cmd24_start_token_found d) (is_cmd17 d) (cmd17_start_token_found d)
    (busy_first_byte d) (mosi_bits d) (miso_bits d) (cmd_index d) (arg d)
    (miso d) (mosi d) (ss_data d) (es_data d) (ss_crc d) (es_crc d) (out_ann
    d).
Definition set_ss (v : Z) (d : Decoder) : Decoder :=
  mkDecoder (state d) v (es d) (ss_bit d) (es_bit d) (ss_cmd d) (es_cmd d)
    (ss_busy d) (es_busy d) (cmd_token d) (cmd_token_bits d) (is_acmd d)
    (blocklen d) (read_buf d) (read_bits d) (cmd_str d) (is_cmd24 d)
    (cmd24_start_token_found d) (is_cmd17 d) (cmd17_start_token_found d)
    (busy_first_byte d) (mosi_bits d) (miso_bits d) (cmd_index d) (arg d)
    (miso d) (mosi d) (ss_data d) (es_data d) (ss_crc d) (es_crc d) (out_ann
    d).
Definition set_es (v : Z) (d : Decoder) : Decoder :=
  mkDecoder (state d) (ss d) v (ss_bit d) (es_bit d) (ss_cmd d) (es_cmd d)
    (ss_busy d) (es_busy d) (cmd_token d) (cmd_token_bits d) (is_acmd d)
    (blocklen d) (read_buf d) (read_bits d) (cmd_str d) (is_cmd24 d)
    (cmd24_start_token_found d) (is_cmd17 d) (cmd17_start_token_found d)
    (busy_first_byte d) (mosi_bits d) (miso_bits d) (cmd_index d) (arg d)
    (miso d) (mosi d) (ss_data d) (es_data d) (ss_crc d) (es_crc d) (out_ann
    d).
Definition set_ss_bit (v : Z) (d : Decoder) : Decoder :=
  mkDecoder (state d) (ss d) (es d) v (es_bit d) (ss_cmd d) (es_cmd d)
    (ss_busy d) (es_busy d) (cmd_token d) (cmd_token_bits d) (is_acmd d)
    (blocklen d) (read_buf d) (read_bits d) (cmd_str d) (is_cmd24 d)
    (cmd24_start_token_found d) (is_cmd17 d) (cmd17_start_token_found d)
    (busy_first_byte d) (mosi_bits d) (miso_bits d) (cmd_index d) (arg d)
    (miso d) (mosi d) (ss_data d) (es_data d) (ss_crc d) (es_crc d) (out_ann
    d).
Definition set_es_bit (v : Z) (d : Decoder) : Decoder :=
  mkDecoder (state d) (ss d) (es d) (ss_bit d) v (ss_cmd d) (es_cmd d)
    (ss_busy d) (es_busy d) (cmd_token d) (cmd_token_bits d) (is_acmd d)
    (blocklen d) (read_buf d) (read_bits d) (cmd_str d) (is_cmd24 d)
    (cmd24_start_token_found d) (is_cmd17 d) (cmd17_start_token_found d)
    (busy_first_byte d) (mosi_bits d) (miso_bits d) (cmd_index d) (arg d)
    (miso d) (mosi d) (ss_data d) (es_data d) (ss_crc d) (es_crc d) (out_ann
    d).
Definition set_ss_cmd (v : Z) (d : Decoder) : Decoder :=
  mkDecoder (state d) (ss d) (es d) (ss_bit d) (es_bit d) v (es_cmd d)
    (ss_busy d) (es_busy d) (cmd_token d) (cmd_token_bits d) (is_acmd d)
    (blocklen d) (read_buf d) (read_bits d) (cmd_str d) (is_cmd24 d)
    (cmd24_start_token_found d) (is_cmd17 d) (cmd17_start_token_found d)
    (busy_first_byte d) (mosi_bits d) (miso_bits d) (cmd_index d) (arg d)
    (miso d) (mosi d) (ss_data d) (es_data d) (ss_crc d) (es_crc d) (out_ann
    d).
Definition set_es_cmd (v : Z) (d : Decoder) : Decoder :=
  mkDecoder (state d) (ss d) (es d) (ss_bit d) (es_bit d) (ss_cmd d) v
    (ss_busy d) (es_busy d) (cmd_token d) (cmd_token_bits d) (is_acmd d)
    (blocklen d) (read_buf d) (read_bits d) (cmd_str d) (is_cmd24 d)
    (cmd24_start_token_found d) (is_cmd17 d) (cmd17_start_token_found d)
    (busy_first_byte d) (mosi_bits d) (miso_bits d) (cmd_index d) (arg d)
    (miso d) (mosi d) (ss_data d) (es_data d) (ss_crc d) (es_crc d) (out_ann
    d).
Definition set_ss_busy (v : Z) (d : Decoder) : Decoder :=
  mkDecoder (state d) (ss d) (es d) (ss_bit d) (es_bit d) (ss_cmd d) (es_cmd
    d) v (es_busy d) (cmd_token d) (cmd_token_bits d) (is_acmd d) (blocklen d)
    (read_buf d) (read_bits d) (cmd_str d) (is_cmd24 d)
    (cmd24_start_token_found d) (is_cmd17 d) (cmd17_start_token_found d)
    (busy_first_byte d) (mosi_bits d) (miso_bits d) (cmd_index d) (arg d)
    (miso d) (mosi d) (ss_data d) (es_data d) (ss_crc d) (es_crc d) (out_ann
    d).
Definition set_es_busy (v : Z) (d : Decoder) : Decoder :=
  mkDecoder (state d) (ss d) (es d) (ss_bit d) (es_bit d) (ss_cmd d) (es_cmd
    d) (ss_busy d) v (cmd_token d) (cmd_token_bits d) (is_acmd d) (blocklen d)
    (read_buf d) (read_bits d) (cmd_str d) (is_cmd24 d)
    (cmd24_start_token_found d) (is_cmd17 d) (cmd17_start_token_found d)
    (busy_first_byte d) (mosi_bits d) (miso_bits d) (cmd_index d) (arg d)
    (miso d) (mosi d) (ss_data d) (es_data d) (ss_crc d) (es_crc d) (out_ann
    d).
Definition set_cmd_token (v : addr) (d : Decoder) : Decoder :=
  mkDecoder (state d) (ss d) (es d) (ss_bit d) (es_bit d) (ss_cmd d) (es_cmd
    d) (ss_busy d) (es_busy d) v (cmd_token_bits d) (is_acmd d) (blocklen d)
    (read_buf d) (read_bits d) (cmd_str d) (is_cmd24 d)
    (cmd24_start_token_found d) (is_cmd17 d) (cmd17_start_token_found d)
    (busy_first_byte d) (mosi_bits d) (miso_bits d) (cmd_index d) (arg d)
    (miso d) (mosi d) (ss_data d) (es_data d) (ss_crc d) (es_crc d) (out_ann
    d).
Definition set_cmd_token_bits (v : addr) (d : Decoder) : Decoder :=
  mkDecoder (state d) (ss d) (es d) (ss_bit d) (es_bit d) (ss_cmd d) (es_cmd
    d) (ss_busy d) (es_busy d) (cmd_token d) v (is_acmd d) (blocklen d)
    (read_buf d) (read_bits d) (cmd_str d) (is_cmd24 d)
    (cmd24_start_token_found d) (is_cmd17 d) (cmd17_start_token_found d)
    (busy_first_byte d) (mosi_bits d) (miso_bits d) (cmd_index d) (arg d)
    (miso d) (mosi d) (ss_data d) (es_data d) (ss_crc d) (es_crc d) (out_ann
    d).
Definition set_is_acmd (v : bool) (d : Decoder) : Decoder :=
  mkDecoder (state d) (ss d) (es d) (ss_bit d) (es_bit d) (ss_cmd d) (es_cmd
    d) (ss_busy d) (es_busy d) (cmd_token d) (cmd_token_bits d) v (blocklen d)
    (read_buf d) (read_bits d) (cmd_str d) (is_cmd24 d)
    (cmd24_start_token_found d) (is_cmd17 d) (cmd17_start_token_found d)
    (busy_first_byte d) (mosi_bits d) (miso_bits d) (cmd_index d) (arg d)
    (miso d) (mosi d) (ss_data d) (es_data d) (ss_crc d) (es_crc d) (out_ann
    d).
Definition set_blocklen (v : Z) (d : Decoder) : Decoder :=
  mkDecoder (state d) (ss d) (es d) (ss_bit d) (es_bit d) (ss_cmd d) (es_cmd
    d) (ss_busy d) (es_busy d) (cmd_token d) (cmd_token_bits d) (is_acmd d) v
    (read_buf d) (read_bits d) (cmd_str d) (is_cmd24 d)
    (cmd24_start_token_found d) (is_cmd17 d) (cmd17_start_token_found d)
    (busy_first_byte d) (mosi_bits d) (miso_bits d) (cmd_index d) (arg d)
    (miso d) (mosi d) (ss_data d) (es_data d) (ss_crc d) (es_crc d) (out_ann
    d).
Definition set_read_buf (v : addr) (d : Decoder) : Decoder :=
  mkDecoder (state d) (ss d) (es d) (ss_bit d) (es_bit d) (ss_cmd d) (es_cmd
    d) (ss_busy d) (es_busy d) (cmd_token d) (cmd_token_bits d) (is_acmd d)
    (blocklen d) v (read_bits d) (cmd_str d) (is_cmd24 d)
    (cmd24_start_token_found d) (is_cmd17 d) (cmd17_start_token_found d)
    (busy_first_byte d) (mosi_bits d) (miso_bits d) (cmd_index d) (arg d)
    (miso d) (mosi d) (ss_data d) (es_data d) (ss_crc d) (es_crc d) (out_ann
    d).
Definition set_read_bits (v : addr) (d : Decoder) : Decoder :=
  mkDecoder (state d) (ss d) (es d) (ss_bit d) (es_bit d) (ss_cmd d) (es_cmd
    d) (ss_busy d) (es_busy d) (cmd_token d) (cmd_token_bits d) (is_acmd d)
    (blocklen d) (read_buf d) v (cmd_str d) (is_cmd24 d)
    (cmd24_start_token_found d) (is_cmd17 d) (cmd17_start_token_found d)
    (busy_first_byte d) (mosi_bits d) (miso_bits d) (cmd_index d) (arg d)
    (miso d) (mosi d) (ss_data d) (es_data d) (ss_crc d) (es_crc d) (out_ann
    d).
Definition set_cmd_str (v : string) (d : Decoder) : Decoder :=
  mkDecoder (state d) (ss d) (es d) (ss_bit d) (es_bit d) (ss_cmd d) (es_cmd
    d) (ss_busy d) (es_busy d) (cmd_token d) (cmd_token_bits d) (is_acmd d)
    (blocklen d) (read_buf d) (read_bits d) v (is_cmd24 d)
    (cmd24_start_token_found d) (is_cmd17 d) (cmd17_start_token_found d)
    (busy_first_byte d) (mosi_bits d) (miso_bits d) (cmd_index d) (arg d)
    (miso d) (mosi d) (ss_data d) (es_data d) (ss_crc d) (es_crc d) (out_ann
    d).
Definition set_is_cmd24 (v : bool) (d : Decoder) : Decoder :=
  mkDecoder (state d) (ss d) (es d) (ss_bit d) (es_bit d) (ss_cmd d) (es_cmd
    d) (ss_busy d) (es_busy d) (cmd_token d) (cmd_token_bits d) (is_acmd d)
    (blocklen d) (read_buf d) (read_bits d) (cmd_str d) v
    (cmd24_start_token_found d) (is_cmd17 d) (cmd17_start_token_found d)
    (busy_first_byte d) (mosi_bits d) (miso_bits d) (cmd_index d) (arg d)
    (miso d) (mosi d) (ss_data d) (es_data d) (ss_crc d) (es_crc d) (out_ann
    d).
Definition set_cmd24_start_token_found (v : bool) (d : Decoder) : Decoder :=
  mkDecoder (state d) (ss d) (es d) (ss_bit d) (es_bit d) (ss_cmd d) (es_cmd
    d) (ss_busy d) (es_busy d) (cmd_token d) (cmd_token_bits d) (is_acmd d)
    (blocklen d) (read_buf d) (read_bits d) (cmd_str d) (is_cmd24 d) v
    (is_cmd17 d) (cmd17_start_token_found d) (busy_first_byte d) (mosi_bits d)
    (miso_bits d) (cmd_index d) (arg d) (miso d) (mosi d) (ss_data d) (es_data
    d) (ss_crc d) (es_crc d) (out_ann d).
Definition set_is_cmd17 (v : bool) (d : Decoder) : Decoder :=
  mkDecoder (state d) (ss d) (es d) (ss_bit d) (es_bit d) (ss_cmd d) (es_cmd
    d) (ss_busy d) (es_busy d) (cmd_token d) (cmd_token_bits d) (is_acmd d)
    (blocklen d) (read_buf d) (read_bits d) (cmd_str d) (is_cmd24 d)
    (cmd24_start_token_found d) v (cmd17_start_token_found d) (busy_first_byte
    d) (mosi_bits d) (miso_bits d) (cmd_index d) (arg d) (miso d) (mosi d)
    (ss_data d) (es_data d) (ss_crc d) (es_crc d) (out_ann d).
Definition set_cmd17_start_token_found (v : bool) (d : Decoder) : Decoder :=
  mkDecoder (state d) (ss d) (es d) (ss_bit d) (es_bit d) (ss_cmd d) (es_cmd
    d) (ss_busy d) (es_busy d) (cmd_token d) (cmd_token_bits d) (is_acmd d)
    (blocklen d) (read_buf d) (read_bits d) (cmd_str d) (is_cmd24 d)
    (cmd24_start_token_found d) (is_cmd17 d) v (busy_first_byte d) (mosi_bits
    d) (miso_bits d) (cmd_index d) (arg d) (miso d) (mosi d) (ss_data d)
    (es_data d) (ss_crc d) (es_crc d) (out_ann d).
Definition set_busy_first_byte (v : bool) (d : Decoder) : Decoder :=
  mkDecoder (state d) (ss d) (es d) (ss_bit d) (es_bit d) (ss_cmd d) (es_cmd
    d) (ss_busy d) (es_busy d) (cmd_token d) (cmd_token_bits d) (is_acmd d)
    (blocklen d) (read_buf d) (read_bits d) (cmd_str d) (is_cmd24 d)
    (cmd24_start_token_found d) (is_cmd17 d) (cmd17_start_token_found d) v
    (mosi_bits d) (miso_bits d) (cmd_index d) (arg d) (miso d) (mosi d)
    (ss_data d) (es_data d) (ss_crc d) (es_crc d) (out_ann d).
Definition set_mosi_bits (v : option addr) (d : Decoder) : Decoder :=
  mkDecoder (state d) (ss d) (es d) (ss_bit d) (es_bit d) (ss_cmd d) (es_cmd
    d) (ss_busy d) (es_busy d) (cmd_token d) (cmd_token_bits d) (is_acmd d)
    (blocklen d) (read_buf d) (read_bits d) (cmd_str d) (is_cmd24 d)
    (cmd24_start_token_found d) (is_cmd17 d) (cmd17_start_token_found d)
    (busy_first_byte d) v (miso_bits d) (cmd_index d) (arg d) (miso d) (mosi
    d) (ss_data d) (es_data d) (ss_crc d) (es_crc d) (out_ann d).
Definition set_miso_bits (v : option addr) (d : Decoder) : Decoder :=
  mkDecoder (state d) (ss d) (es d) (ss_bit d) (es_bit d) (ss_cmd d) (es_cmd
    d) (ss_busy d) (es_busy d) (cmd_token d) (cmd_token_bits d) (is_acmd d)
    (blocklen d) (read_buf d) (read_bits d) (cmd_str d) (is_cmd24 d)
    (cmd24_start_token_found d) (is_cmd17 d) (cmd17_start_token_found d)
    (busy_first_byte d) (mosi_bits d) v (cmd_index d) (arg d) (miso d) (mosi
    d) (ss_data d) (es_data d) (ss_crc d) (es_crc d) (out_ann d).
Definition set_cmd_index (v : option Z) (d : Decoder) : Decoder :=
  mkDecoder (state d) (ss d) (es d) (ss_bit d) (es_bit d) (ss_cmd d) (es_cmd
    d) (ss_busy d) (es_busy d) (cmd_token d) (cmd_token_bits d) (is_acmd d)
    (blocklen d) (read_buf d) (read_bits d) (cmd_str d) (is_cmd24 d)
    (cmd24_start_token_found d) (is_cmd17 d) (cmd17_start_token_found d)
    (busy_first_byte d) (mosi_bits d) (miso_bits d) v (arg d) (miso d) (mosi
    d) (ss_data d) (es_data d) (ss_crc d) (es_crc d) (out_ann d).
Definition set_arg (v : option Z) (d : Decoder) : Decoder :=
  mkDecoder (state d) (ss d) (es d) (ss_bit d) (es_bit d) (ss_cmd d) (es_cmd
    d) (ss_busy d) (es_busy d) (cmd_token d) (cmd_token_bits d) (is_acmd d)
    (blocklen d) (read_buf d) (read_bits d) (cmd_str d) (is_cmd24 d)
    (cmd24_start_token_found d) (is_cmd17 d) (cmd17_start_token_found d)
    (busy_first_byte d) (mosi_bits d) (miso_bits d) (cmd_index d) v (miso d)
    (mosi d) (ss_data d) (es_data d) (ss_crc d) (es_crc d) (out_ann d).
Definition set_miso (v : option Z) (d : Decoder) : Decoder :=
  mkDecoder (state d) (ss d) (es d) (ss_bit d) (es_bit d) (ss_cmd d) (es_cmd
    d) (ss_busy d) (es_busy d) (cmd_token d) (cmd_token_bits d) (is_acmd d)
    (blocklen d) (read_buf d) (read_bits d) (cmd_str d) (is_cmd24 d)
    (cmd24_start_token_found d) (is_cmd17 d) (cmd17_start_token_found d)
    (busy_first_byte d) (mosi_bits d) (miso_bits d) (cmd_index d) (arg d) v
    (mosi d) (ss_data d) (es_data d) (ss_crc d) (es_crc d) (out_ann d).
Definition set_mosi (v : option Z) (d : Decoder) : Decoder :=
  mkDecoder (state d) (ss d) (es d) (ss_bit d) (es_bit d) (ss_cmd d) (es_cmd
    d) (ss_busy d) (es_busy d) (cmd_token d) (cmd_token_bits d) (is_acmd d)
    (blocklen d) (read_buf d) (read_bits d) (cmd_str d) (is_cmd24 d)
    (cmd24_start_token_found d) (is_cmd17 d) (cmd17_start_token_found d)
    (busy_first_byte d) (mosi_bits d) (miso_bits d) (cmd_index d) (arg d)
    (miso d) v (ss_data d) (es_data d) (ss_crc d) (es_crc d) (out_ann d).
Definition set_ss_data (v : option Z) (d : Decoder) : Decoder :=
  mkDecoder (state d) (ss d) (es d) (ss_bit d) (es_bit d) (ss_cmd d) (es_cmd
    d) (ss_busy d) (es_busy d) (cmd_token d) (cmd_token_bits d) (is_acmd d)
    (blocklen d) (read_buf d) (read_bits d) (cmd_str d) (is_cmd24 d)
    (cmd24_start_token_found d) (is_cmd17 d) (cmd17_start_token_found d)
    (busy_first_byte d) (mosi_bits d) (miso_bits d) (cmd_index d) (arg d)
    (miso d) (mosi d) v (es_data d) (ss_crc d) (es_crc d) (out_ann d).
Definition set_es_data (v : option Z) (d : Decoder) : Decoder :=
  mkDecoder (state d) (ss d) (es d) (ss_bit d) (es_bit d) (ss_cmd d) (es_cmd
    d) (ss_busy d) (es_busy d) (cmd_token d) (cmd_token_bits d) (is_acmd d)
    (blocklen d) (read_buf d) (read_bits d) (cmd_str d) (is_cmd24 d)
    (cmd24_start_token_found d) (is_cmd17 d) (cmd17_start_token_found d)
    (busy_first_byte d) (mosi_bits d) (miso_bits d) (cmd_index d) (arg d)
    (miso d) (mosi d) (ss_data d) v (ss_crc d) (es_crc d) (out_ann d).
Definition set_ss_crc (v : option Z) (d : Decoder) : Decoder :=
  mkDecoder (state d) (ss d) (es d) (ss_bit d) (es_bit d) (ss_cmd d) (es_cmd
    d) (ss_busy d) (es_busy d) (cmd_token d) (cmd_token_bits d) (is_acmd d)
    (blocklen d) (read_buf d) (read_bits d) (cmd_str d) (is_cmd24 d)
    (cmd24_start_token_found d) (is_cmd17 d) (cmd17_start_token_found d)
    (busy_first_byte d) (mosi_bits d) (miso_bits d) (cmd_index d) (arg d)
    (miso d) (mosi d) (ss_data d) (es_data d) v (es_crc d) (out_ann d).
Definition set_es_crc (v : option Z) (d : Decoder) : Decoder :=
  mkDecoder (state d) (ss d) (es d) (ss_bit d) (es_bit d) (ss_cmd d) (es_cmd
    d) (ss_busy d) (es_busy d) (cmd_token d) (cmd_token_bits d) (is_acmd d)
    (blocklen d) (read_buf d) (read_bits d) (cmd_str d) (is_cmd24 d)
    (cmd24_start_token_found d) (is_cmd17 d) (cmd17_start_token_found d)
    (busy_first_byte d) (mosi_bits d) (miso_bits d) (cmd_index d) (arg d)
    (miso d) (mosi d) (ss_data d) (es_data d) (ss_crc d) v (out_ann d).
Definition set_out_ann (v : list annotation) (d : Decoder) : Decoder :=
  mkDecoder (state d) (ss d) (es d) (ss_bit d) (es_bit d) (ss_cmd d) (es_cmd
    d) (ss_busy d) (es_busy d) (cmd_token d) (cmd_token_bits d) (is_acmd d)
    (blocklen d) (read_buf d) (read_bits d) (cmd_str d) (is_cmd24 d)
    (cmd24_start_token_found d) (is_cmd17 d) (cmd17_start_token_found d)
    (busy_first_byte d) (mosi_bits d) (miso_bits d) (cmd_index d) (arg d)
    (miso d) (mosi d) (ss_data d) (es_data d) (ss_crc d) (es_crc d) v.

(** A method takes the object and the store and returns normally or
    raises, with the object and the store as it left them.  [Stuck]
    is for a reference that does not hold the kind of list the code
    expects there, which is no state of a run of the decoder. *)
Inductive result (A : Type) : Type :=
| Ok (a : A) (i : Decoder) (h : heap)
| Raise (e : exn) (i : Decoder) (h : heap)
| Stuck (i : Decoder) (h : heap).
Arguments Ok {A} a i h.
Arguments Raise {A} e i h.
Arguments Stuck {A} i h.

Definition M (A : Type) : Type := Decoder -> heap -> result A.

Definition ret {A} (a : A) : M A := fun i h => Ok a i h.

Definition bind {A B} (m : M A) (k : A -> M B) : M B :=
  fun i h => match m i h with
             | Ok a i' h' => k a i' h'
             | Raise e i' h' => Raise e i' h'
             | Stuck i' h' => Stuck i' h'
             end.

Definition raise {A} (e : exn) : M A := fun i h => Raise e i h.

Declare Scope heap_scope.
Delimit Scope heap_scope with heap.
Notation "x <- m ;; k" := (bind m (fun x => k))
  (at level 61, m at next level, right associativity) : heap_scope.
Notation "m ;; k" := (bind m (fun _ => k))
  (at level 61, right associativity) : heap_scope.
Local Open Scope heap_scope.

Definition get {A} (f : Decoder -> A) : M A := fun i h => Ok (f i) i h.

Definition getattr {A} (f : Decoder -> option A) : M A :=
  fun i h => match f i with
             | Some a => Ok a i h
             | None => Raise AttributeError i h
             end.

Definition modify (f : Decoder -> Decoder) : M unit :=
  fun i h => Ok tt (f i) h.

Definition index {A} (l : list A) (k : nat) : M A :=
  match nth_error l k with
  | Some a => ret a
  | None => raise IndexError
  end.

Definition when (b : bool) (m : M unit) : M unit := if b then m else ret tt.

(** The contents of the list of integers of an attribute. *)
Definition load_ints (f : Decoder -> addr) : M (list Z) :=
  fun i h => match nth_error h (f i) with
             | Some (IntList l) => Ok l i h
             | _ => Stuck i h
             end.

(** [len(self.f)]. *)
Definition len (f : Decoder -> addr) : M nat :=
  l <- load_ints f ;; ret (List.length l).

(** The lists of bits an attribute refers to, for [self.f[j][k]]. *)
Definition load_rows (f : Decoder -> addr) : M (list (list bit)) :=
  fun i h => match nth_error h (f i) with
             | Some (RefList rs) =>
                 match deref_rows h rs with
                 | Some rows => Ok rows i h
                 | None => Stuck i h
                 end
             | _ => Stuck i h
             end.

(** The list of bits of an attribute that may not exist yet, for
    [self.f[k]]. *)
Definition load_bits (f : Decoder -> option addr) : M (list bit) :=
  fun i h => match f i with
             | None => Raise AttributeError i h
             | Some a =>
                 match nth_error h a with
                 | Some (BitList l) => Ok l i h
                 | _ => Stuck i h
                 end
             end.

(** [self.f.append(v)]: the list at the address is changed in place. *)
Definition append_int (f : Decoder -> addr) (v : Z) : M unit :=
  fun i h => match nth_error h (f i) with
             | Some (IntList l) => Ok tt i (update (f i) (IntList (l ++ [v])%list) h)
             | _ => Stuck i h
             end.

(** [self.f.append(self.g)]: the reference held by [g] is added to the
    list at the address, in place. *)
Definition append_ref (f : Decoder -> addr) (g : Decoder -> option addr)
    : M unit :=
  fun i h => match nth_error h (f i) with
             | Some (RefList l) =>
                 match g i with
                 | Some a => Ok tt i (update (f i) (RefList (l ++ [a])%list) h)
                 | None => Raise AttributeError i h
                 end
             | _ => Stuck i h
             end.

(** [self.f = l] for a list display or a slice [l]: a new list, and the
    attribute refers to it. *)
Definition new_ints (set : addr -> Decoder -> Decoder) (l : list Z)
    : M unit :=
  fun i h => Ok tt (set (List.length h) i) (h ++ [IntList l])%list.

(** [self.f = []] for a list of lists. *)
Definition new_rows (set : addr -> Decoder -> Decoder) : M unit :=
  fun i h => Ok tt (set (List.length h) i) (h ++ [RefList []])%list.

(** [self.put(ss, es, self.out_ann, [cls, texts])]. *)
Definition put (ss0 es0 cls : Z) (texts : list string) : M unit :=
  modify (fun d => set_out_ann (out_ann d ++ [mkAnn ss0 es0 cls texts]) d).

Definition putx (cls : Z) (texts : list string) : M unit :=
  s <- get ss_cmd ;; e <- get es_cmd ;; put s e cls texts.

Definition putc (cmd : Z) (desc : string) : M unit :=
  c <- get cmd_str ;; putx cmd [c ++ ": " ++ desc].

Definition putb (cls : Z) (texts : list string) : M unit :=
  s <- get ss_bit ;; e <- get es_bit ;; put s e cls texts.

Section Decoder.

Variables cmd_names acmd_names : name_table.

Definition cmd_name (cmd : Z) : M string :=
  a <- get is_acmd ;;
  let c := if a then acmd_names else cmd_names in
  let s := match c cmd with Some n => n | None => "Unknown" end in
  ret (if in_tuple cmd [32; 33] then s ++ "_ADDR" else s).

(** The local function [tb] of [handle_command_token]. *)
Definition tb (byte bit_ : nat) : M bit :=
  bits <- load_rows cmd_token_bits ;;
  row <- index bits (5 - byte) ;;
  index row bit_.

Definition handle_command_token (mosi0 miso0 : Z) : M unit :=
  n <- len cmd_token ;;
  when (n =? 0)%nat (s <- get ss ;; modify (set_ss_cmd s)) ;;
  append_int cmd_token mosi0 ;;
  append_ref cmd_token_bits mosi_bits ;;
  t <- load_ints cmd_token ;;
  (* All command tokens are 6 bytes long. *)
  if (List.length t <? 6)%nat then ret tt else
  e <- get es ;; modify (set_es_cmd e) ;;
  (* Bits[47:47]: Start bit (always 0) *)
  b <- tb 5 7 ;;
  modify (set_ss_bit (b_ss b)) ;; modify (set_es_bit (b_es b)) ;;
  (if b_val b =? 0
   then putb Ann.BIT ["Start bit: " ++ fmt_d (b_val b)]
   else putb Ann.BIT_WARNING
          ["Start bit: " ++ fmt_d (b_val b) ++ " (Warning: Must be 0!)"]) ;;
  (* Bits[46:46]: Transmitter bit (1 == host) *)
  b <- tb 5 6 ;;
  modify (set_ss_bit (b_ss b)) ;; modify (set_es_bit (b_es b)) ;;
  (if b_val b =? 1
   then putb Ann.BIT ["Transmitter bit: " ++ fmt_d (b_val b)]
   else putb Ann.BIT_WARNING
          ["Transmitter bit: " ++ fmt_d (b_val b)
           ++ " (Warning: Must be 1!)"]) ;;
  (* Bits[45:40]: Command index (BCD; valid: 0-63) *)
  t0 <- index t 0 ;;
  let cmd := Z.land t0 63 in
  modify (set_cmd_index (Some cmd)) ;;
  b5 <- tb 5 5 ;; b0 <- tb 5 0 ;;
  modify (set_ss_bit (b_ss b5)) ;; modify (set_es_bit (b_es b0)) ;;
  (* Leave ACMD mode if no intervening ACMD since previous CMD55. *)
  (if cmd =? 55 then modify (set_is_acmd false)
   else if negb (in_tuple cmd [13; 18; 22; 23; 25; 26; 38; 41; 42; 43; 44;
                              45; 46; 47; 48; 49; 51])
        then modify (set_is_acmd false)
        else ret tt) ;;
  (* CMD or ACMD? *)
  a <- get is_acmd ;;
  let s := if a then "ACMD" else "CMD" in
  nm <- cmd_name cmd ;;
  putb Ann.BIT ["Command: " ++ s ++ fmt_d cmd ++ " (" ++ nm ++ ")"] ;;
  (* Bits[39:8]: Argument *)
  t1 <- index t 1 ;; t2 <- index t 2 ;; t3 <- index t 3 ;; t4 <- index t 4 ;;
  let arg0 := Z.lor (Z.lor (Z.lor (Z.shiftl t1 24) (Z.shiftl t2 16))
                           (Z.shiftl t3 8)) t4 in
  modify (set_arg (Some arg0)) ;;
  b47 <- tb 4 7 ;; b10 <- tb 1 0 ;;
  modify (set_ss_bit (b_ss b47)) ;; modify (set_es_bit (b_es b10)) ;;
  putb Ann.BIT ["Argument: 0x" ++ fmt_x 4 arg0] ;;
  (* Bits[7:1]: CRC7 *)
  t5 <- index t 5 ;;
  let crc := Z.shiftr t5 1 in
  b07 <- tb 0 7 ;; b01 <- tb 0 1 ;;
  modify (set_ss_bit (b_ss b07)) ;; modify (set_es_bit (b_es b01)) ;;
  putb Ann.BIT ["CRC7: 0x" ++ fmt_x 1 crc] ;;
  (* Bits[0:0]: End bit (always 1) *)
  b <- tb 0 0 ;;
  modify (set_ss_bit (b_ss b)) ;; modify (set_es_bit (b_es b)) ;;
  (if b_val b =? 1
   then putb Ann.BIT ["End bit: " ++ fmt_d (b_val b)]
   else putb Ann.BIT_WARNING
          ["End bit: " ++ fmt_d (b_val b) ++ " (Warning: Must be 1!)"]) ;;
  (* Handle command. *)
  if in_tuple cmd [0; 1; 8; 9; 13; 16; 17; 24; 41; 49; 55; 58; 59]
  then
    modify (set_state (HANDLE_CMD cmd)) ;;
    nm <- cmd_name cmd ;;
    modify (set_cmd_str (s ++ fmt_d cmd ++ " (" ++ nm ++ ")"))
  else
    modify (set_state (HANDLE_CMD 999)) ;;
    (* the format has eight conversions: (s, cmd) and the bytes of t *)
    match t with
    | [x0; x1; x2; x3; x4; x5] =>
        putx cmd [s ++ fmt_d cmd ++ ": " ++ fmt_x 2 x0 ++ " " ++ fmt_x 2 x1
                  ++ " " ++ fmt_x 2 x2 ++ " " ++ fmt_x 2 x3 ++ " "
                  ++ fmt_x 2 x4 ++ " " ++ fmt_x 2 x5]
    | _ => raise TypeError
    end.

Definition handle_cmd0 : M unit :=
  putc (Ann.CMD 0) "Reset the SD card" ;;
  modify (set_state GET_RESPONSE_R1).

Definition handle_cmd1 : M unit :=
  putc (Ann.CMD 1) "Send HCS info and activate the card init process" ;;
  a <- getattr arg ;;
  let hcs := Z.shiftr (Z.land a (Z.shiftl 1 30)) 30 in
  bits <- load_rows cmd_token_bits ;;
  row <- index bits (5 - 4) ;; b <- index row 6 ;;
  modify (set_ss_bit (b_ss b)) ;;
  modify (set_es_bit (b_es b)) ;;
  putb Ann.BIT ["HCS: " ++ fmt_d hcs] ;;
  modify (set_state GET_RESPONSE_R1).

Definition handle_cmd8 : M unit :=
  putc (Ann.CMD 8) "Send interface condition" ;;
  new_ints set_read_buf [] ;;
  new_rows set_read_bits ;;
  modify (set_state GET_RESPONSE_R7).

Definition handle_cmd9 : M unit :=
  putc (Ann.CMD 9) "Ask card to send its card specific data (CSD)" ;;
  rb <- load_ints read_buf ;;
  when (List.length rb =? 0)%nat (s <- get ss ;; modify (set_ss_cmd s)) ;;
  m <- getattr miso ;;
  append_int read_buf m ;;
  rb <- load_ints read_buf ;;
  if (List.length rb <? 16 + 4)%nat then ret tt else
  e <- get es ;; modify (set_es_cmd e) ;;
  rb4 <- load_ints read_buf ;; new_ints set_read_buf (skipn 4 rb4) ;;
  rb <- load_ints read_buf ;;
  putx (Ann.CMD 9) ["CSD: " ++ fmt_list rb] ;;
  new_ints set_read_buf [] ;;
  modify (set_state IDLE).

Definition handle_cmd10 : M unit :=
  putc (Ann.CMD 10) "Ask card to send its card identification (CID)" ;;
  m <- getattr miso ;;
  append_int read_buf m ;;
  rb <- load_ints read_buf ;;
  if (List.length rb <? 16)%nat then ret tt else
  putx (Ann.CMD 10) ["CID: " ++ fmt_list rb] ;;
  new_ints set_read_buf [] ;;
  modify (set_state GET_RESPONSE_R1).

Definition handle_cmd13 : M unit :=
  putc (Ann.CMD 13) "Ask card to send its status register" ;;
  new_ints set_read_buf [] ;;
  modify (set_state GET_RESPONSE_R2).

Definition handle_cmd16 : M unit :=
  a <- getattr arg ;;
  modify (set_blocklen a) ;;
  bl <- get blocklen ;;
  putc (Ann.CMD 16) ("Set the block length to " ++ fmt_d bl ++ " bytes") ;;
  modify (set_state GET_RESPONSE_R1).

Definition handle_cmd17 : M unit :=
  a <- getattr arg ;;
  putc (Ann.CMD 17) ("Read a block from address 0x" ++ fmt_x 4 a) ;;
  modify (set_is_cmd17 true) ;;
  modify (set_state GET_RESPONSE_R1).

Definition handle_cmd24 : M unit :=
  a <- getattr arg ;;
  putc (Ann.CMD 24) ("Write a block to address 0x" ++ fmt_x 4 a) ;;
  modify (set_is_cmd24 true) ;;
  modify (set_state GET_RESPONSE_R1).

Definition handle_cmd49 : M unit :=
  modify (set_state GET_RESPONSE_R1).

Definition handle_cmd55 : M unit :=
  putc (Ann.CMD 55) "Next command is an application-specific command" ;;
  modify (set_is_acmd true) ;;
  modify (set_state GET_RESPONSE_R1).

Definition handle_cmd58 : M unit :=
  putc (Ann.CMD 58) "Read the OCR register" ;;
  new_ints set_read_buf [] ;;
  new_rows set_read_bits ;;
  modify (set_state GET_RESPONSE_R3).

Definition handle_cmd59 : M unit :=
  a <- getattr arg ;;
  let crc_on_off := Z.land a (Z.shiftl 1 0) in
  let s := if crc_on_off =? 1 then "on" else "off" in
  putc (Ann.CMD 59) ("Turn the SD card CRC option " ++ s) ;;
  modify (set_state GET_RESPONSE_R1).

Definition handle_acmd41 : M unit :=
  putc (Ann.ACMD 41) "Send HCS info and activate the card init process" ;;
  modify (set_state GET_RESPONSE_R1).

Definition handle_cmd999 : M unit :=
  modify (set_state GET_RESPONSE_R1).

(** [getattr(self, 'handle_%scmd%s' % (a, cmdstr))]: the handler methods
    the class defines; [None] where the lookup raises. *)
Definition handler_method (a : bool) (cmd : Z) : option (M unit) :=
  if a then
    match cmd with
    | 41 => Some handle_acmd41
    | _ => None
    end
  else
    match cmd with
    | 0 => Some handle_cmd0
    | 1 => Some handle_cmd1
    | 8 => Some handle_cmd8
    | 9 => Some handle_cmd9
    | 10 => Some handle_cmd10
    | 13 => Some handle_cmd13
    | 16 => Some handle_cmd16
    | 17 => Some handle_cmd17
    | 24 => Some handle_cmd24
    | 49 => Some handle_cmd49
    | 55 => Some handle_cmd55
    | 58 => Some handle_cmd58
    | 59 => Some handle_cmd59
    | 999 => Some handle_cmd999
    | _ => None
    end.

(** The local function [putbit] of [handle_response_r1] and of
    [handle_response_r2] (the same text in both). *)
Definition putbit (k : nat) (texts : list string) : M unit :=
  mb <- load_bits miso_bits ;;
  b <- index mb k ;;
  modify (set_ss_bit (b_ss b)) ;; modify (set_es_bit (b_es b)) ;;
  putb Ann.BIT texts.

Definition handle_response_r1 (res : Z) : M unit :=
  mb <- load_bits miso_bits ;;
  b7 <- index mb 7 ;; b0 <- index mb 0 ;;
  modify (set_ss_cmd (b_ss b7)) ;; modify (set_es_cmd (b_es b0)) ;;
  putx Ann.R1 ["R1: 0x" ++ fmt_x 2 res] ;;
  putbit 0 ["Card is " ++ (if bit_set res 0 then "" else "not ")
            ++ "in idle state"] ;;
  putbit 1 ["Erase sequence " ++ (if bit_set res 1 then "" else "not ")
            ++ "cleared"] ;;
  putbit 2 [(if bit_set res 2 then "I" else "No i")
            ++ "llegal command detected"] ;;
  putbit 3 ["CRC check of last command "
            ++ (if bit_set res 3 then "failed" else "was successful")] ;;
  putbit 4 [(if bit_set res 4 then "E" else "No e")
            ++ "rror in the sequence of erase commands"] ;;
  putbit 5 [(if bit_set res 5 then "M" else "No m")
            ++ "isaligned address used in command"] ;;
  putbit 6 ["Command argument " ++ (if bit_set res 6 then "" else "not ")
            ++ "outside allowed range"] ;;
  putbit 7 ["Bit 7 (always 0)"] ;;
  c17 <- get is_cmd17 ;;
  when c17 (modify (set_state HANDLE_DATA_BLOCK_CMD17)) ;;
  c24 <- get is_cmd24 ;;
  when c24 (modify (set_state HANDLE_DATA_BLOCK_CMD24)).

Definition handle_response_r2 (res : Z) : M unit :=
  e <- get es ;; modify (set_es_cmd e) ;;
  append_int read_buf res ;;
  rb <- load_ints read_buf ;;
  if (List.length rb =? 1)%nat then
    handle_response_r1 res ;;
    putx Ann.R2 ["R2: 0x" ++ fmt_x 2 res]
  else
    r1 <- index rb 0 ;;
    status <- index rb 1 ;;
    putx Ann.R2 ["R2: [R1: 0x" ++ fmt_x 2 r1 ++ ", Status: 0x"
                 ++ fmt_x 2 status ++ "]"] ;;
    putbit 0 ["Card is " ++ (if bit_set status 0 then "" else "un")
              ++ "locked"] ;;
    putbit 1 [(if bit_set status 1 then "A" else "No a")
              ++ "ttempt to erase a write-protected sector | "
              ++ (if bit_set status 1 then "E" else "No e")
              ++ "rror in card lock/unlock operation"] ;;
    putbit 2 [(if bit_set status 2 then "G" else "No g")
              ++ "eneral or unknown error"] ;;
    putbit 3 [(if bit_set status 3 then "I" else "No i")
              ++ "nternal card controller error"] ;;
    putbit 4 [(if bit_set status 4 then "" else "No ")
              ++ "ECC failure to correct data"] ;;
    putbit 5 [(if bit_set res 5 then "W" else "No w")
              ++ "rite protect violation"] ;;
    putbit 6 [(if bit_set res 6 then "I" else "No i")
              ++ "nvalid selection for erase, sectors or groups"] ;;
    putbit 7 [(if bit_set status 7 then "O" else "No o")
              ++ "ut of range | "
              ++ (if bit_set status 7 then "C" else "No C")
              ++ "SD overwrite"] ;;
    modify (set_state IDLE) ;;
    new_ints set_read_buf [].

(** The local function [get_bit] of [handle_response_r3] and of
    [handle_response_r7]. *)
Definition get_bit (b : nat) : M bit :=
  bits <- load_rows read_bits ;;
  row <- index bits ((5 - b / 8) - 1) ;;
  index row (b mod 8).

(** [for x in l: body(x)]. *)
Fixpoint for_each {A} (l : list A) (body : A -> M unit) : M unit :=
  match l with
  | [] => ret tt
  | x :: rest => body x ;; for_each rest body
  end.

Definition handle_response_r3 (res : Z) : M unit :=
  e <- get es ;; modify (set_es_cmd e) ;;
  append_int read_buf res ;;
  append_ref read_bits miso_bits ;;
  rb <- load_ints read_buf ;;
  if (List.length rb =? 1)%nat then
    handle_response_r1 res ;;
    putx Ann.R3 ["R1: 0x" ++ fmt_x 2 res]
  else if (List.length rb <? 5)%nat then
    ret tt
  else
    r1 <- index rb 0 ;;
    x1 <- index rb 1 ;; x2 <- index rb 2 ;;
    x3 <- index rb 3 ;; x4 <- index rb 4 ;;
    let ocr := Z.lor (Z.lor (Z.lor (Z.shiftl x1 24) (Z.shiftl x2 16))
                            (Z.shiftl x3 8)) x4 in
    putx Ann.R3 ["R3: [R1: 0x" ++ fmt_x 2 r1 ++ ", OCR: 0x" ++ fmt_x 8 ocr
                 ++ "]"] ;;
    (* Bit 31: 'Card power up status bit (busy)'. *)
    b <- get_bit 31 ;;
    let power_up_status := b_val b in
    modify (set_ss_bit (b_ss b)) ;; modify (set_es_bit (b_es b)) ;;
    putb Ann.BIT ["Card has " ++ (if truthy power_up_status then ""
                                  else "not ")
                  ++ "finished the power up routine"] ;;
    (* Bit 30: 'Card Capacity Status (CCS)'. *)
    b <- get_bit 30 ;;
    modify (set_ss_bit (b_ss b)) ;; modify (set_es_bit (b_es b)) ;;
    putb Ann.BIT ["Card capacity is "
                  ++ (if truthy power_up_status
                      then (if truthy (b_val b) then "SDHC or SDXC"
                            else "SDSC")
                      else "unknown")] ;;
    (* Bit 29: 'UHS-II Card Status'. *)
    b <- get_bit 29 ;;
    let uhs2 := b_val b in
    modify (set_ss_bit (b_ss b)) ;; modify (set_es_bit (b_es b)) ;;
    putb Ann.BIT ["UHS-II interface " ++ (if truthy uhs2 then "" else "not ")
                  ++ "supported"] ;;
    (* Bit 28: 'reserved'. *)
    b <- get_bit 28 ;;
    modify (set_ss_bit (b_ss b)) ;; modify (set_es_bit (b_es b)) ;;
    putb Ann.BIT ["Reserved"] ;;
    (* Bit 27: 'Over 2TB support Status (CO2T)'. *)
    b <- get_bit 27 ;;
    modify (set_ss_bit (b_ss b)) ;; modify (set_es_bit (b_es b)) ;;
    putb Ann.BIT ["Over 2TB is " ++ (if truthy (b_val b) then "" else "not ")
                  ++ "supported"] ;;
    (* Bits 26..25: 'reserved'. *)
    b26 <- get_bit 26 ;; b25 <- get_bit 25 ;;
    modify (set_ss_bit (b_ss b26)) ;; modify (set_es_bit (b_es b25)) ;;
    putb Ann.BIT ["Reserved"] ;;
    (* Bit 24: 'Switching to 1.8V Accepted (S18A)'. *)
    b <- get_bit 24 ;;
    modify (set_ss_bit (b_ss b)) ;; modify (set_es_bit (b_es b)) ;;
    putb Ann.BIT ["Switching to 1.8V "
                  ++ (if truthy (b_val b) then "" else "not ")
                  ++ "accepted"] ;;
    (if truthy uhs2 then ret tt
     else
       (* Bits 23..15 represent the supported voltage ranges. *)
       for_each voltages (fun kv =>
         b <- get_bit (fst kv) ;;
         modify (set_ss_bit (b_ss b)) ;; modify (set_es_bit (b_es b)) ;;
         putb Ann.BIT [snd kv ++ "V "
                       ++ (if truthy (b_val b) then "" else "not ")
                       ++ "supported"]) ;;
       (* Bits 14..8: 'reserved'. *)
       b14 <- get_bit 14 ;; b8 <- get_bit 8 ;;
       modify (set_ss_bit (b_ss b14)) ;; modify (set_es_bit (b_es b8)) ;;
       putb Ann.BIT ["Reserved"] ;;
       (* Bit 7: 'Reserved for Low Voltage Range' *)
       b <- get_bit 7 ;;
       modify (set_ss_bit (b_ss b)) ;; modify (set_es_bit (b_es b)) ;;
       putb Ann.BIT ["Reserved"] ;;
       (* Bits 6..0: 'reserved'. *)
       b6 <- get_bit 6 ;; b0 <- get_bit 0 ;;
       modify (set_ss_bit (b_ss b6)) ;; modify (set_es_bit (b_es b0)) ;;
       putb Ann.BIT ["Reserved"]) ;;
    modify (set_state IDLE) ;;
    new_ints set_read_buf [] ;;
    new_rows set_read_bits.

Definition handle_response_r7 (res : Z) : M unit :=
  e <- get es ;; modify (set_es_cmd e) ;;
  append_int read_buf res ;;
  append_ref read_bits miso_bits ;;
  rb <- load_ints read_buf ;;
  if (List.length rb =? 1)%nat then
    handle_response_r1 res ;;
    putx Ann.R7 ["R1: 0x" ++ fmt_x 2 res]
  else if (List.length rb <? 5)%nat then
    ret tt
  else
    r1 <- index rb 0 ;;
    let version := Z.shiftr r1 4 in
    x3 <- index rb 3 ;;
    let voltage := decode_voltage x3 in
    pattern <- index rb 4 ;;
    putx Ann.R7 ["R7: [R1: 0x" ++ fmt_x 2 r1 ++ ", Command Version: 0x"
                 ++ fmt_x 1 version ++ ", Voltage Accepted: " ++ voltage
                 ++ ", Check Pattern: 0x" ++ fmt_x 2 pattern ++ "]"] ;;
    (* Bits 31..28: 'command version' *)
    b31 <- get_bit 31 ;; b28 <- get_bit 28 ;;
    modify (set_ss_bit (b_ss b31)) ;; modify (set_es_bit (b_es b28)) ;;
    putb Ann.BIT ["Command Version: 0x" ++ fmt_x 1 version] ;;
    (* Bits 27..12: 'reserved bits' *)
    b27 <- get_bit 27 ;; b12 <- get_bit 12 ;;
    modify (set_ss_bit (b_ss b27)) ;; modify (set_es_bit (b_es b12)) ;;
    putb Ann.BIT ["Reserved"] ;;
    (* Bits 11..8: 'voltage accepted' *)
    b11 <- get_bit 11 ;; b8 <- get_bit 8 ;;
    modify (set_ss_bit (b_ss b11)) ;; modify (set_es_bit (b_es b8)) ;;
    putb Ann.BIT ["Voltage Accepted: " ++ voltage] ;;
    (* Bits 7..0: 'check pattern' *)
    b7 <- get_bit 7 ;; b0 <- get_bit 0 ;;
    modify (set_ss_bit (b_ss b7)) ;; modify (set_es_bit (b_es b0)) ;;
    putb Ann.BIT ["Check Pattern: 0x" ++ fmt_x 2 pattern] ;;
    modify (set_state IDLE) ;;
    new_ints set_read_buf [] ;;
    new_rows set_read_bits.

Definition handle_data_cmd17 (miso0 : Z) : M unit :=
  found <- get cmd17_start_token_found ;;
  if found then
    rb <- load_ints read_buf ;;
    when (List.length rb =? 0)%nat
      (s <- get ss ;; modify (set_ss_data (Some s)) ;;
       bl <- get blocklen ;;
       (* Assume a fixed block size when inspection of the previous
          traffic did not provide the respective parameter value. *)
       when (negb (truthy bl)) (modify (set_blocklen 512))) ;;
    append_int read_buf miso0 ;;
    rb <- load_ints read_buf ;;
    bl <- get blocklen ;;
    let n := Z.of_nat (List.length rb) in
    (* Wait until block transfer completed. *)
    if n <? bl then ret tt
    else if n =? bl then
      e <- get es ;; modify (set_es_data (Some e)) ;;
      sd <- getattr ss_data ;; ed <- getattr es_data ;;
      put sd ed (Ann.CMD 17) ["Block data: " ++ fmt_list rb]
    else if n =? bl + 1 then
      s <- get ss ;; modify (set_ss_crc (Some s))
    else if n =? bl + 2 then
      e <- get es ;; modify (set_es_crc (Some e)) ;;
      sc <- getattr ss_crc ;; ec <- getattr es_crc ;;
      put sc ec (Ann.CMD 17) ["CRC"] ;;
      modify (set_state IDLE) ;;
      new_ints set_read_buf [] ;;
      modify (set_cmd17_start_token_found false) ;;
      modify (set_is_cmd17 false)
    else ret tt
  else if miso0 =? 254 then
    s <- get ss ;; e <- get es ;;
    put s e (Ann.CMD 17) ["Start Block"] ;;
    modify (set_cmd17_start_token_found true)
  else ret tt.

Definition handle_data_cmd24 (mosi0 : Z) : M unit :=
  found <- get cmd24_start_token_found ;;
  if found then
    rb <- load_ints read_buf ;;
    when (List.length rb =? 0)%nat
      (s <- get ss ;; modify (set_ss_data (Some s)) ;;
       bl <- get blocklen ;;
       when (negb (truthy bl)) (modify (set_blocklen 512))) ;;
    append_int read_buf mosi0 ;;
    rb <- load_ints read_buf ;;
    bl <- get blocklen ;;
    (* Wait until block transfer completed. *)
    if Z.of_nat (List.length rb) <? bl then ret tt else
    e <- get es ;; modify (set_es_data (Some e)) ;;
    sd <- getattr ss_data ;; ed <- getattr es_data ;;
    put sd ed (Ann.CMD 24) ["Block data: " ++ fmt_list rb] ;;
    modify (set_state DATA_RESPONSE) ;;
    new_ints set_read_buf [] ;;
    modify (set_cmd24_start_token_found false)
  else if mosi0 =? 254 then
    s <- get ss ;; e <- get es ;;
    put s e (Ann.CMD 24) ["Start Block"] ;;
    modify (set_cmd24_start_token_found true)
  else ret tt.

Definition handle_data_response (miso0 : Z) : M unit :=
  let miso1 := Z.land miso0 31 in
  if negb (Z.land miso1 17 =? 1) then
    (* This is not the byte we are waiting for. *)
    ret tt
  else
  m <- load_bits miso_bits ;;
  m7 <- index m 7 ;; m5 <- index m 5 ;;
  put (b_ss m7) (b_es m5) Ann.BIT ["Don't care"] ;;
  m4 <- index m 4 ;;
  put (b_ss m4) (b_es m4) Ann.BIT ["Always 0"] ;;
  (if miso1 =? 5 then
     m3 <- index m 3 ;; m1 <- index m 1 ;;
     put (b_ss m3) (b_es m1) Ann.BIT ["Data accepted"]
   else if miso1 =? 11 then
     m3 <- index m 3 ;; m1 <- index m 1 ;;
     put (b_ss m3) (b_es m1) Ann.BIT ["Data rejected (CRC error)"]
   else if miso1 =? 13 then
     m3 <- index m 3 ;; m1 <- index m 1 ;;
     put (b_ss m3) (b_es m1) Ann.BIT ["Data rejected (write error)"]
   else ret tt) ;;
  m0 <- index m 0 ;;
  put (b_ss m0) (b_es m0) Ann.BIT ["Always 1"] ;;
  c24 <- get is_cmd24 ;;
  when c24 (s <- get ss ;; e <- get es ;;
            put s e (Ann.CMD 24) ["Data Response"]) ;;
  c24 <- get is_cmd24 ;;
  if c24 then
    (* We just send a block of data to be written to the card,
       this takes some time. *)
    modify (set_state WAIT_WHILE_CARD_BUSY) ;;
    modify (set_busy_first_byte true)
  else
    modify (set_state IDLE).

Definition wait_while_busy (miso0 : Z) : M unit :=
  if negb (miso0 =? 0) then
    c24 <- get is_cmd24 ;;
    when c24 (s <- get ss_busy ;; e <- get es_busy ;;
              put s e (Ann.CMD 24) ["Card is busy"] ;;
              modify (set_is_cmd24 false)) ;;
    modify (set_state IDLE)
  else
    first <- get busy_first_byte ;;
    if first then
      s <- get ss ;; modify (set_ss_busy s) ;;
      modify (set_busy_first_byte false)
    else
      e <- get es ;; modify (set_es_busy e).

(** The packets of the SPI decoder below this one, [data] of [decode]:
    ['DATA'] with the MOSI and MISO values, ['BITS'] with the bits of
    both lines, ['CS-CHANGE'] with the old and the new level of CS#
    ([None] for Python's [None]), and any other packet type
    (['TRANSFER']).  Both lines are taken to be connected: the values of
    a ['DATA'] packet are integers and those of a ['BITS'] packet are
    lists. *)
Inductive packet : Type :=
| DATA (data1 data2 : Z)
| BITS (data1 data2 : addr)
| CS_CHANGE (data1 data2 : option Z)
| TRANSFER.

Definition decode (ss0 es0 : Z) (data : packet) : M unit :=
  match data with
  | DATA mosi0 miso0 =>
      modify (set_ss ss0) ;; modify (set_es es0) ;;
      (* State machine. *)
      st <- get state ;;
      match st with
      | IDLE =>
          (* Ignore stray 0xff bytes, some devices seem to send those!? *)
          if mosi0 =? 255 then ret tt else
          modify (set_state GET_COMMAND_TOKEN) ;;
          handle_command_token mosi0 miso0
      | GET_COMMAND_TOKEN =>
          handle_command_token mosi0 miso0
      | HANDLE_CMD cmd =>
          modify (set_miso (Some miso0)) ;; modify (set_mosi (Some mosi0)) ;;
          (* Call the respective handler method for the command. *)
          a <- get is_acmd ;;
          match handler_method a cmd with
          | None => raise AttributeError
          | Some handle_cmd =>
              handle_cmd ;;
              new_ints set_cmd_token [] ;;
              new_rows set_cmd_token_bits ;;
              (* Leave ACMD mode again after the first command after
                 CMD55. *)
              a' <- get is_acmd ;;
              when (a' && negb (cmd =? 55)) (modify (set_is_acmd false))
          end
      | GET_RESPONSE_R2 => handle_response_r2 miso0
      | GET_RESPONSE_R3 => handle_response_r3 miso0
      | GET_RESPONSE_R7 => handle_response_r7 miso0
      | GET_RESPONSE_R1 =>
          (* Ignore stray 0xff bytes, some devices seem to send those!? *)
          if miso0 =? 255 then ret tt else
          (* Assume return to IDLE state, but allow response handlers
             to advance to some other state when applicable. *)
          modify (set_state IDLE) ;;
          handle_response_r1 miso0
      | HANDLE_DATA_BLOCK_CMD17 => handle_data_cmd17 miso0
      | HANDLE_DATA_BLOCK_CMD24 => handle_data_cmd24 mosi0
      | DATA_RESPONSE => handle_data_response miso0
      | WAIT_WHILE_CARD_BUSY => wait_while_busy miso0
      end
  | BITS mb sb =>
      modify (set_mosi_bits (Some mb)) ;; modify (set_miso_bits (Some sb))
  | CS_CHANGE _ new =>
      (* Reset state when CS is asserted. *)
      match new with
      | Some 0 =>
          modify (set_state IDLE) ;;
          new_ints set_read_buf [] ;;
          new_rows set_read_bits ;;
          modify (set_is_cmd17 false) ;;
          modify (set_cmd17_start_token_found false) ;;
          modify (set_is_cmd24 false) ;;
          modify (set_cmd24_start_token_found false) ;;
          modify (set_busy_first_byte false)
      | _ => ret tt
      end
  | TRANSFER => ret tt
  end.

(** One call of [decode]: the sample range and the packet. *)
Definition event : Type := (Z * Z * packet)%type.

(** The calls of [decode] for a sequence of packets, in order; an
    exception ends the session. *)
Fixpoint run (evs : list event) : M unit :=
  match evs with
  | [] => ret tt
  | (s, e, p) :: rest => decode s e p ;; run rest
  end.

End Decoder.

(** [reset]: the assignments of the method, in its order; each [[]]
    makes a new list. *)
Definition reset : M unit :=
  modify (set_state IDLE) ;;
  modify (set_ss 0) ;; modify (set_es 0) ;;
  modify (set_ss_bit 0) ;; modify (set_es_bit 0) ;;
  modify (set_ss_cmd 0) ;; modify (set_es_cmd 0) ;;
  modify (set_ss_busy 0) ;; modify (set_es_busy 0) ;;
  new_ints set_cmd_token [] ;;
  new_rows set_cmd_token_bits ;;
  modify (set_is_acmd false) ;;
  modify (set_blocklen 0) ;;
  new_ints set_read_buf [] ;;
  new_rows set_read_bits ;;
  modify (set_cmd_str "") ;;
  modify (set_is_cmd24 false) ;;
  modify (set_cmd24_start_token_found false) ;;
  modify (set_is_cmd17 false) ;;
  modify (set_cmd17_start_token_found false) ;;
  modify (set_busy_first_byte false).

(** An object before [__init__]: no attribute exists and nothing was
    put to the output.  The fields that [reset] assigns are
    placeholders. *)
Definition blank : Decoder :=
  mkDecoder IDLE 0 0 0 0 0 0 0 0 O O false 0 O O "" false false false
    false false None None None None None None None None None None [].

(** [Decoder()] in the store [h]: [__init__] calls [reset]. *)
Definition new_Decoder (h : heap) : result unit := reset blank h.

(** The object and the store a computation ends with, what it has put
    out, and the exception it has raised. *)
Definition final {A} (r : result A) : Decoder :=
  match r with
  | Ok _ i _ => i
  | Raise _ i _ => i
  | Stuck i _ => i
  end.

Definition heap_of {A} (r : result A) : heap :=
  match r with
  | Ok _ _ h => h
  | Raise _ _ h => h
  | Stuck _ h => h
  end.

Definition annotations {A} (r : result A) : list annotation :=
  out_ann (final r).

Definition raised {A} (r : result A) : option exn :=
  match r with
  | Ok _ _ _ => None
  | Raise e _ _ => Some e
  | Stuck _ _ => None
  end.

Definition stuck {A} (r : result A) : bool :=
  match r with
  | Stuck _ _ => true
  | _ => false
  end.

(** Two sessions over the same packets, each on an object of its own:
    the second object is created in the store the first session
    leaves, and runs there. *)
Definition first_session (cn an : name_table) (evs : list event) (h : heap)
    : result unit :=
  run cn an evs (final (new_Decoder h)) (heap_of (new_Decoder h)).

Definition second_session (cn an : name_table) (evs : list event) (h : heap)
    : result unit :=
  first_session cn an evs (heap_of (first_session cn an evs h)).

End Heap.

(** ** Concrete sessions

    Packets as this decoder reads them: entry [i] of the bits of a byte
    carries bit [i] of its value (the start bit of a command token is
    entry 7 of the first byte), eight samples to a byte, one to a bit. *)
Definition spi_bits (v t0 : Z) : list bit :=
  map (fun i => (Z.b2z (Z.testbit v i), t0 + (7 - i), t0 + (8 - i)))
      [0; 1; 2; 3; 4; 5; 6; 7].

Definition spi_byte (t0 mosi0 miso0 : Z) : list event :=
  [(t0, t0 + 8, BITS (spi_bits mosi0 t0) (spi_bits miso0 t0));
   (t0, t0 + 8, DATA mosi0 miso0)].

Fixpoint spi_bytes (t0 : Z) (l : list (Z * Z)) : list event :=
  match l with
  | [] => []
  | (mo, mi) :: rest => spi_byte t0 mo mi ++ spi_bytes (t0 + 8) rest
  end.

(** Bytes the host sends while the card holds MISO high, and bytes the
    card sends while the host holds MOSI high. *)
Definition host (l : list Z) : list (Z * Z) := map (fun b => (b, 255)) l.
Definition card (l : list Z) : list (Z * Z) := map (fun b => (255, b)) l.

Definition run_sample (evs : list event) : result unit :=
  run sample_cmd_names sample_acmd_names evs new_Decoder.

(** One byte on the bus as the SPI decoder reports it: a 'BITS' packet
    and the 'DATA' packet it belongs to, with the same sample range. *)
Record xfer : Type := mkXfer {
  x_ss : Z;
  x_es : Z;
  x_mosi_bits : list bit;
  x_miso_bits : list bit;
  x_mosi : Z;
  x_miso : Z
}.

Definition xfer_events (x : xfer) : list event :=
  [(x_ss x, x_es x, BITS (x_mosi_bits x) (x_miso_bits x));
   (x_ss x, x_es x, DATA (x_mosi x) (x_miso x))].

(** The values of the bits of [v] in the order of a 'BITS' packet. *)
Definition bit_values (v : Z) : list Z :=
  map (fun i => Z.b2z (Z.testbit v i)) [0; 1; 2; 3; 4; 5; 6; 7].

(** The states the decoder can be in: those a session reaches from a
    new object by calls of [decode] that return. *)
Inductive reachable (cn an : name_table) : Decoder -> Prop :=
| reach_new : reachable cn an new_Decoder
| reach_decode d s e p d' :
    reachable cn an d ->
    decode cn an s e p d = Ok tt d' ->
    reachable cn an d'.

Local Open Scope list_scope.

(** ** Vocabulary of the statements *)

(** The text of the command name for a name table. *)
Definition name_in (c : name_table) (cmd : Z) : string :=
  match c cmd with
  | Some n => n
  | None => "Unknown"
  end.

(** Entry [i] of the bits of a byte. *)
Definition bit_at (m : list bit) (i : nat) : bit := nth i m (0, 0, 0).

(** A data response byte that passes the test of its fixed bits. *)
Definition valid_data_response (mi : Z) : bool :=
  Z.land (Z.land mi 31) 17 =? 1.

(** The block length a data phase works with: that of the object, and 512
    when that is 0. *)
Definition block_size (d : Decoder) : Z :=
  if blocklen d =? 0 then 512 else blocklen d.

(** The decoder inside a block of CMD17, after the start token: the bytes
    [buf] were read, [o] was put out, the block has [n] bytes and, once a
    byte was read, started at sample [sd]. *)
Definition in_block17 (n : Z) (sd : Z) (buf : list Z)
    (o : list annotation) (d : Decoder) : Prop :=
  state d = HANDLE_DATA_BLOCK_CMD17 /\
  cmd17_start_token_found d = true /\
  read_buf d = buf /\ out_ann d = o /\
  match buf with
  | [] => block_size d = n
  | _ :: _ => blocklen d = n /\ ss_data d = Some sd
  end.

(** The sample the block starts at, given the bytes read so far and the
    next one. *)
Definition block_start17 (sd : Z) (buf : list Z) (x : xfer) : Z :=
  match buf with
  | [] => x_ss x
  | _ :: _ => sd
  end.

(** The same for a run of bytes. *)
Definition block_start_of17 (sd : Z) (buf : list Z) (xs : list xfer) : Z :=
  match xs with
  | [] => sd
  | x :: _ => block_start17 sd buf x
  end.

(** The decoder inside a block of CMD24, after the start token: the bytes
    [buf] were read, [o] was put out, the block has [n] bytes and, once a
    byte was read, started at sample [sd]. *)
Definition in_block24 (n : Z) (sd : Z) (buf : list Z)
    (o : list annotation) (d : Decoder) : Prop :=
  state d = HANDLE_DATA_BLOCK_CMD24 /\
  cmd24_start_token_found d = true /\
  read_buf d = buf /\ out_ann d = o /\
  match buf with
  | [] => block_size d = n
  | _ :: _ => blocklen d = n /\ ss_data d = Some sd
  end.

(** The sample the block starts at, given the bytes read so far and the
    next one. *)
Definition block_start24 (sd : Z) (buf : list Z) (x : xfer) : Z :=
  match buf with
  | [] => x_ss x
  | _ :: _ => sd
  end.

(** The same for a run of bytes. *)
Definition block_start_of24 (sd : Z) (buf : list Z) (xs : list xfer) : Z :=
  match xs with
  | [] => sd
  | x :: _ => block_start24 sd buf x
  end.

(** The phase after an R1 byte. *)
Definition after_r1 (d : Decoder) : phase :=
  if is_cmd24 d then HANDLE_DATA_BLOCK_CMD24
  else if is_cmd17 d then HANDLE_DATA_BLOCK_CMD17
  else IDLE.

(** The decoder in the phase [p] of a response of several bytes: the
    bytes [buf] and the bits [rows] were read, and no block is under
    way. *)
Definition in_response (p : phase) (buf : list Z) (rows : list (list bit))
    (d : Decoder) : Prop :=
  state d = p /\ read_buf d = buf /\ read_bits d = rows /\
  is_cmd17 d = false /\ is_cmd24 d = false.

(** What the flags of a read and of a write are in each phase: a flag is
    set between the handler of its command and the end of the
    transaction, which goes through the R1 response and the phases of
    the block. *)
Definition flags_inv (d : Decoder) : Prop :=
  match state d with
  | GET_RESPONSE_R1 => is_cmd17 d = false \/ is_cmd24 d = false
  | HANDLE_DATA_BLOCK_CMD17 => is_cmd17 d = true /\ is_cmd24 d = false
  | HANDLE_DATA_BLOCK_CMD24 | DATA_RESPONSE | WAIT_WHILE_CARD_BUSY =>
      is_cmd17 d = false /\ is_cmd24 d = true
  | _ => is_cmd17 d = false /\ is_cmd24 d = false
  end.

(** The handler methods that [handler_method] can return. *)
Definition handlers : list (M unit) :=
  [handle_acmd41; handle_cmd0; handle_cmd1; handle_cmd8; handle_cmd9;
   handle_cmd10; handle_cmd13; handle_cmd16; handle_cmd17; handle_cmd24;
   handle_cmd49; handle_cmd55; handle_cmd58; handle_cmd59; handle_cmd999].

(** Those other than the handler of CMD16. *)
Definition other_handlers : list (M unit) :=
  [handle_acmd41; handle_cmd0; handle_cmd1; handle_cmd8; handle_cmd9;
   handle_cmd10; handle_cmd13; handle_cmd17; handle_cmd24; handle_cmd49;
   handle_cmd55; handle_cmd58; handle_cmd59; handle_cmd999].

(** The decoder in the busy wait phase after a write, with the range of
    the busy bytes seen so far. *)
Definition busy_state (first : bool) (sb eb : Z) (o : list annotation)
    (d : Decoder) : Prop :=
  state d = WAIT_WHILE_CARD_BUSY /\ is_cmd24 d = true /\
  busy_first_byte d = first /\ ss_busy d = sb /\ es_busy d = eb /\
  out_ann d = o.

(** The texts put out by a session. *)
Definition texts (r : result unit) : list string :=
  flat_map a_texts (annotations r).

(** Three bytes of a command token, then CS# released and asserted
    again. *)
Definition cs_mid_token : list event :=
  spi_bytes 0 (host [64; 0; 0])
  ++ [(24, 24, CS_CHANGE (Some 0) (Some 1));
      (30, 30, CS_CHANGE (Some 1) (Some 0))].

(** The token of CMD55. *)
Definition cmd55_token : list event :=
  spi_bytes 0 (host [119; 0; 0; 0; 0; 101]).

(** READ_OCR: the token of CMD58, the byte on which the command is
    handled, and the bytes of the card. *)
Definition read_ocr (response : list Z) : list event :=
  spi_bytes 0 (host [122; 0; 0; 0; 0; 253] ++ [(255, 255)] ++ card response).

(** A write of one block of 512 bytes: the token of CMD24, the byte on
    which the command is handled, the R1 response, a gap byte, the start
    token, the data and two CRC bytes, the data response 0xe5, the
    [busy] bytes of the card and the first byte after them. *)
Definition write_block (busy : list Z) : list event :=
  spi_bytes 0 (host [88; 0; 0; 0; 0; 1] ++ [(255, 255)] ++ card [0]
               ++ host ([255; 254] ++ repeat 165 512%nat ++ [18; 52])
               ++ card ([229] ++ busy ++ [255])).

(** A write of a block of one byte up to the data response phase:
    CMD16 with argument 1 and its response, CMD24 and its response, the
    start token and the byte. *)
Definition write_one_byte : list event :=
  spi_bytes 0 (host [80; 0; 0; 0; 1; 1] ++ [(255, 255)] ++ card [0]
               ++ host [88; 0; 0; 0; 0; 1] ++ [(255, 255)] ++ card [0]
               ++ host [255; 254; 165]).

(** A read of one block up to [n] bytes after the start token, with or
    without CMD16 with argument 0x200 before it. *)
Definition read_block (set_length : bool) (n : nat) : list event :=
  spi_bytes 0 ((if set_length
                then host [80; 0; 0; 2; 0; 1] ++ [(255, 255)] ++ card [0]
                else [])
               ++ host [81; 0; 0; 0; 0; 1] ++ [(255, 255)]
               ++ card ([0; 255; 254] ++ repeat 90 n)).

(** The number of block annotations a session puts out. *)
Definition block_annotations (r : result unit) : nat :=
  List.length
    (filter (fun a => existsb (fun t => String.prefix "Block data" t)
                        (a_texts a))
            (annotations r)).

(** The command indices [handle_command_token] has a phase of their own
    for; every other command is handled as CMD999. *)
Definition handled_commands : list Z :=
  [0; 1; 8; 9; 13; 16; 17; 24; 41; 49; 55; 58; 59].

(** The name in the annotation of the command: that of the table, with
    the suffix of CMD32 and CMD33. *)
Definition name_text (c : name_table) (cmd : Z) : string :=
  if in_tuple cmd [32; 33] then (name_in c cmd ++ "_ADDR")%string
  else name_in c cmd.

(** What the start token flags and the read buffer are in each phase:
    a start token flag is set only inside the data phase of its command,
    and the buffer holds bytes only while CMD9 (or CMD10) is handled, in
    a response of several bytes, or inside a block after its start
    token. *)
Definition buffers_inv (d : Decoder) : Prop :=
  match state d with
  | HANDLE_CMD c =>
      cmd17_start_token_found d = false /\
      cmd24_start_token_found d = false /\
      (c = 9 \/ c = 10 \/ read_buf d = [])
  | GET_RESPONSE_R2 | GET_RESPONSE_R3 | GET_RESPONSE_R7 =>
      cmd17_start_token_found d = false /\
      cmd24_start_token_found d = false
  | HANDLE_DATA_BLOCK_CMD17 =>
      cmd24_start_token_found d = false /\
      (cmd17_start_token_found d = false -> read_buf d = [])
  | HANDLE_DATA_BLOCK_CMD24 =>
      cmd17_start_token_found d = false /\
      (cmd24_start_token_found d = false -> read_buf d = [])
  | _ =>
      cmd17_start_token_found d = false /\
      cmd24_start_token_found d = false /\ read_buf d = []
  end.

(** The handler methods that do not use the read buffer for data. *)
Definition plain_handlers : list (M unit) :=
  [handle_acmd41; handle_cmd0; handle_cmd1; handle_cmd8; handle_cmd13;
   handle_cmd16; handle_cmd17; handle_cmd24; handle_cmd49; handle_cmd55;
   handle_cmd58; handle_cmd59; handle_cmd999].

(** The command indices that keep the application mode when they come
    after CMD55. *)
Definition application_commands : list Z :=
  [13; 18; 22; 23; 25; 26; 38; 41; 42; 43; 44; 45; 46; 47; 48; 49; 51].

(** [responses] and the list [a] of the source, from which the classes
    [Ann] are numbered, and the class attribute [annotations] of the
    decoder (identifier and description of each class). *)
Definition responses : list string := ["1"; "1b"; "2"; "3"; "7"].

Definition range (n : nat) : list Z := map Z.of_nat (seq 0 n).

(** [str.upper] for the characters of [responses]. *)
Definition upper_char (c : ascii) : ascii :=
  let n := nat_of_ascii c in
  if ((97 <=? n) && (n <=? 122))%nat then ascii_of_nat (n - 32) else c.

Fixpoint upper (s : string) : string :=
  match s with
  | EmptyString => EmptyString
  | String c rest => String (upper_char c) (upper rest)
  end.

Definition Ann_members : list string :=
  map (fun i => "CMD" ++ fmt_d i)%string (range 64)
  ++ map (fun i => "ACMD" ++ fmt_d i)%string (range 64)
  ++ map (fun r => "R" ++ upper r)%string responses
  ++ ["BIT"; "BIT_WARNING"].

Definition Decoder_annotations : list (string * string) :=
  map (fun i => ("cmd" ++ fmt_d i, "CMD" ++ fmt_d i)%string) (range 64)
  ++ map (fun i => ("acmd" ++ fmt_d i, "ACMD" ++ fmt_d i)%string) (range 64)
  ++ map (fun r => ("r" ++ r, "R" ++ r ++ " response")%string) responses
  ++ [("bit", "Bit"); ("bit-warning", "Bit warning")].

(** An annotation whose class is one of those the decoder declares. *)
Definition declared_class (a : annotation) : Prop :=
  0 <= a_cls a < Z.of_nat (List.length Decoder_annotations).

(** The object [d'] has the output of [d] and, after it, annotations of
    declared classes. *)
Definition extends (d d' : Decoder) : Prop :=
  exists new, out_ann d' = out_ann d ++ new /\ Forall declared_class new.

(** A method that, whether it returns or raises, leaves the output as
    it was or with annotations of declared classes added. *)
Definition appends {A} (m : M A) : Prop :=
  forall d, extends d (final (m d)).

(** The command phases the token handler can enter: one for each of the
    handled commands, and that of CMD999 for all the others. *)
Definition phase_ok (d : Decoder) : Prop :=
  match state d with
  | HANDLE_CMD c => In c (handled_commands ++ [999])
  | _ => True
  end.

(** A method that keeps a property of the object, whether it returns or
    raises. *)
Definition keeps (P : Decoder -> Prop) {A} (m : M A) : Prop :=
  forall d, P d -> P (final (m d)).

(** SEND_STATUS and SEND_IF_COND: the token of CMD13 or of CMD8, the byte
    on which the command is handled, and the bytes of the card. *)
Definition send_status (response : list Z) : list event :=
  spi_bytes 0 (host [77; 0; 0; 0; 0; 1] ++ [(255, 255)] ++ card response).

Definition send_if_cond (response : list Z) : list event :=
  spi_bytes 0 (host [72; 0; 0; 1; 170; 135] ++ [(255, 255)]
               ++ card response).

(** GO_IDLE_STATE: the token of CMD0, the byte on which the command is
    handled, and the bytes of the card. *)
Definition go_idle (response : list Z) : list event :=
  spi_bytes 0 (host [64; 0; 0; 0; 0; 149] ++ [(255, 255)] ++ card response).

(** The argument of the most recent CMD16 a session has handled: the
    argument the decoder holds when a 'DATA' packet arrives in the phase
    'HANDLE CMD16' outside application mode and the call returns. [acc]
    is the one from before the session, [None] for none. *)
Fixpoint last_cmd16 (cn an : name_table) (evs : list event) (d : Decoder)
    (acc : option Z) : option Z :=
  match evs with
  | [] => acc
  | (s, e, p) :: rest =>
      match decode cn an s e p d with
      | Ok _ d' =>
          last_cmd16 cn an rest d'
            (match p, state d with
             | DATA _ _, HANDLE_CMD c =>
                 if (c =? 16) && negb (is_acmd d) then arg d else acc
             | _, _ => acc
             end)
      | Raise _ _ => acc
      end
  end.

(** The number of bytes of a block after a most recent CMD16 argument:
    the argument, and 512 when it is 0 or when there was no CMD16. *)
Definition expected_block_size (last : option Z) : Z :=
  match last with
  | Some a => if a =? 0 then 512 else a
  | None => 512
  end.

(** A read of one block after CMD16 with argument 0, up to [n] bytes
    after the start token. *)
Definition read_block_cmd16_zero (n : nat) : list event :=
  spi_bytes 0 (host [80; 0; 0; 0; 0; 1] ++ [(255, 255)] ++ card [0]
               ++ host [81; 0; 0; 0; 0; 1] ++ [(255, 255)]
               ++ card ([0; 255; 254] ++ repeat 90 n)).

(** *** Objects in a store and the objects of the methods above

    [h0] is the store an object is created in: the lists of the packets
    are there.  The store [h] agrees with [h0] on what [h0] holds. *)
Definition store_extends (h0 h : Heap.heap) : Prop :=
  forall a o, nth_error h0 a = Some o -> nth_error h a = Some o.

(** A reference to the bits of a packet, or an attribute that does not
    exist. *)
Definition holds_bits (h0 : Heap.heap) (a : option Heap.addr)
    (l : option (list bit)) : Prop :=
  match a, l with
  | Some a, Some l => nth_error h0 a = Some (Heap.BitList l)
  | None, None => True
  | _, _ => False
  end.

(** A list of references to the bits of packets. *)
Definition holds_rows (h0 h : Heap.heap) (a : Heap.addr)
    (rows : list (list bit)) : Prop :=
  exists rs, nth_error h a = Some (Heap.RefList rs) /\
             Heap.deref_rows h0 rs = Some rows.

(** The object [i] in the store [h] holds what [d] holds: the same
    values, and references to lists of the same contents.  Its four
    lists are its own: they are not in [h0], and they are four lists. *)
Record represents (h0 : Heap.heap) (i : Heap.Decoder) (h : Heap.heap)
    (d : Decoder) : Prop := mkRepresents {
  rep_store : store_extends h0 h;
  rep_state : Heap.state i = state d;
  rep_ss : Heap.ss i = ss d;
  rep_es : Heap.es i = es d;
  rep_ss_bit : Heap.ss_bit i = ss_bit d;
  rep_es_bit : Heap.es_bit i = es_bit d;
  rep_ss_cmd : Heap.ss_cmd i = ss_cmd d;
  rep_es_cmd : Heap.es_cmd i = es_cmd d;
  rep_ss_busy : Heap.ss_busy i = ss_busy d;
  rep_es_busy : Heap.es_busy i = es_busy d;
  rep_cmd_token :
    nth_error h (Heap.cmd_token i) = Some (Heap.IntList (cmd_token d));
  rep_cmd_token_bits :
    holds_rows h0 h (Heap.cmd_token_bits i) (cmd_token_bits d);
  rep_is_acmd : Heap.is_acmd i = is_acmd d;
  rep_blocklen : Heap.blocklen i = blocklen d;
  rep_read_buf :
    nth_error h (Heap.read_buf i) = Some (Heap.IntList (read_buf d));
  rep_read_bits : holds_rows h0 h (Heap.read_bits i) (read_bits d);
  rep_cmd_str : Heap.cmd_str i = cmd_str d;
  rep_is_cmd24 : Heap.is_cmd24 i = is_cmd24 d;
  rep_cmd24_start_token_found :
    Heap.cmd24_start_token_found i = cmd24_start_token_found d;
  rep_is_cmd17 : Heap.is_cmd17 i = is_cmd17 d;
  rep_cmd17_start_token_found :
    Heap.cmd17_start_token_found i = cmd17_start_token_found d;
  rep_busy_first_byte : Heap.busy_first_byte i = busy_first_byte d;
  rep_mosi_bits : holds_bits h0 (Heap.mosi_bits i) (mosi_bits d);
  rep_miso_bits : holds_bits h0 (Heap.miso_bits i) (miso_bits d);
  rep_cmd_index : Heap.cmd_index i = cmd_index d;
  rep_arg : Heap.arg i = arg d;
  rep_miso : Heap.miso i = miso d;
  rep_mosi : Heap.mosi i = mosi d;
  rep_ss_data : Heap.ss_data i = ss_data d;
  rep_es_data : Heap.es_data i = es_data d;
  rep_ss_crc : Heap.ss_crc i = ss_crc d;
  rep_es_crc : Heap.es_crc i = es_crc d;
  rep_out_ann : Heap.out_ann i = out_ann d;
  rep_own :
    Forall (fun a => nth_error h0 a = None)
      [Heap.cmd_token i; Heap.cmd_token_bits i; Heap.read_buf i;
       Heap.read_bits i];
  rep_apart :
    NoDup [Heap.cmd_token i; Heap.cmd_token_bits i; Heap.read_buf i;
           Heap.read_bits i]
}.

(** A method on the store does what the method above does: from an
    object that holds the same, it returns the same value or raises the
    same exception, and leaves an object that holds the same; it is
    never stuck, and it leaves [h0] as it is. *)
Definition refines {A} (h0 : Heap.heap) (mh : Heap.M A) (mp : M A) : Prop :=
  forall i h d, represents h0 i h d ->
    match mh i h with
    | Heap.Ok a i' h' =>
        exists d', mp d = Ok a d' /\ represents h0 i' h' d'
    | Heap.Raise e i' h' =>
        exists d', mp d = Raise e d' /\ represents h0 i' h' d'
    | Heap.Stuck _ _ => False
    end.

(** A packet that refers to its bits in the store [h0], and the packet
    with the bits themselves. *)
Definition same_packet (h0 : Heap.heap) (ph : Heap.packet) (p : packet)
    : Prop :=
  match ph, p with
  | Heap.DATA a b, DATA a' b' => a = a' /\ b = b'
  | Heap.BITS a b, BITS l m =>
      nth_error h0 a = Some (Heap.BitList l) /\
      nth_error h0 b = Some (Heap.BitList m)
  | Heap.CS_CHANGE a b, CS_CHANGE a' b' => a = a' /\ b = b'
  | Heap.TRANSFER, TRANSFER => True
  | _, _ => False
  end.

Definition same_event (h0 : Heap.heap) (eh : Heap.event) (e : event)
    : Prop :=
  fst (fst eh) = fst (fst e) /\ snd (fst eh) = snd (fst e) /\
  same_packet h0 (snd eh) (snd e).

(** The packets of a session put into a store: the bits of each 'BITS'
    packet become two new lists. *)
Fixpoint store_events (evs : list event) (h : Heap.heap)
    : Heap.heap * list Heap.event :=
  match evs with
  | [] => (h, [])
  | (s, e, p) :: rest =>
      match p with
      | DATA a b =>
          let (h', r) := store_events rest h in (h', (s, e, Heap.DATA a b) :: r)
      | BITS l m =>
          let (h', r) :=
            store_events rest (h ++ [Heap.BitList l; Heap.BitList m]) in
          (h', (s, e, Heap.BITS (List.length h) (S (List.length h))) :: r)
      | CS_CHANGE a b =>
          let (h', r) := store_events rest h in
          (h', (s, e, Heap.CS_CHANGE a b) :: r)
      | TRANSFER =>
          let (h', r) := store_events rest h in (h', (s, e, Heap.TRANSFER) :: r)
      end
  end.

(** ** A weakest-precondition calculus for the methods

    [wpg E m Q d]: run from [d], the method [m] either returns normally
    in a state that satisfies [Q], or raises in a state that satisfies
    [E].  [wp] allows any exception, [wpt] allows none. *)

Definition wpg {A} (E : exn -> Decoder -> Prop) (m : M A)
    (Q : A -> Decoder -> Prop) (d : Decoder) : Prop :=
  match m d with
  | Ok a d' => Q a d'
  | Raise e d' => E e d'
  end.

Abbreviation wp := (wpg (fun _ _ => True)).
Abbreviation wpt := (wpg (fun _ _ => False)).

Section WpRules.

Context {A B : Type} (E : exn -> Decoder -> Prop).

Lemma wp_bind (m : M A) (k : A -> M B) Q d :
  wpg E m (fun a d' => wpg E (k a) Q d') d -> wpg E (bind m k) Q d.
Proof. unfold wpg, bind. destruct (m d); auto. Qed.

Lemma wp_ret (a : A) (Q : A -> Decoder -> Prop) d :
  Q a d -> wpg E (ret a) Q d.
Proof. exact (fun H => H). Qed.

Lemma wp_raise e (Q : A -> Decoder -> Prop) d :
  E e d -> wpg E (raise e) Q d.
Proof. exact (fun H => H). Qed.

Lemma wp_get (f : Decoder -> A) (Q : A -> Decoder -> Prop) d :
  Q (f d) d -> wpg E (get f) Q d.
Proof. exact (fun H => H). Qed.

Lemma wp_modify f (Q : unit -> Decoder -> Prop) d :
  Q tt (f d) -> wpg E (modify f) Q d.
Proof. exact (fun H => H). Qed.

Lemma wp_getattr (f : Decoder -> option A) (Q : A -> Decoder -> Prop) d :
  match f d with
  | Some a => Q a d
  | None => E AttributeError d
  end -> wpg E (getattr f) Q d.
Proof. unfold wpg, getattr. destruct (f d); auto. Qed.

Lemma wp_index (l : list A) i (Q : A -> Decoder -> Prop) d :
  match nth_error l i with
  | Some a => Q a d
  | None => E IndexError d
  end -> wpg E (index l i) Q d.
Proof. unfold wpg, index. destruct (nth_error l i); auto. Qed.

Lemma wp_conseq (m : M A) (Q Q' : A -> Decoder -> Prop) d :
  wpg E m Q d -> (forall a d', Q a d' -> Q' a d') -> wpg E m Q' d.
Proof. unfold wpg. destruct (m d); auto. Qed.

End WpRules.

Lemma wp_put E ss0 es0 cls texts (Q : unit -> Decoder -> Prop) d :
  Q tt (set_out_ann (out_ann d ++ [mkAnn ss0 es0 cls texts]) d) ->
  wpg E (put ss0 es0 cls texts) Q d.
Proof. exact (fun H => H). Qed.

(** Where exceptions are allowed, a lookup that is not known to succeed
    is taken to have returned some value. *)
Lemma wp_getattr_any {A} (f : Decoder -> option A)
    (Q : A -> Decoder -> Prop) d :
  (forall a, f d = Some a -> Q a d) -> wp (getattr f) Q d.
Proof. unfold wpg, getattr. destruct (f d); auto. Qed.

Lemma wp_index_any {A} (l : list A) i (Q : A -> Decoder -> Prop) d :
  (forall a, nth_error l i = Some a -> Q a d) -> wp (index l i) Q d.
Proof. unfold wpg, index. destruct (nth_error l i); cbn; auto. Qed.

(** The result of a method from its weakest precondition. *)
Lemma wp_elim {A} (m : M A) Q d a d' :
  wp m Q d -> m d = Ok a d' -> Q a d'.
Proof. unfold wpg. intros H Hm. rewrite Hm in H. exact H. Qed.

Lemma wpt_elim {A} (m : M A) Q d :
  wpt m Q d -> exists a d', m d = Ok a d' /\ Q a d'.
Proof. unfold wpg. destruct (m d); [eauto | contradiction]. Qed.

(** Two branches that put one annotation each are one [putb]. *)
Lemma if_putb (c : bool) a x b y :
  (if c then putb a x else putb b y)
  = putb (if c then a else b) (if c then x else y).
Proof. destruct c; reflexivity. Qed.

(** Normal form of an updated object, or of an attribute of one: the
    updates are pushed into the fields. *)
Ltac norm t :=
  eval cbv beta iota delta [
    state ss es ss_bit es_bit ss_cmd es_cmd ss_busy es_busy cmd_token
    cmd_token_bits is_acmd blocklen read_buf read_bits cmd_str is_cmd24
    cmd24_start_token_found is_cmd17 cmd17_start_token_found
    busy_first_byte mosi_bits miso_bits cmd_index arg miso mosi ss_data
    es_data ss_crc es_crc out_ann set_state set_ss set_es set_ss_bit
    set_es_bit set_ss_cmd set_es_cmd set_ss_busy set_es_busy
    set_cmd_token set_cmd_token_bits set_is_acmd set_blocklen
    set_read_buf set_read_bits set_cmd_str set_is_cmd24
    set_cmd24_start_token_found set_is_cmd17 set_cmd17_start_token_found
    set_busy_first_byte set_mosi_bits set_miso_bits set_cmd_index
    set_arg set_miso set_mosi set_ss_data set_es_data set_ss_crc
    set_es_crc set_out_ann
    ] in t.

Ltac norm_nth t :=
  eval cbn [nth_error List.app Nat.sub Nat.div Nat.modulo Nat.divmod fst
            snd] in t.

Ltac wp_head m :=
  lazymatch m with
  | ?f _ _ _ _ _ => unfold f; cbv zeta
  | ?f _ _ _ _ => unfold f; cbv zeta
  | ?f _ _ _ => unfold f; cbv zeta
  | ?f _ _ => unfold f; cbv zeta
  | ?f _ => unfold f; cbv zeta
  | ?f => unfold f; cbv zeta
  end.

(** One step of symbolic execution of the method in the goal, as far as
    no case distinction is needed and no method of the decoder is
    entered. *)
Ltac wp_prim_step :=
  lazymatch goal with
  | |- wpg _ (bind _ _) _ _ => apply wp_bind
  | |- wpg _ (ret _) _ _ => apply wp_ret; cbv beta iota zeta
  | |- wpg _ (raise _) _ _ => apply wp_raise; cbv beta iota zeta
  | |- wpg _ (get ?f) ?Q ?d =>
      let v := norm (f d) in
      apply wp_get; change (Q v d); cbv beta iota zeta
  | |- wpg _ (modify ?f) ?Q ?d =>
      let d' := norm (f d) in
      apply wp_modify; change (Q tt d'); cbv beta iota zeta
  | |- wpg _ (put ?s ?e ?c ?t) ?Q ?d =>
      let d' := norm (set_out_ann (out_ann d ++ [mkAnn s e c t]) d) in
      apply wp_put; change (Q tt d'); cbv beta iota zeta
  | |- wpg ?E (getattr ?f) ?Q ?d =>
      let v := norm (f d) in
      lazymatch v with
      | Some ?a => apply wp_getattr; change (Q a d); cbv beta iota zeta
      | None =>
          apply wp_getattr; change (E AttributeError d); cbv beta iota zeta
      | _ =>
          first [ apply wp_getattr_any; intros ? ?; try subst v
                | apply wp_getattr;
                  change (match v with
                          | Some a => Q a d
                          | None => E AttributeError d
                          end);
                  destruct v eqn:?; cbv beta iota zeta ]
      end
  | |- wpg ?E (index ?l ?i) ?Q ?d =>
      let v := norm_nth (nth_error l i) in
      lazymatch v with
      | Some ?a => apply wp_index; change (Q a d); cbv beta iota zeta
      | None => apply wp_index; change (E IndexError d); cbv beta iota zeta
      | _ =>
          first [ apply wp_index_any; intros ? ?
                | apply wp_index;
                  change (match v with
                          | Some a => Q a d
                          | None => E IndexError d
                          end);
                  destruct v eqn:?; cbv beta iota zeta ]
      end
  | |- wpg _ (for_each voltages _) _ _ => unfold voltages; cbn [for_each]
  | |- wpg _ (match handler_method ?a ?c with _ => _ end) _ _ =>
      let v := eval cbn [handler_method] in (handler_method a c) in
      lazymatch v with
      | Some _ => change (handler_method a c) with v; cbv beta iota zeta
      | None => change (handler_method a c) with v; cbv beta iota zeta
      end
  | |- wpg _ (match ?x with [] => _ | _ :: _ => _ end) _ _ =>
      let x' := eval cbn [List.app] in x in
      tryif constr_eq x x' then fail
      else (change x with x'; cbv beta iota zeta)
  | |- wpg _ (when _ _) _ _ => unfold when
  | |- wpg _ (run _ _ (_ :: _)) _ _ => cbn [run]
  | |- wpg _ (run _ _ []) _ _ => cbn [run]
  | |- wpg _ (decode _ _ _ _ _) _ _ => unfold decode; cbv beta iota zeta
  | |- wpg _ (putx _ _) _ _ => unfold putx
  | |- wpg _ (putc _ _) _ _ => unfold putc
  | |- wpg _ (putb _ _) _ _ => unfold putb
  | |- wpg _ (putbit _ _) _ _ => unfold putbit
  | |- wpg _ (tb _ _) _ _ => unfold tb
  | |- wpg _ (get_bit _) _ _ => unfold get_bit
  | |- wpg _ (cmd_name _ _ _) _ _ => unfold cmd_name
  | |- wpg _ (if _ then putb _ _ else putb _ _) _ _ => rewrite if_putb
  | |- wpg ?E (if ?c then ?m1 else ?m2) ?Q ?d =>
      let c' := eval compute in c in
      lazymatch c' with
      | true => change (wpg E m1 Q d)
      | false => change (wpg E m2 Q d)
      end
  end.

(** The same, entering the methods. *)
Ltac wp_lin_step :=
  first
    [ wp_prim_step
    | lazymatch goal with
      | |- wpg _ (if _ then _ else _) _ _ => fail
      | |- wpg _ (match _ with _ => _ end) _ _ => fail
      | |- wpg _ ?m _ _ => wp_head m
      end ].

(** A case distinction on what the method in the goal branches on. *)
Ltac wp_case :=
  lazymatch goal with
  | |- wpg _ (if ?c then _ else _) _ _ => destruct c eqn:?
  | |- wpg _ (match ?x with _ => _ end) _ _ => destruct x eqn:?
  end; cbv beta iota zeta.

Ltac wp_prim := repeat wp_prim_step.
Ltac wp_lin := repeat wp_lin_step.
Ltac wp_run := repeat first [wp_lin_step | wp_case].

(** Replace the object [d] by its fields. *)
Ltac open_decoder d :=
  let x0 := fresh "v_state" in
  let x1 := fresh "v_ss" in
  let x2 := fresh "v_es" in
  let x3 := fresh "v_ss_bit" in
  let x4 := fresh "v_es_bit" in
  let x5 := fresh "v_ss_cmd" in
  let x6 := fresh "v_es_cmd" in
  let x7 := fresh "v_ss_busy" in
  let x8 := fresh "v_es_busy" in
  let x9 := fresh "v_cmd_token" in
  let x10 := fresh "v_cmd_token_bits" in
  let x11 := fresh "v_is_acmd" in
  let x12 := fresh "v_blocklen" in
  let x13 := fresh "v_read_buf" in
  let x14 := fresh "v_read_bits" in
  let x15 := fresh "v_cmd_str" in
  let x16 := fresh "v_is_cmd24" in
  let x17 := fresh "v_cmd24_start_token_found" in
  let x18 := fresh "v_is_cmd17" in
  let x19 := fresh "v_cmd17_start_token_found" in
  let x20 := fresh "v_busy_first_byte" in
  let x21 := fresh "v_mosi_bits" in
  let x22 := fresh "v_miso_bits" in
  let x23 := fresh "v_cmd_index" in
  let x24 := fresh "v_arg" in
  let x25 := fresh "v_miso" in
  let x26 := fresh "v_mosi" in
  let x27 := fresh "v_ss_data" in
  let x28 := fresh "v_es_data" in
  let x29 := fresh "v_ss_crc" in
  let x30 := fresh "v_es_crc" in
  let x31 := fresh "v_out_ann" in
  destruct d as [
      x0 x1 x2 x3 x4 x5 x6 x7 x8 x9 x10 x11 x12 x13 x14 x15 x16 x17
      x18 x19 x20 x21 x22 x23 x24 x25 x26 x27 x28 x29 x30 x31];
  cbn [
    state ss es ss_bit es_bit ss_cmd es_cmd ss_busy es_busy cmd_token
    cmd_token_bits is_acmd blocklen read_buf read_bits cmd_str is_cmd24
    cmd24_start_token_found is_cmd17 cmd17_start_token_found
    busy_first_byte mosi_bits miso_bits cmd_index arg miso mosi ss_data
    es_data ss_crc es_crc out_ann
    ] in *.

(** Attributes of an object given by its fields. *)
Ltac proj :=
  cbn [
    state ss es ss_bit es_bit ss_cmd es_cmd ss_busy es_busy cmd_token
    cmd_token_bits is_acmd blocklen read_buf read_bits cmd_str is_cmd24
    cmd24_start_token_found is_cmd17 cmd17_start_token_found
    busy_first_byte mosi_bits miso_bits cmd_index arg miso mosi ss_data
    es_data ss_crc es_crc out_ann
    ] in *.

(** Replace the byte [x] by its fields. *)
Ltac open_xfer x :=
  let x0 := fresh "x_s" in
  let x1 := fresh "x_e" in
  let x2 := fresh "x_mb" in
  let x3 := fresh "x_sb" in
  let x4 := fresh "x_mo" in
  let x5 := fresh "x_mi" in
  destruct x as [x0 x1 x2 x3 x4 x5];
  unfold xfer_events in *;
  cbn [x_ss x_es x_mosi_bits x_miso_bits x_mosi x_miso] in *.

(** Comparisons that were decided on the way, as propositions. *)
Ltac bool_hyps :=
  unfold truthy in *;
  repeat match goal with
         | H : negb _ = true |- _ => apply negb_true_iff in H
         | H : negb _ = false |- _ => apply negb_false_iff in H
         | H : (_ =? _)%Z = true |- _ => apply Z.eqb_eq in H
         | H : (_ =? _)%Z = false |- _ => apply Z.eqb_neq in H
         | H : (_ <? _)%Z = true |- _ => apply Z.ltb_lt in H
         | H : (_ <? _)%Z = false |- _ => apply Z.ltb_ge in H
         | H : (_ =? _)%nat = true |- _ => apply Nat.eqb_eq in H
         | H : (_ =? _)%nat = false |- _ => apply Nat.eqb_neq in H
         | H : (_ <? _)%nat = true |- _ => apply Nat.ltb_lt in H
         | H : (_ <? _)%nat = false |- _ => apply Nat.ltb_ge in H
         | H : (_ <=? _)%nat = true |- _ => apply Nat.leb_le in H
         | H : (_ <=? _)%nat = false |- _ => apply Nat.leb_gt in H
         end.

(** A list of known length is a list of that many entries. *)
Ltac open_list m H :=
  repeat (destruct m as [|? m]; [discriminate H|]);
  try (destruct m; [clear H | discriminate H]).

Example fmt_samples :
  fmt_d 512 = "512" /\ fmt_d 0 = "0" /\ fmt_d (-7) = "-7" /\
  fmt_x 4 0 = "0000" /\ fmt_x 2 255 = "ff" /\ fmt_x 1 74 = "4a" /\
  fmt_x 8 134217728 = "08000000" /\ fmt_x 4 (-255) = "-0ff" /\
  fmt_x 4 74565 = "12345" /\ fmt_list [1; 254; 0] = "[1, 254, 0]" /\
  fmt_list [] = "[]".
Proof. repeat split. Qed.

(** ** Sequences of packets *)

Lemma run_app cn an evs1 evs2 : forall d,
  run cn an (evs1 ++ evs2) d
  = bind (run cn an evs1) (fun _ => run cn an evs2) d.
Proof.
  induction evs1 as [|[[s e] p] evs1 IH]; intros d.
  - reflexivity.
  - cbn [List.app run]. unfold bind in *.
    destruct (decode cn an s e p d) as [[] d1|]; [|reflexivity].
    apply IH.
Qed.

Lemma run_app_ok cn an evs1 evs2 d d1 :
  run cn an evs1 d = Ok tt d1 ->
  run cn an (evs1 ++ evs2) d = run cn an evs2 d1.
Proof. intros H. rewrite run_app. unfold bind. rewrite H. reflexivity. Qed.

Lemma run_reachable cn an evs : forall d d',
  reachable cn an d -> run cn an evs d = Ok tt d' -> reachable cn an d'.
Proof.
  induction evs as [|[[s e] p] evs IH]; intros d d' Hr H.
  - injection H as <-. exact Hr.
  - cbn [run] in H. unfold bind in H.
    destruct (decode cn an s e p d) as [[] d1|] eqn:Hd; [|discriminate H].
    eapply IH; [|exact H]. eapply reach_decode; eassumption.
Qed.

(** An object after a call of a method, from the precondition. *)
Ltac from_wpt :=
  let H := fresh in
  let d' := fresh "d'" in
  intros H; apply wpt_elim in H; destruct H as ([] & d' & H & ?);
  exists d'; split; [exact H | assumption].

(** Lists of lists of eight bits, entry by entry. *)
Ltac open_rows :=
  repeat match goal with
         | H : Forall _ (_ :: _) |- _ => inversion H; clear H; subst
         | H : Forall _ [] |- _ => clear H
         end;
  repeat match goal with
         | H : List.length ?r = 8%nat |- _ => open_list r H
         end.

(** The bits of a byte from their values: a list of known values is a
    list of that many entries, each with its value. *)
Ltac open_bits :=
  repeat match goal with
         | H : map b_val ?l = _ :: _ |- _ =>
             destruct l as [|[[? ?] ?] ?]; [discriminate H|];
             cbn [map b_val fst] in H;
             injection H as -> H
         | H : map b_val ?l = [] |- _ =>
             destruct l; [clear H | discriminate H]
         end.

Ltac open_xfers :=
  repeat match goal with
         | x : xfer |- _ => open_xfer x
         end;
  cbn [map] in *.

(** ** Chip select *)

(** What a 'CS-CHANGE' packet with new level 0 does, in any phase: the
    phase is IDLE, the read buffers are empty and the block and busy
    flags are false; every other attribute, the command token and its
    bits among them, is as before. *)
Lemma decode_cs_assert cn an s e old d :
  decode cn an s e (CS_CHANGE old (Some 0)) d =
  Ok tt (set_busy_first_byte false
          (set_cmd24_start_token_found false
            (set_is_cmd24 false
              (set_cmd17_start_token_found false
                (set_is_cmd17 false
                  (set_read_bits []
                    (set_read_buf [] (set_state IDLE d)))))))).
Proof. reflexivity. Qed.

Lemma cs_assert_resets cn an s e old d d' :
  decode cn an s e (CS_CHANGE old (Some 0)) d = Ok tt d' ->
  state d' = IDLE /\ read_buf d' = [] /\ read_bits d' = [] /\
  is_cmd17 d' = false /\ cmd17_start_token_found d' = false /\
  is_cmd24 d' = false /\ cmd24_start_token_found d' = false /\
  busy_first_byte d' = false /\
  cmd_token d' = cmd_token d /\ cmd_token_bits d' = cmd_token_bits d.
Proof.
  rewrite decode_cs_assert. intros H. injection H as <-.
  repeat split.
Qed.

(** C1, at the failing input: three bytes of a command token are in
    [cmd_token] when CS# is asserted again; afterwards the phase is IDLE
    and the read buffers are empty, but the three bytes and their bits
    are still there. *)
Theorem cs_assert_keeps_cmd_token :
  let r := run_sample cs_mid_token in
  raised r = None /\ state (final r) = IDLE /\
  read_buf (final r) = [] /\ read_bits (final r) = [] /\
  cmd_token (final r) = [64; 0; 0] /\
  List.length (cmd_token_bits (final r)) = 3%nat.
Proof. vm_compute. repeat split. Qed.

(** What the bytes left behind do: the next transaction starts with the
    token of CMD0, and its first three bytes complete the old token; the
    decoder reports a command with argument 0x4000 after them. *)
Example cs_assert_next_token_misframed :
  let r := run_sample (cs_mid_token ++ spi_bytes 40 (host [64; 0; 0])) in
  state (final r) = HANDLE_CMD 0 /\ arg (final r) = Some 16384 /\
  cmd_token (final r) = [64; 0; 0; 64; 0; 0].
Proof. vm_compute. repeat split. Qed.

(** ** Command tokens *)

(** C6: the six bytes 0x40 0x00 0x00 0x00 0x00 0x95, each with the bits
    of its value, are decoded on the sixth byte as start bit 0,
    transmitter bit 1, command index 0 (CMD0), argument 0, CRC7 0x4a and
    end bit 1; all six annotations are of class BIT, none is a warning. *)
Theorem cmd0_token_decodes cn an (x0 x1 x2 x3 x4 x5 : xfer) :
  map x_mosi [x0; x1; x2; x3; x4; x5] = [64; 0; 0; 0; 0; 149] ->
  Forall (fun x => map b_val (x_mosi_bits x) = bit_values (x_mosi x))
         [x0; x1; x2; x3; x4; x5] ->
  exists d,
    run cn an (flat_map xfer_events [x0; x1; x2; x3; x4; x5])
        new_Decoder = Ok tt d /\
    state d = HANDLE_CMD 0 /\ cmd_index d = Some 0 /\ arg d = Some 0 /\
    cmd_token d = [64; 0; 0; 0; 0; 149] /\
    map (fun a => (a_cls a, a_texts a)) (out_ann d) =
      [(Ann.BIT, ["Start bit: 0"]);
       (Ann.BIT, ["Transmitter bit: 1"]);
       (Ann.BIT, [("Command: CMD0 (" ++ name_in cn 0 ++ ")")%string]);
       (Ann.BIT, ["Argument: 0x0000"]);
       (Ann.BIT, ["CRC7: 0x4a"]);
       (Ann.BIT, ["End bit: 1"])] /\
    Forall (fun a => a_cls a <> Ann.BIT_WARNING) (out_ann d).
Proof.
  intros Hv Hb.
  repeat match goal with
         | H : Forall _ (_ :: _) |- _ => inversion H; clear H; subst
         | H : Forall _ [] |- _ => clear H
         end.
  open_xfers.
  injection Hv as -> -> -> -> -> ->.
  unfold bit_values in *.
  cbn [map Z.testbit Z.b2z Pos.testbit Z.of_N Z.pred_double Z.pred N.pred
       Pos.pred_N Z.to_N] in *.
  open_bits.
  eexists. split; [vm_compute; reflexivity|].
  cbn.
  repeat split.
  repeat constructor; discriminate.
Qed.

Lemma cmd0_token_decodes_witness :
  exists d,
    run sample_cmd_names sample_acmd_names
        (spi_bytes 0 (host [64; 0; 0; 0; 0; 149])) new_Decoder = Ok tt d /\
    state d = HANDLE_CMD 0 /\ arg d = Some 0 /\
    map (fun a => (a_cls a, a_texts a)) (out_ann d) =
      [(Ann.BIT, ["Start bit: 0"]);
       (Ann.BIT, ["Transmitter bit: 1"]);
       (Ann.BIT, ["Command: CMD0 (GO_IDLE_STATE)"]);
       (Ann.BIT, ["Argument: 0x0000"]);
       (Ann.BIT, ["CRC7: 0x4a"]);
       (Ann.BIT, ["End bit: 1"])].
Proof.
  destruct (cmd0_token_decodes sample_cmd_names sample_acmd_names
              (mkXfer 0 8 (spi_bits 64 0) (spi_bits 255 0) 64 255)
              (mkXfer 8 16 (spi_bits 0 8) (spi_bits 255 8) 0 255)
              (mkXfer 16 24 (spi_bits 0 16) (spi_bits 255 16) 0 255)
              (mkXfer 24 32 (spi_bits 0 24) (spi_bits 255 24) 0 255)
              (mkXfer 32 40 (spi_bits 0 32) (spi_bits 255 32) 0 255)
              (mkXfer 40 48 (spi_bits 149 40) (spi_bits 255 40) 149 255))
    as (d & Hrun & Hst & _ & Harg & _ & Hann & _).
  - reflexivity.
  - repeat constructor.
  - exists d. repeat split; assumption.
Defined.

(** The fields of any command token: on its sixth byte the command index
    is the low six bits of the first byte, the argument is made of bytes
    1 to 4, the first of them on top, and the CRC7 put out is byte 5
    shifted right by one. *)
Lemma command_token_fields cn an d x t0 t1 t2 t3 t4 rows :
  state d = GET_COMMAND_TOKEN ->
  cmd_token d = [t0; t1; t2; t3; t4] ->
  cmd_token_bits d = rows -> List.length rows = 5%nat ->
  Forall (fun r => List.length r = 8%nat) (x_mosi_bits x :: rows) ->
  exists d',
    run cn an (xfer_events x) d = Ok tt d' /\
    (cmd_index d' = Some (Z.land t0 63) /\
     arg d' = Some (Z.lor (Z.lor (Z.lor (Z.shiftl t1 24) (Z.shiftl t2 16))
                                 (Z.shiftl t3 8)) t4) /\
     In [("CRC7: 0x" ++ fmt_x 1 (Z.shiftr (x_mosi x) 1))%string]
        (map a_texts (out_ann d'))).
Proof.
  intros Hst Ht Hrows Hlen Hall.
  cut (wpt (run cn an (xfer_events x))
         (fun _ d' =>
            cmd_index d' = Some (Z.land t0 63) /\
            arg d' = Some (Z.lor (Z.lor (Z.lor (Z.shiftl t1 24)
                                               (Z.shiftl t2 16))
                                        (Z.shiftl t3 8)) t4) /\
            In [("CRC7: 0x" ++ fmt_x 1 (Z.shiftr (x_mosi x) 1))%string]
               (map a_texts (out_ann d'))) d);
    [from_wpt|].
  open_decoder d. open_xfer x. subst. open_list rows Hlen. open_rows.
  wp_run.
  all: proj; (split; [reflexivity|]); (split; [reflexivity|]);
    rewrite <- ?app_assoc, map_app; apply in_or_app; right;
    cbn [List.app map a_texts In]; auto 10.
Qed.

Example argument_big_endian :
  arg (final (run_sample (spi_bytes 0 (host [81; 18; 52; 86; 120; 1]))))
  = Some 305419896.
Proof. vm_compute. reflexivity. Qed.

(** ** The application command flag *)

(** C2 as stated fails: after the sixth byte of the token of CMD55 the
    flag is not set. *)
Lemma cmd55_flag_clear_after_sixth_byte :
  state (final (run_sample cmd55_token)) = HANDLE_CMD 55 /\
  is_acmd (final (run_sample cmd55_token)) <> true.
Proof. vm_compute. split; [reflexivity | discriminate]. Qed.

(** The sixth byte of a token with command index 55 leaves the flag
    clear and the phase at the handling of CMD55. *)
Lemma cmd55_sixth_byte cn an d x t0 t1 t2 t3 t4 rows :
  state d = GET_COMMAND_TOKEN ->
  cmd_token d = [t0; t1; t2; t3; t4] ->
  cmd_token_bits d = rows -> List.length rows = 5%nat ->
  Forall (fun r => List.length r = 8%nat) (x_mosi_bits x :: rows) ->
  Z.land t0 63 = 55 ->
  exists d6,
    run cn an (xfer_events x) d = Ok tt d6 /\
    state d6 = HANDLE_CMD 55 /\ is_acmd d6 = false.
Proof.
  intros Hst Ht Hrows Hlen Hall H55.
  cut (wpt (run cn an (xfer_events x))
         (fun _ d6 => state d6 = HANDLE_CMD 55 /\ is_acmd d6 = false) d).
  { intros H. apply wpt_elim in H. destruct H as ([] & d' & H1 & H2).
    exists d'. split; assumption. }
  open_decoder d. open_xfer x. subst. open_list rows Hlen. open_rows.
  wp_run.
  all: bool_hyps; rewrite ?H55 in *; proj;
    try discriminate; try congruence; try (split; reflexivity).
Qed.

(** The byte after the token of CMD55 runs the handler, which sets the
    flag. *)
Lemma cmd55_handled cn an d x :
  state d = HANDLE_CMD 55 -> is_acmd d = false ->
  exists d7,
    run cn an (xfer_events x) d = Ok tt d7 /\
    state d7 = GET_RESPONSE_R1 /\ is_acmd d7 = true.
Proof.
  intros Hst Ha.
  cut (wpt (run cn an (xfer_events x))
         (fun _ d7 => state d7 = GET_RESPONSE_R1 /\ is_acmd d7 = true) d).
  { intros H. apply wpt_elim in H. destruct H as ([] & d' & H1 & H2).
    exists d'. split; assumption. }
  open_decoder d. open_xfer x. subst.
  wp_run. split; reflexivity.
Qed.

(** Once the handler of a command other than CMD55 has run, the flag is
    clear. *)
Lemma command_handled_clears_flag cn an s e mo mi c d d' :
  state d = HANDLE_CMD c -> c <> 55 ->
  decode cn an s e (DATA mo mi) d = Ok tt d' ->
  is_acmd d' = false.
Proof.
  intros Hst Hc. apply (wp_elim _ (fun _ d' => is_acmd d' = false)).
  open_decoder d. subst. unfold decode. wp_prim.
  wp_case; [|wp_prim; exact I]. wp_prim.
  eapply wp_conseq with (Q := fun _ _ => True).
  { unfold wpg. destruct (m _); exact I. }
  intros _ d1 _. open_decoder d1. wp_prim.
  apply Z.eqb_neq in Hc. rewrite Hc. cbn [negb].
  rewrite andb_true_r. wp_run; reflexivity.
Qed.

(** C2, amended: the sixth byte of a token with command index 55 leaves
    the flag clear and makes the phase that of the handling of CMD55; the
    next byte runs the handler, and the flag is set after it.  After the
    byte that runs the handler of a later command other than CMD55, the
    flag is clear. *)
Theorem cmd55_acmd_window cn an :
  (forall d x6 x7 t0 t1 t2 t3 t4 rows,
     state d = GET_COMMAND_TOKEN ->
     cmd_token d = [t0; t1; t2; t3; t4] ->
     cmd_token_bits d = rows -> List.length rows = 5%nat ->
     Forall (fun r => List.length r = 8%nat) (x_mosi_bits x6 :: rows) ->
     Z.land t0 63 = 55 ->
     exists d6 d7,
       run cn an (xfer_events x6) d = Ok tt d6 /\
       state d6 = HANDLE_CMD 55 /\ is_acmd d6 = false /\
       run cn an (xfer_events x7) d6 = Ok tt d7 /\
       state d7 = GET_RESPONSE_R1 /\ is_acmd d7 = true) /\
  (forall s e mo mi c d d',
     state d = HANDLE_CMD c -> c <> 55 ->
     decode cn an s e (DATA mo mi) d = Ok tt d' ->
     is_acmd d' = false).
Proof.
  split.
  - intros d x6 x7 t0 t1 t2 t3 t4 rows Hst Ht Hrows Hlen Hall H55.
    destruct (cmd55_sixth_byte cn an d x6 t0 t1 t2 t3 t4 rows
                Hst Ht Hrows Hlen Hall H55) as (d6 & Hd6 & Hst6 & Ha6).
    destruct (cmd55_handled cn an d6 x7 Hst6 Ha6) as (d7 & Hd7 & Hst7 & Ha7).
    exists d6, d7. repeat split; assumption.
  - intros s e mo mi c d d'. apply command_handled_clears_flag.
Qed.

(** CMD55 and ACMD41 with their responses: the flag after each byte.  It
    is set by the byte after the token of CMD55 and cleared by the byte
    after the token of ACMD41. *)
Example acmd41_session_flag :
  map (fun k =>
         is_acmd (final (run_sample
           (spi_bytes 0 (firstn k (host [119; 0; 0; 0; 0; 101]
                                   ++ card [255; 1]
                                   ++ host [105; 64; 0; 0; 0; 119]
                                   ++ card [255; 0]))))))
      [5; 6; 7; 8; 13; 14; 15; 16]%nat
  = [false; false; true; true; true; true; false; false].
Proof. vm_compute. reflexivity. Qed.

(** ACMD13 has no handler: the byte after its token raises, and the flag
    stays set. *)
Example acmd13_raises :
  let r := run_sample (spi_bytes 0 (host [119; 0; 0; 0; 0; 101]
                                    ++ card [255; 1]
                                    ++ host [77; 0; 0; 0; 0; 1]
                                    ++ card [255])) in
  raised r = Some AttributeError /\ is_acmd (final r) = true.
Proof. vm_compute. split; reflexivity. Qed.

Lemma cmd55_acmd_window_witness :
  (exists d6 d7,
     run sample_cmd_names sample_acmd_names
         (xfer_events (mkXfer 40 48 (spi_bits 101 40) (spi_bits 255 40)
                         101 255))
         (final (run_sample (spi_bytes 0 (host [119; 0; 0; 0; 0]))))
     = Ok tt d6 /\
     is_acmd d6 = false /\
     run sample_cmd_names sample_acmd_names
         (xfer_events (mkXfer 48 56 (spi_bits 255 48) (spi_bits 255 48)
                         255 255)) d6
     = Ok tt d7 /\
     is_acmd d7 = true) /\
  is_acmd
    (final (decode sample_cmd_names sample_acmd_names 112 120 (DATA 255 255)
              (final (run_sample
                        (spi_bytes 0 (host [119; 0; 0; 0; 0; 101]
                                      ++ card [255; 1]
                                      ++ host [105; 64; 0; 0; 0; 119]))))))
  = false.
Proof.
  destruct (cmd55_acmd_window sample_cmd_names sample_acmd_names)
    as (H55 & Hnext).
  split.
  - destruct (H55 (final (run_sample (spi_bytes 0 (host [119; 0; 0; 0; 0]))))
                  (mkXfer 40 48 (spi_bits 101 40) (spi_bits 255 40) 101 255)
                  (mkXfer 48 56 (spi_bits 255 48) (spi_bits 255 48) 255 255)
                  119 0 0 0 0
                  [spi_bits 119 0; spi_bits 0 8; spi_bits 0 16;
                   spi_bits 0 24; spi_bits 0 32])
      as (d6 & d7 & Hd6 & _ & Ha6 & Hd7 & _ & Ha7);
      [reflexivity | reflexivity | reflexivity | reflexivity
       | repeat constructor | reflexivity |].
    exists d6, d7. repeat split; assumption.
  - apply (Hnext 112 120 255 255 41
             (final (run_sample
                       (spi_bytes 0 (host [119; 0; 0; 0; 0; 101]
                                     ++ card [255; 1]
                                     ++ host [105; 64; 0; 0; 0; 119]))))).
    + reflexivity.
    + discriminate.
    + vm_compute. reflexivity.
Defined.

(** ** The block flags and the phase *)

Lemma handler_method_cases a cmd h :
  handler_method a cmd = Some h -> In h handlers.
Proof.
  unfold handler_method.
  repeat match goal with
         | |- context [match ?x with _ => _ end] => destruct x
         end;
    intros H; try discriminate H; injection H as <-;
    cbn; tauto.
Qed.

Ltac flags_done :=
  unfold flags_inv; proj; bool_hyps; subst;
  repeat match goal with
         | H : _ /\ _ |- _ => destruct H
         | H : _ \/ _ |- _ => destruct H
         end;
  subst; auto; try discriminate; try congruence.

(** A command handler, entered with both flags clear, keeps the flags
    and the phase in line. *)
Lemma handlers_flags :
  Forall (fun h => forall d c,
            state d = HANDLE_CMD c ->
            is_cmd17 d = false -> is_cmd24 d = false ->
            wp h (fun _ d' => flags_inv d') d)
         handlers.
Proof.
  unfold handlers.
  repeat (apply Forall_cons;
          [intros d c Hst H17 H24; open_decoder d; subst; wp_run;
           flags_done|]).
  apply Forall_nil.
Qed.

(** The token handler leaves the flags alone and the phase as it is or
    at the handling of a command. *)
Lemma handle_command_token_phase cn an mo mi d :
  wp (handle_command_token cn an mo mi)
     (fun _ d' => is_cmd17 d' = is_cmd17 d /\ is_cmd24 d' = is_cmd24 d /\
                  (state d' = state d \/ exists c, state d' = HANDLE_CMD c))
     d.
Proof.
  open_decoder d. wp_run; cbn; eauto.
Qed.

Lemma decode_flags_inv cn an s e p d :
  flags_inv d ->
  wp (decode cn an s e p) (fun _ d' => flags_inv d') d.
Proof.
  intros Hinv. destruct p as [mo mi | mb sb | old new | ].
  - (* DATA *)
    open_decoder d. unfold decode. wp_prim. wp_case.
    all: unfold flags_inv in Hinv; cbn in Hinv.
    1: { wp_case; [wp_prim; flags_done|]. wp_prim.
         eapply wp_conseq; [apply handle_command_token_phase|].
         cbn. intros _ d1 (H17 & H24 & [H | [c H]]);
           unfold flags_inv; rewrite H, H17, H24; exact Hinv. }
    1: { eapply wp_conseq; [apply handle_command_token_phase|].
         cbn. intros _ d1 (H17 & H24 & [H | [c H]]);
           unfold flags_inv; rewrite H, H17, H24; exact Hinv. }
    1: { wp_prim. wp_case; [|wp_prim; exact I]. wp_prim.
         pose proof (handler_method_cases _ _ _ Heqo) as Hin.
         pose proof handlers_flags as Hall.
         rewrite Forall_forall in Hall. destruct Hinv as [H17 H24].
         eapply wp_conseq;
           [eapply (Hall _ Hin); [reflexivity | exact H17 | exact H24]|].
         cbv beta. intros _ d1 H1. open_decoder d1. wp_run; exact H1. }
    all: wp_run; try exact I; flags_done.
  - open_decoder d. unfold decode. wp_run. exact Hinv.
  - open_decoder d. unfold decode. wp_run; try exact I; flags_done.
  - exact Hinv.
Qed.

Lemma reachable_flags_inv cn an d : reachable cn an d -> flags_inv d.
Proof.
  induction 1 as [|d s e p d' _ IH Hd].
  - split; reflexivity.
  - exact (wp_elim _ _ _ _ _ (decode_flags_inv cn an s e p d IH) Hd).
Qed.

(** A valid data response byte with the write flag set: the method
    returns in the busy wait phase, or raises in the data response
    phase. *)
Lemma data_response_valid_cmd24 cn an s e mo mi d :
  state d = DATA_RESPONSE -> is_cmd24 d = true ->
  valid_data_response mi = true ->
  wpg (fun _ d' => state d' = DATA_RESPONSE)
      (decode cn an s e (DATA mo mi))
      (fun _ d' => state d' = WAIT_WHILE_CARD_BUSY) d.
Proof.
  unfold valid_data_response. intros Hst H24 Hv.
  open_decoder d. subst. unfold decode. wp_lin.
  rewrite Hv. cbn [negb]. wp_run; reflexivity.
Qed.

(** C10: in a state a session reaches, the write flag is set whenever the
    phase is the data response phase; a valid data response byte then
    never leaves the decoder in IDLE: a call that returns has made the
    phase the busy wait phase, and it returns at least when the byte has
    its eight bits. *)
Theorem data_response_implies_cmd24 cn an d :
  reachable cn an d -> state d = DATA_RESPONSE ->
  is_cmd24 d = true /\
  forall s e mo mi, valid_data_response mi = true ->
    (forall d', decode cn an s e (DATA mo mi) d = Ok tt d' ->
                state d' = WAIT_WHILE_CARD_BUSY) /\
    state (final (decode cn an s e (DATA mo mi) d)) <> IDLE /\
    (forall m, miso_bits d = Some m -> List.length m = 8%nat ->
               raised (decode cn an s e (DATA mo mi) d) = None).
Proof.
  intros Hr Hst.
  assert (H24 : is_cmd24 d = true).
  { pose proof (reachable_flags_inv _ _ _ Hr) as Hinv.
    unfold flags_inv in Hinv. rewrite Hst in Hinv. apply Hinv. }
  split; [exact H24|]. intros s e mo mi Hv.
  pose proof (data_response_valid_cmd24 cn an s e mo mi d Hst H24 Hv) as Hwp.
  unfold wpg in Hwp.
  repeat split.
  - intros d' Hd. rewrite Hd in Hwp. exact Hwp.
  - destruct (decode cn an s e (DATA mo mi) d); cbn [final];
      rewrite Hwp; discriminate.
  - intros m Hm Hlen.
    assert (Ht : wpt (decode cn an s e (DATA mo mi))
                     (fun _ _ => True) d).
    { unfold valid_data_response in Hv. clear Hwp Hr.
      open_decoder d. subst.
      do 9 (destruct m as [|? m]; try discriminate Hlen).
      unfold decode. wp_lin. rewrite Hv. cbn [negb]. wp_run; exact I. }
    unfold wpg in Ht.
    destruct (decode cn an s e (DATA mo mi) d); [reflexivity|contradiction].
Qed.

Lemma data_response_implies_cmd24_witness :
  is_cmd24 (final (run_sample write_one_byte)) = true /\
  state (final (decode sample_cmd_names sample_acmd_names 200 208
                  (DATA 255 229) (final (run_sample write_one_byte))))
  <> IDLE.
Proof.
  assert (Hrun : run sample_cmd_names sample_acmd_names write_one_byte
                   new_Decoder
                 = Ok tt (final (run_sample write_one_byte)))
    by (vm_compute; reflexivity).
  destruct (data_response_implies_cmd24 sample_cmd_names sample_acmd_names
              (final (run_sample write_one_byte))) as [H24 H].
  - exact (run_reachable _ _ _ _ _ (reach_new _ _) Hrun).
  - vm_compute. reflexivity.
  - split; [exact H24|].
    destruct (H 200 208 255 229) as (_ & Hidle & _); [reflexivity|].
    exact Hidle.
Defined.

(** ** Responses *)

(** In the R3 phase a byte 0xff after the first one is a byte of the
    response like any other: after the R1 byte 0x00 of a READ_OCR the
    byte 0xff is added to the buffer. *)
Example r3_accumulates_0xff :
  let d1 := final (run_sample (read_ocr [0])) in
  let d2 := final (run_sample (read_ocr [0; 255])) in
  state d1 = GET_RESPONSE_R3 /\ read_buf d1 = [0] /\
  state d2 = GET_RESPONSE_R3 /\ read_buf d2 = [0; 255] /\
  read_buf d2 <> read_buf d1.
Proof. vm_compute. repeat split; discriminate. Qed.

Section Responses.

Variables cn an : name_table.

(** In the R1 phase a byte 0xff changes the current sample range and
    nothing else. *)
Lemma r1_ignores_0xff s e mo d :
  state d = GET_RESPONSE_R1 ->
  decode cn an s e (DATA mo 255) d = Ok tt (set_es e (set_ss s d)).
Proof.
  intros Hst. destruct d. cbn in Hst. subst. reflexivity.
Qed.

Lemma r1_one_byte d x :
  state d = GET_RESPONSE_R1 -> x_miso x <> 255 ->
  List.length (x_miso_bits x) = 8%nat ->
  exists d',
    run cn an (xfer_events x) d = Ok tt d' /\
    (state d' = after_r1 d /\ read_buf d' = read_buf d).
Proof.
  intros Hst Hff Hlen.
  cut (wpt (run cn an (xfer_events x))
         (fun _ d' => state d' = after_r1 d /\ read_buf d' = read_buf d) d);
    [from_wpt|].
  unfold after_r1. open_decoder d. open_xfer x. subst. open_list x_sb Hlen.
  apply Z.eqb_neq in Hff.
  wp_prim. rewrite Hff. wp_run; split; reflexivity.
Qed.

Lemma r2_first_byte d x :
  state d = GET_RESPONSE_R2 -> read_buf d = [] ->
  is_cmd17 d = false -> is_cmd24 d = false ->
  List.length (x_miso_bits x) = 8%nat ->
  exists d',
    run cn an (xfer_events x) d = Ok tt d' /\
    (state d' = GET_RESPONSE_R2 /\ read_buf d' = [x_miso x] /\
     is_cmd17 d' = false /\ is_cmd24 d' = false).
Proof.
  intros Hst Hb H17 H24 Hlen.
  cut (wpt (run cn an (xfer_events x))
         (fun _ d' => state d' = GET_RESPONSE_R2 /\ read_buf d' = [x_miso x] /\
                      is_cmd17 d' = false /\ is_cmd24 d' = false) d);
    [from_wpt|].
  open_decoder d. open_xfer x. subst. open_list x_sb Hlen.
  wp_run. repeat split.
Qed.

Lemma r2_second_byte d x b1 :
  state d = GET_RESPONSE_R2 -> read_buf d = [b1] ->
  List.length (x_miso_bits x) = 8%nat ->
  exists d',
    run cn an (xfer_events x) d = Ok tt d' /\
    (state d' = IDLE /\ read_buf d' = []).
Proof.
  intros Hst Hb Hlen.
  cut (wpt (run cn an (xfer_events x))
         (fun _ d' => state d' = IDLE /\ read_buf d' = []) d);
    [from_wpt|].
  open_decoder d. open_xfer x. subst. open_list x_sb Hlen.
  wp_run. repeat split.
Qed.

(** A byte of an R3 response before the fifth is added to the buffer,
    and its bits to the bits. *)
Lemma r3_next_byte d x buf rows :
  in_response GET_RESPONSE_R3 buf rows d ->
  List.length buf = List.length rows -> (List.length buf < 4)%nat ->
  List.length (x_miso_bits x) = 8%nat ->
  exists d',
    run cn an (xfer_events x) d = Ok tt d' /\
    in_response GET_RESPONSE_R3 (buf ++ [x_miso x])
      (rows ++ [x_miso_bits x]) d'.
Proof.
  intros (Hst & Hb & Hr & H17 & H24) Hlen Hlt Hx.
  cut (wpt (run cn an (xfer_events x))
         (fun _ d' => in_response GET_RESPONSE_R3 (buf ++ [x_miso x])
                        (rows ++ [x_miso_bits x]) d') d);
    [from_wpt|].
  unfold in_response.
  open_decoder d. open_xfer x. subst. open_list x_sb Hx.
  destruct buf as [|? [|? [|? [|? [|? ?]]]]]; cbn in Hlt; try lia;
    destruct rows as [|? [|? [|? [|? ?]]]]; try discriminate Hlen;
    wp_run; repeat split.
Qed.

(** The fifth byte of an R3 response ends it. *)
Lemma r3_fifth_byte d x b1 b2 b3 b4 rows :
  in_response GET_RESPONSE_R3 [b1; b2; b3; b4] rows d ->
  List.length rows = 4%nat ->
  Forall (fun r => List.length r = 8%nat) (x_miso_bits x :: rows) ->
  exists d',
    run cn an (xfer_events x) d = Ok tt d' /\
    (state d' = IDLE /\ read_buf d' = [] /\ read_bits d' = []).
Proof.
  intros (Hst & Hb & Hr & H17 & H24) Hlen Hall.
  cut (wpt (run cn an (xfer_events x))
         (fun _ d' => state d' = IDLE /\ read_buf d' = [] /\
                      read_bits d' = []) d);
    [from_wpt|].
  open_decoder d. open_xfer x. subst. open_list rows Hlen. open_rows.
  wp_run; repeat split.
Qed.

(** The power up status that the fifth byte of an R3 response reports is
    the top bit of the second byte, bit 31 of the OCR. *)
Lemma r3_power_up_bit d x b1 b2 b3 b4 r1 r2 r3 r4 :
  in_response GET_RESPONSE_R3 [b1; b2; b3; b4] [r1; r2; r3; r4] d ->
  Forall (fun r => List.length r = 8%nat) [x_miso_bits x; r1; r2; r3; r4] ->
  exists d',
    run cn an (xfer_events x) d = Ok tt d' /\
    In (mkAnn (b_ss (bit_at r2 7)) (b_es (bit_at r2 7)) Ann.BIT
          [("Card has "
            ++ (if truthy (b_val (bit_at r2 7)) then "" else "not ")
            ++ "finished the power up routine")%string])
       (out_ann d').
Proof.
  intros (Hst & Hb & Hr & H17 & H24) Hall.
  cut (wpt (run cn an (xfer_events x))
         (fun _ d' =>
            In (mkAnn (b_ss (bit_at r2 7)) (b_es (bit_at r2 7)) Ann.BIT
                  [("Card has "
                    ++ (if truthy (b_val (bit_at r2 7)) then "" else "not ")
                    ++ "finished the power up routine")%string])
               (out_ann d')) d);
    [from_wpt|].
  open_decoder d. open_xfer x. subst. open_rows.
  wp_run; proj; rewrite <- ?app_assoc; apply in_or_app; right;
    cbn [List.app In bit_at nth]; auto.
Qed.

(** The five bytes of an R3 response. *)
Lemma r3_five_bytes d x1 x2 x3 x4 x5 :
  in_response GET_RESPONSE_R3 [] [] d ->
  Forall (fun x => List.length (x_miso_bits x) = 8%nat)
         [x1; x2; x3; x4; x5] ->
  exists d1 d2 d3 d4 d5,
    run cn an (xfer_events x1) d = Ok tt d1 /\
    run cn an (xfer_events x2) d1 = Ok tt d2 /\
    run cn an (xfer_events x3) d2 = Ok tt d3 /\
    run cn an (xfer_events x4) d3 = Ok tt d4 /\
    run cn an (xfer_events x5) d4 = Ok tt d5 /\
    map state [d1; d2; d3; d4; d5]
    = [GET_RESPONSE_R3; GET_RESPONSE_R3; GET_RESPONSE_R3; GET_RESPONSE_R3;
       IDLE] /\
    map read_buf [d1; d2; d3; d4; d5]
    = [map x_miso [x1]; map x_miso [x1; x2]; map x_miso [x1; x2; x3];
       map x_miso [x1; x2; x3; x4]; []].
Proof.
  intros Hin Hall.
  inversion Hall as [|? ? H1 Hall1]; subst.
  inversion Hall1 as [|? ? H2 Hall2]; subst.
  inversion Hall2 as [|? ? H3 Hall3]; subst.
  inversion Hall3 as [|? ? H4 Hall4]; subst.
  inversion Hall4 as [|? ? H5 _]; subst.
  destruct (r3_next_byte d x1 [] [] Hin) as (d1 & Hd1 & Hin1);
    [reflexivity | cbn; lia | exact H1 |].
  destruct (r3_next_byte d1 x2 _ _ Hin1) as (d2 & Hd2 & Hin2);
    [reflexivity | cbn; lia | exact H2 |].
  destruct (r3_next_byte d2 x3 _ _ Hin2) as (d3 & Hd3 & Hin3);
    [reflexivity | cbn; lia | exact H3 |].
  destruct (r3_next_byte d3 x4 _ _ Hin3) as (d4 & Hd4 & Hin4);
    [reflexivity | cbn; lia | exact H4 |].
  cbn [List.app] in *.
  destruct (r3_fifth_byte d4 x5 _ _ _ _ _ Hin4) as (d5 & Hd5 & Hst5 & Hb5 & _);
    [reflexivity | repeat constructor; assumption |].
  exists d1, d2, d3, d4, d5.
  destruct Hin1 as (S1 & B1 & _), Hin2 as (S2 & B2 & _),
           Hin3 as (S3 & B3 & _), Hin4 as (S4 & B4 & _).
  cbn [map]. rewrite S1, S2, S3, S4, Hst5, B1, B2, B3, B4, Hb5.
  repeat split; assumption.
Qed.

(** A byte of an R7 response before the fifth is added to the buffer,
    and its bits to the bits. *)
Lemma r7_next_byte d x buf rows :
  in_response GET_RESPONSE_R7 buf rows d ->
  List.length buf = List.length rows -> (List.length buf < 4)%nat ->
  List.length (x_miso_bits x) = 8%nat ->
  exists d',
    run cn an (xfer_events x) d = Ok tt d' /\
    in_response GET_RESPONSE_R7 (buf ++ [x_miso x])
      (rows ++ [x_miso_bits x]) d'.
Proof.
  intros (Hst & Hb & Hr & H17 & H24) Hlen Hlt Hx.
  cut (wpt (run cn an (xfer_events x))
         (fun _ d' => in_response GET_RESPONSE_R7 (buf ++ [x_miso x])
                        (rows ++ [x_miso_bits x]) d') d);
    [from_wpt|].
  unfold in_response.
  open_decoder d. open_xfer x. subst. open_list x_sb Hx.
  destruct buf as [|? [|? [|? [|? [|? ?]]]]]; cbn in Hlt; try lia;
    destruct rows as [|? [|? [|? [|? ?]]]]; try discriminate Hlen;
    wp_run; repeat split.
Qed.

(** The fifth byte of an R7 response ends it. *)
Lemma r7_fifth_byte d x b1 b2 b3 b4 rows :
  in_response GET_RESPONSE_R7 [b1; b2; b3; b4] rows d ->
  List.length rows = 4%nat ->
  Forall (fun r => List.length r = 8%nat) (x_miso_bits x :: rows) ->
  exists d',
    run cn an (xfer_events x) d = Ok tt d' /\
    (state d' = IDLE /\ read_buf d' = [] /\ read_bits d' = []).
Proof.
  intros (Hst & Hb & Hr & H17 & H24) Hlen Hall.
  cut (wpt (run cn an (xfer_events x))
         (fun _ d' => state d' = IDLE /\ read_buf d' = [] /\
                      read_bits d' = []) d);
    [from_wpt|].
  open_decoder d. open_xfer x. subst. open_list rows Hlen. open_rows.
  wp_run; repeat split.
Qed.

(** The five bytes of an R7 response. *)
Lemma r7_five_bytes d x1 x2 x3 x4 x5 :
  in_response GET_RESPONSE_R7 [] [] d ->
  Forall (fun x => List.length (x_miso_bits x) = 8%nat)
         [x1; x2; x3; x4; x5] ->
  exists d1 d2 d3 d4 d5,
    run cn an (xfer_events x1) d = Ok tt d1 /\
    run cn an (xfer_events x2) d1 = Ok tt d2 /\
    run cn an (xfer_events x3) d2 = Ok tt d3 /\
    run cn an (xfer_events x4) d3 = Ok tt d4 /\
    run cn an (xfer_events x5) d4 = Ok tt d5 /\
    map state [d1; d2; d3; d4; d5]
    = [GET_RESPONSE_R7; GET_RESPONSE_R7; GET_RESPONSE_R7; GET_RESPONSE_R7;
       IDLE] /\
    map read_buf [d1; d2; d3; d4; d5]
    = [map x_miso [x1]; map x_miso [x1; x2]; map x_miso [x1; x2; x3];
       map x_miso [x1; x2; x3; x4]; []].
Proof.
  intros Hin Hall.
  inversion Hall as [|? ? H1 Hall1]; subst.
  inversion Hall1 as [|? ? H2 Hall2]; subst.
  inversion Hall2 as [|? ? H3 Hall3]; subst.
  inversion Hall3 as [|? ? H4 Hall4]; subst.
  inversion Hall4 as [|? ? H5 _]; subst.
  destruct (r7_next_byte d x1 [] [] Hin) as (d1 & Hd1 & Hin1);
    [reflexivity | cbn; lia | exact H1 |].
  destruct (r7_next_byte d1 x2 _ _ Hin1) as (d2 & Hd2 & Hin2);
    [reflexivity | cbn; lia | exact H2 |].
  destruct (r7_next_byte d2 x3 _ _ Hin2) as (d3 & Hd3 & Hin3);
    [reflexivity | cbn; lia | exact H3 |].
  destruct (r7_next_byte d3 x4 _ _ Hin3) as (d4 & Hd4 & Hin4);
    [reflexivity | cbn; lia | exact H4 |].
  cbn [List.app] in *.
  destruct (r7_fifth_byte d4 x5 _ _ _ _ _ Hin4) as (d5 & Hd5 & Hst5 & Hb5 & _);
    [reflexivity | repeat constructor; assumption |].
  exists d1, d2, d3, d4, d5.
  destruct Hin1 as (S1 & B1 & _), Hin2 as (S2 & B2 & _),
           Hin3 as (S3 & B3 & _), Hin4 as (S4 & B4 & _).
  cbn [map]. rewrite S1, S2, S3, S4, Hst5, B1, B2, B3, B4, Hb5.
  repeat split; assumption.
Qed.

End Responses.

(** In a state a session reaches, both block flags are clear in the
    phases of the responses of several bytes. *)
Lemma reachable_response_flags cn an d :
  reachable cn an d ->
  state d = GET_RESPONSE_R2 \/ state d = GET_RESPONSE_R3 \/
  state d = GET_RESPONSE_R7 ->
  is_cmd17 d = false /\ is_cmd24 d = false.
Proof.
  intros Hr Hst. pose proof (reachable_flags_inv _ _ _ Hr) as Hinv.
  unfold flags_inv in Hinv.
  destruct Hst as [Hst | [Hst | Hst]]; rewrite Hst in Hinv; exact Hinv.
Qed.

(** The bytes of the responses.  In the R1 phase a byte 0xff changes
    nothing but the current sample range, and any other byte ends the
    phase.  In the R2, R3 and R7 phases, entered with empty buffers,
    every byte after a first byte other than 0xff is added to the buffer
    whatever its value, and the phase ends with the second byte (R2) or
    the fifth (R3, R7). *)
Lemma response_bytes cn an :
  (forall s e mo d,
     state d = GET_RESPONSE_R1 ->
     decode cn an s e (DATA mo 255) d = Ok tt (set_es e (set_ss s d))) /\
  (forall d x,
     state d = GET_RESPONSE_R1 -> x_miso x <> 255 ->
     List.length (x_miso_bits x) = 8%nat ->
     exists d',
       run cn an (xfer_events x) d = Ok tt d' /\
       state d' = after_r1 d /\ state d' <> GET_RESPONSE_R1) /\
  (forall d x1 x2,
     in_response GET_RESPONSE_R2 [] (read_bits d) d ->
     x_miso x1 <> 255 ->
     Forall (fun x => List.length (x_miso_bits x) = 8%nat) [x1; x2] ->
     exists d1 d2,
       run cn an (xfer_events x1) d = Ok tt d1 /\
       run cn an (xfer_events x2) d1 = Ok tt d2 /\
       map state [d1; d2] = [GET_RESPONSE_R2; IDLE] /\
       map read_buf [d1; d2] = [[x_miso x1]; []]) /\
  (forall p d x1 x2 x3 x4 x5,
     p = GET_RESPONSE_R3 \/ p = GET_RESPONSE_R7 ->
     in_response p [] [] d ->
     x_miso x1 <> 255 ->
     Forall (fun x => List.length (x_miso_bits x) = 8%nat)
            [x1; x2; x3; x4; x5] ->
     exists d1 d2 d3 d4 d5,
       run cn an (xfer_events x1) d = Ok tt d1 /\
       run cn an (xfer_events x2) d1 = Ok tt d2 /\
       run cn an (xfer_events x3) d2 = Ok tt d3 /\
       run cn an (xfer_events x4) d3 = Ok tt d4 /\
       run cn an (xfer_events x5) d4 = Ok tt d5 /\
       map state [d1; d2; d3; d4; d5] = [p; p; p; p; IDLE] /\
       map read_buf [d1; d2; d3; d4; d5]
       = [map x_miso [x1]; map x_miso [x1; x2]; map x_miso [x1; x2; x3];
          map x_miso [x1; x2; x3; x4]; []]).
Proof.
  split; [|split; [|split]].
  - intros s e mo d. apply r1_ignores_0xff.
  - intros d x Hst Hff Hlen.
    destruct (r1_one_byte cn an d x Hst Hff Hlen) as (d' & Hd & Hst' & _).
    exists d'. repeat split; [exact Hd | exact Hst' |].
    rewrite Hst'. unfold after_r1.
    destruct (is_cmd24 d), (is_cmd17 d); discriminate.
  - intros d x1 x2 (Hst & Hb & _ & H17 & H24) _ Hall.
    inversion Hall as [|? ? H1 Hall1]; subst.
    inversion Hall1 as [|? ? H2 _]; subst.
    destruct (r2_first_byte cn an d x1 Hst Hb H17 H24 H1)
      as (d1 & Hd1 & Hst1 & Hb1 & _).
    destruct (r2_second_byte cn an d1 x2 _ Hst1 Hb1 H2)
      as (d2 & Hd2 & Hst2 & Hb2).
    exists d1, d2. cbn [map]. rewrite Hst1, Hst2, Hb1, Hb2.
    repeat split; assumption.
  - intros p d x1 x2 x3 x4 x5 [-> | ->] Hin _ Hall.
    + apply r3_five_bytes; assumption.
    + apply r7_five_bytes; assumption.
Qed.

(** ** The R3 response *)

(** C8 as stated fails: after 0xc0 0x08 0x00 0x00 0x00 the decoder does
    not report the power up status bit as set. *)
Lemma r3_c0_08_not_powered_up :
  ~ In "Card has finished the power up routine"
       (texts (run_sample (read_ocr [192; 8; 0; 0; 0]))).
Proof.
  vm_compute. intros H.
  repeat (destruct H as [H | H]; [discriminate H|]).
  exact H.
Qed.

(** C8, amended: of the five bytes 0xc0 0x08 0x00 0x00 0x00 the first is
    the R1 part and the other four are the OCR, 0x08000000; its bit 31
    is clear and the decoder reports the power up status bit as not set.
    The phase is R3 up to the fourth byte and IDLE after the fifth. *)
Theorem r3_c0_08_power_up_clear cn an :
  let r := run cn an (read_ocr [192; 8; 0; 0; 0]) new_Decoder in
  raised r = None /\ state (final r) = IDLE /\
  In (mkAnn 56 96 Ann.R3 ["R3: [R1: 0xc0, OCR: 0x08000000]"])
     (annotations r) /\
  In (mkAnn 64 65 Ann.BIT ["Card has not finished the power up routine"])
     (annotations r) /\
  Z.testbit 134217728 31 = false /\
  state (final (run cn an (read_ocr []) new_Decoder)) = GET_RESPONSE_R3 /\
  state (final (run cn an (read_ocr [192; 8; 0; 0]) new_Decoder))
  = GET_RESPONSE_R3.
Proof.
  vm_compute.
  repeat split; repeat (first [left; reflexivity | right]).
Qed.

(** ** The data response *)

(** C4: a byte in the data response phase.  When its low five bits fail
    the test [(value & 0x11) == 0x01], nothing changes but the current
    sample range, and the phase is still the data response phase for the
    next byte.  When they pass it and the byte has its eight bits, the
    call returns and has put out, for the values 0x05, 0x0b and 0x0d,
    the annotation 'Data accepted', 'Data rejected (CRC error)' and
    'Data rejected (write error)' on bits 3 to 1; with the write flag
    set the phase then is the busy wait phase. *)
Theorem data_response_byte cn an s e mo mi d :
  state d = DATA_RESPONSE ->
  (valid_data_response mi = false ->
   decode cn an s e (DATA mo mi) d = Ok tt (set_es e (set_ss s d))) /\
  (valid_data_response mi = true ->
   forall m, miso_bits d = Some m -> List.length m = 8%nat ->
   exists d' new,
     decode cn an s e (DATA mo mi) d = Ok tt d' /\
     out_ann d' = (out_ann d ++ new)%list /\
     (Z.land mi 31 = 5 ->
      In (mkAnn (b_ss (bit_at m 3)) (b_es (bit_at m 1)) Ann.BIT
            ["Data accepted"]) new) /\
     (Z.land mi 31 = 11 ->
      In (mkAnn (b_ss (bit_at m 3)) (b_es (bit_at m 1)) Ann.BIT
            ["Data rejected (CRC error)"]) new) /\
     (Z.land mi 31 = 13 ->
      In (mkAnn (b_ss (bit_at m 3)) (b_es (bit_at m 1)) Ann.BIT
            ["Data rejected (write error)"]) new) /\
     (is_cmd24 d = true ->
      state d' = WAIT_WHILE_CARD_BUSY /\ busy_first_byte d' = true) /\
     (is_cmd24 d = false -> state d' = IDLE)).
Proof.
  unfold valid_data_response. intros Hst. split.
  - intros Hv. destruct d. cbn in Hst. subst.
    unfold decode, bind, modify, get, handle_data_response. cbn.
    rewrite Hv. reflexivity.
  - intros Hv m Hm Hlen.
    cut (wpt (decode cn an s e (DATA mo mi))
           (fun _ d' => exists new,
              out_ann d' = (out_ann d ++ new)%list /\
              (Z.land mi 31 = 5 ->
               In (mkAnn (b_ss (bit_at m 3)) (b_es (bit_at m 1)) Ann.BIT
                     ["Data accepted"]) new) /\
              (Z.land mi 31 = 11 ->
               In (mkAnn (b_ss (bit_at m 3)) (b_es (bit_at m 1)) Ann.BIT
                     ["Data rejected (CRC error)"]) new) /\
              (Z.land mi 31 = 13 ->
               In (mkAnn (b_ss (bit_at m 3)) (b_es (bit_at m 1)) Ann.BIT
                     ["Data rejected (write error)"]) new) /\
              (is_cmd24 d = true ->
               state d' = WAIT_WHILE_CARD_BUSY /\ busy_first_byte d' = true) /\
              (is_cmd24 d = false -> state d' = IDLE)) d).
    { intros H. apply wpt_elim in H. destruct H as ([] & d' & Hd & new & H).
      exists d', new. split; assumption. }
    open_decoder d. subst. open_list m Hlen.
    unfold decode. wp_lin. rewrite Hv. cbn [negb]. wp_run.
    all: cbn [out_ann state busy_first_byte is_cmd24 bit_at nth];
      rewrite <- ?app_assoc; eexists; (split; [reflexivity|]);
      repeat match goal with
             | H : (_ =? _) = true |- _ => apply Z.eqb_eq in H
             | H : (_ =? _) = false |- _ => apply Z.eqb_neq in H
             end;
      cbn [List.app In];
      repeat split; intros; try congruence; try lia; auto 10.
Qed.

Lemma data_response_byte_witness :
  decode sample_cmd_names sample_acmd_names 200 208 (DATA 255 255)
         (final (run_sample write_one_byte))
  = Ok tt (set_es 208 (set_ss 200 (final (run_sample write_one_byte)))) /\
  exists d' new,
    decode sample_cmd_names sample_acmd_names 208 216 (DATA 255 229)
           (final (run_sample
                     (write_one_byte
                      ++ [(208, 216, BITS (spi_bits 255 208)
                                          (spi_bits 229 208))])))
    = Ok tt d' /\
    In (mkAnn 212 215 Ann.BIT ["Data accepted"]) new /\
    state d' = WAIT_WHILE_CARD_BUSY.
Proof.
  split.
  - apply (data_response_byte sample_cmd_names sample_acmd_names
             200 208 255 255 (final (run_sample write_one_byte)));
      reflexivity.
  - destruct (data_response_byte sample_cmd_names sample_acmd_names
                208 216 255 229
                (final (run_sample
                          (write_one_byte
                           ++ [(208, 216, BITS (spi_bits 255 208)
                                               (spi_bits 229 208))]))))
      as [_ H]; [reflexivity|].
    destruct (H eq_refl (spi_bits 229 208))
      as (d' & new & Hd & _ & H5 & _ & _ & H24 & _);
      [reflexivity | reflexivity |].
    exists d', new. repeat split.
    + exact Hd.
    + exact (H5 eq_refl).
    + exact (proj1 (H24 eq_refl)).
Defined.

(** ** Data blocks *)

Section Cmd17.

Variables cn an : name_table.

(** A byte that does not complete the block is added to the buffer. *)
Lemma cmd17_byte n sd buf o d x :
  in_block17 n sd buf o d ->
  Z.of_nat (List.length buf) + 1 < n ->
  exists d',
    run cn an (xfer_events x) d = Ok tt d' /\
    in_block17 n (block_start17 sd buf x) (buf ++ [x_miso x]) o d'.
Proof.
  unfold in_block17, block_size. intros (Hst & Hf & Hb & Ho & Hn) Hlt.
  cut (wpt (run cn an (xfer_events x))
         (fun _ d' => in_block17 n (block_start17 sd buf x)
                        (buf ++ [x_miso x]) o d') d).
  { intros H. apply wpt_elim in H. destruct H as ([] & d' & H1 & H2).
    exists d'. split; assumption. }
  unfold in_block17, block_start17.
  open_decoder d. subst. open_xfer x.
  destruct buf as [|b0 buf]; [|destruct Hn as [Hn Hsd]]; subst.
  all: wp_run.
  all: bool_hyps; rewrite ?length_app in *;
    cbn [List.length List.app Nat.add] in *; proj;
    repeat split; try reflexivity; try lia;
    try (destruct (v_blocklen =? 0) eqn:Hz; bool_hyps; lia).
Qed.

(** The byte that completes the block: the annotation of the block is
    put out, from the start of the block to the end of this byte, with
    all the bytes of the block. *)
Lemma cmd17_last_byte n sd buf o d x :
  in_block17 n sd buf o d ->
  Z.of_nat (List.length buf) + 1 = n ->
  exists d',
    run cn an (xfer_events x) d = Ok tt d' /\
    state d' = HANDLE_DATA_BLOCK_CMD17 /\
    out_ann d' =
      (o ++ [mkAnn (block_start17 sd buf x) (x_es x) (Ann.CMD 17)
               [("Block data: " ++ fmt_list (buf ++ [x_miso x]))%string]])%list.
Proof.
  unfold in_block17, block_size. intros (Hst & Hf & Hb & Ho & Hn) Hlt.
  cut (wpt (run cn an (xfer_events x))
         (fun _ d' =>
            state d' = HANDLE_DATA_BLOCK_CMD17 /\
            out_ann d' =
              (o ++ [mkAnn (block_start17 sd buf x) (x_es x) (Ann.CMD 17)
                       [("Block data: "
                         ++ fmt_list (buf ++ [x_miso x]))%string]])%list)
         d).
  { intros H. apply wpt_elim in H. destruct H as ([] & d' & H1 & H2).
    exists d'. split; assumption. }
  unfold block_start17.
  open_decoder d. subst. open_xfer x.
  destruct buf as [|b0 buf]; [|destruct Hn as [Hn Hsd]]; subst.
  all: wp_run.
  all: bool_hyps; rewrite ?length_app in *;
    cbn [List.length List.app Nat.add] in *; proj;
    repeat split; try reflexivity; try lia;
    try (destruct (v_blocklen =? 0) eqn:Hz; bool_hyps; lia).
Qed.

(** Bytes short of the block are added to the buffer and nothing is put
    out. *)
Lemma cmd17_bytes xs : forall n sd buf o d,
  in_block17 n sd buf o d ->
  Z.of_nat (List.length buf + List.length xs) < n ->
  exists d',
    run cn an (flat_map xfer_events xs) d = Ok tt d' /\
    in_block17 n (block_start_of17 sd buf xs) (buf ++ map x_miso xs) o d'.
Proof.
  induction xs as [|x xs IH]; intros n sd buf o d Hin Hlt.
  - exists d. cbn [flat_map run map block_start_of17].
    rewrite app_nil_r. split; [reflexivity | exact Hin].
  - cbn [List.length] in Hlt.
    destruct (cmd17_byte n sd buf o d x Hin) as (d1 & Hd1 & Hin1); [lia|].
    destruct (IH n (block_start17 sd buf x) (buf ++ [x_miso x]) o d1 Hin1)
      as (d2 & Hd2 & Hin2).
    { rewrite length_app. cbn [List.length]. lia. }
    exists d2. split.
    + cbn [flat_map]. rewrite (run_app_ok _ _ _ _ _ _ Hd1). exact Hd2.
    + cbn [map block_start_of17]. rewrite <- app_assoc in Hin2.
      cbn [List.app] in Hin2.
      replace (block_start_of17 (block_start17 sd buf x)
                 (buf ++ [x_miso x]) xs)
        with (block_start17 sd buf x) in Hin2; [exact Hin2|].
      destruct xs; [reflexivity|]. cbn [block_start_of17].
      unfold block_start17. destruct buf; reflexivity.
Qed.

End Cmd17.

Section Cmd24.

Variables cn an : name_table.

(** A byte that does not complete the block is added to the buffer. *)
Lemma cmd24_byte n sd buf o d x :
  in_block24 n sd buf o d ->
  Z.of_nat (List.length buf) + 1 < n ->
  exists d',
    run cn an (xfer_events x) d = Ok tt d' /\
    in_block24 n (block_start24 sd buf x) (buf ++ [x_mosi x]) o d'.
Proof.
  unfold in_block24, block_size. intros (Hst & Hf & Hb & Ho & Hn) Hlt.
  cut (wpt (run cn an (xfer_events x))
         (fun _ d' => in_block24 n (block_start24 sd buf x)
                        (buf ++ [x_mosi x]) o d') d).
  { intros H. apply wpt_elim in H. destruct H as ([] & d' & H1 & H2).
    exists d'. split; assumption. }
  unfold in_block24, block_start24.
  open_decoder d. subst. open_xfer x.
  destruct buf as [|b0 buf]; [|destruct Hn as [Hn Hsd]]; subst.
  all: wp_run.
  all: bool_hyps; rewrite ?length_app in *;
    cbn [List.length List.app Nat.add] in *; proj;
    repeat split; try reflexivity; try lia;
    try (destruct (v_blocklen =? 0) eqn:Hz; bool_hyps; lia).
Qed.

(** The byte that completes the block: the annotation of the block is
    put out, from the start of the block to the end of this byte, with
    all the bytes of the block. *)
Lemma cmd24_last_byte n sd buf o d x :
  in_block24 n sd buf o d ->
  Z.of_nat (List.length buf) + 1 = n ->
  exists d',
    run cn an (xfer_events x) d = Ok tt d' /\
    state d' = DATA_RESPONSE /\
    out_ann d' =
      (o ++ [mkAnn (block_start24 sd buf x) (x_es x) (Ann.CMD 24)
               [("Block data: " ++ fmt_list (buf ++ [x_mosi x]))%string]])%list.
Proof.
  unfold in_block24, block_size. intros (Hst & Hf & Hb & Ho & Hn) Hlt.
  cut (wpt (run cn an (xfer_events x))
         (fun _ d' =>
            state d' = DATA_RESPONSE /\
            out_ann d' =
              (o ++ [mkAnn (block_start24 sd buf x) (x_es x) (Ann.CMD 24)
                       [("Block data: "
                         ++ fmt_list (buf ++ [x_mosi x]))%string]])%list)
         d).
  { intros H. apply wpt_elim in H. destruct H as ([] & d' & H1 & H2).
    exists d'. split; assumption. }
  unfold block_start24.
  open_decoder d. subst. open_xfer x.
  destruct buf as [|b0 buf]; [|destruct Hn as [Hn Hsd]]; subst.
  all: wp_run.
  all: bool_hyps; rewrite ?length_app in *;
    cbn [List.length List.app Nat.add] in *; proj;
    repeat split; try reflexivity; try lia;
    try (destruct (v_blocklen =? 0) eqn:Hz; bool_hyps; lia).
Qed.

(** Bytes short of the block are added to the buffer and nothing is put
    out. *)
Lemma cmd24_bytes xs : forall n sd buf o d,
  in_block24 n sd buf o d ->
  Z.of_nat (List.length buf + List.length xs) < n ->
  exists d',
    run cn an (flat_map xfer_events xs) d = Ok tt d' /\
    in_block24 n (block_start_of24 sd buf xs) (buf ++ map x_mosi xs) o d'.
Proof.
  induction xs as [|x xs IH]; intros n sd buf o d Hin Hlt.
  - exists d. cbn [flat_map run map block_start_of24].
    rewrite app_nil_r. split; [reflexivity | exact Hin].
  - cbn [List.length] in Hlt.
    destruct (cmd24_byte n sd buf o d x Hin) as (d1 & Hd1 & Hin1); [lia|].
    destruct (IH n (block_start24 sd buf x) (buf ++ [x_mosi x]) o d1 Hin1)
      as (d2 & Hd2 & Hin2).
    { rewrite length_app. cbn [List.length]. lia. }
    exists d2. split.
    + cbn [flat_map]. rewrite (run_app_ok _ _ _ _ _ _ Hd1). exact Hd2.
    + cbn [map block_start_of24]. rewrite <- app_assoc in Hin2.
      cbn [List.app] in Hin2.
      replace (block_start_of24 (block_start24 sd buf x)
                 (buf ++ [x_mosi x]) xs)
        with (block_start24 sd buf x) in Hin2; [exact Hin2|].
      destruct xs; [reflexivity|]. cbn [block_start_of24].
      unfold block_start24. destruct buf; reflexivity.
Qed.

End Cmd24.

Lemma handler_method_cmd16 a cmd h :
  handler_method a cmd = Some h ->
  (a = false /\ cmd = 16 /\ h = handle_cmd16) \/ In h other_handlers.
Proof.
  unfold handler_method.
  repeat match goal with
         | |- context [match ?x with _ => _ end] => destruct x
         end;
    intros H; try discriminate H; injection H as <-;
    cbn; tauto.
Qed.

Lemma other_handlers_blocklen :
  Forall (fun h => forall d, wp h (fun _ d' => blocklen d' = blocklen d) d)
         other_handlers.
Proof.
  unfold other_handlers.
  repeat (apply Forall_cons;
          [intros d; open_decoder d; wp_run; reflexivity|]).
  apply Forall_nil.
Qed.

Lemma handle_cmd16_blocklen d :
  wp handle_cmd16 (fun _ d' => arg d = Some (blocklen d')) d.
Proof. open_decoder d. wp_run. proj. congruence. Qed.

Lemma handle_command_token_blocklen cn an mo mi d :
  wp (handle_command_token cn an mo mi)
     (fun _ d' => blocklen d' = blocklen d) d.
Proof. open_decoder d. wp_run; reflexivity. Qed.

Lemma decode_blocklen cn an s e p d :
  wp (decode cn an s e p)
     (fun _ d' =>
        blocklen d' = blocklen d \/
        (state d = HANDLE_CMD 16 /\ is_acmd d = false /\
         arg d = Some (blocklen d')) \/
        ((state d = HANDLE_DATA_BLOCK_CMD17 \/
          state d = HANDLE_DATA_BLOCK_CMD24) /\
         blocklen d = 0 /\ blocklen d' = 512)) d.
Proof.
  destruct p as [mo mi | mb sb | old new | ].
  - open_decoder d. unfold decode. wp_prim. wp_case.
    1: { wp_case; [wp_prim; left; reflexivity|]. wp_prim.
         eapply wp_conseq; [apply handle_command_token_blocklen|].
         cbn. intros _ d1 H. left. exact H. }
    1: { eapply wp_conseq; [apply handle_command_token_blocklen|].
         cbn. intros _ d1 H. left. exact H. }
    1: { wp_prim. wp_case; [|wp_prim; exact I]. wp_prim.
         destruct (handler_method_cmd16 _ _ _ Heqo) as [(-> & -> & ->) | Hin].
         - eapply wp_conseq; [apply handle_cmd16_blocklen|].
           cbv beta. proj. intros _ d1 H. open_decoder d1. wp_run.
           all: proj; right; left; repeat split; exact H.
         - pose proof other_handlers_blocklen as Hall.
           rewrite Forall_forall in Hall.
           eapply wp_conseq; [apply (Hall _ Hin)|].
           cbv beta. proj. intros _ d1 H. open_decoder d1. wp_run.
           all: proj; left; exact H. }
    all: wp_run; bool_hyps; proj; subst;
      first [left; reflexivity | right; right; auto].
  - open_decoder d. unfold decode. wp_run. left. reflexivity.
  - open_decoder d. unfold decode. wp_run; left; reflexivity.
  - left. reflexivity.
Qed.

(** The handler of CMD16 makes the argument of the command the block
    length. *)
Lemma cmd16_sets_blocklen cn an s e mo mi d a :
  state d = HANDLE_CMD 16 -> is_acmd d = false -> arg d = Some a ->
  exists d',
    decode cn an s e (DATA mo mi) d = Ok tt d' /\
    blocklen d' = a /\ state d' = GET_RESPONSE_R1.
Proof.
  intros Hst Ha Harg.
  cut (wpt (decode cn an s e (DATA mo mi))
         (fun _ d' => blocklen d' = a /\ state d' = GET_RESPONSE_R1) d).
  { intros H. apply wpt_elim in H. destruct H as ([] & d' & H1 & H2).
    exists d'. split; assumption. }
  open_decoder d. subst. unfold decode. wp_run. split; reflexivity.
Qed.

(** The start token on the line of the data begins a block. *)
Lemma cmd17_start_token cn an s e mo d :
  state d = HANDLE_DATA_BLOCK_CMD17 -> cmd17_start_token_found d = false ->
  read_buf d = [] ->
  exists d',
    decode cn an s e (DATA mo 254) d = Ok tt d' /\
    in_block17 (block_size d) 0 []
      (out_ann d ++ [mkAnn s e (Ann.CMD 17) ["Start Block"]]) d'.
Proof.
  intros Hst Hf Hb.
  cut (wpt (decode cn an s e (DATA mo 254))
         (fun _ d' => in_block17 (block_size d) 0 []
             (out_ann d ++ [mkAnn s e (Ann.CMD 17) ["Start Block"]]) d') d).
  { intros H. apply wpt_elim in H. destruct H as ([] & d' & H1 & H2).
    exists d'. split; assumption. }
  unfold in_block17, block_size.
  open_decoder d. subst. unfold decode. wp_run. proj. repeat split.
Qed.

Lemma cmd24_start_token cn an s e mi d :
  state d = HANDLE_DATA_BLOCK_CMD24 -> cmd24_start_token_found d = false ->
  read_buf d = [] ->
  exists d',
    decode cn an s e (DATA 254 mi) d = Ok tt d' /\
    in_block24 (block_size d) 0 []
      (out_ann d ++ [mkAnn s e (Ann.CMD 24) ["Start Block"]]) d'.
Proof.
  intros Hst Hf Hb.
  cut (wpt (decode cn an s e (DATA 254 mi))
         (fun _ d' => in_block24 (block_size d) 0 []
             (out_ann d ++ [mkAnn s e (Ann.CMD 24) ["Start Block"]]) d') d).
  { intros H. apply wpt_elim in H. destruct H as ([] & d' & H1 & H2).
    exists d'. split; assumption. }
  unfold in_block24, block_size.
  open_decoder d. subst. unfold decode. wp_run. proj. repeat split.
Qed.

(** The block length and the payload, step by step: the handler of
    CMD16 makes the argument of the command the block length, and a new
    object has block length 0.  In the data phase of CMD17 and of CMD24,
    after the start token, the annotation of the block is put out by the
    byte that makes the number of bytes read equal to the block length,
    and by no byte before it; a block length of 0 counts as 512. *)
Lemma block_length_payload cn an :
  (forall s e mo mi d a,
     state d = HANDLE_CMD 16 -> is_acmd d = false -> arg d = Some a ->
     exists d', decode cn an s e (DATA mo mi) d = Ok tt d' /\
                blocklen d' = a) /\
  blocklen new_Decoder = 0 /\
  (forall d, blocklen d = 0 \/ blocklen d = 512 -> block_size d = 512) /\
  (forall d, blocklen d <> 0 -> block_size d = blocklen d) /\
  (forall d pre x,
     state d = HANDLE_DATA_BLOCK_CMD17 ->
     cmd17_start_token_found d = true -> read_buf d = [] ->
     Z.of_nat (List.length pre) + 1 = block_size d ->
     (exists d',
        run cn an (flat_map xfer_events (pre ++ [x])) d = Ok tt d' /\
        out_ann d' =
          out_ann d ++
          [mkAnn (x_ss (hd x pre)) (x_es x) (Ann.CMD 17)
             [("Block data: " ++ fmt_list (map x_miso (pre ++ [x])))%string]])
     /\
     (forall k, exists dk,
        run cn an (flat_map xfer_events (firstn k pre)) d = Ok tt dk /\
        out_ann dk = out_ann d)) /\
  (forall d pre x,
     state d = HANDLE_DATA_BLOCK_CMD24 ->
     cmd24_start_token_found d = true -> read_buf d = [] ->
     Z.of_nat (List.length pre) + 1 = block_size d ->
     (exists d',
        run cn an (flat_map xfer_events (pre ++ [x])) d = Ok tt d' /\
        out_ann d' =
          out_ann d ++
          [mkAnn (x_ss (hd x pre)) (x_es x) (Ann.CMD 24)
             [("Block data: " ++ fmt_list (map x_mosi (pre ++ [x])))%string]])
     /\
     (forall k, exists dk,
        run cn an (flat_map xfer_events (firstn k pre)) d = Ok tt dk /\
        out_ann dk = out_ann d)).
Proof.
  split; [|split; [|split; [|split; [|split]]]].
  - intros s e mo mi d a Hst Ha Harg.
    destruct (cmd16_sets_blocklen cn an s e mo mi d a Hst Ha Harg)
      as (d' & Hd & Hb & _).
    exists d'. split; assumption.
  - reflexivity.
  - unfold block_size. intros d [-> | ->]; reflexivity.
  - unfold block_size. intros d H.
    destruct (blocklen d =? 0) eqn:Hz; [|reflexivity].
    apply Z.eqb_eq in Hz. contradiction.
  - intros d pre x Hst Hf Hb Hn.
    assert (Hin : in_block17 (block_size d) 0 [] (out_ann d) d)
      by (unfold in_block17; auto).
    split.
    + destruct (cmd17_bytes cn an pre _ _ _ _ _ Hin) as (d1 & Hd1 & Hin1).
      { cbn [List.length Nat.add]. rewrite <- Hn. lia. }
      cbn [List.app] in Hin1.
      destruct (cmd17_last_byte cn an _ _ _ _ _ x Hin1) as (d2 & Hd2 & _ & Ho).
      { rewrite length_map. exact Hn. }
      exists d2. split.
      * rewrite flat_map_app. rewrite (run_app_ok _ _ _ _ _ _ Hd1).
        cbn [flat_map]. rewrite app_nil_r. exact Hd2.
      * rewrite Ho, map_app. cbn [map].
        destruct pre; reflexivity.
    + intros k.
      destruct (cmd17_bytes cn an (firstn k pre) _ _ _ _ _ Hin)
        as (dk & Hdk & Hink).
      { cbn [List.length Nat.add]. rewrite <- Hn, length_firstn. lia. }
      exists dk. split; [exact Hdk|]. apply Hink.
  - intros d pre x Hst Hf Hb Hn.
    assert (Hin : in_block24 (block_size d) 0 [] (out_ann d) d)
      by (unfold in_block24; auto).
    split.
    + destruct (cmd24_bytes cn an pre _ _ _ _ _ Hin) as (d1 & Hd1 & Hin1).
      { cbn [List.length Nat.add]. rewrite <- Hn. lia. }
      cbn [List.app] in Hin1.
      destruct (cmd24_last_byte cn an _ _ _ _ _ x Hin1) as (d2 & Hd2 & _ & Ho).
      { rewrite length_map. exact Hn. }
      exists d2. split.
      * rewrite flat_map_app. rewrite (run_app_ok _ _ _ _ _ _ Hd1).
        cbn [flat_map]. rewrite app_nil_r. exact Hd2.
      * rewrite Ho, map_app. cbn [map].
        destruct pre; reflexivity.
    + intros k.
      destruct (cmd24_bytes cn an (firstn k pre) _ _ _ _ _ Hin)
        as (dk & Hdk & Hink).
      { cbn [List.length Nat.add]. rewrite <- Hn, length_firstn. lia. }
      exists dk. split; [exact Hdk|]. apply Hink.
Qed.

(** After CMD16 with argument 0x200, the block of a CMD17 is put out by
    the 512th byte after the start token and not by the 511th; the same
    without any CMD16. *)
Example read_block_512 :
  map (fun p => block_annotations (run_sample (read_block (fst p) (snd p))))
      [(true, 511%nat); (true, 512%nat); (false, 511%nat); (false, 512%nat)]
  = [0; 1; 0; 1]%nat.
Proof. vm_compute. reflexivity. Qed.

(** ** Busy wait *)

(** C7, at the failing input: the card is busy for one byte, from sample
    4200 to sample 4208.  The annotation 'Card is busy' is put out once
    and the phase is IDLE, but the range of the annotation ends at
    sample 0, the value [reset] gave [es_busy], not at 4208. *)
Theorem busy_one_byte_stale_end :
  let r := run_sample (write_block [0]) in
  raised r = None /\ state (final r) = IDLE /\
  filter (fun a => existsb (String.eqb "Card is busy") (a_texts a))
         (annotations r)
  = [mkAnn 4200 0 (Ann.CMD 24) ["Card is busy"]] /\
  nth_error (spi_bytes 0 (host [88; 0; 0; 0; 0; 1] ++ [(255, 255)]
                          ++ card [0]
                          ++ host ([255; 254] ++ repeat 165 512%nat
                                   ++ [18; 52])
                          ++ card [229; 0])) 1051
  = Some (4200, 4208, DATA 255 0).
Proof. vm_compute. repeat split. Qed.

(** With three busy bytes the range is that of the run. *)
Example busy_three_bytes :
  let r := run_sample (write_block [0; 0; 0]) in
  state (final r) = IDLE /\
  filter (fun a => existsb (String.eqb "Card is busy") (a_texts a))
         (annotations r)
  = [mkAnn 4200 4224 (Ann.CMD 24) ["Card is busy"]].
Proof. vm_compute. repeat split. Qed.

Section Busy.

Variables cn an : name_table.

(** The first busy byte sets the start of the range and leaves its end
    as it was. *)
Lemma busy_first_zero sb eb o d x :
  busy_state true sb eb o d -> x_miso x = 0 ->
  exists d',
    run cn an (xfer_events x) d = Ok tt d' /\
    busy_state false (x_ss x) eb o d'.
Proof.
  intros (Hst & H24 & Hf & Hs & He & Ho) Hz.
  cut (wpt (run cn an (xfer_events x))
         (fun _ d' => busy_state false (x_ss x) eb o d') d); [from_wpt|].
  unfold busy_state. open_decoder d. open_xfer x. subst.
  wp_run. repeat split.
Qed.

(** Every later busy byte sets the end of the range. *)
Lemma busy_next_zero sb eb o d x :
  busy_state false sb eb o d -> x_miso x = 0 ->
  exists d',
    run cn an (xfer_events x) d = Ok tt d' /\
    busy_state false sb (x_es x) o d'.
Proof.
  intros (Hst & H24 & Hf & Hs & He & Ho) Hz.
  cut (wpt (run cn an (xfer_events x))
         (fun _ d' => busy_state false sb (x_es x) o d') d); [from_wpt|].
  unfold busy_state. open_decoder d. open_xfer x. subst.
  wp_run. repeat split.
Qed.

Lemma last_cons_default {A} (l : list A) : forall a b,
  last (a :: l) b = last l a.
Proof.
  induction l as [|c l IH]; intros a b; [reflexivity|].
  change (last (a :: c :: l) b) with (last (c :: l) b).
  rewrite (IH c b), (IH c a). reflexivity.
Qed.

Lemma busy_more_zeros zs : forall sb eb o d,
  busy_state false sb eb o d ->
  Forall (fun x => x_miso x = 0) zs ->
  exists d',
    run cn an (flat_map xfer_events zs) d = Ok tt d' /\
    busy_state false sb (last (map x_es zs) eb) o d'.
Proof.
  induction zs as [|z zs IH]; intros sb eb o d Hb Hall.
  - exists d. split; [reflexivity | exact Hb].
  - inversion Hall as [|? ? Hz Hall']; subst.
    destruct (busy_next_zero sb eb o d z Hb Hz) as (d1 & Hd1 & Hb1).
    destruct (IH sb (x_es z) o d1 Hb1 Hall') as (d2 & Hd2 & Hb2).
    exists d2. split.
    + cbn [flat_map]. rewrite (run_app_ok _ _ _ _ _ _ Hd1). exact Hd2.
    + cbn [map]. rewrite last_cons_default. exact Hb2.
Qed.

(** The first byte that is not 0 puts out the annotation with the range
    as it stands and ends the phase. *)
Lemma busy_end first sb eb o d x :
  busy_state first sb eb o d -> x_miso x <> 0 ->
  exists d',
    run cn an (xfer_events x) d = Ok tt d' /\
    (state d' = IDLE /\ is_cmd24 d' = false /\
     out_ann d' = o ++ [mkAnn sb eb (Ann.CMD 24) ["Card is busy"]]).
Proof.
  intros (Hst & H24 & Hf & Hs & He & Ho) Hz.
  cut (wpt (run cn an (xfer_events x))
         (fun _ d' =>
            state d' = IDLE /\ is_cmd24 d' = false /\
            out_ann d' = o ++ [mkAnn sb eb (Ann.CMD 24) ["Card is busy"]])
         d); [from_wpt|].
  open_decoder d. open_xfer x. subst. apply Z.eqb_neq in Hz.
  wp_lin. rewrite Hz. cbn [negb]. wp_run. repeat split.
Qed.

(** A run of busy bytes [z :: zs] and the byte [x] that ends it: one
    annotation, from the start of the first busy byte to the end of the
    last one when there are two or more, and to whatever [es_busy] was
    before the run when [z] is the only one. *)
Lemma busy_run sb eb o d z zs x :
  busy_state true sb eb o d ->
  Forall (fun x => x_miso x = 0) (z :: zs) -> x_miso x <> 0 ->
  exists d',
    run cn an (flat_map xfer_events (z :: zs ++ [x])) d = Ok tt d' /\
    state d' = IDLE /\
    out_ann d' =
      o ++ [mkAnn (x_ss z) (last (map x_es zs) eb) (Ann.CMD 24)
              ["Card is busy"]].
Proof.
  intros Hb Hall Hx. inversion Hall as [|? ? Hz Hall']; subst.
  destruct (busy_first_zero sb eb o d z Hb Hz) as (d1 & Hd1 & Hb1).
  destruct (busy_more_zeros zs _ _ _ _ Hb1 Hall') as (d2 & Hd2 & Hb2).
  destruct (busy_end _ _ _ _ _ x Hb2 Hx) as (d3 & Hd3 & Hst3 & _ & Ho3).
  exists d3. repeat split; [|exact Hst3|exact Ho3].
  cbn [flat_map]. rewrite (run_app_ok _ _ _ _ _ _ Hd1).
  rewrite flat_map_app, (run_app_ok _ _ _ _ _ _ Hd2).
  cbn [flat_map]. rewrite app_nil_r. exact Hd3.
Qed.

End Busy.

(** ** Bytes of a command token *)

(** X1: in the IDLE phase a byte 0xff on MOSI is ignored (only the
    current sample range changes).  Any other byte in IDLE, and any byte
    in the token phase, is added to the command token with its bits; as
    long as the token has fewer than six bytes nothing is put out, and
    the first byte of a token sets the start of the command range. *)
Theorem token_bytes_accumulate cn an :
  (forall s e mi d,
     state d = IDLE ->
     decode cn an s e (DATA 255 mi) d = Ok tt (set_es e (set_ss s d))) /\
  (forall d x,
     state d = IDLE \/ state d = GET_COMMAND_TOKEN ->
     (state d = IDLE -> x_mosi x <> 255) ->
     (List.length (cmd_token d) < 5)%nat ->
     exists d',
       run cn an (xfer_events x) d = Ok tt d' /\
       state d' = GET_COMMAND_TOKEN /\
       cmd_token d' = cmd_token d ++ [x_mosi x] /\
       cmd_token_bits d' = cmd_token_bits d ++ [x_mosi_bits x] /\
       out_ann d' = out_ann d /\
       ss_cmd d' = match cmd_token d with
                   | [] => x_ss x
                   | _ :: _ => ss_cmd d
                   end).
Proof.
  split.
  - intros s e mi d Hst. open_decoder d. subst. reflexivity.
  - intros d x Hst Hff Hlen.
    cut (wpt (run cn an (xfer_events x))
           (fun _ d' =>
              state d' = GET_COMMAND_TOKEN /\
              cmd_token d' = cmd_token d ++ [x_mosi x] /\
              cmd_token_bits d' = cmd_token_bits d ++ [x_mosi_bits x] /\
              out_ann d' = out_ann d /\
              ss_cmd d' = match cmd_token d with
                          | [] => x_ss x
                          | _ :: _ => ss_cmd d
                          end) d);
      [from_wpt|].
    open_decoder d. open_xfer x.
    destruct v_cmd_token as [|t0 [|t1 [|t2 [|t3 [|t4 rest]]]]];
      cbn [List.length] in Hlen; try lia.
    all: destruct Hst as [-> | ->].
    all: try (specialize (Hff eq_refl); apply Z.eqb_neq in Hff).
    all: wp_lin; try rewrite Hff; wp_lin; repeat split.
Qed.

Lemma token_bytes_accumulate_witness :
  exists d',
    run sample_cmd_names sample_acmd_names
        (xfer_events (mkXfer 0 8 (spi_bits 64 0) (spi_bits 255 0) 64 255))
        new_Decoder = Ok tt d' /\
    state d' = GET_COMMAND_TOKEN /\ cmd_token d' = [64] /\
    out_ann d' = [].
Proof.
  destruct (proj2 (token_bytes_accumulate sample_cmd_names sample_acmd_names)
              new_Decoder
              (mkXfer 0 8 (spi_bits 64 0) (spi_bits 255 0) 64 255))
    as (d' & Hrun & Hst & Htok & _ & Hout & _).
  - left. reflexivity.
  - intros _. cbn. discriminate.
  - cbn. lia.
  - exists d'. repeat split; assumption.
Defined.

(** ** Calls that raise *)

Lemma handler_method_acmd c :
  c <> 41 -> handler_method true c = None.
Proof.
  intros Hc. unfold handler_method.
  repeat match goal with
         | |- context [match ?x with _ => _ end] => destruct x
         end;
    try reflexivity.
  contradiction Hc. reflexivity.
Qed.

(** X2: the handler of a command is looked up by name, and the class
    has no method for an application command other than ACMD41, nor for
    CMD41 outside application mode: the byte after such a token raises
    AttributeError.  The object is then as before the call except for the
    current sample range and the bytes of the packet; the phase and the
    application flag are unchanged. *)
Theorem missing_handler_raises cn an s e mo mi c d :
  state d = HANDLE_CMD c ->
  (is_acmd d = true /\ c <> 41) \/ (is_acmd d = false /\ c = 41) ->
  decode cn an s e (DATA mo mi) d
  = Raise AttributeError
      (set_mosi (Some mo) (set_miso (Some mi) (set_es e (set_ss s d)))).
Proof.
  intros Hst Hc. open_decoder d. subst.
  destruct Hc as [[-> Hc] | [-> ->]].
  - cbv -[handler_method]. rewrite (handler_method_acmd c Hc). reflexivity.
  - reflexivity.
Qed.

Lemma missing_handler_raises_witness :
  let d := final (run_sample (spi_bytes 0 (host [119; 0; 0; 0; 0; 101]
                                           ++ card [255; 1]
                                           ++ host [77; 0; 0; 0; 0; 1]))) in
  state d = HANDLE_CMD 13 /\ is_acmd d = true /\
  decode sample_cmd_names sample_acmd_names 112 120 (DATA 255 255) d
  = Raise AttributeError
      (set_mosi (Some 255) (set_miso (Some 255) (set_es 120 (set_ss 112 d)))).
Proof.
  cbv zeta. split; [vm_compute; reflexivity|].
  split; [vm_compute; reflexivity|].
  apply (missing_handler_raises sample_cmd_names sample_acmd_names
           112 120 255 255 13).
  - vm_compute. reflexivity.
  - left. split; [vm_compute; reflexivity | discriminate].
Defined.

(** X3: a 'DATA' packet that reaches the token handler before any 'BITS'
    packet raises AttributeError ([mosi_bits] does not exist yet), as on
    a new object.  The byte is in the command token by then, its bits are
    not, and the phase is that of the token. *)
Theorem data_before_bits_raises cn an s e mo mi d :
  state d = IDLE \/ state d = GET_COMMAND_TOKEN ->
  (state d = IDLE -> mo <> 255) ->
  mosi_bits d = None ->
  exists d',
    decode cn an s e (DATA mo mi) d = Raise AttributeError d' /\
    state d' = GET_COMMAND_TOKEN /\
    cmd_token d' = cmd_token d ++ [mo] /\
    cmd_token_bits d' = cmd_token_bits d /\
    out_ann d' = out_ann d.
Proof.
  intros Hst Hff Hb.
  cut (wpg (fun ex d' =>
              ex = AttributeError /\ state d' = GET_COMMAND_TOKEN /\
              cmd_token d' = cmd_token d ++ [mo] /\
              cmd_token_bits d' = cmd_token_bits d /\
              out_ann d' = out_ann d)
           (decode cn an s e (DATA mo mi)) (fun _ _ => False) d).
  { unfold wpg. destruct (decode cn an s e (DATA mo mi) d) as [|ex d'];
      [contradiction|].
    intros (-> & H). exists d'. split; [reflexivity | exact H]. }
  open_decoder d. subst.
  destruct Hst as [-> | ->].
  all: try (specialize (Hff eq_refl); apply Z.eqb_neq in Hff).
  all: wp_lin; try rewrite Hff; wp_lin.
  all: destruct v_cmd_token; wp_lin; repeat split.
Qed.

Lemma data_before_bits_raises_witness :
  exists d',
    decode sample_cmd_names sample_acmd_names 0 8 (DATA 64 255) new_Decoder
    = Raise AttributeError d' /\
    cmd_token d' = [64].
Proof.
  destruct (data_before_bits_raises sample_cmd_names sample_acmd_names
              0 8 64 255 new_Decoder)
    as (d' & Hrun & _ & Htok & _).
  - left. reflexivity.
  - intros _. discriminate.
  - reflexivity.
  - exists d'. split; assumption.
Defined.

(** X4: the hex dump of a command without a phase of its own formats
    exactly six token bytes.  When the token holds more than six bytes
    at its sixth or a later byte (bytes left over from before a
    'CS-CHANGE' packet are not removed), the call raises TypeError;
    the six bit annotations of the token were put out and the phase is
    that of CMD999 by then. *)
Theorem stale_token_type_error cn an d x t0 t1 t2 t3 t4 t5 rest
    r0 r1 r2 r3 r4 r5 rrest :
  state d = IDLE \/ state d = GET_COMMAND_TOKEN ->
  (state d = IDLE -> x_mosi x <> 255) ->
  cmd_token d = t0 :: t1 :: t2 :: t3 :: t4 :: t5 :: rest ->
  cmd_token_bits d = r0 :: r1 :: r2 :: r3 :: r4 :: r5 :: rrest ->
  Forall (fun r => List.length r = 8%nat) [r0; r1; r4; r5] ->
  in_tuple (Z.land t0 63) handled_commands = false ->
  exists d',
    run cn an (xfer_events x) d = Raise TypeError d' /\
    state d' = HANDLE_CMD 999 /\
    List.length (out_ann d') = (List.length (out_ann d) + 6)%nat.
Proof.
  intros Hst Hff Ht Hr Hall Hun.
  cut (wpg (fun ex d' =>
              ex = TypeError /\ state d' = HANDLE_CMD 999 /\
              List.length (out_ann d')
              = (List.length (out_ann d) + 6)%nat)
           (run cn an (xfer_events x)) (fun _ _ => False) d).
  { unfold wpg. destruct (run cn an (xfer_events x) d) as [|ex d'];
      [contradiction|].
    intros (-> & H). exists d'. split; [reflexivity | exact H]. }
  unfold handled_commands in Hun.
  open_decoder d. open_xfer x. subst. open_rows.
  destruct Hst as [-> | ->].
  all: try (specialize (Hff eq_refl); apply Z.eqb_neq in Hff).
  all: wp_lin; try rewrite Hff; wp_lin.
  all: repeat first [wp_lin_step | rewrite Hun | wp_case].
  all: try match goal with
           | H : _ ++ [_] = [] |- _ => destruct rest; discriminate H
           end.
  all: proj; repeat split; rewrite ?length_app; cbn [List.length]; lia.
Qed.

Lemma stale_token_type_error_witness :
  let d := final (run_sample
                    (spi_bytes 0 (host [66; 0; 0; 0; 0; 1])
                     ++ [(48, 48, CS_CHANGE (Some 0) (Some 1));
                         (50, 50, CS_CHANGE (Some 1) (Some 0))])) in
  state d = IDLE /\
  exists d',
    run sample_cmd_names sample_acmd_names
        (xfer_events (mkXfer 56 64 (spi_bits 64 56) (spi_bits 255 56) 64 255))
        d = Raise TypeError d' /\
    state d' = HANDLE_CMD 999.
Proof.
  cbv zeta. split; [vm_compute; reflexivity|].
  edestruct (stale_token_type_error sample_cmd_names sample_acmd_names
              (final (run_sample
                    (spi_bytes 0 (host [66; 0; 0; 0; 0; 1])
                     ++ [(48, 48, CS_CHANGE (Some 0) (Some 1));
                         (50, 50, CS_CHANGE (Some 1) (Some 0))])))
              (mkXfer 56 64 (spi_bits 64 56) (spi_bits 255 56) 64 255))
    as (d' & Hrun & Hst & _).
  - left. vm_compute. reflexivity.
  - intros _. cbn. discriminate.
  - vm_compute. reflexivity.
  - vm_compute. reflexivity.
  - repeat constructor.
  - vm_compute. reflexivity.
  - exists d'. split; assumption.
Defined.

(** ** The block length and the start token *)

(** X5: what a call of [decode] that returns can do to the block length:
    leave it as it is, make it the argument of the command (the handler
    of CMD16, outside application mode), or replace 0 by 512 (a data
    phase of CMD17 or CMD24).  No other packet, phase or command assigns
    it; a 'CS-CHANGE' packet in particular keeps it. *)
Theorem blocklen_assignments cn an s e p d d' :
  decode cn an s e p d = Ok tt d' ->
  blocklen d' = blocklen d \/
  (state d = HANDLE_CMD 16 /\ is_acmd d = false /\
   arg d = Some (blocklen d')) \/
  ((state d = HANDLE_DATA_BLOCK_CMD17 \/
    state d = HANDLE_DATA_BLOCK_CMD24) /\
   blocklen d = 0 /\ blocklen d' = 512).
Proof.
  intros H. exact (wp_elim _ _ _ _ _ (decode_blocklen cn an s e p d) H).
Qed.

Lemma blocklen_assignments_witness :
  let d := final (run_sample (spi_bytes 0 (host [80; 0; 0; 2; 0; 1]))) in
  let d' := final (decode sample_cmd_names sample_acmd_names 48 56
                     (DATA 255 255) d) in
  blocklen d = 0 /\ blocklen d' = 512 /\
  (blocklen d' = blocklen d \/
   (state d = HANDLE_CMD 16 /\ is_acmd d = false /\
    arg d = Some (blocklen d')) \/
   ((state d = HANDLE_DATA_BLOCK_CMD17 \/
     state d = HANDLE_DATA_BLOCK_CMD24) /\
    blocklen d = 0 /\ blocklen d' = 512)).
Proof.
  cbv zeta. split; [vm_compute; reflexivity|].
  split; [vm_compute; reflexivity|].
  apply (blocklen_assignments sample_cmd_names sample_acmd_names 48 56
           (DATA 255 255)).
  vm_compute. reflexivity.
Defined.

Lemma cmd17_before_start_token cn an d x :
  state d = HANDLE_DATA_BLOCK_CMD17 -> cmd17_start_token_found d = false ->
  x_miso x <> 254 ->
  exists d',
    run cn an (xfer_events x) d = Ok tt d' /\
    (state d' = HANDLE_DATA_BLOCK_CMD17 /\
     cmd17_start_token_found d' = false /\
     out_ann d' = out_ann d /\ read_buf d' = read_buf d /\
     blocklen d' = blocklen d).
Proof.
  intros Hst Hf Hx.
  cut (wpt (run cn an (xfer_events x))
         (fun _ d' =>
            state d' = HANDLE_DATA_BLOCK_CMD17 /\
            cmd17_start_token_found d' = false /\
            out_ann d' = out_ann d /\ read_buf d' = read_buf d /\
            blocklen d' = blocklen d) d);
    [from_wpt|].
  open_decoder d. open_xfer x. subst. apply Z.eqb_neq in Hx.
  wp_lin. rewrite Hx. wp_lin. repeat split.
Qed.

Lemma cmd24_before_start_token cn an d x :
  state d = HANDLE_DATA_BLOCK_CMD24 -> cmd24_start_token_found d = false ->
  x_mosi x <> 254 ->
  exists d',
    run cn an (xfer_events x) d = Ok tt d' /\
    (state d' = HANDLE_DATA_BLOCK_CMD24 /\
     cmd24_start_token_found d' = false /\
     out_ann d' = out_ann d /\ read_buf d' = read_buf d /\
     blocklen d' = blocklen d).
Proof.
  intros Hst Hf Hx.
  cut (wpt (run cn an (xfer_events x))
         (fun _ d' =>
            state d' = HANDLE_DATA_BLOCK_CMD24 /\
            cmd24_start_token_found d' = false /\
            out_ann d' = out_ann d /\ read_buf d' = read_buf d /\
            blocklen d' = blocklen d) d);
    [from_wpt|].
  open_decoder d. open_xfer x. subst. apply Z.eqb_neq in Hx.
  wp_lin. rewrite Hx. wp_lin. repeat split.
Qed.

(** X6: in the data phase of CMD17 every MISO byte before the start
    token 0xfe is skipped, whatever its value and however many there
    are: nothing is put out, the phase, the buffer and the block length
    stay as they are, and the decoder keeps waiting.  The same holds in
    the data phase of CMD24 for the MOSI bytes. *)
Theorem bytes_before_start_token cn an xs :
  (forall d,
     state d = HANDLE_DATA_BLOCK_CMD17 ->
     cmd17_start_token_found d = false ->
     Forall (fun x => x_miso x <> 254) xs ->
     exists d',
       run cn an (flat_map xfer_events xs) d = Ok tt d' /\
       state d' = HANDLE_DATA_BLOCK_CMD17 /\
       cmd17_start_token_found d' = false /\
       out_ann d' = out_ann d /\ read_buf d' = read_buf d /\
       blocklen d' = blocklen d) /\
  (forall d,
     state d = HANDLE_DATA_BLOCK_CMD24 ->
     cmd24_start_token_found d = false ->
     Forall (fun x => x_mosi x <> 254) xs ->
     exists d',
       run cn an (flat_map xfer_events xs) d = Ok tt d' /\
       state d' = HANDLE_DATA_BLOCK_CMD24 /\
       cmd24_start_token_found d' = false /\
       out_ann d' = out_ann d /\ read_buf d' = read_buf d /\
       blocklen d' = blocklen d).
Proof.
  induction xs as [|x xs [IH17 IH24]]; split; intros d Hst Hf Hall.
  1, 2: exists d; repeat split; assumption.
  - inversion Hall as [|? ? Hx Hxs]; subst.
    destruct (cmd17_before_start_token cn an d x Hst Hf Hx)
      as (d1 & Hd1 & Hst1 & Hf1 & Ho1 & Hb1 & Hl1).
    destruct (IH17 d1 Hst1 Hf1 Hxs) as (d2 & Hd2 & Hst2 & Hf2 & Ho2 & Hb2 & Hl2).
    exists d2. cbn [flat_map]. rewrite (run_app_ok _ _ _ _ _ _ Hd1).
    repeat split; try assumption; congruence.
  - inversion Hall as [|? ? Hx Hxs]; subst.
    destruct (cmd24_before_start_token cn an d x Hst Hf Hx)
      as (d1 & Hd1 & Hst1 & Hf1 & Ho1 & Hb1 & Hl1).
    destruct (IH24 d1 Hst1 Hf1 Hxs) as (d2 & Hd2 & Hst2 & Hf2 & Ho2 & Hb2 & Hl2).
    exists d2. cbn [flat_map]. rewrite (run_app_ok _ _ _ _ _ _ Hd1).
    repeat split; try assumption; congruence.
Qed.

Lemma bytes_before_start_token_witness :
  let d := final (run_sample (spi_bytes 0 (host [81; 0; 0; 0; 0; 1]
                                           ++ [(255, 255)] ++ card [0]))) in
  exists d',
    run sample_cmd_names sample_acmd_names
        (flat_map xfer_events
           [mkXfer 64 72 (spi_bits 255 64) (spi_bits 255 64) 255 255;
            mkXfer 72 80 (spi_bits 255 72) (spi_bits 9 72) 255 9])
        d = Ok tt d' /\
    state d' = HANDLE_DATA_BLOCK_CMD17 /\ out_ann d' = out_ann d.
Proof.
  cbv zeta.
  destruct (proj1 (bytes_before_start_token sample_cmd_names sample_acmd_names
              [mkXfer 64 72 (spi_bits 255 64) (spi_bits 255 64) 255 255;
               mkXfer 72 80 (spi_bits 255 72) (spi_bits 9 72) 255 9])
              (final (run_sample (spi_bytes 0
                 (host [81; 0; 0; 0; 0; 1] ++ [(255, 255)] ++ card [0])))))
    as (d' & Hrun & Hst & _ & Hout & _).
  - vm_compute. reflexivity.
  - vm_compute. reflexivity.
  - repeat constructor; cbn; discriminate.
  - exists d'. repeat split; assumption.
Defined.

(** ** The read buffer and the start token flags *)

Lemma handler_method_cmd9_10 a cmd h :
  handler_method a cmd = Some h ->
  (cmd = 9 /\ h = handle_cmd9) \/ (cmd = 10 /\ h = handle_cmd10) \/
  (cmd <> 9 /\ cmd <> 10 /\ In h plain_handlers).
Proof.
  unfold handler_method.
  repeat match goal with
         | |- context [match ?x with _ => _ end] => destruct x
         end;
    intros H; try discriminate H; injection H as <-;
    first [ left; split; reflexivity
          | right; left; split; reflexivity
          | right; right; split; [discriminate|]; split; [discriminate|];
            cbn; tauto ].
Qed.

Ltac inv_done :=
  unfold flags_inv, buffers_inv in *; proj; bool_hyps;
  repeat match goal with
         | H : _ /\ _ |- _ => destruct H
         end;
  subst;
  repeat match goal with
         | |- _ /\ _ => split
         end;
  try reflexivity; try assumption; try discriminate; try congruence;
  try (intros; discriminate); try (intros; congruence);
  try tauto; auto.

Lemma plain_handlers_buffers :
  Forall (fun h => forall d c,
            state d = HANDLE_CMD c ->
            is_cmd17 d = false -> is_cmd24 d = false ->
            cmd17_start_token_found d = false ->
            cmd24_start_token_found d = false -> read_buf d = [] ->
            wp h (fun _ d' => flags_inv d' /\ buffers_inv d') d)
         plain_handlers.
Proof.
  unfold plain_handlers.
  repeat (apply Forall_cons;
          [intros d c Hst H17 H24 Hf17 Hf24 Hb; open_decoder d; subst;
           wp_run; split; inv_done|]).
  apply Forall_nil.
Qed.

Lemma handle_cmd9_buffers d :
  state d = HANDLE_CMD 9 ->
  is_cmd17 d = false -> is_cmd24 d = false ->
  cmd17_start_token_found d = false ->
  cmd24_start_token_found d = false ->
  wp handle_cmd9 (fun _ d' => flags_inv d' /\ buffers_inv d') d.
Proof.
  intros Hst H17 H24 Hf17 Hf24. open_decoder d. subst.
  wp_run; split; inv_done.
Qed.

Lemma handle_cmd10_buffers d :
  state d = HANDLE_CMD 10 ->
  is_cmd17 d = false -> is_cmd24 d = false ->
  cmd17_start_token_found d = false ->
  cmd24_start_token_found d = false ->
  wp handle_cmd10 (fun _ d' => flags_inv d' /\ buffers_inv d') d.
Proof.
  intros Hst H17 H24 Hf17 Hf24. open_decoder d. subst.
  wp_run; split; inv_done.
Qed.

(** The token handler leaves the flags and the read buffer alone and the
    phase as it is or at the handling of a command. *)
Lemma handle_command_token_frame cn an mo mi d :
  wp (handle_command_token cn an mo mi)
     (fun _ d' =>
        is_cmd17 d' = is_cmd17 d /\ is_cmd24 d' = is_cmd24 d /\
        cmd17_start_token_found d' = cmd17_start_token_found d /\
        cmd24_start_token_found d' = cmd24_start_token_found d /\
        read_buf d' = read_buf d /\
        (state d' = state d \/ exists c, state d' = HANDLE_CMD c))
     d.
Proof.
  open_decoder d. wp_run; cbn; repeat split; eauto.
Qed.

Lemma decode_buffers_inv cn an s e p d :
  flags_inv d /\ buffers_inv d ->
  wp (decode cn an s e p) (fun _ d' => flags_inv d' /\ buffers_inv d') d.
Proof.
  intros [Hfl Hbu]. destruct p as [mo mi | mb sb | old new | ].
  - (* DATA *)
    open_decoder d. unfold decode. wp_prim. wp_case.
    all: unfold flags_inv in Hfl; unfold buffers_inv in Hbu;
      cbn in Hfl, Hbu.
    1: { wp_case; [wp_prim; split; inv_done|]. wp_prim.
         eapply wp_conseq; [apply handle_command_token_frame|].
         cbn. intros _ d1 (H17 & H24 & Hf17 & Hf24 & Hb & [H | [c H]]);
           unfold flags_inv, buffers_inv;
           rewrite H, H17, H24, Hf17, Hf24, Hb; tauto. }
    1: { eapply wp_conseq; [apply handle_command_token_frame|].
         cbn. intros _ d1 (H17 & H24 & Hf17 & Hf24 & Hb & [H | [c H]]);
           unfold flags_inv, buffers_inv;
           rewrite H, H17, H24, Hf17, Hf24, Hb; tauto. }
    1: { wp_prim. wp_case; [|wp_prim; exact I]. wp_prim.
         destruct Hfl as [H17 H24]. destruct Hbu as (Hf17 & Hf24 & Hb).
         destruct (handler_method_cmd9_10 _ _ _ Heqo)
           as [(-> & ->) | [(-> & ->) | (Hn9 & Hn10 & Hin)]].
         - eapply wp_conseq;
             [apply handle_cmd9_buffers; solve [reflexivity | assumption]|].
           cbv beta. intros _ d1 H1. open_decoder d1. wp_run; exact H1.
         - eapply wp_conseq;
             [apply handle_cmd10_buffers; solve [reflexivity | assumption]|].
           cbv beta. intros _ d1 H1. open_decoder d1. wp_run; exact H1.
         - pose proof plain_handlers_buffers as Hall.
           rewrite Forall_forall in Hall.
           eapply wp_conseq;
             [eapply (Hall _ Hin);
              solve [reflexivity | assumption | proj; tauto]|].
           cbv beta. intros _ d1 H1. open_decoder d1. wp_run; exact H1. }
    all: repeat match goal with
                | H : _ /\ _ |- _ => destruct H
                end; subst.
    all: wp_run; try exact I; split; inv_done.
  - open_decoder d. unfold decode. wp_run. split; assumption.
  - open_decoder d. unfold decode. wp_run; try exact I; split; inv_done.
  - split; assumption.
Qed.

Lemma reachable_inv cn an d :
  reachable cn an d -> flags_inv d /\ buffers_inv d.
Proof.
  induction 1 as [|d s e p d' _ IH Hd].
  - repeat split.
  - exact (wp_elim _ _ _ _ _ (decode_buffers_inv cn an s e p d IH) Hd).
Qed.

(** X7: in every state a session reaches from a new object, the start
    token flag of CMD17 is set only in the data phase of CMD17 and that
    of CMD24 only in the data phase of CMD24, and the read buffer is
    empty in the phases IDLE, of the command token, of the R1 response,
    of the data response and of the busy wait, while a command other
    than CMD9 is handled, and in a data phase before its start token. *)
Theorem reachable_buffers cn an d :
  reachable cn an d -> buffers_inv d.
Proof. intros Hr. apply (reachable_inv cn an d Hr). Qed.

Lemma reachable_buffers_witness :
  buffers_inv (final (run_sample (read_block false 3))).
Proof.
  apply (reachable_buffers sample_cmd_names sample_acmd_names).
  apply (run_reachable sample_cmd_names sample_acmd_names
           (read_block false 3) new_Decoder).
  - apply reach_new.
  - vm_compute. reflexivity.
Defined.

(** ** A whole block *)

Section Cmd17Block.

Variables cn an : name_table.

(** The byte that completes the block leaves the decoder inside the
    block, with the block in the buffer. *)
Lemma cmd17_last_byte_state n sd buf o d x :
  in_block17 n sd buf o d ->
  Z.of_nat (List.length buf) + 1 = n ->
  exists d',
    run cn an (xfer_events x) d = Ok tt d' /\
    in_block17 n (block_start17 sd buf x) (buf ++ [x_miso x])
      (o ++ [mkAnn (block_start17 sd buf x) (x_es x) (Ann.CMD 17)
               [("Block data: " ++ fmt_list (buf ++ [x_miso x]))%string]])
      d'.
Proof.
  unfold in_block17 at 1, block_size. intros (Hst & Hf & Hb & Ho & Hn) Hlt.
  cut (wpt (run cn an (xfer_events x))
         (fun _ d' =>
            state d' = HANDLE_DATA_BLOCK_CMD17 /\
            cmd17_start_token_found d' = true /\
            read_buf d' = buf ++ [x_miso x] /\
            out_ann d' =
              o ++ [mkAnn (block_start17 sd buf x) (x_es x) (Ann.CMD 17)
                      [("Block data: "
                        ++ fmt_list (buf ++ [x_miso x]))%string]] /\
            blocklen d' = n /\
            ss_data d' = Some (block_start17 sd buf x))
         d).
  { intros H. apply wpt_elim in H.
    destruct H as ([] & d' & H1 & H2 & H3 & H4 & H5 & H6 & H7).
    exists d'. split; [exact H1|]. unfold in_block17.
    rewrite H4. destruct buf; cbn [List.app]; repeat split; assumption. }
  unfold block_start17.
  open_decoder d. subst. open_xfer x.
  destruct buf as [|b0 buf]; [|destruct Hn as [Hn Hsd]]; subst.
  all: wp_run.
  all: bool_hyps; rewrite ?length_app in *;
    cbn [List.length List.app Nat.add] in *; proj;
    repeat split; try reflexivity; try lia;
    try (destruct (v_blocklen =? 0) eqn:Hz; bool_hyps; lia).
Qed.

(** The first byte after a block starts its CRC. *)
Lemma cmd17_crc_first n sd buf o d c1 :
  in_block17 n sd buf o d -> buf <> [] ->
  Z.of_nat (List.length buf) = n ->
  exists d',
    run cn an (xfer_events c1) d = Ok tt d' /\
    (state d' = HANDLE_DATA_BLOCK_CMD17 /\
     cmd17_start_token_found d' = true /\
     read_buf d' = buf ++ [x_miso c1] /\ blocklen d' = n /\
     ss_crc d' = Some (x_ss c1) /\ out_ann d' = o).
Proof.
  unfold in_block17. intros (Hst & Hf & Hb & Ho & Hn) Hne Hlen.
  cut (wpt (run cn an (xfer_events c1))
         (fun _ d' =>
            state d' = HANDLE_DATA_BLOCK_CMD17 /\
            cmd17_start_token_found d' = true /\
            read_buf d' = buf ++ [x_miso c1] /\ blocklen d' = n /\
            ss_crc d' = Some (x_ss c1) /\ out_ann d' = o) d);
    [from_wpt|].
  open_decoder d. open_xfer c1.
  destruct buf as [|b0 buf]; [contradiction|]. destruct Hn as [Hn Hsd].
  subst. cbn [List.app].
  wp_run.
  all: bool_hyps; rewrite ?length_app in *;
    cbn [List.length List.app Nat.add] in *; proj;
    repeat split; try reflexivity; try lia; try (exfalso; lia).
Qed.

(** The second one ends it and the transaction. *)
Lemma cmd17_crc_second n sc buf o d c2 :
  state d = HANDLE_DATA_BLOCK_CMD17 ->
  cmd17_start_token_found d = true ->
  read_buf d = buf -> blocklen d = n -> ss_crc d = Some sc ->
  out_ann d = o ->
  Z.of_nat (List.length buf) = n + 1 ->
  exists d',
    run cn an (xfer_events c2) d = Ok tt d' /\
    (state d' = IDLE /\ read_buf d' = [] /\
     cmd17_start_token_found d' = false /\ is_cmd17 d' = false /\
     blocklen d' = n /\
     out_ann d' = o ++ [mkAnn sc (x_es c2) (Ann.CMD 17) ["CRC"]]).
Proof.
  intros Hst Hf Hb Hn Hsc Ho Hlen.
  cut (wpt (run cn an (xfer_events c2))
         (fun _ d' =>
            state d' = IDLE /\ read_buf d' = [] /\
            cmd17_start_token_found d' = false /\ is_cmd17 d' = false /\
            blocklen d' = n /\
            out_ann d' = o ++ [mkAnn sc (x_es c2) (Ann.CMD 17) ["CRC"]]) d);
    [from_wpt|].
  open_decoder d. open_xfer c2.
  destruct buf as [|b0 buf].
  - subst. wp_run.
    all: bool_hyps; cbn [List.length List.app Nat.add] in *; proj;
      repeat split; try reflexivity; try lia; try (exfalso; lia).
  - subst. wp_run.
    all: bool_hyps; rewrite ?length_app in *;
      cbn [List.length List.app Nat.add] in *; proj;
      repeat split; try reflexivity; try lia; try (exfalso; lia).
Qed.

(** The two bytes after a block are its CRC. *)
Lemma cmd17_crc n sd buf o d c1 c2 :
  in_block17 n sd buf o d -> buf <> [] ->
  Z.of_nat (List.length buf) = n ->
  exists d',
    run cn an (xfer_events c1 ++ xfer_events c2) d = Ok tt d' /\
    (state d' = IDLE /\ read_buf d' = [] /\
     cmd17_start_token_found d' = false /\ is_cmd17 d' = false /\
     blocklen d' = n /\
     out_ann d' = o ++ [mkAnn (x_ss c1) (x_es c2) (Ann.CMD 17) ["CRC"]]).
Proof.
  intros Hin Hne Hlen.
  destruct (cmd17_crc_first n sd buf o d c1 Hin Hne Hlen)
    as (d1 & Hd1 & Hst1 & Hf1 & Hb1 & Hn1 & Hsc1 & Ho1).
  destruct (cmd17_crc_second n (x_ss c1) (buf ++ [x_miso c1]) o d1 c2
              Hst1 Hf1 Hb1 Hn1 Hsc1 Ho1) as (d2 & Hd2 & H2).
  { rewrite length_app. cbn [List.length]. lia. }
  exists d2. split; [|exact H2].
  rewrite (run_app_ok _ _ _ _ _ _ Hd1). exact Hd2.
Qed.

End Cmd17Block.

(** X8: the two bytes after the last byte of a block of CMD17 are taken
    as its CRC, whatever their values: one annotation 'CRC' spans them,
    the phase is IDLE again, the buffer is empty and the flags of the
    read are cleared; the block length is kept for the next block. *)
Theorem cmd17_crc_bytes cn an n sd buf o d c1 c2 :
  in_block17 n sd buf o d -> buf <> [] ->
  Z.of_nat (List.length buf) = n ->
  exists d',
    run cn an (xfer_events c1 ++ xfer_events c2) d = Ok tt d' /\
    state d' = IDLE /\ read_buf d' = [] /\
    cmd17_start_token_found d' = false /\ is_cmd17 d' = false /\
    blocklen d' = n /\
    out_ann d' = o ++ [mkAnn (x_ss c1) (x_es c2) (Ann.CMD 17) ["CRC"]].
Proof. apply cmd17_crc. Qed.

Lemma cmd17_crc_bytes_witness :
  let d := final (run_sample
                    (spi_bytes 0 (host [80; 0; 0; 0; 2; 1] ++ [(255, 255)]
                                  ++ card [0]
                                  ++ host [81; 0; 0; 0; 0; 1] ++ [(255, 255)]
                                  ++ card [0; 254; 7; 9]))) in
  exists d',
    run sample_cmd_names sample_acmd_names
        (xfer_events (mkXfer 152 160 (spi_bits 255 152) (spi_bits 18 152)
                        255 18)
         ++ xfer_events (mkXfer 160 168 (spi_bits 255 160)
                           (spi_bits 52 160) 255 52)) d = Ok tt d' /\
    state d' = IDLE /\
    out_ann d' = out_ann d ++ [mkAnn 152 168 (Ann.CMD 17) ["CRC"]].
Proof.
  cbv zeta.
  edestruct (cmd17_crc_bytes sample_cmd_names sample_acmd_names 2 136 [7; 9]
              (out_ann (final (run_sample
                    (spi_bytes 0 (host [80; 0; 0; 0; 2; 1] ++ [(255, 255)]
                                  ++ card [0]
                                  ++ host [81; 0; 0; 0; 0; 1] ++ [(255, 255)]
                                  ++ card [0; 254; 7; 9])))))
              (final (run_sample
                    (spi_bytes 0 (host [80; 0; 0; 0; 2; 1] ++ [(255, 255)]
                                  ++ card [0]
                                  ++ host [81; 0; 0; 0; 0; 1] ++ [(255, 255)]
                                  ++ card [0; 254; 7; 9]))))
              (mkXfer 152 160 (spi_bits 255 152) (spi_bits 18 152) 255 18)
              (mkXfer 160 168 (spi_bits 255 160) (spi_bits 52 160) 255 52))
    as (d' & Hrun & Hst & _ & _ & _ & _ & Hout).
  - vm_compute. repeat split.
  - discriminate.
  - reflexivity.
  - exists d'. repeat split; assumption.
Defined.

(** The start token, with the bits of its byte. *)
Lemma cmd17_start_xfer cn an d x0 :
  state d = HANDLE_DATA_BLOCK_CMD17 -> cmd17_start_token_found d = false ->
  read_buf d = [] -> x_miso x0 = 254 ->
  exists d',
    run cn an (xfer_events x0) d = Ok tt d' /\
    in_block17 (block_size d) 0 []
      (out_ann d
       ++ [mkAnn (x_ss x0) (x_es x0) (Ann.CMD 17) ["Start Block"]]) d'.
Proof.
  intros Hst Hf Hb Hx.
  cut (wpt (run cn an (xfer_events x0))
         (fun _ d' => in_block17 (block_size d) 0 []
             (out_ann d
              ++ [mkAnn (x_ss x0) (x_es x0) (Ann.CMD 17) ["Start Block"]])
             d') d);
    [from_wpt|].
  unfold in_block17, block_size.
  open_decoder d. open_xfer x0. subst. wp_run. proj. repeat split.
Qed.

(** X9: a whole data phase of CMD17 from a state a session reaches: in
    the data phase of CMD17 before the start token, the start token
    0xfe, as many bytes as the block length (512 when it is 0) and two
    more bytes put out exactly three annotations, 'Start Block' on the
    start token, the block from its first to its last byte with all its
    bytes, and 'CRC' on the last two bytes, and leave the decoder in
    IDLE with an empty buffer and the flags of the read cleared. *)
Theorem reachable_read_block cn an d x0 pre x c1 c2 :
  reachable cn an d ->
  state d = HANDLE_DATA_BLOCK_CMD17 -> cmd17_start_token_found d = false ->
  x_miso x0 = 254 ->
  Z.of_nat (List.length pre) + 1 = block_size d ->
  exists d',
    run cn an (flat_map xfer_events (x0 :: pre ++ [x; c1; c2])) d
    = Ok tt d' /\
    state d' = IDLE /\ read_buf d' = [] /\
    cmd17_start_token_found d' = false /\ is_cmd17 d' = false /\
    out_ann d' =
      out_ann d ++
      [mkAnn (x_ss x0) (x_es x0) (Ann.CMD 17) ["Start Block"];
       mkAnn (x_ss (hd x pre)) (x_es x) (Ann.CMD 17)
         [("Block data: " ++ fmt_list (map x_miso (pre ++ [x])))%string];
       mkAnn (x_ss c1) (x_es c2) (Ann.CMD 17) ["CRC"]].
Proof.
  intros Hr Hst Hf Hx0 Hlen.
  assert (Hb : read_buf d = []).
  { destruct (reachable_inv cn an d Hr) as [_ Hinv].
    unfold buffers_inv in Hinv. rewrite Hst in Hinv. apply Hinv. exact Hf. }
  destruct (cmd17_start_xfer cn an d x0 Hst Hf Hb Hx0) as (d0 & Hd0 & Hin0).
  destruct (cmd17_bytes cn an pre _ _ _ _ _ Hin0) as (d1 & Hd1 & Hin1).
  { cbn [List.length Nat.add]. lia. }
  destruct (cmd17_last_byte_state cn an _ _ _ _ _ x Hin1)
    as (d2 & Hd2 & Hin2).
  { cbn [List.app]. rewrite length_map. lia. }
  destruct (cmd17_crc cn an _ _ _ _ _ c1 c2 Hin2) as (d3 & Hd3 & H3).
  { cbn [List.app]. destruct (map x_miso pre); discriminate. }
  { cbn [List.app]. rewrite length_app, length_map. cbn [List.length]. lia. }
  destruct H3 as (Hst3 & Hb3 & Hf3 & H17 & _ & Ho3).
  exists d3. split.
  { change (x0 :: pre ++ [x; c1; c2]) with ([x0] ++ pre ++ [x; c1; c2]).
    rewrite !flat_map_app. cbn [flat_map]. rewrite app_nil_r.
    rewrite (run_app_ok _ _ _ _ _ _ Hd0), (run_app_ok _ _ _ _ _ _ Hd1).
    rewrite (run_app_ok _ _ _ _ _ _ Hd2). rewrite app_nil_r. exact Hd3. }
  repeat split; try assumption.
  rewrite Ho3. cbn [List.app]. rewrite <- !app_assoc. cbn [List.app].
  rewrite map_app. cbn [map].
  replace (block_start17 (block_start_of17 0 [] pre) (map x_miso pre) x)
    with (x_ss (hd x pre)); [reflexivity|].
  destruct pre; reflexivity.
Qed.

Lemma reachable_read_block_witness :
  let d := final (run_sample
                    (spi_bytes 0 (host [80; 0; 0; 0; 2; 1] ++ [(255, 255)]
                                  ++ card [0]
                                  ++ host [81; 0; 0; 0; 0; 1] ++ [(255, 255)]
                                  ++ card [0]))) in
  exists d',
    run sample_cmd_names sample_acmd_names
        (flat_map xfer_events
           [mkXfer 128 136 (spi_bits 255 128) (spi_bits 254 128) 255 254;
            mkXfer 136 144 (spi_bits 255 136) (spi_bits 7 136) 255 7;
            mkXfer 144 152 (spi_bits 255 144) (spi_bits 9 144) 255 9;
            mkXfer 152 160 (spi_bits 255 152) (spi_bits 18 152) 255 18;
            mkXfer 160 168 (spi_bits 255 160) (spi_bits 52 160) 255 52])
        d = Ok tt d' /\
    state d' = IDLE /\
    out_ann d' =
      out_ann d ++
      [mkAnn 128 136 (Ann.CMD 17) ["Start Block"];
       mkAnn 136 152 (Ann.CMD 17) ["Block data: [7, 9]"];
       mkAnn 152 168 (Ann.CMD 17) ["CRC"]].
Proof.
  cbv zeta.
  assert (Hrun : run sample_cmd_names sample_acmd_names
                   (spi_bytes 0 (host [80; 0; 0; 0; 2; 1] ++ [(255, 255)]
                                 ++ card [0]
                                 ++ host [81; 0; 0; 0; 0; 1] ++ [(255, 255)]
                                 ++ card [0])) new_Decoder
                 = Ok tt (final (run_sample
                    (spi_bytes 0 (host [80; 0; 0; 0; 2; 1] ++ [(255, 255)]
                                  ++ card [0]
                                  ++ host [81; 0; 0; 0; 0; 1] ++ [(255, 255)]
                                  ++ card [0])))))
    by (vm_compute; reflexivity).
  destruct (reachable_read_block sample_cmd_names sample_acmd_names _
              (mkXfer 128 136 (spi_bits 255 128) (spi_bits 254 128) 255 254)
              [mkXfer 136 144 (spi_bits 255 136) (spi_bits 7 136) 255 7]
              (mkXfer 144 152 (spi_bits 255 144) (spi_bits 9 144) 255 9)
              (mkXfer 152 160 (spi_bits 255 152) (spi_bits 18 152) 255 18)
              (mkXfer 160 168 (spi_bits 255 160) (spi_bits 52 160) 255 52)
              (run_reachable _ _ _ _ _ (reach_new _ _) Hrun))
    as (d' & Hd & Hst & _ & _ & _ & Hout).
  - vm_compute. reflexivity.
  - vm_compute. reflexivity.
  - reflexivity.
  - vm_compute. reflexivity.
  - exists d'. repeat split; assumption.
Defined.

Section Cmd24Block.

Variables cn an : name_table.

Lemma cmd24_start_xfer d x0 :
  state d = HANDLE_DATA_BLOCK_CMD24 -> cmd24_start_token_found d = false ->
  read_buf d = [] -> x_mosi x0 = 254 ->
  exists d',
    run cn an (xfer_events x0) d = Ok tt d' /\
    in_block24 (block_size d) 0 []
      (out_ann d
       ++ [mkAnn (x_ss x0) (x_es x0) (Ann.CMD 24) ["Start Block"]]) d'.
Proof.
  intros Hst Hf Hb Hx.
  cut (wpt (run cn an (xfer_events x0))
         (fun _ d' => in_block24 (block_size d) 0 []
             (out_ann d
              ++ [mkAnn (x_ss x0) (x_es x0) (Ann.CMD 24) ["Start Block"]])
             d') d);
    [from_wpt|].
  unfold in_block24, block_size.
  open_decoder d. open_xfer x0. subst. wp_run. proj. repeat split.
Qed.

(** A valid data response byte after a write. *)
Lemma data_response_xfer d r :
  state d = DATA_RESPONSE -> is_cmd24 d = true ->
  valid_data_response (x_miso r) = true ->
  List.length (x_miso_bits r) = 8%nat ->
  exists d' new,
    run cn an (xfer_events r) d = Ok tt d' /\
    state d' = WAIT_WHILE_CARD_BUSY /\ busy_first_byte d' = true /\
    is_cmd24 d' = true /\
    out_ann d' = out_ann d ++ new /\
    Forall (fun a => a_cls a = Ann.BIT) (removelast new) /\
    last new (mkAnn 0 0 0 [])
    = mkAnn (x_ss r) (x_es r) (Ann.CMD 24) ["Data Response"].
Proof.
  unfold valid_data_response. intros Hst H24 Hv Hlen.
  cut (wpt (run cn an (xfer_events r))
         (fun _ d' => exists new,
            state d' = WAIT_WHILE_CARD_BUSY /\ busy_first_byte d' = true /\
            is_cmd24 d' = true /\
            out_ann d' = out_ann d ++ new /\
            Forall (fun a => a_cls a = Ann.BIT) (removelast new) /\
            last new (mkAnn 0 0 0 [])
            = mkAnn (x_ss r) (x_es r) (Ann.CMD 24) ["Data Response"]) d).
  { intros H. apply wpt_elim in H. destruct H as ([] & d' & Hd & new & H).
    exists d', new. split; assumption. }
  open_decoder d. open_xfer r. subst. open_list x_sb Hlen.
  wp_lin. rewrite Hv. cbn [negb]. wp_run.
  all: proj; rewrite <- ?app_assoc; eexists;
    do 3 (split; [reflexivity|]); (split; [reflexivity|]);
    cbn [List.app removelast last]; split; [|reflexivity];
    repeat constructor.
Qed.

End Cmd24Block.

(** X10: a whole data phase of CMD24 from a state a session reaches: in
    the data phase of CMD24 before the start token, the start token 0xfe
    on MOSI, as many bytes as the block length (512 when it is 0) and a
    valid data response byte put out 'Start Block' on the start token,
    the block from its first to its last byte with all its bytes, the
    bit annotations of the data response and 'Data Response' on its
    byte, and leave the decoder in the busy wait phase with the write
    flag set.  No CRC bytes are expected between the block and the data
    response. *)
Theorem reachable_write_block cn an d x0 pre x r :
  reachable cn an d ->
  state d = HANDLE_DATA_BLOCK_CMD24 -> cmd24_start_token_found d = false ->
  x_mosi x0 = 254 ->
  Z.of_nat (List.length pre) + 1 = block_size d ->
  valid_data_response (x_miso r) = true ->
  List.length (x_miso_bits r) = 8%nat ->
  exists d' new,
    run cn an (flat_map xfer_events (x0 :: pre ++ [x; r])) d = Ok tt d' /\
    state d' = WAIT_WHILE_CARD_BUSY /\ busy_first_byte d' = true /\
    is_cmd24 d' = true /\ read_buf d' = [] /\
    out_ann d' =
      out_ann d ++
      [mkAnn (x_ss x0) (x_es x0) (Ann.CMD 24) ["Start Block"];
       mkAnn (x_ss (hd x pre)) (x_es x) (Ann.CMD 24)
         [("Block data: " ++ fmt_list (map x_mosi (pre ++ [x])))%string]]
      ++ new /\
    Forall (fun a => a_cls a = Ann.BIT) (removelast new) /\
    last new (mkAnn 0 0 0 [])
    = mkAnn (x_ss r) (x_es r) (Ann.CMD 24) ["Data Response"].
Proof.
  intros Hr Hst Hf Hx0 Hlen Hv Hbits.
  assert (Hb : read_buf d = []).
  { destruct (reachable_inv cn an d Hr) as [_ Hinv].
    unfold buffers_inv in Hinv. rewrite Hst in Hinv. apply Hinv. exact Hf. }
  destruct (cmd24_start_xfer cn an d x0 Hst Hf Hb Hx0) as (d0 & Hd0 & Hin0).
  destruct (cmd24_bytes cn an pre _ _ _ _ _ Hin0) as (d1 & Hd1 & Hin1).
  { cbn [List.length Nat.add]. lia. }
  destruct (cmd24_last_byte cn an _ _ _ _ _ x Hin1)
    as (d2 & Hd2 & Hst2 & Ho2).
  { cbn [List.app]. rewrite length_map. lia. }
  assert (Hrun2 : run cn an (flat_map xfer_events (x0 :: pre ++ [x])) d
                  = Ok tt d2).
  { change (x0 :: pre ++ [x]) with ([x0] ++ pre ++ [x]).
    rewrite !flat_map_app. cbn [flat_map]. rewrite !app_nil_r.
    rewrite (run_app_ok _ _ _ _ _ _ Hd0), (run_app_ok _ _ _ _ _ _ Hd1).
    exact Hd2. }
  destruct (reachable_inv cn an d2 (run_reachable _ _ _ _ _ Hr Hrun2))
    as [Hfl2 Hbu2].
  unfold flags_inv in Hfl2. unfold buffers_inv in Hbu2.
  rewrite Hst2 in Hfl2, Hbu2.
  destruct Hfl2 as [_ H24]. destruct Hbu2 as (_ & _ & Hb2).
  destruct (data_response_xfer cn an d2 r Hst2 H24 Hv Hbits)
    as (d3 & new & Hd3 & Hst3 & Hfb3 & H243 & Ho3 & Hall & Hlast).
  assert (Hb3 : read_buf d3 = []).
  { assert (Hrun3 : run cn an (flat_map xfer_events
                                 ((x0 :: pre ++ [x]) ++ [r])) d = Ok tt d3).
    { rewrite flat_map_app. cbn [flat_map]. rewrite app_nil_r.
      rewrite (run_app_ok _ _ _ _ _ _ Hrun2). exact Hd3. }
    destruct (reachable_inv cn an d3 (run_reachable _ _ _ _ _ Hr Hrun3))
      as [_ Hbu3].
    unfold buffers_inv in Hbu3. rewrite Hst3 in Hbu3. apply Hbu3. }
  exists d3, new. split.
  { change (x0 :: pre ++ [x; r]) with (x0 :: pre ++ [x] ++ [r]).
    rewrite app_assoc, app_comm_cons.
    rewrite flat_map_app. cbn [flat_map]. rewrite app_nil_r.
    rewrite (run_app_ok _ _ _ _ _ _ Hrun2). exact Hd3. }
  repeat split; try assumption.
  rewrite Ho3, Ho2. cbn [List.app]. rewrite <- !app_assoc. cbn [List.app].
  rewrite map_app. cbn [map].
  replace (block_start24 (block_start_of24 0 [] pre) (map x_mosi pre) x)
    with (x_ss (hd x pre)); [reflexivity|].
  destruct pre; reflexivity.
Qed.

Lemma reachable_write_block_witness :
  let d := final (run_sample
                    (spi_bytes 0 (host [80; 0; 0; 0; 1; 1] ++ [(255, 255)]
                                  ++ card [0]
                                  ++ host [88; 0; 0; 0; 0; 1] ++ [(255, 255)]
                                  ++ card [0]))) in
  exists d' new,
    run sample_cmd_names sample_acmd_names
        (flat_map xfer_events
           [mkXfer 128 136 (spi_bits 254 128) (spi_bits 255 128) 254 255;
            mkXfer 136 144 (spi_bits 165 136) (spi_bits 255 136) 165 255;
            mkXfer 144 152 (spi_bits 255 144) (spi_bits 229 144) 255 229])
        d = Ok tt d' /\
    state d' = WAIT_WHILE_CARD_BUSY /\
    out_ann d' =
      out_ann d ++
      [mkAnn 128 136 (Ann.CMD 24) ["Start Block"];
       mkAnn 136 144 (Ann.CMD 24) ["Block data: [165]"]] ++ new /\
    last new (mkAnn 0 0 0 [])
    = mkAnn 144 152 (Ann.CMD 24) ["Data Response"].
Proof.
  cbv zeta.
  assert (Hrun : run sample_cmd_names sample_acmd_names
                   (spi_bytes 0 (host [80; 0; 0; 0; 1; 1] ++ [(255, 255)]
                                 ++ card [0]
                                 ++ host [88; 0; 0; 0; 0; 1] ++ [(255, 255)]
                                 ++ card [0])) new_Decoder
                 = Ok tt (final (run_sample
                    (spi_bytes 0 (host [80; 0; 0; 0; 1; 1] ++ [(255, 255)]
                                  ++ card [0]
                                  ++ host [88; 0; 0; 0; 0; 1] ++ [(255, 255)]
                                  ++ card [0])))))
    by (vm_compute; reflexivity).
  destruct (reachable_write_block sample_cmd_names sample_acmd_names _
              (mkXfer 128 136 (spi_bits 254 128) (spi_bits 255 128) 254 255)
              []
              (mkXfer 136 144 (spi_bits 165 136) (spi_bits 255 136) 165 255)
              (mkXfer 144 152 (spi_bits 255 144) (spi_bits 229 144) 255 229)
              (run_reachable _ _ _ _ _ (reach_new _ _) Hrun))
    as (d' & new & Hd & Hst & _ & _ & _ & Hout & _ & Hlast).
  - vm_compute. reflexivity.
  - vm_compute. reflexivity.
  - reflexivity.
  - vm_compute. reflexivity.
  - reflexivity.
  - reflexivity.
  - exists d', new. repeat split; assumption.
Defined.

(** ** The busy wait *)

(** X11: the annotation of the busy wait after a write.  When the card
    holds MISO at 0 for two or more bytes, one annotation 'Card is busy'
    is put out on the first byte that is not 0, from the start of the
    first busy byte to the end of the last one, and the phase is IDLE
    with the write flag cleared.  When the first byte after the data
    response is not 0, the annotation is put out all the same, with the
    range [ss_busy], [es_busy] left by [reset] or by an earlier write. *)
Theorem busy_annotation_range cn an sb eb o d :
  busy_state true sb eb o d ->
  (forall z1 zs z2 x,
     Forall (fun z => x_miso z = 0) (z1 :: zs ++ [z2]) -> x_miso x <> 0 ->
     exists d',
       run cn an (flat_map xfer_events (z1 :: (zs ++ [z2]) ++ [x])) d
       = Ok tt d' /\
       state d' = IDLE /\
       out_ann d' =
         o ++ [mkAnn (x_ss z1) (x_es z2) (Ann.CMD 24) ["Card is busy"]]) /\
  (forall x,
     x_miso x <> 0 ->
     exists d',
       run cn an (xfer_events x) d = Ok tt d' /\
       state d' = IDLE /\ is_cmd24 d' = false /\
       out_ann d' = o ++ [mkAnn sb eb (Ann.CMD 24) ["Card is busy"]]).
Proof.
  intros Hb. split.
  - intros z1 zs z2 x Hall Hx.
    destruct (busy_run cn an sb eb o d z1 (zs ++ [z2]) x Hb Hall Hx)
      as (d' & Hd & Hst & Ho).
    exists d'. repeat split; try assumption.
    rewrite Ho, map_app. cbn [map]. rewrite last_last. reflexivity.
  - intros x Hx. apply (busy_end cn an true sb eb o d x Hb Hx).
Qed.

Lemma busy_annotation_range_witness :
  let d := final (run_sample
                    (spi_bytes 0 (host [80; 0; 0; 0; 1; 1] ++ [(255, 255)]
                                  ++ card [0]
                                  ++ host [88; 0; 0; 0; 0; 1] ++ [(255, 255)]
                                  ++ card [0] ++ host [254; 165]
                                  ++ card [229]))) in
  exists d',
    run sample_cmd_names sample_acmd_names
        (xfer_events (mkXfer 152 160 (spi_bits 255 152) (spi_bits 255 152)
                        255 255)) d = Ok tt d' /\
    state d' = IDLE /\
    out_ann d' = out_ann d ++ [mkAnn 0 0 (Ann.CMD 24) ["Card is busy"]].
Proof.
  cbv zeta.
  destruct (proj2 (busy_annotation_range sample_cmd_names sample_acmd_names
              0 0
              (out_ann (final (run_sample
                    (spi_bytes 0 (host [80; 0; 0; 0; 1; 1] ++ [(255, 255)]
                                  ++ card [0]
                                  ++ host [88; 0; 0; 0; 0; 1] ++ [(255, 255)]
                                  ++ card [0] ++ host [254; 165]
                                  ++ card [229])))))
              (final (run_sample
                    (spi_bytes 0 (host [80; 0; 0; 0; 1; 1] ++ [(255, 255)]
                                  ++ card [0]
                                  ++ host [88; 0; 0; 0; 0; 1] ++ [(255, 255)]
                                  ++ card [0] ++ host [254; 165]
                                  ++ card [229]))))
              ltac:(vm_compute; repeat split))
              (mkXfer 152 160 (spi_bits 255 152) (spi_bits 255 152) 255 255))
    as (d' & Hd & Hst & _ & Hout).
  - cbn. discriminate.
  - exists d'. repeat split; assumption.
Defined.

(** ** Commands *)

(** X12: CMD9 (SEND_CSD) has no response phase: the handler takes the
    twenty bytes that follow the token from MISO itself.  Each of them
    puts out the description of the command again (the first over the
    range of the token, the others from the start of the first of the
    twenty bytes to the end of the token); the twentieth puts out the
    annotation 'CSD' with the last sixteen bytes, from the first to the
    last of the twenty, and the phase is IDLE with an empty buffer. *)
Theorem cmd9_csd_bytes cn an d xs x1 :
  state d = HANDLE_CMD 9 -> is_acmd d = false -> read_buf d = [] ->
  List.length xs = 20%nat -> hd_error xs = Some x1 ->
  exists d',
    run cn an (flat_map xfer_events xs) d = Ok tt d' /\
    state d' = IDLE /\ read_buf d' = [] /\
    out_ann d' =
      out_ann d ++
      mkAnn (ss_cmd d) (es_cmd d) (Ann.CMD 9)
        [(cmd_str d
          ++ ": Ask card to send its card specific data (CSD)")%string]
      :: repeat
           (mkAnn (x_ss x1) (es_cmd d) (Ann.CMD 9)
              [(cmd_str d
                ++ ": Ask card to send its card specific data (CSD)")%string])
           19
      ++ [mkAnn (x_ss x1) (x_es (last xs x1)) (Ann.CMD 9)
            [("CSD: " ++ fmt_list (map x_miso (skipn 4 xs)))%string]].
Proof.
  intros Hst Ha Hb Hlen Hhd.
  cut (wpt (run cn an (flat_map xfer_events xs))
         (fun _ d' =>
            state d' = IDLE /\ read_buf d' = [] /\
            out_ann d' =
              out_ann d ++
              mkAnn (ss_cmd d) (es_cmd d) (Ann.CMD 9)
                [(cmd_str d
                  ++ ": Ask card to send its card specific data (CSD)")%string]
              :: repeat
                   (mkAnn (x_ss x1) (es_cmd d) (Ann.CMD 9)
                      [(cmd_str d
                        ++ ": Ask card to send its card specific data (CSD)")%string])
                   19
              ++ [mkAnn (x_ss x1) (x_es (last xs x1)) (Ann.CMD 9)
                    [("CSD: " ++ fmt_list (map x_miso (skipn 4 xs)))%string]])
         d);
    [from_wpt|].
  open_list xs Hlen. cbn [hd_error] in Hhd. injection Hhd as <-.
  open_decoder d. subst. open_xfers.
  cbn [flat_map List.app last skipn map repeat x_ss x_es x_miso].
  wp_run. proj. rewrite <- ?app_assoc. repeat split.
Qed.

Lemma cmd9_csd_bytes_witness :
  exists d',
    run sample_cmd_names sample_acmd_names
        (flat_map xfer_events
           (map (fun i => mkXfer (48 + 8 * i) (56 + 8 * i)
                            (spi_bits 255 (48 + 8 * i))
                            (spi_bits i (48 + 8 * i)) 255 i)
                [0; 1; 2; 3; 4; 5; 6; 7; 8; 9; 10; 11; 12; 13; 14; 15; 16;
                 17; 18; 19]))
        (final (run_sample (spi_bytes 0 (host [73; 0; 0; 0; 0; 1]))))
    = Ok tt d' /\
    state d' = IDLE /\
    In (mkAnn 48 208 (Ann.CMD 9)
          ["CSD: [4, 5, 6, 7, 8, 9, 10, 11, 12, 13, 14, 15, 16, 17, 18, 19]"])
       (out_ann d').
Proof.
  destruct (cmd9_csd_bytes sample_cmd_names sample_acmd_names
              (final (run_sample (spi_bytes 0 (host [73; 0; 0; 0; 0; 1]))))
              (map (fun i => mkXfer (48 + 8 * i) (56 + 8 * i)
                            (spi_bits 255 (48 + 8 * i))
                            (spi_bits i (48 + 8 * i)) 255 i)
                [0; 1; 2; 3; 4; 5; 6; 7; 8; 9; 10; 11; 12; 13; 14; 15; 16;
                 17; 18; 19])
              (mkXfer 48 56 (spi_bits 255 48) (spi_bits 0 48) 255 0))
    as (d' & Hd & Hst & _ & Hout).
  - vm_compute. reflexivity.
  - vm_compute. reflexivity.
  - vm_compute. reflexivity.
  - reflexivity.
  - reflexivity.
  - exists d'. split; [exact Hd|]. split; [exact Hst|].
    rewrite Hout. apply in_or_app. right. right.
    apply in_or_app. right. left. vm_compute. reflexivity.
Defined.

(** ** The bits of the responses *)

(** The test [res & (1 << k)] of the source reads bit [k] of [res]. *)
Lemma bit_set_testbit res k :
  0 <= k -> bit_set res k = Z.testbit res k.
Proof.
  intros Hk. unfold bit_set, truthy.
  destruct (Z.testbit res k) eqn:Hb.
  - apply negb_true_iff, Z.eqb_neq. intros H0.
    assert (Ht : Z.testbit (Z.land res (Z.shiftl 1 k)) k = true).
    { rewrite Z.land_spec, Hb, Z.shiftl_spec by exact Hk.
      rewrite Z.sub_diag. reflexivity. }
    rewrite H0, Z.bits_0 in Ht. discriminate Ht.
  - apply negb_false_iff, Z.eqb_eq. apply Z.bits_inj'. intros n Hn.
    rewrite Z.land_spec, Z.bits_0, Z.shiftl_spec by exact Hn.
    destruct (Z.eq_dec n k) as [-> | Hne].
    + rewrite Hb. reflexivity.
    + replace (Z.testbit 1 (n - k)) with false; [apply andb_false_r|].
      destruct (Z.lt_ge_cases (n - k) 0) as [Hlt | Hge].
      * rewrite Z.testbit_neg_r by exact Hlt. reflexivity.
      * symmetry. apply (Z.bits_above_log2 1 (n - k)); cbn; lia.
Qed.

(** X13: the R1 response.  A byte other than 0xff in the R1 phase puts
    out nine annotations: 'R1' with the byte in hex, from the start of
    bit 7 to the end of bit 0, and one annotation of class BIT for each
    of the bits 0 to 7, in this order, each on the samples of its bit;
    the text of bit [k] for [k] from 0 to 6 depends on bit [k] of the
    byte only and that of bit 7 is fixed. *)
Theorem r1_status_bits cn an d x :
  state d = GET_RESPONSE_R1 -> x_miso x <> 255 ->
  List.length (x_miso_bits x) = 8%nat ->
  exists d' new,
    run cn an (xfer_events x) d = Ok tt d' /\
    out_ann d' = out_ann d ++ new /\
    map (fun a => (a_ss a, a_es a, a_cls a)) new =
      (b_ss (bit_at (x_miso_bits x) 7), b_es (bit_at (x_miso_bits x) 0),
       Ann.R1)
      :: map (fun b => (b_ss b, b_es b, Ann.BIT)) (x_miso_bits x) /\
    map a_texts new =
      [[("R1: 0x" ++ fmt_x 2 (x_miso x))%string];
       [if Z.testbit (x_miso x) 0 then "Card is in idle state"
        else "Card is not in idle state"];
       [if Z.testbit (x_miso x) 1 then "Erase sequence cleared"
        else "Erase sequence not cleared"];
       [if Z.testbit (x_miso x) 2 then "Illegal command detected"
        else "No illegal command detected"];
       [if Z.testbit (x_miso x) 3 then "CRC check of last command failed"
        else "CRC check of last command was successful"];
       [if Z.testbit (x_miso x) 4
        then "Error in the sequence of erase commands"
        else "No error in the sequence of erase commands"];
       [if Z.testbit (x_miso x) 5 then "Misaligned address used in command"
        else "No misaligned address used in command"];
       [if Z.testbit (x_miso x) 6
        then "Command argument outside allowed range"
        else "Command argument not outside allowed range"];
       ["Bit 7 (always 0)"]].
Proof.
  intros Hst Hx Hlen.
  cut (wpt (run cn an (xfer_events x))
         (fun _ d' => exists new,
            out_ann d' = out_ann d ++ new /\
            map (fun a => (a_ss a, a_es a, a_cls a)) new =
              (b_ss (bit_at (x_miso_bits x) 7),
               b_es (bit_at (x_miso_bits x) 0), Ann.R1)
              :: map (fun b => (b_ss b, b_es b, Ann.BIT)) (x_miso_bits x) /\
            map a_texts new =
              [[("R1: 0x" ++ fmt_x 2 (x_miso x))%string];
               [if Z.testbit (x_miso x) 0 then "Card is in idle state"
                else "Card is not in idle state"];
               [if Z.testbit (x_miso x) 1 then "Erase sequence cleared"
                else "Erase sequence not cleared"];
               [if Z.testbit (x_miso x) 2 then "Illegal command detected"
                else "No illegal command detected"];
               [if Z.testbit (x_miso x) 3
                then "CRC check of last command failed"
                else "CRC check of last command was successful"];
               [if Z.testbit (x_miso x) 4
                then "Error in the sequence of erase commands"
                else "No error in the sequence of erase commands"];
               [if Z.testbit (x_miso x) 5
                then "Misaligned address used in command"
                else "No misaligned address used in command"];
               [if Z.testbit (x_miso x) 6
                then "Command argument outside allowed range"
                else "Command argument not outside allowed range"];
               ["Bit 7 (always 0)"]]) d).
  { intros H. apply wpt_elim in H. destruct H as ([] & d' & Hd & new & H).
    exists d', new. split; assumption. }
  open_decoder d. open_xfer x. subst. open_list x_sb Hlen.
  apply Z.eqb_neq in Hx.
  wp_lin. rewrite Hx. wp_lin.
  rewrite !bit_set_testbit by lia.
  wp_run.
  all: proj; rewrite <- ?app_assoc; eexists; (split; [reflexivity|]);
    cbn [List.app map a_ss a_es a_cls a_texts bit_at nth];
    (split; [reflexivity|]);
    repeat f_equal;
    match goal with
    | |- context [Z.testbit ?r ?k] => destruct (Z.testbit r k)
    end;
    reflexivity.
Qed.

Lemma r1_status_bits_witness :
  exists d' new,
    run sample_cmd_names sample_acmd_names
        (xfer_events (mkXfer 56 64 (spi_bits 255 56) (spi_bits 5 56) 255 5))
        (final (run_sample (spi_bytes 0 (host [64; 0; 0; 0; 0; 149]
                                         ++ [(255, 255)]))))
    = Ok tt d' /\
    map a_texts new =
      [["R1: 0x05"]; ["Card is in idle state"];
       ["Erase sequence not cleared"]; ["Illegal command detected"];
       ["CRC check of last command was successful"];
       ["No error in the sequence of erase commands"];
       ["No misaligned address used in command"];
       ["Command argument not outside allowed range"];
       ["Bit 7 (always 0)"]].
Proof.
  destruct (r1_status_bits sample_cmd_names sample_acmd_names
              (final (run_sample (spi_bytes 0 (host [64; 0; 0; 0; 0; 149]
                                               ++ [(255, 255)]))))
              (mkXfer 56 64 (spi_bits 255 56) (spi_bits 5 56) 255 5))
    as (d' & new & Hd & _ & _ & Ht).
  - vm_compute. reflexivity.
  - cbn. discriminate.
  - reflexivity.
  - exists d', new. split; [exact Hd | exact Ht].
Defined.


(** X14: the second byte of the R2 response is the status byte.  It puts
    out 'R2' with both bytes in hex, from the start of the response to
    the end of this byte, and one annotation of class BIT for each of
    the bits 0 to 7, in this order, each on the samples of its bit in
    this byte; the text of bit [k] depends on bit [k] of the status byte
    only, for the bits 5 and 6 as for the others.  The phase is IDLE and
    the buffer is empty afterwards. *)
Theorem r2_status_byte cn an d x b1 :
  state d = GET_RESPONSE_R2 -> read_buf d = [b1] ->
  List.length (x_miso_bits x) = 8%nat ->
  exists d' new,
    run cn an (xfer_events x) d = Ok tt d' /\
    state d' = IDLE /\ read_buf d' = [] /\
    out_ann d' = out_ann d ++ new /\
    map (fun a => (a_ss a, a_es a, a_cls a)) new =
      (ss_cmd d, x_es x, Ann.R2)
      :: map (fun b => (b_ss b, b_es b, Ann.BIT)) (x_miso_bits x) /\
    map a_texts new =
      [[("R2: [R1: 0x" ++ fmt_x 2 b1 ++ ", Status: 0x"
         ++ fmt_x 2 (x_miso x) ++ "]")%string];
       [if Z.testbit (x_miso x) 0 then "Card is locked"
        else "Card is unlocked"];
       [if Z.testbit (x_miso x) 1
        then "Attempt to erase a write-protected sector | Error in card lock/unlock operation"
        else "No attempt to erase a write-protected sector | No error in card lock/unlock operation"];
       [if Z.testbit (x_miso x) 2 then "General or unknown error"
        else "No general or unknown error"];
       [if Z.testbit (x_miso x) 3 then "Internal card controller error"
        else "No internal card controller error"];
       [if Z.testbit (x_miso x) 4 then "ECC failure to correct data"
        else "No ECC failure to correct data"];
       [if Z.testbit (x_miso x) 5 then "Write protect violation"
        else "No write protect violation"];
       [if Z.testbit (x_miso x) 6
        then "Invalid selection for erase, sectors or groups"
        else "No invalid selection for erase, sectors or groups"];
       [if Z.testbit (x_miso x) 7 then "Out of range | CSD overwrite"
        else "No out of range | No CSD overwrite"]].
Proof.
  intros Hst Hb Hlen.
  cut (wpt (run cn an (xfer_events x))
         (fun _ d' => exists new,
            state d' = IDLE /\ read_buf d' = [] /\
            out_ann d' = out_ann d ++ new /\
            map (fun a => (a_ss a, a_es a, a_cls a)) new =
              (ss_cmd d, x_es x, Ann.R2)
              :: map (fun b => (b_ss b, b_es b, Ann.BIT)) (x_miso_bits x) /\
            map a_texts new =
              [[("R2: [R1: 0x" ++ fmt_x 2 b1 ++ ", Status: 0x"
                 ++ fmt_x 2 (x_miso x) ++ "]")%string];
               [if Z.testbit (x_miso x) 0 then "Card is locked"
                else "Card is unlocked"];
               [if Z.testbit (x_miso x) 1
                then "Attempt to erase a write-protected sector | Error in card lock/unlock operation"
                else "No attempt to erase a write-protected sector | No error in card lock/unlock operation"];
               [if Z.testbit (x_miso x) 2 then "General or unknown error"
                else "No general or unknown error"];
               [if Z.testbit (x_miso x) 3
                then "Internal card controller error"
                else "No internal card controller error"];
               [if Z.testbit (x_miso x) 4 then "ECC failure to correct data"
                else "No ECC failure to correct data"];
               [if Z.testbit (x_miso x) 5 then "Write protect violation"
                else "No write protect violation"];
               [if Z.testbit (x_miso x) 6
                then "Invalid selection for erase, sectors or groups"
                else "No invalid selection for erase, sectors or groups"];
               [if Z.testbit (x_miso x) 7
                then "Out of range | CSD overwrite"
                else "No out of range | No CSD overwrite"]]) d).
  { intros H. apply wpt_elim in H. destruct H as ([] & d' & Hd & new & H).
    exists d', new. split; assumption. }
  open_decoder d. open_xfer x. subst. open_list x_sb Hlen.
  wp_lin.
  rewrite !bit_set_testbit by lia.
  wp_run.
  all: proj; rewrite <- ?app_assoc; eexists;
    do 2 (split; [reflexivity|]); (split; [reflexivity|]);
    cbn [List.app map a_ss a_es a_cls a_texts bit_at nth];
    (split; [reflexivity|]);
    repeat f_equal;
    match goal with
    | |- context [Z.testbit ?r ?k] => destruct (Z.testbit r k)
    end;
    reflexivity.
Qed.

Lemma r2_status_byte_witness :
  exists d' new,
    run sample_cmd_names sample_acmd_names
        (xfer_events (mkXfer 64 72 (spi_bits 255 64) (spi_bits 32 64) 255 32))
        (final (run_sample (spi_bytes 0 (host [77; 0; 0; 0; 0; 1]
                                         ++ [(255, 255)] ++ card [0]))))
    = Ok tt d' /\
    state d' = IDLE /\
    nth 6 (map a_texts new) [] = ["Write protect violation"].
Proof.
  destruct (r2_status_byte sample_cmd_names sample_acmd_names
              (final (run_sample (spi_bytes 0 (host [77; 0; 0; 0; 0; 1]
                                               ++ [(255, 255)] ++ card [0]))))
              (mkXfer 64 72 (spi_bits 255 64) (spi_bits 32 64) 255 32) 0)
    as (d' & new & Hd & Hst & _ & _ & _ & Ht).
  - vm_compute. reflexivity.
  - vm_compute. reflexivity.
  - reflexivity.
  - exists d', new. split; [exact Hd|]. split; [exact Hst|].
    rewrite Ht. reflexivity.
Defined.

(** X15: the fifth byte of the R7 response.  With [b1] the R1 byte and
    [b2], [b3], [b4] and this byte the four bytes after it, the
    annotation 'R7' spans the response up to this byte; the command
    version put out is the upper half of the R1 byte [b1] (shown on the
    samples of the upper half of [b2]), the voltage is decoded from the
    whole of [b4], and the check pattern is this byte. *)
Theorem r7_fields cn an d x b1 b2 b3 b4 r1 r2 r3 r4 :
  in_response GET_RESPONSE_R7 [b1; b2; b3; b4] [r1; r2; r3; r4] d ->
  Forall (fun r => List.length r = 8%nat) [x_miso_bits x; r1; r2; r3; r4] ->
  exists d',
    run cn an (xfer_events x) d = Ok tt d' /\
    state d' = IDLE /\ read_buf d' = [] /\ read_bits d' = [] /\
    out_ann d' =
      out_ann d ++
      [mkAnn (ss_cmd d) (x_es x) Ann.R7
         [("R7: [R1: 0x" ++ fmt_x 2 b1 ++ ", Command Version: 0x"
           ++ fmt_x 1 (Z.shiftr b1 4) ++ ", Voltage Accepted: "
           ++ decode_voltage b4 ++ ", Check Pattern: 0x"
           ++ fmt_x 2 (x_miso x) ++ "]")%string];
       mkAnn (b_ss (bit_at r2 7)) (b_es (bit_at r2 4)) Ann.BIT
         [("Command Version: 0x" ++ fmt_x 1 (Z.shiftr b1 4))%string];
       mkAnn (b_ss (bit_at r2 3)) (b_es (bit_at r4 4)) Ann.BIT ["Reserved"];
       mkAnn (b_ss (bit_at r4 3)) (b_es (bit_at r4 0)) Ann.BIT
         [("Voltage Accepted: " ++ decode_voltage b4)%string];
       mkAnn (b_ss (bit_at (x_miso_bits x) 7))
         (b_es (bit_at (x_miso_bits x) 0)) Ann.BIT
         [("Check Pattern: 0x" ++ fmt_x 2 (x_miso x))%string]].
Proof.
  unfold in_response. intros (Hst & Hb & Hr & H17 & H24) Hall.
  cut (wpt (run cn an (xfer_events x))
         (fun _ d' =>
            state d' = IDLE /\ read_buf d' = [] /\ read_bits d' = [] /\
            out_ann d' =
              out_ann d ++
              [mkAnn (ss_cmd d) (x_es x) Ann.R7
                 [("R7: [R1: 0x" ++ fmt_x 2 b1 ++ ", Command Version: 0x"
                   ++ fmt_x 1 (Z.shiftr b1 4) ++ ", Voltage Accepted: "
                   ++ decode_voltage b4 ++ ", Check Pattern: 0x"
                   ++ fmt_x 2 (x_miso x) ++ "]")%string];
               mkAnn (b_ss (bit_at r2 7)) (b_es (bit_at r2 4)) Ann.BIT
                 [("Command Version: 0x" ++ fmt_x 1 (Z.shiftr b1 4))%string];
               mkAnn (b_ss (bit_at r2 3)) (b_es (bit_at r4 4)) Ann.BIT
                 ["Reserved"];
               mkAnn (b_ss (bit_at r4 3)) (b_es (bit_at r4 0)) Ann.BIT
                 [("Voltage Accepted: " ++ decode_voltage b4)%string];
               mkAnn (b_ss (bit_at (x_miso_bits x) 7))
                 (b_es (bit_at (x_miso_bits x) 0)) Ann.BIT
                 [("Check Pattern: 0x" ++ fmt_x 2 (x_miso x))%string]]) d);
    [from_wpt|].
  open_decoder d. open_xfer x. subst. open_rows.
  wp_run. proj. rewrite <- ?app_assoc. repeat split.
Qed.

Lemma r7_fields_witness :
  exists d',
    run sample_cmd_names sample_acmd_names
        (xfer_events (mkXfer 88 96 (spi_bits 255 88) (spi_bits 170 88)
                        255 170))
        (final (run_sample (spi_bytes 0 (host [72; 0; 0; 1; 170; 135]
                                         ++ [(255, 255)]
                                         ++ card [1; 0; 0; 1]))))
    = Ok tt d' /\
    state d' = IDLE /\
    In (mkAnn 56 96 Ann.R7
          ["R7: [R1: 0x01, Command Version: 0x0, Voltage Accepted: 2.7-3.6V, Check Pattern: 0xaa]"])
       (out_ann d').
Proof.
  destruct (r7_fields sample_cmd_names sample_acmd_names
              (final (run_sample (spi_bytes 0 (host [72; 0; 0; 1; 170; 135]
                                               ++ [(255, 255)]
                                               ++ card [1; 0; 0; 1]))))
              (mkXfer 88 96 (spi_bits 255 88) (spi_bits 170 88) 255 170)
              1 0 0 1 (spi_bits 1 56) (spi_bits 0 64) (spi_bits 0 72)
              (spi_bits 1 80))
    as (d' & Hd & Hst & _ & _ & Hout).
  - vm_compute. repeat split.
  - repeat constructor.
  - exists d'. split; [exact Hd|]. split; [exact Hst|].
    rewrite Hout. apply in_or_app. right. left. vm_compute. reflexivity.
Defined.

(** X16: the fifth byte of the R3 response.  The annotation 'R3' shows
    the R1 byte and the OCR made of the four bytes after it, the first
    of them on top.  The fields of the OCR are read from the bit values
    of the 'BITS' packets: when bit 29 (UHS-II) is set, the voltage
    ranges and the reserved fields below them are not put out, so that
    the byte puts out 8 annotations instead of 20; and the card capacity
    is 'unknown' whenever bit 31 (power up) is clear, whatever bit 30
    is. *)
Theorem r3_fields cn an d x b1 b2 b3 b4 r1 r2 r3 r4 :
  in_response GET_RESPONSE_R3 [b1; b2; b3; b4] [r1; r2; r3; r4] d ->
  Forall (fun r => List.length r = 8%nat) [x_miso_bits x; r1; r2; r3; r4] ->
  exists d' new,
    run cn an (xfer_events x) d = Ok tt d' /\
    out_ann d' = out_ann d ++ new /\
    hd_error new =
      Some (mkAnn (ss_cmd d) (x_es x) Ann.R3
              [("R3: [R1: 0x" ++ fmt_x 2 b1 ++ ", OCR: 0x"
                ++ fmt_x 8 (Z.lor (Z.lor (Z.lor (Z.shiftl b2 24)
                                                 (Z.shiftl b3 16))
                                          (Z.shiftl b4 8)) (x_miso x))
                ++ "]")%string]) /\
    List.length new
    = (if truthy (b_val (bit_at r2 5)) then 8 else 20)%nat /\
    In (mkAnn (b_ss (bit_at r2 6)) (b_es (bit_at r2 6)) Ann.BIT
          [("Card capacity is "
            ++ (if truthy (b_val (bit_at r2 7))
                then (if truthy (b_val (bit_at r2 6)) then "SDHC or SDXC"
                      else "SDSC")
                else "unknown"))%string]) new.
Proof.
  unfold in_response. intros (Hst & Hb & Hr & H17 & H24) Hall.
  cut (wpt (run cn an (xfer_events x))
         (fun _ d' => exists new,
            out_ann d' = out_ann d ++ new /\
            hd_error new =
              Some (mkAnn (ss_cmd d) (x_es x) Ann.R3
                      [("R3: [R1: 0x" ++ fmt_x 2 b1 ++ ", OCR: 0x"
                        ++ fmt_x 8 (Z.lor (Z.lor (Z.lor (Z.shiftl b2 24)
                                                         (Z.shiftl b3 16))
                                                  (Z.shiftl b4 8)) (x_miso x))
                        ++ "]")%string]) /\
            List.length new
            = (if truthy (b_val (bit_at r2 5)) then 8 else 20)%nat /\
            In (mkAnn (b_ss (bit_at r2 6)) (b_es (bit_at r2 6)) Ann.BIT
                  [("Card capacity is "
                    ++ (if truthy (b_val (bit_at r2 7))
                        then (if truthy (b_val (bit_at r2 6))
                              then "SDHC or SDXC" else "SDSC")
                        else "unknown"))%string]) new) d).
  { intros H. apply wpt_elim in H. destruct H as ([] & d' & Hd & new & H).
    exists d', new. split; assumption. }
  open_decoder d. open_xfer x. subst. open_rows.
  wp_run.
  all: proj; rewrite <- ?app_assoc; eexists; (split; [reflexivity|]);
    cbn [List.app hd_error List.length bit_at nth b_val b_ss b_es fst snd];
    (split; [reflexivity|]);
    match goal with
    | H : truthy _ = _ |- _ =>
        cbn [b_val fst snd] in H; rewrite H
    end;
    (split; [reflexivity|]); cbn [In]; auto.
Qed.

Lemma r3_fields_witness :
  exists d' new,
    run sample_cmd_names sample_acmd_names
        (xfer_events (mkXfer 88 96 (spi_bits 255 88) (spi_bits 0 88) 255 0))
        (final (run_sample (read_ocr [0; 192; 255; 128]))) = Ok tt d' /\
    hd_error new
    = Some (mkAnn 56 96 Ann.R3 ["R3: [R1: 0x00, OCR: 0xc0ff8000]"]) /\
    List.length new = 20%nat /\
    In (mkAnn 65 66 Ann.BIT ["Card capacity is SDHC or SDXC"]) new.
Proof.
  destruct (r3_fields sample_cmd_names sample_acmd_names
              (final (run_sample (read_ocr [0; 192; 255; 128])))
              (mkXfer 88 96 (spi_bits 255 88) (spi_bits 0 88) 255 0)
              0 192 255 128 (spi_bits 0 56) (spi_bits 192 64)
              (spi_bits 255 72) (spi_bits 128 80))
    as (d' & new & Hd & _ & Hhd & Hlen & Hin).
  - vm_compute. repeat split.
  - repeat constructor.
  - exists d', new. repeat split; assumption.
Defined.

(** ** Commands and their responses *)

(** X17: the response a command waits for.  The byte after the token of
    a command with a handler, outside application mode, ends in the
    phase of the R7 response for CMD8, of the R2 response for CMD13, of
    the R3 response for CMD58, and of the R1 response for every other
    one (the commands without a handler of their own, CMD999, among
    them); CMD8, CMD13 and CMD58 empty the read buffer.  The command
    token and its bits are empty afterwards. *)
Theorem command_response_phase cn an s e mo mi c a d :
  state d = HANDLE_CMD c -> is_acmd d = false ->
  In c [0; 1; 8; 13; 16; 17; 24; 49; 55; 58; 59; 999] ->
  arg d = Some a ->
  List.length (cmd_token_bits d) = 6%nat ->
  Forall (fun r => List.length r = 8%nat) (cmd_token_bits d) ->
  exists d',
    decode cn an s e (DATA mo mi) d = Ok tt d' /\
    state d' = (if c =? 8 then GET_RESPONSE_R7
                else if c =? 13 then GET_RESPONSE_R2
                else if c =? 58 then GET_RESPONSE_R3
                else GET_RESPONSE_R1) /\
    cmd_token d' = [] /\ cmd_token_bits d' = [] /\
    (In c [8; 13; 58] -> read_buf d' = []).
Proof.
  intros Hst Ha Hc Harg Hlen Hall.
  cut (wpt (decode cn an s e (DATA mo mi))
         (fun _ d' =>
            state d' = (if c =? 8 then GET_RESPONSE_R7
                        else if c =? 13 then GET_RESPONSE_R2
                        else if c =? 58 then GET_RESPONSE_R3
                        else GET_RESPONSE_R1) /\
            cmd_token d' = [] /\ cmd_token_bits d' = [] /\
            (In c [8; 13; 58] -> read_buf d' = [])) d);
    [from_wpt|].
  open_decoder d. subst. open_list v_cmd_token_bits Hlen. open_rows.
  cbn [In] in Hc.
  repeat match goal with
         | H : _ \/ _ |- _ => destruct H as [<- | H]
         end;
    try contradiction.
  all: wp_run; proj; cbn [In]; repeat split; intros;
    repeat match goal with
           | H : _ \/ _ |- _ => destruct H as [H | H]
           end;
    try discriminate; try contradiction; reflexivity.
Qed.

Lemma command_response_phase_witness :
  exists d',
    decode sample_cmd_names sample_acmd_names 48 56 (DATA 255 255)
           (final (run_sample (spi_bytes 0 (host [122; 0; 0; 0; 0; 253]))))
    = Ok tt d' /\
    state d' = GET_RESPONSE_R3.
Proof.
  destruct (command_response_phase sample_cmd_names sample_acmd_names
              48 56 255 255 58 0
              (final (run_sample (spi_bytes 0 (host [122; 0; 0; 0; 0; 253])))))
    as (d' & Hd & Hst & _).
  - vm_compute. reflexivity.
  - vm_compute. reflexivity.
  - cbn. tauto.
  - vm_compute. reflexivity.
  - vm_compute. reflexivity.
  - vm_compute. repeat constructor.
  - exists d'. split; [exact Hd | exact Hst].
Defined.

(** [a & (1 << k)] is bit [k] of [a] in its place. *)
Lemma land_bit a k :
  0 <= k ->
  Z.land a (Z.shiftl 1 k) = if Z.testbit a k then Z.shiftl 1 k else 0.
Proof.
  intros Hk. apply Z.bits_inj'. intros n Hn.
  rewrite Z.land_spec, Z.shiftl_1_l, Z.pow2_bits_eqb by exact Hk.
  destruct (Z.eqb_spec k n) as [<- | Hne].
  - destruct (Z.testbit a k); cbn [andb].
    + rewrite ?Z.shiftl_1_l, ?Z.pow2_bits_eqb by exact Hk.
      symmetry. apply Z.eqb_refl.
    + symmetry. apply Z.bits_0.
  - rewrite andb_false_r. destruct (Z.testbit a k).
    + rewrite ?Z.shiftl_1_l, ?Z.pow2_bits_eqb by exact Hk.
      symmetry. apply Z.eqb_neq. exact Hne.
    + symmetry. apply Z.bits_0.
Qed.

(** The test [arg & 1 == 1] of the source reads bit 0 of [arg]. *)
Lemma land_1_odd a : (Z.land a (Z.shiftl 1 0) =? 1) = Z.odd a.
Proof.
  change (Z.shiftl 1 0) with (Z.ones 1). rewrite Z.land_ones by lia.
  change (2 ^ 1) with 2. rewrite Zmod_odd.
  destruct (Z.odd a); reflexivity.
Qed.

(** X18: the options two handlers read from the argument.  The handler
    of CMD59 reports the CRC option as 'on' exactly when bit 0 of the
    argument is set, and the handler of CMD1 reports bit 30 of the
    argument as HCS, on the samples of bit 6 of the second byte of the
    token. *)
Theorem command_argument_bits cn an s e mo mi a d :
  is_acmd d = false -> arg d = Some a ->
  (state d = HANDLE_CMD 59 ->
   exists d',
     decode cn an s e (DATA mo mi) d = Ok tt d' /\
     out_ann d' =
       out_ann d ++
       [mkAnn (ss_cmd d) (es_cmd d) (Ann.CMD 59)
          [(cmd_str d ++ ": Turn the SD card CRC option "
            ++ (if Z.odd a then "on" else "off"))%string]]) /\
  (state d = HANDLE_CMD 1 ->
   forall r0 r1 rest,
     cmd_token_bits d = r0 :: r1 :: rest -> List.length r1 = 8%nat ->
     exists d',
       decode cn an s e (DATA mo mi) d = Ok tt d' /\
       out_ann d' =
         out_ann d ++
         [mkAnn (ss_cmd d) (es_cmd d) (Ann.CMD 1)
            [(cmd_str d
              ++ ": Send HCS info and activate the card init process")%string];
          mkAnn (b_ss (bit_at r1 6)) (b_es (bit_at r1 6)) Ann.BIT
            [("HCS: " ++ fmt_d (Z.b2z (Z.testbit a 30)))%string]]).
Proof.
  intros Ha Harg. split.
  - intros Hst.
    cut (wpt (decode cn an s e (DATA mo mi))
           (fun _ d' =>
              out_ann d' =
                out_ann d ++
                [mkAnn (ss_cmd d) (es_cmd d) (Ann.CMD 59)
                   [(cmd_str d ++ ": Turn the SD card CRC option "
                     ++ (if Z.odd a then "on" else "off"))%string]]) d);
      [from_wpt|].
    open_decoder d. subst. wp_lin. rewrite land_1_odd. wp_run.
    all: reflexivity.
  - intros Hst r0 r1 rest Hbits Hlen.
    cut (wpt (decode cn an s e (DATA mo mi))
           (fun _ d' =>
              out_ann d' =
                out_ann d ++
                [mkAnn (ss_cmd d) (es_cmd d) (Ann.CMD 1)
                   [(cmd_str d
                     ++ ": Send HCS info and activate the card init process")%string];
                 mkAnn (b_ss (bit_at r1 6)) (b_es (bit_at r1 6)) Ann.BIT
                   [("HCS: " ++ fmt_d (Z.b2z (Z.testbit a 30)))%string]]) d);
      [from_wpt|].
    open_decoder d. subst. open_list r1 Hlen.
    wp_run. proj. rewrite <- ?app_assoc. cbn [List.app bit_at nth].
    replace (Z.shiftr (Z.land a (Z.shiftl 1 30)) 30)
      with (Z.b2z (Z.testbit a 30)); [reflexivity|].
    rewrite land_bit by lia. destruct (Z.testbit a 30); reflexivity.
Qed.

Lemma command_argument_bits_witness :
  exists d',
    decode sample_cmd_names sample_acmd_names 48 56 (DATA 255 255)
           (final (run_sample (spi_bytes 0 (host [123; 0; 0; 0; 1; 1]))))
    = Ok tt d' /\
    In (mkAnn 0 48 (Ann.CMD 59)
          ["CMD59 (Unknown): Turn the SD card CRC option on"]) (out_ann d').
Proof.
  destruct (proj1 (command_argument_bits sample_cmd_names sample_acmd_names
              48 56 255 255 1
              (final (run_sample (spi_bytes 0 (host [123; 0; 0; 0; 1; 1]))))
              ltac:(vm_compute; reflexivity) ltac:(vm_compute; reflexivity)))
    as (d' & Hd & Hout).
  - vm_compute. reflexivity.
  - exists d'. split; [exact Hd|]. rewrite Hout.
    apply in_or_app. right. left. vm_compute. reflexivity.
Defined.

(** X19: the sixth byte of the token of a command without a phase of its
    own.  With [c] the command index, and application mode on exactly
    when it was on before and [c] is one of the application commands,
    the byte puts out seven annotations: the six fields of the token,
    the command among them with its name from the table of the mode
    ('Unknown' when the table has none, with '_ADDR' added for CMD32 and
    CMD33), and a dump of the six bytes in hex over the range of the
    token, whose class is the class CMD[c] also in application mode.
    The phase is that of CMD999. *)
Theorem unhandled_command_token cn an d x t0 t1 t2 t3 t4 r0 rows :
  state d = GET_COMMAND_TOKEN ->
  cmd_token d = [t0; t1; t2; t3; t4] ->
  cmd_token_bits d = r0 :: rows -> List.length rows = 4%nat ->
  Forall (fun r => List.length r = 8%nat) (x_mosi_bits x :: r0 :: rows) ->
  in_tuple (Z.land t0 63) handled_commands = false ->
  let c := Z.land t0 63 in
  let a := is_acmd d && in_tuple c application_commands in
  let s := if a then "ACMD" else "CMD" in
  exists d' new,
    run cn an (xfer_events x) d = Ok tt d' /\
    state d' = HANDLE_CMD 999 /\ cmd_index d' = Some c /\
    is_acmd d' = a /\
    out_ann d' = out_ann d ++ new /\ List.length new = 7%nat /\
    nth_error new 2
    = Some (mkAnn (b_ss (bit_at r0 5)) (b_es (bit_at r0 0)) Ann.BIT
              [("Command: " ++ s ++ fmt_d c ++ " ("
                ++ name_text (if a then an else cn) c ++ ")")%string]) /\
    nth_error new 6
    = Some (mkAnn (ss_cmd d) (x_es x) (Ann.CMD c)
              [(s ++ fmt_d c ++ ": " ++ fmt_x 2 t0 ++ " " ++ fmt_x 2 t1
                ++ " " ++ fmt_x 2 t2 ++ " " ++ fmt_x 2 t3 ++ " "
                ++ fmt_x 2 t4 ++ " " ++ fmt_x 2 (x_mosi x))%string]).
Proof.
  intros Hst Ht Hr Hlen Hall Hun c a s.
  cut (wpt (run cn an (xfer_events x))
         (fun _ d' => exists new,
            state d' = HANDLE_CMD 999 /\ cmd_index d' = Some c /\
            is_acmd d' = a /\
            out_ann d' = out_ann d ++ new /\ List.length new = 7%nat /\
            nth_error new 2
            = Some (mkAnn (b_ss (bit_at r0 5)) (b_es (bit_at r0 0)) Ann.BIT
                      [("Command: " ++ s ++ fmt_d c ++ " ("
                        ++ name_text (if a then an else cn) c
                        ++ ")")%string]) /\
            nth_error new 6
            = Some (mkAnn (ss_cmd d) (x_es x) (Ann.CMD c)
                      [(s ++ fmt_d c ++ ": " ++ fmt_x 2 t0 ++ " "
                        ++ fmt_x 2 t1 ++ " " ++ fmt_x 2 t2 ++ " "
                        ++ fmt_x 2 t3 ++ " " ++ fmt_x 2 t4 ++ " "
                        ++ fmt_x 2 (x_mosi x))%string])) d).
  { intros H. apply wpt_elim in H. destruct H as ([] & d' & Hd & new & H).
    exists d', new. split; assumption. }
  subst c a s. unfold handled_commands in Hun.
  unfold name_text, name_in, application_commands, Ann.CMD.
  assert (H55 : (Z.land t0 63 =? 55) = false).
  { destruct (Z.eqb_spec (Z.land t0 63) 55) as [E|]; [|reflexivity].
    rewrite E in Hun. discriminate Hun. }
  open_decoder d. open_xfer x. subst. open_list rows Hlen. open_rows.
  destruct (in_tuple (Z.land t0 63)
              [13; 18; 22; 23; 25; 26; 38; 41; 42; 43; 44; 45; 46; 47; 48;
               49; 51]) eqn:Happ;
    destruct v_is_acmd.
  all: repeat first [wp_lin_step | rewrite Hun | rewrite H55 | rewrite Happ
                    | wp_case].
  all: proj; rewrite <- ?app_assoc; eexists;
    do 4 (split; [reflexivity|]);
    cbn [List.app List.length nth_error bit_at nth andb];
    (split; [reflexivity|]);
    destruct (in_tuple (Z.land t0 63) [32; 33]);
    split; reflexivity.
Qed.

Lemma unhandled_command_token_witness :
  exists d' new,
    run sample_cmd_names sample_acmd_names
        (xfer_events (mkXfer 40 48 (spi_bits 1 40) (spi_bits 255 40) 1 255))
        (final (run_sample (spi_bytes 0 (host [96; 0; 0; 16; 0])))) = Ok tt d' /\
    state d' = HANDLE_CMD 999 /\
    nth_error new 2
    = Some (mkAnn 2 8 Ann.BIT ["Command: CMD32 (Unknown_ADDR)"]) /\
    nth_error new 6
    = Some (mkAnn 0 48 (Ann.CMD 32) ["CMD32: 60 00 00 10 00 01"]).
Proof.
  destruct (unhandled_command_token sample_cmd_names sample_acmd_names
              (final (run_sample (spi_bytes 0 (host [96; 0; 0; 16; 0]))))
              (mkXfer 40 48 (spi_bits 1 40) (spi_bits 255 40) 1 255)
              96 0 0 16 0 (spi_bits 96 0)
              [spi_bits 0 8; spi_bits 0 16; spi_bits 16 24; spi_bits 0 32])
    as (d' & new & Hd & Hst & _ & _ & _ & _ & H2 & H6).
  - vm_compute. reflexivity.
  - vm_compute. reflexivity.
  - vm_compute. reflexivity.
  - reflexivity.
  - repeat constructor.
  - vm_compute. reflexivity.
  - exists d', new. split; [exact Hd|]. split; [exact Hst|].
    split; [exact H2 | exact H6].
Defined.

(** ** The annotation output *)

(** X20: the classes.  The list [a] that numbers the members of [Ann]
    and the tuple [annotations] of the decoder have 135 entries each,
    and a member of [Ann] is the position of its name in [a] and of its
    description in [annotations]: CMD[i] and ACMD[i] for [i] below 64,
    the five responses, BIT and BIT_WARNING. *)
Theorem annotation_classes_declared :
  List.length Ann_members = 135%nat /\
  List.length Decoder_annotations = 135%nat /\
  (forall i, 0 <= i < 64 ->
     nth_error Ann_members (Z.to_nat (Ann.CMD i))
     = Some ("CMD" ++ fmt_d i)%string /\
     nth_error Decoder_annotations (Z.to_nat (Ann.CMD i))
     = Some ("cmd" ++ fmt_d i, "CMD" ++ fmt_d i)%string /\
     nth_error Ann_members (Z.to_nat (Ann.ACMD i))
     = Some ("ACMD" ++ fmt_d i)%string /\
     nth_error Decoder_annotations (Z.to_nat (Ann.ACMD i))
     = Some ("acmd" ++ fmt_d i, "ACMD" ++ fmt_d i)%string) /\
  map (fun c => nth_error Ann_members (Z.to_nat c))
      [Ann.R1; Ann.R1B; Ann.R2; Ann.R3; Ann.R7; Ann.BIT; Ann.BIT_WARNING]
  = map Some ["R1"; "R1B"; "R2"; "R3"; "R7"; "BIT"; "BIT_WARNING"] /\
  map (fun c => nth_error Decoder_annotations (Z.to_nat c))
      [Ann.R1; Ann.R1B; Ann.R2; Ann.R3; Ann.R7; Ann.BIT; Ann.BIT_WARNING]
  = map Some [("r1", "R1 response"); ("r1b", "R1b response");
              ("r2", "R2 response"); ("r3", "R3 response");
              ("r7", "R7 response"); ("bit", "Bit");
              ("bit-warning", "Bit warning")].
Proof.
  split; [reflexivity|]. split; [reflexivity|].
  split; [|split; vm_compute; reflexivity].
  intros i Hi.
  assert (Hn : exists n, i = Z.of_nat n /\ (n < 64)%nat).
  { exists (Z.to_nat i). split; lia. }
  destruct Hn as (n & -> & Hn).
  do 64 (destruct n as [|n]; [vm_compute; repeat split|]).
  lia.
Qed.

Lemma annotation_classes_declared_witness :
  nth_error Ann_members (Z.to_nat (Ann.ACMD 41)) = Some "ACMD41" /\
  nth_error Decoder_annotations (Z.to_nat (Ann.CMD 17))
  = Some ("cmd17", "CMD17").
Proof.
  destruct annotation_classes_declared as (_ & _ & H & _).
  split.
  - apply (H 41). lia.
  - apply (H 17). lia.
Defined.

Lemma land_63_bounds t : 0 <= Z.land t 63 < 64.
Proof.
  change 63 with (Z.ones 6). rewrite Z.land_ones by lia.
  apply Z.mod_pos_bound. reflexivity.
Qed.

Lemma extends_refl d : extends d d.
Proof. exists []. split; [symmetry; apply app_nil_r | constructor]. Qed.

Lemma extends_trans d1 d2 d3 : extends d1 d2 -> extends d2 d3 -> extends d1 d3.
Proof.
  intros (n1 & H1 & F1) (n2 & H2 & F2). exists (n1 ++ n2). split.
  - rewrite H2, H1, app_assoc. reflexivity.
  - apply Forall_app. split; assumption.
Qed.

Section Appends.

Context {A B : Type}.

Lemma appends_bind (m : M A) (k : A -> M B) :
  appends m -> (forall a, appends (k a)) -> appends (bind m k).
Proof.
  intros Hm Hk d. unfold bind. specialize (Hm d).
  destruct (m d) as [a d1 | ex d1]; cbn [final] in *; [|exact Hm].
  exact (extends_trans _ _ _ Hm (Hk a d1)).
Qed.

Lemma appends_ret (a : A) : appends (ret a).
Proof. intros d. apply extends_refl. Qed.

Lemma appends_raise ex : appends (raise ex : M A).
Proof. intros d. apply extends_refl. Qed.

Lemma appends_get (f : Decoder -> A) : appends (get f).
Proof. intros d. apply extends_refl. Qed.

Lemma appends_getattr (f : Decoder -> option A) : appends (getattr f).
Proof. intros d. unfold getattr. destruct (f d); apply extends_refl. Qed.

Lemma appends_index (l : list A) i : appends (index l i).
Proof. unfold index. destruct (nth_error l i); intros d; apply extends_refl. Qed.

End Appends.

Lemma appends_modify f :
  (forall d, out_ann (f d) = out_ann d) -> appends (modify f).
Proof.
  intros Hf d. exists []. cbn [final modify]. rewrite Hf, app_nil_r.
  split; [reflexivity | constructor].
Qed.

Lemma appends_put s e cls texts :
  0 <= cls < 135 -> appends (put s e cls texts).
Proof.
  intros Hc d. exists [mkAnn s e cls texts]. split; [reflexivity|].
  apply Forall_cons; [exact Hc | apply Forall_nil].
Qed.

Lemma appends_for_each {A} (l : list A) body :
  (forall x, appends (body x)) -> appends (for_each l body).
Proof.
  intros Hb. induction l as [|x l IH]; cbn [for_each].
  - apply appends_ret.
  - apply appends_bind; [apply Hb | intros _; exact IH].
Qed.

(** The rules above, along the text of a method. *)
Ltac appends_step :=
  lazymatch goal with
  | |- appends (bind _ _) => apply appends_bind; [|intros ?]
  | |- appends (ret _) => apply appends_ret
  | |- appends (raise _) => apply appends_raise
  | |- appends (get _) => apply appends_get
  | |- appends (getattr _) => apply appends_getattr
  | |- appends (index _ _) => apply appends_index
  | |- appends (modify _) => apply appends_modify; intros ?; reflexivity
  | |- appends (put _ _ ?c _) =>
      apply appends_put;
      first [ match goal with
              | |- context [Z.land ?t 63] =>
                  pose proof (land_63_bounds t); lia
              end
            | vm_compute; split; [discriminate | reflexivity] ]
  | |- appends (for_each _ _) => apply appends_for_each; intros ?
  | |- appends (if ?c then _ else _) => destruct c
  | |- appends (match ?x with _ => _ end) => destruct x
  | |- appends ?m => wp_head m
  end; cbv beta iota zeta.

Ltac appends_run := repeat appends_step.

Lemma handlers_append : Forall appends handlers.
Proof.
  unfold handlers.
  repeat (apply Forall_cons; [appends_run|]).
  apply Forall_nil.
Qed.

Lemma decode_appends cn an s e p : appends (decode cn an s e p).
Proof.
  destruct p as [mo mi | mb sb | old new | ]; unfold decode.
  2, 3, 4: appends_run.
  apply appends_bind; [appends_run | intros _].
  apply appends_bind; [appends_run | intros _].
  apply appends_bind; [appends_run | intros st].
  destruct st.
  3: { apply appends_bind; [appends_run | intros _].
       apply appends_bind; [appends_run | intros _].
       apply appends_bind; [appends_run | intros a].
       destruct (handler_method a cmd) as [h|] eqn:Hh; [|appends_run].
       apply appends_bind; [|intros ?; appends_run].
       pose proof handlers_append as Hall. rewrite Forall_forall in Hall.
       apply Hall. exact (handler_method_cases _ _ _ Hh). }
  all: appends_run.
Qed.

Lemma run_appends cn an evs : appends (run cn an evs).
Proof.
  induction evs as [|[[s e] p] evs IH]; cbn [run].
  - apply appends_ret.
  - apply appends_bind; [apply decode_appends | intros _; exact IH].
Qed.

(** X21: the annotation output is only ever added to, and only with
    declared classes.  After any sequence of packets from any state,
    whether every call returned or one raised, the output is what it was
    before followed by the new annotations, and the class of every new
    annotation is an index into the 135 entries of [annotations]; the
    packets other than 'DATA' put nothing out. *)
Theorem output_only_appended cn an :
  (forall evs d,
     exists new,
       annotations (run cn an evs d) = out_ann d ++ new /\
       Forall (fun a => 0 <= a_cls a
                        < Z.of_nat (List.length Decoder_annotations)) new) /\
  (forall s e d mb sb old new,
     annotations (decode cn an s e (BITS mb sb) d) = out_ann d /\
     annotations (decode cn an s e (CS_CHANGE old new) d) = out_ann d /\
     annotations (decode cn an s e TRANSFER d) = out_ann d).
Proof.
  split.
  - intros evs d. exact (run_appends cn an evs d).
  - intros s e d mb sb old new. repeat split.
    destruct new as [[| |]|]; reflexivity.
Qed.

(** ** The command phases *)

Section Keeps.

Context (P : Decoder -> Prop) {A B : Type}.

Lemma keeps_bind (m : M A) (k : A -> M B) :
  keeps P m -> (forall a, keeps P (k a)) -> keeps P (bind m k).
Proof.
  intros Hm Hk d Hd. unfold bind. specialize (Hm d Hd).
  destruct (m d) as [a d1 | ex d1]; cbn [final] in *; [|exact Hm].
  exact (Hk a d1 Hm).
Qed.

Lemma keeps_ret (a : A) : keeps P (ret a).
Proof. intros d Hd. exact Hd. Qed.

Lemma keeps_raise ex : keeps P (raise ex : M A).
Proof. intros d Hd. exact Hd. Qed.

Lemma keeps_get (f : Decoder -> A) : keeps P (get f).
Proof. intros d Hd. exact Hd. Qed.

Lemma keeps_getattr (f : Decoder -> option A) : keeps P (getattr f).
Proof. intros d Hd. unfold getattr. destruct (f d); exact Hd. Qed.

Lemma keeps_index (l : list A) i : keeps P (index l i).
Proof. unfold index. destruct (nth_error l i); intros d Hd; exact Hd. Qed.

Lemma keeps_modify f : (forall d, P d -> P (f d)) -> keeps P (modify f).
Proof. intros Hf d Hd. exact (Hf d Hd). Qed.

End Keeps.

Lemma keeps_for_each P {A} (l : list A) body :
  (forall x, keeps P (body x)) -> keeps P (for_each l body).
Proof.
  intros Hb. induction l as [|x l IH]; cbn [for_each].
  - apply keeps_ret.
  - apply keeps_bind; [apply Hb | intros _; exact IH].
Qed.

Lemma in_tuple_In x l : in_tuple x l = true -> In x l.
Proof.
  unfold in_tuple. intros H. apply existsb_exists in H.
  destruct H as (y & Hy & Heq). apply Z.eqb_eq in Heq. subst. exact Hy.
Qed.

(** The rules above, along the text of a method, for [phase_ok]. *)
Ltac keeps_step :=
  lazymatch goal with
  | |- keeps _ (bind _ _) => apply keeps_bind; [|intros ?]
  | |- keeps _ (ret _) => apply keeps_ret
  | |- keeps _ (raise _) => apply keeps_raise
  | |- keeps _ (get _) => apply keeps_get
  | |- keeps _ (getattr _) => apply keeps_getattr
  | |- keeps _ (index _ _) => apply keeps_index
  | |- keeps _ (modify _) =>
      apply keeps_modify;
      let d := fresh "d" in
      let Hd := fresh "Hd" in
      intros d Hd;
      first [ exact Hd
            | exact I
            | apply in_or_app; left; apply in_tuple_In; assumption
            | apply in_or_app; right; left; reflexivity ]
  | |- keeps _ (for_each _ _) => apply keeps_for_each; intros ?
  | |- keeps _ (if ?c then _ else _) => destruct c eqn:?
  | |- keeps _ (match ?x with _ => _ end) => destruct x
  | |- keeps _ ?m => wp_head m
  end; cbv beta iota zeta.

Ltac keeps_run := repeat keeps_step.

Lemma handlers_phase_ok : Forall (keeps phase_ok) handlers.
Proof.
  unfold handlers.
  repeat (apply Forall_cons; [keeps_run|]).
  apply Forall_nil.
Qed.

Lemma decode_phase_ok cn an s e p : keeps phase_ok (decode cn an s e p).
Proof.
  destruct p as [mo mi | mb sb | old new | ]; unfold decode.
  2, 3, 4: keeps_run.
  apply keeps_bind; [keeps_run | intros _].
  apply keeps_bind; [keeps_run | intros _].
  apply keeps_bind; [keeps_run | intros st].
  destruct st.
  3: { apply keeps_bind; [keeps_run | intros _].
       apply keeps_bind; [keeps_run | intros _].
       apply keeps_bind; [keeps_run | intros a].
       destruct (handler_method a cmd) as [h|] eqn:Hh; [|keeps_run].
       apply keeps_bind; [|intros ?; keeps_run].
       pose proof handlers_phase_ok as Hall. rewrite Forall_forall in Hall.
       apply Hall. exact (handler_method_cases _ _ _ Hh). }
  all: keeps_run.
Qed.

(** X22: the command phases a session enters.  In every state a session
    reaches from a new object, a phase 'HANDLE CMD[c]' has [c] among 0,
    1, 8, 9, 13, 16, 17, 24, 41, 49, 55, 58, 59 and 999.  The phase of
    CMD10 in particular is never entered, so that [handle_cmd10] is
    never called: SEND_CID is handled as a command without a handler of
    its own. *)
Theorem reachable_command_phase cn an d c :
  reachable cn an d -> state d = HANDLE_CMD c ->
  In c [0; 1; 8; 9; 13; 16; 17; 24; 41; 49; 55; 58; 59; 999] /\ c <> 10.
Proof.
  intros Hr Hst.
  assert (Hok : phase_ok d).
  { clear Hst. induction Hr as [|d s e p d' _ IH Hd].
    - exact I.
    - pose proof (decode_phase_ok cn an s e p d IH) as H.
      rewrite Hd in H. exact H. }
  unfold phase_ok in Hok. rewrite Hst in Hok.
  split; [exact Hok|].
  intros ->. cbn in Hok.
  repeat match goal with
         | H : _ \/ _ |- _ => destruct H as [H | H]
         end;
    try discriminate; contradiction.
Qed.

Lemma reachable_command_phase_witness :
  let d := final (run_sample (spi_bytes 0 (host [74; 0; 0; 0; 0; 1]))) in
  state d = HANDLE_CMD 999 /\
  In 999 [0; 1; 8; 9; 13; 16; 17; 24; 41; 49; 55; 58; 59; 999].
Proof.
  cbv zeta. split; [vm_compute; reflexivity|].
  assert (Hrun : run sample_cmd_names sample_acmd_names
                   (spi_bytes 0 (host [74; 0; 0; 0; 0; 1])) new_Decoder
                 = Ok tt (final (run_sample
                                   (spi_bytes 0 (host [74; 0; 0; 0; 0; 1])))))
    by (vm_compute; reflexivity).
  apply (reachable_command_phase sample_cmd_names sample_acmd_names
           (final (run_sample (spi_bytes 0 (host [74; 0; 0; 0; 0; 1])))) 999
           (run_reachable _ _ _ _ _ (reach_new _ _) Hrun)).
  vm_compute. reflexivity.
Defined.

(** ** A byte 0xff at the start of a response *)

(** In the phases of the R2, R3 and R7 responses the first byte is taken
    as the R1 byte whatever its value: a byte 0xff is added to the
    buffer and put out as 'R1: 0xff', and the phase goes on with the
    next byte. *)
Lemma response_first_byte_0xff cn an p d x :
  p = GET_RESPONSE_R2 \/ p = GET_RESPONSE_R3 \/ p = GET_RESPONSE_R7 ->
  state d = p -> read_buf d = [] ->
  is_cmd17 d = false -> is_cmd24 d = false ->
  x_miso x = 255 -> List.length (x_miso_bits x) = 8%nat ->
  exists d',
    run cn an (xfer_events x) d = Ok tt d' /\
    state d' = p /\ read_buf d' = [255] /\
    In (mkAnn (b_ss (bit_at (x_miso_bits x) 7))
          (b_es (bit_at (x_miso_bits x) 0)) Ann.R1 ["R1: 0xff"])
       (out_ann d').
Proof.
  intros Hp Hst Hb H17 H24 Hx Hlen.
  cut (wpt (run cn an (xfer_events x))
         (fun _ d' =>
            state d' = p /\ read_buf d' = [255] /\
            In (mkAnn (b_ss (bit_at (x_miso_bits x) 7))
                  (b_es (bit_at (x_miso_bits x) 0)) Ann.R1 ["R1: 0xff"])
               (out_ann d')) d);
    [from_wpt|].
  open_decoder d. open_xfer x. subst. open_list x_sb Hlen.
  destruct Hp as [-> | [-> | ->]].
  all: wp_run; proj; (split; [reflexivity|]); (split; [reflexivity|]);
    rewrite <- ?app_assoc; apply in_or_app; right; left; reflexivity.
Qed.

(** C3, at the failing inputs: after READ_OCR, SEND_STATUS and
    SEND_IF_COND the card sends a filler byte 0xff before its response.
    In the phases of the R3, R2 and R7 responses the byte is not ignored:
    it is added to the buffer and put out as 'R1: 0xff', and the four
    bytes 0x00 0xc0 0xff 0x80 of the R3 response 0x00 0xc0 0xff 0x80
    0x00 that follow it are put out as the OCR 0x00c0ff80 of a response
    with R1 0xff.  In the phase of the R1 response (after GO_IDLE_STATE)
    the same byte changes neither the phase nor the output, and the
    byte 0x01 after it is the response. *)
Theorem response_leading_0xff_not_ignored :
  (state (final (run_sample (read_ocr []))) = GET_RESPONSE_R3 /\
   read_buf (final (run_sample (read_ocr []))) = [] /\
   read_buf (final (run_sample (read_ocr [255]))) = [255] /\
   In (mkAnn 56 64 Ann.R1 ["R1: 0xff"])
      (annotations (run_sample (read_ocr [255]))) /\
   state (final (run_sample (read_ocr [255; 0; 192; 255; 128]))) = IDLE /\
   In (mkAnn 56 96 Ann.R3 ["R3: [R1: 0xff, OCR: 0x00c0ff80]"])
      (annotations (run_sample (read_ocr [255; 0; 192; 255; 128; 0])))) /\
  (state (final (run_sample (send_status []))) = GET_RESPONSE_R2 /\
   read_buf (final (run_sample (send_status [255]))) = [255] /\
   In (mkAnn 56 64 Ann.R1 ["R1: 0xff"])
      (annotations (run_sample (send_status [255])))) /\
  (state (final (run_sample (send_if_cond []))) = GET_RESPONSE_R7 /\
   read_buf (final (run_sample (send_if_cond [255]))) = [255] /\
   In (mkAnn 56 64 Ann.R1 ["R1: 0xff"])
      (annotations (run_sample (send_if_cond [255])))) /\
  (state (final (run_sample (go_idle []))) = GET_RESPONSE_R1 /\
   state (final (run_sample (go_idle [255]))) = GET_RESPONSE_R1 /\
   annotations (run_sample (go_idle [255]))
   = annotations (run_sample (go_idle [])) /\
   In (mkAnn 64 72 Ann.R1 ["R1: 0x01"])
      (annotations (run_sample (go_idle [255; 1])))).
Proof. vm_compute. repeat split; auto 30. Qed.

(** ** The block length of the most recent CMD16 *)

(** C5 as stated fails: after CMD16 with argument 0 the block of a CMD17
    does not have 0 bytes.  No block is put out at the start token nor
    by the bytes 1 to 511 after it; the 512th byte puts it out. *)
Lemma cmd16_zero_reads_512 :
  last_cmd16 sample_cmd_names sample_acmd_names (read_block_cmd16_zero 0)
    new_Decoder None = Some 0 /\
  map (fun n => block_annotations (run_sample (read_block_cmd16_zero n)))
      [0; 1; 511; 512]%nat
  = [0; 0; 0; 1]%nat.
Proof. vm_compute. split; reflexivity. Qed.

(** A packet other than 'DATA' keeps the block length. *)
Lemma decode_other_blocklen cn an s e p d d' :
  (forall mo mi, p <> DATA mo mi) ->
  decode cn an s e p d = Ok tt d' -> blocklen d' = blocklen d.
Proof.
  intros Hp Hd. destruct p as [mo mi | mb sb | old new | ].
  - contradiction (Hp mo mi). reflexivity.
  - injection Hd as <-. reflexivity.
  - destruct new as [[| |]|]; injection Hd as <-; reflexivity.
  - injection Hd as <-. reflexivity.
Qed.

(** A call that returns in the phase of CMD16 has made the argument the
    block length. *)
Lemma cmd16_handled_arg cn an s e mo mi d :
  state d = HANDLE_CMD 16 -> is_acmd d = false ->
  wp (decode cn an s e (DATA mo mi))
     (fun _ d' => arg d = Some (blocklen d')) d.
Proof.
  intros Hst Ha. open_decoder d. subst. unfold decode.
  wp_run. proj. congruence.
Qed.

(** One call of [decode] keeps the block size in line with the most
    recent CMD16. *)
Lemma decode_tracks_cmd16 cn an s e p d d' acc :
  block_size d = expected_block_size acc ->
  decode cn an s e p d = Ok tt d' ->
  block_size d'
  = expected_block_size
      (match p, state d with
       | DATA _ _, HANDLE_CMD c =>
           if (c =? 16) && negb (is_acmd d) then arg d else acc
       | _, _ => acc
       end).
Proof.
  intros Hinv Hd.
  assert (Hsame : blocklen d' = blocklen d ->
                  block_size d' = expected_block_size acc).
  { intros H. unfold block_size in *. rewrite H. exact Hinv. }
  assert (Hdflt : blocklen d = 0 -> blocklen d' = 512 ->
                  block_size d' = expected_block_size acc).
  { intros H0 H512. unfold block_size in *. rewrite H0 in Hinv.
    rewrite H512. exact Hinv. }
  destruct p as [mo mi | mb sb | old new | ].
  2, 3, 4: cbv beta iota; apply Hsame;
    eapply decode_other_blocklen; [|exact Hd]; discriminate.
  pose proof (wp_elim _ _ _ _ _ (decode_blocklen cn an s e (DATA mo mi) d) Hd)
    as Hcases.
  destruct (state d) as [| | c | | | | | | | |] eqn:Hst.
  3: { destruct ((c =? 16) && negb (is_acmd d)) eqn:Hc.
       - apply andb_true_iff in Hc. destruct Hc as [Hc Ha].
         apply Z.eqb_eq in Hc. apply negb_true_iff in Ha. subst c.
         pose proof (wp_elim _ _ _ _ _
                       (cmd16_handled_arg cn an s e mo mi d Hst Ha) Hd)
           as Harg.
         rewrite Harg. unfold block_size, expected_block_size. reflexivity.
       - destruct Hcases as [H | [(H16 & Ha & _) | ([H | H] & _)]];
           try discriminate H.
         + apply Hsame. exact H.
         + injection H16 as ->. rewrite Ha in Hc. discriminate Hc. }
  all: destruct Hcases as [H | [(H16 & _) | (_ & H0 & H512)]];
    [apply Hsame; exact H | discriminate H16 | apply Hdflt; assumption].
Qed.

(** A session that returns keeps the block size in line with the most
    recent CMD16. *)
Lemma run_tracks_cmd16 cn an evs : forall d d' acc,
  block_size d = expected_block_size acc ->
  run cn an evs d = Ok tt d' ->
  block_size d' = expected_block_size (last_cmd16 cn an evs d acc).
Proof.
  induction evs as [|[[s e] p] evs IH]; intros d d' acc Hinv Hrun.
  - injection Hrun as <-. exact Hinv.
  - cbn [run last_cmd16] in *. unfold bind in Hrun.
    destruct (decode cn an s e p d) as [[] d1|] eqn:Hd; [|discriminate Hrun].
    apply (IH d1 d' _ (decode_tracks_cmd16 cn an s e p d d1 acc Hinv Hd) Hrun).
Qed.

(** C5, amended: after a session from a new object, in the data phase of
    CMD17 or CMD24 before the start token, the start token 0xfe and [n]
    bytes put out the block annotation on the [n]th byte, with all [n]
    bytes from the first to the last, and on no byte before it, where
    [n] is the argument of the most recent CMD16 of the session when
    that is not 0, and 512 when it is 0 or when the session has no
    CMD16. *)
Theorem block_length_most_recent_cmd16 cn an evs d :
  run cn an evs new_Decoder = Ok tt d ->
  let n := expected_block_size (last_cmd16 cn an evs new_Decoder None) in
  block_size d = n /\
  (state d = HANDLE_DATA_BLOCK_CMD17 ->
   cmd17_start_token_found d = false ->
   forall x0 pre x,
     x_miso x0 = 254 -> Z.of_nat (List.length pre) + 1 = n ->
     (exists d',
        run cn an (flat_map xfer_events (x0 :: pre ++ [x])) d = Ok tt d' /\
        out_ann d' =
          out_ann d ++
          [mkAnn (x_ss x0) (x_es x0) (Ann.CMD 17) ["Start Block"];
           mkAnn (x_ss (hd x pre)) (x_es x) (Ann.CMD 17)
             [("Block data: "
               ++ fmt_list (map x_miso (pre ++ [x])))%string]]) /\
     (forall k, exists dk,
        run cn an (flat_map xfer_events (x0 :: firstn k pre)) d
        = Ok tt dk /\
        out_ann dk =
          out_ann d
          ++ [mkAnn (x_ss x0) (x_es x0) (Ann.CMD 17) ["Start Block"]])) /\
  (state d = HANDLE_DATA_BLOCK_CMD24 ->
   cmd24_start_token_found d = false ->
   forall x0 pre x,
     x_mosi x0 = 254 -> Z.of_nat (List.length pre) + 1 = n ->
     (exists d',
        run cn an (flat_map xfer_events (x0 :: pre ++ [x])) d = Ok tt d' /\
        out_ann d' =
          out_ann d ++
          [mkAnn (x_ss x0) (x_es x0) (Ann.CMD 24) ["Start Block"];
           mkAnn (x_ss (hd x pre)) (x_es x) (Ann.CMD 24)
             [("Block data: "
               ++ fmt_list (map x_mosi (pre ++ [x])))%string]]) /\
     (forall k, exists dk,
        run cn an (flat_map xfer_events (x0 :: firstn k pre)) d
        = Ok tt dk /\
        out_ann dk =
          out_ann d
          ++ [mkAnn (x_ss x0) (x_es x0) (Ann.CMD 24) ["Start Block"]])).
Proof.
  intros Hrun n.
  assert (Hn : block_size d = n).
  { apply (run_tracks_cmd16 cn an evs new_Decoder d None); [reflexivity|].
    exact Hrun. }
  pose proof (run_reachable _ _ _ _ _ (reach_new cn an) Hrun) as Hr.
  destruct (reachable_inv cn an d Hr) as [_ Hbu]. unfold buffers_inv in Hbu.
  destruct (block_length_payload cn an) as (_ & _ & _ & _ & H17 & H24).
  split; [exact Hn|]. split.
  - intros Hst Hf x0 pre x Hx0 Hlen.
    rewrite Hst in Hbu. destruct Hbu as [_ Hb]. specialize (Hb Hf).
    destruct (cmd17_start_xfer cn an d x0 Hst Hf Hb Hx0)
      as (d0 & Hd0 & Hst0 & Hf0 & Hb0 & Ho0 & Hn0).
    destruct (H17 d0 pre x Hst0 Hf0 Hb0) as [(d1 & Hd1 & Ho1) Hk].
    { rewrite Hn0, Hn. exact Hlen. }
    split.
    + exists d1. split.
      * change (x0 :: pre ++ [x]) with ([x0] ++ pre ++ [x]).
        rewrite flat_map_app. cbn [flat_map]. rewrite app_nil_r.
        rewrite (run_app_ok _ _ _ _ _ _ Hd0). exact Hd1.
      * rewrite Ho1, Ho0, <- app_assoc. reflexivity.
    + intros k. destruct (Hk k) as (dk & Hdk & Hok). exists dk. split.
      * change (x0 :: firstn k pre) with ([x0] ++ firstn k pre).
        rewrite flat_map_app. cbn [flat_map]. rewrite app_nil_r.
        rewrite (run_app_ok _ _ _ _ _ _ Hd0). exact Hdk.
      * rewrite Hok, Ho0. reflexivity.
  - intros Hst Hf x0 pre x Hx0 Hlen.
    rewrite Hst in Hbu. destruct Hbu as [_ Hb]. specialize (Hb Hf).
    destruct (cmd24_start_xfer cn an d x0 Hst Hf Hb Hx0)
      as (d0 & Hd0 & Hst0 & Hf0 & Hb0 & Ho0 & Hn0).
    destruct (H24 d0 pre x Hst0 Hf0 Hb0) as [(d1 & Hd1 & Ho1) Hk].
    { rewrite Hn0, Hn. exact Hlen. }
    split.
    + exists d1. split.
      * change (x0 :: pre ++ [x]) with ([x0] ++ pre ++ [x]).
        rewrite flat_map_app. cbn [flat_map]. rewrite app_nil_r.
        rewrite (run_app_ok _ _ _ _ _ _ Hd0). exact Hd1.
      * rewrite Ho1, Ho0, <- app_assoc. reflexivity.
    + intros k. destruct (Hk k) as (dk & Hdk & Hok). exists dk. split.
      * change (x0 :: firstn k pre) with ([x0] ++ firstn k pre).
        rewrite flat_map_app. cbn [flat_map]. rewrite app_nil_r.
        rewrite (run_app_ok _ _ _ _ _ _ Hd0). exact Hdk.
      * rewrite Hok, Ho0. reflexivity.
Qed.

Lemma block_length_most_recent_cmd16_witness :
  let evs := spi_bytes 0 (host [80; 0; 0; 0; 4; 1] ++ [(255, 255)]
                          ++ card [0]
                          ++ host [81; 0; 0; 0; 0; 1] ++ [(255, 255)]
                          ++ card [0; 255]) in
  last_cmd16 sample_cmd_names sample_acmd_names evs new_Decoder None
  = Some 4 /\
  exists d',
    run sample_cmd_names sample_acmd_names
        (flat_map xfer_events
           (mkXfer 72 80 (spi_bits 255 72) (spi_bits 254 72) 255 254
            :: map (fun i => mkXfer (80 + 8 * i) (88 + 8 * i)
                               (spi_bits 255 (80 + 8 * i))
                               (spi_bits i (80 + 8 * i)) 255 i)
                   [0; 1; 2]
               ++ [mkXfer 104 112 (spi_bits 255 104) (spi_bits 3 104)
                     255 3]))
        (final (run_sample evs)) = Ok tt d' /\
    In (mkAnn 80 112 (Ann.CMD 17) ["Block data: [0, 1, 2, 3]"])
       (out_ann d').
Proof.
  cbv zeta. split; [vm_compute; reflexivity|].
  assert (Hrun : run sample_cmd_names sample_acmd_names
                   (spi_bytes 0 (host [80; 0; 0; 0; 4; 1] ++ [(255, 255)]
                                 ++ card [0]
                                 ++ host [81; 0; 0; 0; 0; 1] ++ [(255, 255)]
                                 ++ card [0; 255])) new_Decoder
                 = Ok tt (final (run_sample
                     (spi_bytes 0 (host [80; 0; 0; 0; 4; 1] ++ [(255, 255)]
                                   ++ card [0]
                                   ++ host [81; 0; 0; 0; 0; 1]
                                   ++ [(255, 255)] ++ card [0; 255])))))
    by (vm_compute; reflexivity).
  destruct (block_length_most_recent_cmd16 sample_cmd_names sample_acmd_names
              _ _ Hrun) as (_ & H17 & _).
  destruct (H17 ltac:(vm_compute; reflexivity) ltac:(vm_compute; reflexivity)
              (mkXfer 72 80 (spi_bits 255 72) (spi_bits 254 72) 255 254)
              (map (fun i => mkXfer (80 + 8 * i) (88 + 8 * i)
                               (spi_bits 255 (80 + 8 * i))
                               (spi_bits i (80 + 8 * i)) 255 i)
                   [0; 1; 2])
              (mkXfer 104 112 (spi_bits 255 104) (spi_bits 3 104) 255 3))
    as ((d' & Hd & Ho) & _).
  - reflexivity.
  - vm_compute. reflexivity.
  - exists d'. split; [exact Hd|].
    rewrite Ho. apply in_or_app. right. right. left. reflexivity.
Defined.

(** ** Two objects in one store *)

Lemma nth_error_update_eq a o x h :
  nth_error h a = Some x -> nth_error (Heap.update a o h) a = Some o.
Proof.
  revert a. induction h as [|y h IH]; intros [|a] H; simpl in *;
    try discriminate; auto.
Qed.

Lemma nth_error_update_neq a b o h :
  a <> b -> nth_error (Heap.update a o h) b = nth_error h b.
Proof.
  revert a b. induction h as [|y h IH]; intros [|a] [|b] H; simpl;
    try reflexivity; try congruence.
  apply IH. congruence.
Qed.

Lemma nth_error_app_some {A} (h l : list A) a o :
  nth_error h a = Some o -> nth_error (h ++ l) a = Some o.
Proof.
  intros H. rewrite nth_error_app1; [exact H|].
  apply nth_error_Some. congruence.
Qed.

Lemma nth_error_app_new {A} (h : list A) o :
  nth_error (h ++ [o]) (List.length h) = Some o.
Proof.
  rewrite nth_error_app2 by lia. rewrite Nat.sub_diag. reflexivity.
Qed.

Lemma nth_error_length_neq {A} (h : list A) a o :
  nth_error h a = Some o -> a <> List.length h.
Proof.
  intros H ->. assert (nth_error h (List.length h) = None) as E
    by (apply nth_error_None; lia). congruence.
Qed.

Lemma store_extends_refl h : store_extends h h.
Proof. intros a o H. exact H. Qed.

Lemma store_extends_app h0 h l :
  store_extends h0 h -> store_extends h0 (h ++ l).
Proof. intros H a o Ha. apply nth_error_app_some. apply H. exact Ha. Qed.

Lemma store_extends_update h0 h a o :
  store_extends h0 h -> nth_error h0 a = None ->
  store_extends h0 (Heap.update a o h).
Proof.
  intros H Hn b x Hb. rewrite nth_error_update_neq; [apply H; exact Hb|].
  intros ->. congruence.
Qed.

Lemma store_extends_fresh h0 h :
  store_extends h0 h -> nth_error h0 (List.length h) = None.
Proof.
  intros H. destruct (nth_error h0 (List.length h)) as [o|] eqn:E;
    [|reflexivity].
  apply H in E. apply nth_error_length_neq in E. congruence.
Qed.

Lemma deref_rows_extends h0 h rs rows :
  store_extends h0 h -> Heap.deref_rows h0 rs = Some rows ->
  Heap.deref_rows h rs = Some rows.
Proof.
  intros H. revert rows. induction rs as [|r rs IH]; intros rows; simpl.
  - auto.
  - destruct (nth_error h0 r) as [[l|l|l]|] eqn:E; try discriminate.
    destruct (Heap.deref_rows h0 rs) as [ls|]; try discriminate.
    intros Hr. rewrite (H _ _ E), (IH _ eq_refl). exact Hr.
Qed.

Lemma deref_rows_app h0 rs rows a l :
  Heap.deref_rows h0 rs = Some rows ->
  nth_error h0 a = Some (Heap.BitList l) ->
  Heap.deref_rows h0 (rs ++ [a]) = Some (rows ++ [l]).
Proof.
  intros H Ha. revert rows H. induction rs as [|r rs IH]; intros rows; simpl.
  - intros [= <-]. rewrite Ha. reflexivity.
  - destruct (nth_error h0 r) as [[x|x|x]|]; try discriminate.
    destruct (Heap.deref_rows h0 rs) as [ls|]; try discriminate.
    intros [= <-]. rewrite (IH _ eq_refl). reflexivity.
Qed.

Lemma holds_rows_app h0 h l a rows :
  holds_rows h0 h a rows -> holds_rows h0 (h ++ l) a rows.
Proof.
  intros (rs & H1 & H2). exists rs. split; [|exact H2].
  apply nth_error_app_some. exact H1.
Qed.

Lemma holds_rows_update h0 h a b o rows :
  b <> a -> holds_rows h0 h a rows ->
  holds_rows h0 (Heap.update b o h) a rows.
Proof.
  intros Hn (rs & H1 & H2). exists rs. split; [|exact H2].
  rewrite nth_error_update_neq; assumption.
Qed.

Lemma holds_rows_new h0 h :
  holds_rows h0 (h ++ [Heap.RefList []]) (List.length h) [].
Proof. exists []. split; [apply nth_error_app_new|reflexivity]. Qed.

Lemma holds_rows_length h0 h a rows :
  holds_rows h0 h a rows -> a <> List.length h.
Proof. intros (rs & H & _). exact (nth_error_length_neq _ _ _ H). Qed.

Lemma apart4 {A} (a b c d : A) :
  NoDup [a; b; c; d] <->
  a <> b /\ a <> c /\ a <> d /\ b <> c /\ b <> d /\ c <> d.
Proof.
  split.
  - intros H. inversion H as [|? ? H1 H2]; subst.
    inversion H2 as [|? ? H3 H4]; subst.
    inversion H4 as [|? ? H5 H6]; subst.
    simpl in *. intuition congruence.
  - intros (H1 & H2 & H3 & H4 & H5 & H6).
    repeat constructor; simpl; intuition congruence.
Qed.

Lemma own4 {A} (P : A -> Prop) (a b c d : A) :
  Forall P [a; b; c; d] <-> P a /\ P b /\ P c /\ P d.
Proof.
  split.
  - intros H. inversion H as [|? ? H1 H2]; subst.
    inversion H2 as [|? ? H3 H4]; subst.
    inversion H4 as [|? ? H5 H6]; subst.
    inversion H6; subst. auto.
  - intros (H1 & H2 & H3 & H4). repeat constructor; assumption.
Qed.

(** Taking a [represents] apart, and putting one together from what is
    at hand. *)
Ltac rep_open H :=
  let Ho := fresh "Hown" in
  let Ha := fresh "Hapart" in
  destruct H as [? ? ? ? ? ? ? ? ? ? ? ? ? ? ? ? ? ? ? ? ? ? ? ? ? ? ? ? ? ?
                 ? ? ? Ho Ha];
  apply own4 in Ho; destruct Ho as (? & ? & ? & ?);
  apply apart4 in Ha; destruct Ha as (? & ? & ? & ? & ? & ?).

Ltac rep_side :=
  cbn in *;
  first
    [ assumption
    | apply store_extends_app; assumption
    | apply store_extends_update; assumption
    | apply nth_error_app_new
    | apply holds_rows_new
    | apply nth_error_app_some; assumption
    | apply holds_rows_app; assumption
    | eapply nth_error_update_eq; eassumption
    | rewrite nth_error_update_neq; [assumption|congruence]
    | apply holds_rows_update; [congruence|assumption]
    | apply store_extends_fresh; assumption
    | apply not_eq_sym; eapply nth_error_length_neq; eassumption
    | eapply nth_error_length_neq; eassumption
    | apply not_eq_sym; eapply holds_rows_length; eassumption
    | eapply holds_rows_length; eassumption ].

Ltac rep_close :=
  constructor;
  [ .. | apply own4; repeat split | apply apart4; repeat split ];
  try rep_side.

Lemma refines_ret {A} h0 (a : A) : refines h0 (Heap.ret a) (ret a).
Proof. intros i h d H. simpl. eauto. Qed.

Lemma refines_raise {A} h0 e : refines h0 (@Heap.raise A e) (raise e).
Proof. intros i h d H. simpl. eauto. Qed.

Lemma refines_bind {A B} h0 (mh : Heap.M A) (kh : A -> Heap.M B) mp kp :
  refines h0 mh mp -> (forall a, refines h0 (kh a) (kp a)) ->
  refines h0 (Heap.bind mh kh) (bind mp kp).
Proof.
  intros Hm Hk i h d H. unfold Heap.bind, bind.
  specialize (Hm i h d H).
  destruct (mh i h) as [a i' h'|e i' h'|i' h'].
  - destruct Hm as (d' & -> & H'). exact (Hk a i' h' d' H').
  - destruct Hm as (d' & -> & H'). eauto.
  - exact Hm.
Qed.

(** The calls on the two sides are grouped differently where one
    statement of the source is two steps on one side. *)
Lemma refines_assoc_pure {A B C} h0 (mh : Heap.M C) (m : M A)
    (f : A -> M B) (g : B -> M C) :
  refines h0 mh (bind (bind m f) g) ->
  refines h0 mh (bind m (fun x => bind (f x) g)).
Proof.
  intros Hm i h d H. specialize (Hm i h d H).
  unfold bind in *. destruct (m d); exact Hm.
Qed.

Lemma refines_assoc_store {A B C} h0 (mp : M C) (m : Heap.M A)
    (f : A -> Heap.M B) (g : B -> Heap.M C) :
  refines h0 (Heap.bind (Heap.bind m f) g) mp ->
  refines h0 (Heap.bind m (fun x => Heap.bind (f x) g)) mp.
Proof.
  intros Hm i h d H. specialize (Hm i h d H).
  unfold Heap.bind in *. destruct (m i h); exact Hm.
Qed.

Lemma refines_get {A} h0 (fh : Heap.Decoder -> A) (fp : Decoder -> A) :
  (forall i h d, represents h0 i h d -> fh i = fp d) ->
  refines h0 (Heap.get fh) (get fp).
Proof.
  intros Hf i h d H. unfold Heap.get, get. rewrite (Hf i h d H). eauto.
Qed.

Lemma refines_getattr {A} h0 (fh : Heap.Decoder -> option A) fp :
  (forall i h d, represents h0 i h d -> fh i = fp d) ->
  refines h0 (Heap.getattr fh) (getattr fp).
Proof.
  intros Hf i h d H. unfold Heap.getattr, getattr. rewrite (Hf i h d H).
  destruct (fp d); eauto.
Qed.

Lemma refines_index {A} h0 (l : list A) k :
  refines h0 (Heap.index l k) (index l k).
Proof.
  unfold Heap.index, index. destruct (nth_error l k).
  - apply refines_ret.
  - apply refines_raise.
Qed.

Lemma refines_when h0 b mh mp :
  refines h0 mh mp -> refines h0 (Heap.when b mh) (when b mp).
Proof.
  intros H. unfold Heap.when, when. destruct b; [exact H|apply refines_ret].
Qed.

Lemma refines_for_each {A} h0 (l : list A) bh bp :
  (forall x, refines h0 (bh x) (bp x)) ->
  refines h0 (Heap.for_each l bh) (for_each l bp).
Proof.
  intros H. induction l as [|x l IH]; simpl.
  - apply refines_ret.
  - apply refines_bind; [apply H|intros _; exact IH].
Qed.

(** An assignment of a value to an attribute. *)
Ltac ref_modify :=
  let i := fresh "i" in
  let h := fresh "h" in
  let d := fresh "d" in
  let H := fresh "H" in
  intros i h d H; cbv beta iota delta [Heap.modify modify];
  eexists; split; [reflexivity|];
  destruct H; constructor; cbn; first [assumption|reflexivity].

Lemma refines_put h0 s e cls texts :
  refines h0 (Heap.put s e cls texts) (put s e cls texts).
Proof.
  intros i h d H. unfold Heap.put, put, Heap.modify, modify.
  eexists; split; [reflexivity|].
  destruct H; constructor; cbn; try assumption. congruence.
Qed.

Lemma refines_load_cmd_token h0 :
  refines h0 (Heap.load_ints Heap.cmd_token) (get cmd_token).
Proof.
  intros i h d H. unfold Heap.load_ints, get.
  rewrite (rep_cmd_token _ _ _ _ H). eauto.
Qed.

Lemma refines_load_read_buf h0 :
  refines h0 (Heap.load_ints Heap.read_buf) (get read_buf).
Proof.
  intros i h d H. unfold Heap.load_ints, get.
  rewrite (rep_read_buf _ _ _ _ H). eauto.
Qed.

Lemma refines_len_cmd_token h0 :
  refines h0 (Heap.len Heap.cmd_token)
          (get (fun d => List.length (cmd_token d))).
Proof.
  intros i h d H. unfold Heap.len, Heap.bind, Heap.load_ints, Heap.ret, get.
  rewrite (rep_cmd_token _ _ _ _ H). eauto.
Qed.

Lemma refines_load_cmd_token_bits h0 :
  refines h0 (Heap.load_rows Heap.cmd_token_bits) (get cmd_token_bits).
Proof.
  intros i h d H. unfold Heap.load_rows, get.
  destruct (rep_cmd_token_bits _ _ _ _ H) as (rs & -> & Hr).
  rewrite (deref_rows_extends _ _ _ _ (rep_store _ _ _ _ H) Hr). eauto.
Qed.

Lemma refines_load_read_bits h0 :
  refines h0 (Heap.load_rows Heap.read_bits) (get read_bits).
Proof.
  intros i h d H. unfold Heap.load_rows, get.
  destruct (rep_read_bits _ _ _ _ H) as (rs & -> & Hr).
  rewrite (deref_rows_extends _ _ _ _ (rep_store _ _ _ _ H) Hr). eauto.
Qed.

Lemma refines_load_miso_bits h0 :
  refines h0 (Heap.load_bits Heap.miso_bits) (getattr miso_bits).
Proof.
  intros i h d H. unfold Heap.load_bits, getattr.
  pose proof (rep_miso_bits _ _ _ _ H) as Hb. unfold holds_bits in Hb.
  destruct (Heap.miso_bits i) as [a|], (miso_bits d) as [l|];
    try contradiction; [|eauto].
  rewrite (rep_store _ _ _ _ H _ _ Hb). eauto.
Qed.

Lemma refines_append_cmd_token h0 v :
  refines h0 (Heap.append_int Heap.cmd_token v)
          (modify (fun d => set_cmd_token (cmd_token d ++ [v]) d)).
Proof.
  intros i h d H. unfold Heap.append_int, modify.
  rewrite (rep_cmd_token _ _ _ _ H).
  eexists; split; [reflexivity|]. rep_open H. rep_close.
Qed.

Lemma refines_append_read_buf h0 v :
  refines h0 (Heap.append_int Heap.read_buf v)
          (modify (fun d => set_read_buf (read_buf d ++ [v]) d)).
Proof.
  intros i h d H. unfold Heap.append_int, modify.
  rewrite (rep_read_buf _ _ _ _ H).
  eexists; split; [reflexivity|]. rep_open H. rep_close.
Qed.

Lemma refines_append_cmd_token_bits h0 :
  refines h0 (Heap.append_ref Heap.cmd_token_bits Heap.mosi_bits)
          (bind (getattr mosi_bits)
             (fun mb =>
                modify (fun d =>
                          set_cmd_token_bits (cmd_token_bits d ++ [mb]) d))).
Proof.
  intros i h d H. unfold Heap.append_ref, bind, getattr, modify.
  destruct (rep_cmd_token_bits _ _ _ _ H) as (rs & Hrs & Hr). rewrite Hrs.
  pose proof (rep_mosi_bits _ _ _ _ H) as Hb. unfold holds_bits in Hb.
  destruct (Heap.mosi_bits i) as [a|], (mosi_bits d) as [l|];
    try contradiction; [|eauto].
  eexists; split; [reflexivity|]. rep_open H. rep_close.
  exists (rs ++ [a]). split.
  - eapply nth_error_update_eq; eassumption.
  - apply deref_rows_app; assumption.
Qed.

Lemma refines_append_read_bits h0 :
  refines h0 (Heap.append_ref Heap.read_bits Heap.miso_bits)
          (bind (getattr miso_bits)
             (fun mb =>
                modify (fun d => set_read_bits (read_bits d ++ [mb]) d))).
Proof.
  intros i h d H. unfold Heap.append_ref, bind, getattr, modify.
  destruct (rep_read_bits _ _ _ _ H) as (rs & Hrs & Hr). rewrite Hrs.
  pose proof (rep_miso_bits _ _ _ _ H) as Hb. unfold holds_bits in Hb.
  destruct (Heap.miso_bits i) as [a|], (miso_bits d) as [l|];
    try contradiction; [|eauto].
  eexists; split; [reflexivity|]. rep_open H. rep_close.
  exists (rs ++ [a]). split.
  - eapply nth_error_update_eq; eassumption.
  - apply deref_rows_app; assumption.
Qed.

Lemma refines_new_cmd_token h0 l :
  refines h0 (Heap.new_ints Heap.set_cmd_token l) (modify (set_cmd_token l)).
Proof.
  intros i h d H. unfold Heap.new_ints, modify.
  eexists; split; [reflexivity|]. rep_open H. rep_close.
Qed.

Lemma refines_new_read_buf h0 l :
  refines h0 (Heap.new_ints Heap.set_read_buf l) (modify (set_read_buf l)).
Proof.
  intros i h d H. unfold Heap.new_ints, modify.
  eexists; split; [reflexivity|]. rep_open H. rep_close.
Qed.

Lemma refines_new_cmd_token_bits h0 :
  refines h0 (Heap.new_rows Heap.set_cmd_token_bits)
          (modify (set_cmd_token_bits [])).
Proof.
  intros i h d H. unfold Heap.new_rows, modify.
  eexists; split; [reflexivity|]. rep_open H. rep_close.
Qed.

Lemma refines_new_read_bits h0 :
  refines h0 (Heap.new_rows Heap.set_read_bits) (modify (set_read_bits [])).
Proof.
  intros i h d H. unfold Heap.new_rows, modify.
  eexists; split; [reflexivity|]. rep_open H. rep_close.
Qed.

(** [self.read_buf = self.read_buf[4:]]: the slice is a new list. *)
Lemma refines_slice_read_buf h0 k :
  refines h0
    (Heap.bind (Heap.load_ints Heap.read_buf)
       (fun rb => Heap.new_ints Heap.set_read_buf (skipn k rb)))
    (modify (fun d => set_read_buf (skipn k (read_buf d)) d)).
Proof.
  intros i h d H. unfold Heap.bind, Heap.load_ints, Heap.new_ints, modify.
  rewrite (rep_read_buf _ _ _ _ H).
  eexists; split; [reflexivity|]. rep_open H. rep_close.
Qed.

Create HintDb store discriminated.

#[local] Hint Resolve refines_ret refines_raise refines_index refines_put
  refines_load_cmd_token refines_load_read_buf refines_len_cmd_token
  refines_load_cmd_token_bits refines_load_read_bits refines_load_miso_bits
  refines_append_cmd_token refines_append_read_buf
  refines_new_cmd_token refines_new_read_buf refines_new_cmd_token_bits
  refines_new_read_bits : store.

(** One step of a method on both sides. *)
Ltac ref_step :=
  lazymatch goal with
  | |- refines _ (Heap.bind (Heap.append_ref Heap.cmd_token_bits _) _) _ =>
      apply refines_assoc_pure;
      apply refines_bind; [apply refines_append_cmd_token_bits|intros ?]
  | |- refines _ (Heap.bind (Heap.append_ref Heap.read_bits _) _) _ =>
      apply refines_assoc_pure;
      apply refines_bind; [apply refines_append_read_bits|intros ?]
  | |- refines _ (Heap.bind (Heap.load_ints Heap.read_buf)
                    (fun _ => Heap.bind (Heap.new_ints _ _) _)) _ =>
      apply refines_assoc_store;
      apply refines_bind; [apply refines_slice_read_buf|intros ?]
  | |- refines _ (Heap.bind _ _) (bind _ _) =>
      apply refines_bind; [|intros ?]
  | |- refines _ (Heap.when _ _) (when _ _) => apply refines_when
  | |- refines _ (Heap.for_each _ _) (for_each _ _) =>
      apply refines_for_each; intros ?
  | |- refines _ (Heap.get _) (get _) =>
      first [ solve [auto 1 with store nocore]
            | apply refines_get; intros ? ? ? []; assumption ]
  | |- refines _ (Heap.getattr _) (getattr _) =>
      apply refines_getattr; intros ? ? ? []; assumption
  | |- refines _ (Heap.modify _) (modify _) => ref_modify
  | |- refines _ (if ?c then _ else _) _ => destruct c
  | |- refines _ (match ?c with _ => _ end) _ => destruct c
  | |- refines _ _ _ =>
      first [ solve [auto 1 with store nocore] | progress cbv zeta ]
  end.

Ltac ref_run := repeat ref_step.

Lemma refines_putx h0 cls texts :
  refines h0 (Heap.putx cls texts) (putx cls texts).
Proof. unfold Heap.putx, putx. ref_run. Qed.

Lemma refines_putb h0 cls texts :
  refines h0 (Heap.putb cls texts) (putb cls texts).
Proof. unfold Heap.putb, putb. ref_run. Qed.

#[local] Hint Resolve refines_putx refines_putb : store.

Lemma refines_putc h0 cmd desc :
  refines h0 (Heap.putc cmd desc) (putc cmd desc).
Proof. unfold Heap.putc, putc. ref_run. Qed.

Lemma refines_putbit h0 k texts :
  refines h0 (Heap.putbit k texts) (putbit k texts).
Proof. unfold Heap.putbit, putbit. ref_run. Qed.

Lemma refines_tb h0 byte bit_ :
  refines h0 (Heap.tb byte bit_) (tb byte bit_).
Proof. unfold Heap.tb, tb. ref_run. Qed.

Lemma refines_get_bit h0 b :
  refines h0 (Heap.get_bit b) (get_bit b).
Proof. unfold Heap.get_bit, get_bit. ref_run. Qed.

Lemma refines_cmd_name h0 cn an cmd :
  refines h0 (Heap.cmd_name cn an cmd) (cmd_name cn an cmd).
Proof. unfold Heap.cmd_name, cmd_name. ref_run. Qed.

#[local] Hint Resolve refines_putc refines_putbit refines_tb refines_get_bit
  refines_cmd_name : store.

(** The methods, one by one. *)
Lemma refines_handle_command_token h0 cn an mosi0 miso0 :
  refines h0 (Heap.handle_command_token cn an mosi0 miso0) (handle_command_token cn an mosi0 miso0).
Proof. unfold Heap.handle_command_token, handle_command_token. ref_run. Qed.

Lemma refines_handle_cmd0 h0 :
  refines h0 (Heap.handle_cmd0) (handle_cmd0).
Proof. unfold Heap.handle_cmd0, handle_cmd0. ref_run. Qed.

Lemma refines_handle_cmd1 h0 :
  refines h0 (Heap.handle_cmd1) (handle_cmd1).
Proof. unfold Heap.handle_cmd1, handle_cmd1. ref_run. Qed.

Lemma refines_handle_cmd8 h0 :
  refines h0 (Heap.handle_cmd8) (handle_cmd8).
Proof. unfold Heap.handle_cmd8, handle_cmd8. ref_run. Qed.

Lemma refines_handle_cmd9 h0 :
  refines h0 (Heap.handle_cmd9) (handle_cmd9).
Proof. unfold Heap.handle_cmd9, handle_cmd9. ref_run. Qed.

Lemma refines_handle_cmd10 h0 :
  refines h0 (Heap.handle_cmd10) (handle_cmd10).
Proof. unfold Heap.handle_cmd10, handle_cmd10. ref_run. Qed.

Lemma refines_handle_cmd13 h0 :
  refines h0 (Heap.handle_cmd13) (handle_cmd13).
Proof. unfold Heap.handle_cmd13, handle_cmd13. ref_run. Qed.

Lemma refines_handle_cmd16 h0 :
  refines h0 (Heap.handle_cmd16) (handle_cmd16).
Proof. unfold Heap.handle_cmd16, handle_cmd16. ref_run. Qed.

Lemma refines_handle_cmd17 h0 :
  refines h0 (Heap.handle_cmd17) (handle_cmd17).
Proof. unfold Heap.handle_cmd17, handle_cmd17. ref_run. Qed.

Lemma refines_handle_cmd24 h0 :
  refines h0 (Heap.handle_cmd24) (handle_cmd24).
Proof. unfold Heap.handle_cmd24, handle_cmd24. ref_run. Qed.

Lemma refines_handle_cmd49 h0 :
  refines h0 (Heap.handle_cmd49) (handle_cmd49).
Proof. unfold Heap.handle_cmd49, handle_cmd49. ref_run. Qed.

Lemma refines_handle_cmd55 h0 :
  refines h0 (Heap.handle_cmd55) (handle_cmd55).
Proof. unfold Heap.handle_cmd55, handle_cmd55. ref_run. Qed.

Lemma refines_handle_cmd58 h0 :
  refines h0 (Heap.handle_cmd58) (handle_cmd58).
Proof. unfold Heap.handle_cmd58, handle_cmd58. ref_run. Qed.

Lemma refines_handle_cmd59 h0 :
  refines h0 (Heap.handle_cmd59) (handle_cmd59).
Proof. unfold Heap.handle_cmd59, handle_cmd59. ref_run. Qed.

Lemma refines_handle_acmd41 h0 :
  refines h0 (Heap.handle_acmd41) (handle_acmd41).
Proof. unfold Heap.handle_acmd41, handle_acmd41. ref_run. Qed.

Lemma refines_handle_cmd999 h0 :
  refines h0 (Heap.handle_cmd999) (handle_cmd999).
Proof. unfold Heap.handle_cmd999, handle_cmd999. ref_run. Qed.

#[local] Hint Resolve refines_handle_cmd0 refines_handle_cmd1 refines_handle_cmd8
  refines_handle_cmd9 refines_handle_cmd10 refines_handle_cmd13
  refines_handle_cmd16 refines_handle_cmd17 refines_handle_cmd24
  refines_handle_cmd49 refines_handle_cmd55 refines_handle_cmd58
  refines_handle_cmd59 refines_handle_acmd41 refines_handle_cmd999 : store.

Lemma refines_handler_method h0 a cmd :
  match Heap.handler_method a cmd, handler_method a cmd with
  | Some mh, Some mp => refines h0 mh mp
  | None, None => True
  | _, _ => False
  end.
Proof.
  unfold Heap.handler_method, handler_method.
  repeat match goal with
         | |- context [match ?x with _ => _ end] => is_var x; destruct x
         end;
    first [ exact I | solve [auto 1 with store nocore] ].
Qed.

Lemma refines_handle_response_r1 h0 res :
  refines h0 (Heap.handle_response_r1 res) (handle_response_r1 res).
Proof. unfold Heap.handle_response_r1, handle_response_r1. ref_run. Qed.

#[local] Hint Resolve refines_handle_response_r1 : store.

Lemma refines_handle_response_r2 h0 x :
  refines h0 (Heap.handle_response_r2 x) (handle_response_r2 x).
Proof. unfold Heap.handle_response_r2, handle_response_r2. ref_run. Qed.

Lemma refines_handle_response_r3 h0 x :
  refines h0 (Heap.handle_response_r3 x) (handle_response_r3 x).
Proof. unfold Heap.handle_response_r3, handle_response_r3. ref_run. Qed.

Lemma refines_handle_response_r7 h0 x :
  refines h0 (Heap.handle_response_r7 x) (handle_response_r7 x).
Proof. unfold Heap.handle_response_r7, handle_response_r7. ref_run. Qed.

Lemma refines_handle_data_cmd17 h0 x :
  refines h0 (Heap.handle_data_cmd17 x) (handle_data_cmd17 x).
Proof. unfold Heap.handle_data_cmd17, handle_data_cmd17. ref_run. Qed.

Lemma refines_handle_data_cmd24 h0 x :
  refines h0 (Heap.handle_data_cmd24 x) (handle_data_cmd24 x).
Proof. unfold Heap.handle_data_cmd24, handle_data_cmd24. ref_run. Qed.

Lemma refines_handle_data_response h0 x :
  refines h0 (Heap.handle_data_response x) (handle_data_response x).
Proof. unfold Heap.handle_data_response, handle_data_response. ref_run. Qed.

Lemma refines_wait_while_busy h0 x :
  refines h0 (Heap.wait_while_busy x) (wait_while_busy x).
Proof. unfold Heap.wait_while_busy, wait_while_busy. ref_run. Qed.

#[local] Hint Resolve refines_handle_command_token refines_handle_response_r2
  refines_handle_response_r3 refines_handle_response_r7
  refines_handle_data_cmd17 refines_handle_data_cmd24
  refines_handle_data_response refines_wait_while_busy : store.

(** [getattr(self, 'handle_%scmd%s' % ...)] finds the same method on
    both sides, or none. *)
Ltac ref_handler :=
  lazymatch goal with
  | |- refines ?h0 (match Heap.handler_method ?a ?c with _ => _ end) _ =>
      let Hm := fresh "Hm" in
      pose proof (refines_handler_method h0 a c) as Hm;
      destruct (Heap.handler_method a c), (handler_method a c);
      try contradiction
  | Hm : refines ?h0 ?mh ?mp |- refines ?h0 ?mh ?mp => exact Hm
  end.

Lemma refines_decode h0 cn an s e ph p :
  same_packet h0 ph p ->
  refines h0 (Heap.decode cn an s e ph) (decode cn an s e p).
Proof.
  intros Hp.
  destruct ph as [a b|a b|a b|], p as [a' b'|l m|a' b'|];
    simpl in Hp; try contradiction.
  - destruct Hp as [<- <-]. unfold Heap.decode, decode.
    repeat first [ref_handler | ref_step].
  - destruct Hp as [Ha Hb]. unfold Heap.decode, decode.
    apply refines_bind; [|intros _];
      (intros i h d H; cbv beta iota delta [Heap.modify modify];
       eexists; split; [reflexivity|];
       destruct H; constructor; cbn; assumption).
  - destruct Hp as [<- <-]. unfold Heap.decode, decode. ref_run.
  - unfold Heap.decode, decode. ref_run.
Qed.

Lemma refines_run h0 cn an hevs evs :
  Forall2 (same_event h0) hevs evs ->
  refines h0 (Heap.run cn an hevs) (run cn an evs).
Proof.
  induction 1 as [|[[s e] ph] [[s' e'] p] hevs evs (Hs & He & Hp) _ IH];
    simpl.
  - apply refines_ret.
  - simpl in Hs, He, Hp. subst s' e'.
    apply refines_bind; [apply refines_decode; exact Hp|intros _; exact IH].
Qed.

Lemma store_extends_length h0 h :
  store_extends h0 h -> (List.length h0 <= List.length h)%nat.
Proof.
  intros H. destruct (Nat.le_gt_cases (List.length h0) (List.length h))
    as [Hle|Hgt]; [exact Hle|].
  destruct (nth_error h0 (List.length h)) as [o|] eqn:E.
  - apply H in E. apply nth_error_length_neq in E. congruence.
  - apply nth_error_None in E. lia.
Qed.

(** [Decoder()] in a store that holds the lists of the packets: the new
    object holds what the new object of the methods above holds, in
    four new lists. *)
Lemma new_Decoder_represents h0 h :
  store_extends h0 h ->
  Heap.stuck (Heap.new_Decoder h) = false /\
  Heap.raised (Heap.new_Decoder h) = None /\
  represents h0 (Heap.final (Heap.new_Decoder h))
             (Heap.heap_of (Heap.new_Decoder h)) new_Decoder.
Proof.
  intros Hs. pose proof (store_extends_length _ _ Hs) as Hl.
  split; [reflexivity|]. split; [reflexivity|].
  constructor; cbn;
    [ .. | apply own4; repeat split | apply apart4; repeat split ];
    try reflexivity;
    try (repeat apply store_extends_app; exact Hs);
    try (repeat first [ apply nth_error_app_new
                      | apply nth_error_app_some ]);
    try (exists []; split; [|reflexivity];
         repeat first [ apply nth_error_app_new
                      | apply nth_error_app_some ]);
    try (apply nth_error_None; rewrite ?length_app; simpl; lia);
    try (rewrite ?length_app; simpl; lia).
Qed.

(** A session on a new object in a store that holds the lists of the
    packets puts out what the session of the methods above puts out. *)
Lemma session_refines cn an h0 h hevs evs :
  store_extends h0 h ->
  Forall2 (same_event h0) hevs evs ->
  Heap.annotations (Heap.first_session cn an hevs h) =
    annotations (run cn an evs new_Decoder) /\
  Heap.raised (Heap.first_session cn an hevs h) =
    raised (run cn an evs new_Decoder) /\
  Heap.stuck (Heap.first_session cn an hevs h) = false /\
  store_extends h0 (Heap.heap_of (Heap.first_session cn an hevs h)).
Proof.
  intros Hs Hev.
  destruct (new_Decoder_represents h0 h Hs) as (_ & _ & Hr).
  pose proof (refines_run h0 cn an hevs evs Hev _ _ _ Hr) as H.
  unfold Heap.first_session.
  destruct (Heap.run cn an hevs _ _) as [[] i' h'|x i' h'|i' h'].
  - destruct H as (d' & -> & H). unfold Heap.annotations, annotations.
    simpl. repeat split; [apply H|apply H].
  - destruct H as (d' & -> & H). unfold Heap.annotations, annotations.
    simpl. repeat split; [apply H|apply H].
  - contradiction.
Qed.

(** The packets that [store_events] puts into a store are those of the
    session. *)
Lemma store_events_prefix evs h :
  exists l, fst (store_events evs h) = h ++ l.
Proof.
  revert h. induction evs as [|[[s e] p] evs IH]; intros h; simpl.
  - exists []. rewrite app_nil_r. reflexivity.
  - destruct p as [a b|l m|a b|].
    + destruct (IH h) as (x & Hx).
      destruct (store_events evs h) as [h' r]. exists x. exact Hx.
    + destruct (IH (h ++ [Heap.BitList l; Heap.BitList m])) as (x & Hx).
      destruct (store_events evs _) as [h' r]. simpl in *.
      exists ([Heap.BitList l; Heap.BitList m] ++ x).
      rewrite Hx, <- app_assoc. reflexivity.
    + destruct (IH h) as (x & Hx).
      destruct (store_events evs h) as [h' r]. exists x. exact Hx.
    + destruct (IH h) as (x & Hx).
      destruct (store_events evs h) as [h' r]. exists x. exact Hx.
Qed.

Lemma store_events_same evs h :
  Forall2 (same_event (fst (store_events evs h)))
          (snd (store_events evs h)) evs.
Proof.
  revert h. induction evs as [|[[s e] p] evs IH]; intros h; simpl.
  - constructor.
  - destruct p as [a b|l m|a b|].
    + specialize (IH h). destruct (store_events evs h) as [h' r].
      constructor; [|exact IH]. repeat split.
    + specialize (IH (h ++ [Heap.BitList l; Heap.BitList m])).
      destruct (store_events_prefix evs
                  (h ++ [Heap.BitList l; Heap.BitList m])) as (x & Hx).
      destruct (store_events evs _) as [h' r]. simpl in *.
      constructor; [|exact IH].
      split; [reflexivity|]. split; [reflexivity|].
      cbn [snd same_packet]. rewrite Hx. split; apply nth_error_app_some.
      * rewrite nth_error_app2 by lia. rewrite Nat.sub_diag. reflexivity.
      * rewrite nth_error_app2 by lia.
        replace (S (List.length h) - List.length h)%nat with 1%nat by lia.
        reflexivity.
    + specialize (IH h). destruct (store_events evs h) as [h' r].
      constructor; [|exact IH]. repeat split.
    + specialize (IH h). destruct (store_events evs h) as [h' r].
      constructor; [|exact IH]. repeat split.
Qed.

(** C9: two new objects, one after the other in one store, each run
    over the same packets, put out the same annotations (ranges, classes
    and texts, in the same order) and raise the same exception, if any.
    The packets refer to their bits in the store [h0] the first object
    is created in, which may hold any other lists; the second object is
    created in the store the first session leaves, with the lists of
    the first object in it.  Both sessions put out what the session of
    the methods above puts out, no step is stuck, and what [h0] holds is
    left as it is. *)
Theorem fresh_instances_agree cn an h0 hevs evs :
  Forall2 (same_event h0) hevs evs ->
  let r1 := Heap.first_session cn an hevs h0 in
  let r2 := Heap.second_session cn an hevs h0 in
  Heap.annotations r1 = Heap.annotations r2 /\
  Heap.raised r1 = Heap.raised r2 /\
  Heap.stuck r1 = false /\ Heap.stuck r2 = false /\
  Heap.annotations r1 = annotations (run cn an evs new_Decoder) /\
  Heap.raised r1 = raised (run cn an evs new_Decoder) /\
  store_extends h0 (Heap.heap_of r2).
Proof.
  intros Hev r1 r2.
  destruct (session_refines cn an h0 h0 hevs evs (store_extends_refl h0) Hev)
    as (Ha1 & He1 & Hs1 & Hx1).
  destruct (session_refines cn an h0 (Heap.heap_of r1) hevs evs Hx1 Hev)
    as (Ha2 & He2 & Hs2 & Hx2).
  fold r1 in Ha1, He1, Hs1.
  change (Heap.first_session cn an hevs (Heap.heap_of r1)) with r2 in *.
  repeat split; try assumption; congruence.
Qed.

Lemma fresh_instances_agree_witness :
  let evs := go_idle [1] in
  let st := store_events evs [Heap.IntList [7]] in
  Forall2 (same_event (fst st)) (snd st) evs /\
  Heap.annotations
    (Heap.first_session sample_cmd_names sample_acmd_names (snd st) (fst st)) =
  Heap.annotations
    (Heap.second_session sample_cmd_names sample_acmd_names (snd st) (fst st)).
Proof.
  assert (H : Forall2
                (same_event (fst (store_events (go_idle [1])
                                    [Heap.IntList [7]])))
                (snd (store_events (go_idle [1]) [Heap.IntList [7]]))
                (go_idle [1]))
    by (vm_compute; repeat constructor).
  split; [exact H|].
  exact (proj1 (fresh_instances_agree sample_cmd_names sample_acmd_names
                  _ _ _ H)).
Defined.

(** What the two sessions of the witness put out, and the lists the
    first object leaves in the store: the second object does not refer
    to them. *)
Example fresh_instances_go_idle :
  let st := store_events (go_idle [1]) [] in
  let r1 :=
    Heap.first_session sample_cmd_names sample_acmd_names (snd st) (fst st) in
  let r2 :=
    Heap.second_session sample_cmd_names sample_acmd_names (snd st) (fst st) in
  Heap.annotations r2 = annotations (run_sample (go_idle [1])) /\
  In (mkAnn 56 64 Ann.R1 ["R1: 0x01"]) (Heap.annotations r2) /\
  List.length (fst st) = 16%nat /\
  Heap.read_buf (Heap.final r1) = 18%nat /\
  Heap.read_buf (Heap.final r2) = 24%nat.
Proof. vm_compute. repeat split. auto 30. Qed.

(** The store tells lists of its own from shared lists.  After three
    bytes of a command token the first object holds them in its
    [cmd_token].  The last three bytes of the token, given to a new
    object, are the first three of a token; given to an object that
    refers to the two token lists of the first object, as it would were
    they attributes of the class, they end a token of six bytes, and its
    fields are put out. *)
Example shared_lists_disagree :
  let st := store_events (spi_bytes 0 (host [64; 0; 0; 0; 0; 149])) [] in
  let r1 :=
    Heap.first_session sample_cmd_names sample_acmd_names
      (firstn 6 (snd st)) (fst st) in
  let o2 := Heap.final (Heap.new_Decoder (Heap.heap_of r1)) in
  let h2 := Heap.heap_of (Heap.new_Decoder (Heap.heap_of r1)) in
  let shared :=
    Heap.set_cmd_token_bits (Heap.cmd_token_bits (Heap.final r1))
      (Heap.set_cmd_token (Heap.cmd_token (Heap.final r1)) o2) in
  Heap.annotations
    (Heap.run sample_cmd_names sample_acmd_names (skipn 6 (snd st)) o2 h2)
    = [] /\
  In (mkAnn 2 8 Ann.BIT ["Command: CMD0 (GO_IDLE_STATE)"])
     (Heap.annotations
        (Heap.run sample_cmd_names sample_acmd_names (skipn 6 (snd st))
           shared h2)).
Proof. vm_compute. split; [reflexivity|]. auto 30. Qed.
